(** * Grid layout planner of [mpl_toolkits.axes_grid1.axes_grid]

    A shallow embedding of [lib/mpl_toolkits/axes_grid1/axes_grid.py]
    ([_tick_only], [Grid], [ImageGrid]) and the properties of its
    natural-language specification.

    Python objects with identity (the [Size.Fixed] padding objects and the
    host's axes objects) live in a store and are named by references;
    methods are state-passing functions that can raise. *)

From Stdlib Require Import ZArith QArith Lia.
From stdpp Require Import base list strings.

Local Open Scope Z_scope.

(** ** Exceptions and the state-and-exception monad *)

Inductive exn : Type :=
| Exception
| ValueError
| IndexError
| AttributeError
| ZeroDivisionError
| NameError
| KeyError.

Inductive result (A : Type) : Type :=
| Ok (a : A)
| Raise (e : exn).
Arguments Ok {A} a.
Arguments Raise {A} e.

Definition is_raise {A} (r : result A) : Prop :=
  match r with Ok _ => False | Raise _ => True end.

(** An object reference: the index of the object in its store. *)
Abbreviation ref := nat (only parsing).

(** ** Host objects

    [Size.*], [Divider], the axes classes and the figure belong to the host
    toolkit.  Their constructors are kept as terms, and of their state only
    what this module sets through their setters is recorded. *)

(** A size specification as accepted by [Size.from_any]: a number or a
    string such as ["5%"]. *)
Inductive SizeSpec : Type :=
| SpecNumber (x : Q)
| SpecString (s : string).

(** Size terms.  A [Size.Fixed] is mutable ([fixed_size] is assigned by
    [set_axes_pad]), so it is named by reference; the others are only ever
    constructed here.  [SizeFromAny spec ref] is the call
    [Size.from_any(spec, ref)] kept as a term: which size it returns, and
    that it raises for a spec it cannot read, is no part of this model
    (see [from_any_takes]). *)
Inductive Size : Type :=
| SizeFixed (p : ref)
| SizeScaled (w : Z)
| SizeAxesX (ax : option ref) (aspect : option string) (ref_ax : option (option ref))
| SizeAxesY (ax : option ref) (aspect : option string) (ref_ax : option (option ref))
| SizeFraction (n : Z) (reference : Size)
| SizeFromAny (spec : SizeSpec) (fraction_ref : Size).

Definition is_digit (c : Ascii.ascii) : bool :=
  (48 <=? Ascii.nat_of_ascii c)%nat && (Ascii.nat_of_ascii c <=? 57)%nat.

(** Decimal digits, at least one, followed by ["%"] and nothing else. *)
Fixpoint percent_string (seen_digit : bool) (s : string) : bool :=
  match s with
  | EmptyString => false
  | String c rest =>
      if String.eqb s "%" then seen_digit
      else is_digit c && percent_string true rest
  end.

(** Modelled from the spec: [Size.from_any] belongs to [axes_size.py],
    which is not in the sources here; the spec has it as the parser of
    literal and percentage size specs.  These are specs it takes: a number,
    which it turns into a [Fixed] size of that number, and a string of
    decimal digits followed by ["%"], which it turns into that percentage
    of the reference size.  A string that does not end in ["%"] it refuses,
    so a run of this model that builds a [SizeFromAny] term is a run of the
    program only for a spec that [from_any] takes. *)
Definition from_any_takes (spec : SizeSpec) : bool :=
  match spec with
  | SpecNumber _ => true
  | SpecString s => percent_string false s
  end.

(** [Divider.new_locator(nx, ny, nx1=None, ny1=None)]. *)
Record Locator : Type := new_locator {
  nx : Z;
  ny : Z;
  nx1 : option Z;
  ny1 : option Z;
}.

(** The [rect] argument of the constructors. *)
Inductive RectArg : Type :=
| RectStr (s : string)
| RectNumber (n : Z)
| RectSubplotSpec
| RectSeq (r : list Q).

Inductive DividerKind : Type :=
| SubplotDivider (rect : RectArg)
| PlainDivider (pos : list Q).

Record Divider : Type := mkDivider {
  div_kind : DividerKind;
  div_horizontal : list Size;
  div_vertical : list Size;
  div_aspect : bool;
}.

Definition set_horizontal (h : list Size) (d : Divider) : Divider :=
  mkDivider (div_kind d) h (div_vertical d) (div_aspect d).

Definition set_vertical (v : list Size) (d : Divider) : Divider :=
  mkDivider (div_kind d) (div_horizontal d) v (div_aspect d).

(** One of [ax.axis["bottom"]], [ax.axis["left"]]: what the last
    [toggle(ticklabels=..., label=...)] set; [None] while never toggled. *)
Record AxisArtist : Type := mkAxisArtist {
  ticklabels : option bool;
  label : option bool;
}.

Record AxesObj : Type := mkAxes {
  orientation : option string;        (* [CbarAxes] only *)
  sharex : option ref;
  sharey : option ref;
  axes_locator : option Locator;
  visible : option bool;
  position : option (list Q);
  axis_bottom : AxisArtist;
  axis_left : AxisArtist;
  cax : option ref;
}.

Definition fresh_axes (o : option string) (sx sy : option ref) : AxesObj :=
  mkAxes o sx sy None None None (mkAxisArtist None None) (mkAxisArtist None None) None.

Definition with_locator (l : Locator) (a : AxesObj) : AxesObj :=
  mkAxes (orientation a) (sharex a) (sharey a) (Some l) (visible a)
         (position a) (axis_bottom a) (axis_left a) (cax a).

Definition with_visible (b : bool) (a : AxesObj) : AxesObj :=
  mkAxes (orientation a) (sharex a) (sharey a) (axes_locator a) (Some b)
         (position a) (axis_bottom a) (axis_left a) (cax a).

Definition with_position (p : list Q) (a : AxesObj) : AxesObj :=
  mkAxes (orientation a) (sharex a) (sharey a) (axes_locator a) (visible a)
         (Some p) (axis_bottom a) (axis_left a) (cax a).

Definition with_bottom (b : bool) (a : AxesObj) : AxesObj :=
  mkAxes (orientation a) (sharex a) (sharey a) (axes_locator a) (visible a)
         (position a) (mkAxisArtist (Some b) (Some b)) (axis_left a) (cax a).

Definition with_left (b : bool) (a : AxesObj) : AxesObj :=
  mkAxes (orientation a) (sharex a) (sharey a) (axes_locator a) (visible a)
         (position a) (axis_bottom a) (mkAxisArtist (Some b) (Some b)) (cax a).

Definition with_cax (c : ref) (a : AxesObj) : AxesObj :=
  mkAxes (orientation a) (sharex a) (sharey a) (axes_locator a) (visible a)
         (position a) (axis_bottom a) (axis_left a) (Some c).

(** ** The store *)

Record World : Type := mkWorld {
  fixed_objs : list Q;          (* [Size.Fixed] objects: their [fixed_size] *)
  axes_objs : list AxesObj;     (* axes objects, in creation order *)
  fig_axes : list (option ref); (* what was passed to [fig.add_axes] *)
}.

Definition M (A : Type) : Type := World -> result A * World.

Definition ret {A} (a : A) : M A := fun w => (Ok a, w).

Definition raise {A} (e : exn) : M A := fun w => (Raise e, w).

Definition bind {A B} (m : M A) (k : A -> M B) : M B :=
  fun w => match m w with
           | (Ok a, w') => k a w'
           | (Raise e, w') => (Raise e, w')
           end.

Definition lift {A} (r : result A) : M A := fun w => (r, w).

Notation "'let*' x ':=' m 'in' k" := (bind m (fun x => k))
  (at level 10, x pattern, m at level 100, k at level 200,
   format "'[v' 'let*'  x  ':='  m  'in' '/' k ']'").

Notation "m ';;' k" := (bind m (fun _ => k))
  (at level 100, k at level 200, right associativity).

(** [for x in l: body(x)]. *)
Fixpoint mfor {A} (l : list A) (body : A -> M unit) : M unit :=
  match l with
  | [] => ret tt
  | x :: l' => body x ;; mfor l' body
  end.

(** ** Python built-ins used by the module *)

(** [range(n)] and [range(a, b)]. *)
Definition range (n : Z) : list Z := seqZ 0 n.
Definition range2 (a b : Z) : list Z := seqZ a (b - a).

(** [l[i]] on a list: a negative index counts from the end, an index out of
    range raises [IndexError]. *)
Definition py_index {A} (l : list A) (i : Z) : result A :=
  let n := Z.of_nat (length l) in
  let j := if i <? 0 then i + n else i in
  if (j <? 0) || (n <=? j) then Raise IndexError
  else match l !! Z.to_nat j with
       | Some x => Ok x
       | None => Raise IndexError
       end.

(** [divmod(a, b)]: floor division, [ZeroDivisionError] on [b = 0]. *)
Definition divmod (a b : Z) : result (Z * Z) :=
  if b =? 0 then Raise ZeroDivisionError else Ok (a / b, a mod b).

(** [x in (s1, s2, ...)] on strings. *)
Definition str_in (x : string) (l : list string) : bool :=
  existsb (String.eqb x) l.

(** [mode == "name"] where [mode] may be [None]. *)
Definition opt_str_eq (m : option string) (s : string) : bool :=
  match m with Some x => String.eqb x s | None => false end.

(** ** Store primitives *)

(** [Size.Fixed(v)]: a new object. *)
Definition new_fixed (v : Q) : M ref :=
  fun w => (Ok (length (fixed_objs w)),
            mkWorld (fixed_objs w ++ [v]) (axes_objs w) (fig_axes w)).

(** [p.fixed_size]. *)
Definition get_fixed_size (p : ref) : M Q :=
  fun w => match fixed_objs w !! p with
           | Some v => (Ok v, w)
           | None => (Raise AttributeError, w)
           end.

(** [p.fixed_size = v]. *)
Definition set_fixed_size (p : ref) (v : Q) : M unit :=
  fun w => match fixed_objs w !! p with
           | Some _ => (Ok tt, mkWorld (<[p := v]> (fixed_objs w)) (axes_objs w) (fig_axes w))
           | None => (Raise AttributeError, w)
           end.

(** A setter of the axes object [ax]; calling it on [None] is Python's
    [AttributeError]. *)
Definition modify_axes (ax : option ref) (f : AxesObj -> AxesObj) : M unit :=
  fun w => match ax with
           | None => (Raise AttributeError, w)
           | Some r =>
               match axes_objs w !! r with
               | Some a => (Ok tt, mkWorld (fixed_objs w) (<[r := f a]> (axes_objs w)) (fig_axes w))
               | None => (Raise AttributeError, w)
               end
           end.

Definition set_axes_locator (ax : option ref) (l : Locator) : M unit :=
  modify_axes ax (with_locator l).

Definition set_visible (ax : option ref) (b : bool) : M unit :=
  modify_axes ax (with_visible b).

Definition set_position (ax : option ref) (p : list Q) : M unit :=
  modify_axes ax (with_position p).

(** The host's constructors and [Figure.add_axes] are not part of the
    module; a [Host] says which of their calls raise.  What the constructor
    of a colorbar axes does with its orientation is the same on every host:
    that is [axes_cla] below. *)
Record Host : Type := mkHost {
  divider_init : RectArg -> option exn;
  axes_init : option string -> option ref -> option ref -> option exn;
  add_axes_check : option ref -> option exn;
}.

(** The host of a plain run: no host call raises. *)
Definition plain_host : Host :=
  mkHost (fun _ => None) (fun _ _ _ => None) (fun _ => None).

(** Modelled from the spec: the host's [ax.axis] dictionary of axis
    artists is not in the sources here.  Its keys are the four sides, the
    same four the spec lists as the colorbar locations; indexing it with
    any other string is Python's [KeyError]. *)
Definition axis_keys : list string := ["left"; "right"; "bottom"; "top"]%string.

(** [ax.axis[side].toggle(all=b)] on the object itself: of the four
    artists only the bottom and the left one are recorded. *)
Definition toggle_all (side : string) (b : bool) (a : AxesObj) : AxesObj :=
  if String.eqb side "bottom" then with_bottom b a
  else if String.eqb side "left" then with_left b a
  else a.

(** [CbarAxesBase._config_axes] (lines 62-68) on an axes with the given
    [orientation] and [_default_label_on]: every artist is switched off,
    then the one at [self.orientation] gets [b]; [set_navigate] is not
    recorded. *)
Definition _config_axes (orientation : string) (_default_label_on : bool)
    (ax : AxesObj) : result AxesObj :=
  let ax := with_left false (with_bottom false ax) in
  let b := _default_label_on in
  if str_in orientation axis_keys then Ok (toggle_all orientation b ax)
  else Raise KeyError.

(** Modelled from the spec: the host's [Axes.__init__] is not in the
    sources here.  It clears the axes it builds with [self.cla()]; for a
    [CbarAxes], whose [__init__] (lines 77-81) has stored the orientation
    and [_default_label_on = True] before, that is [CbarAxes.cla] (lines
    83-85) and so [_config_axes].  This is where a colorbar location that
    names no side is refused, as the spec says it is at construction. *)
Definition axes_cla (o : option string) (a : AxesObj) : result AxesObj :=
  match o with
  | Some orientation => _config_axes orientation true a
  | None => Ok a
  end.

(** [axes_class(fig, rect, sharex=..., sharey=...)], and with an
    orientation [CbarAxes(fig, rect, orientation=...)]: the new object is
    in the store once its constructor has returned. *)
Definition new_axes (host : Host) (o : option string) (sx sy : option ref) : M ref :=
  fun w => match axes_init host o sx sy with
           | Some e => (Raise e, w)
           | None =>
               match axes_cla o (fresh_axes o sx sy) with
               | Raise e => (Raise e, w)
               | Ok a => (Ok (length (axes_objs w)),
                          mkWorld (fixed_objs w) (axes_objs w ++ [a]) (fig_axes w))
               end
           end.

(** [fig.add_axes(ax)]. *)
Definition add_axes (host : Host) (ax : option ref) : M unit :=
  fun w => match add_axes_check host ax with
           | Some e => (Raise e, w)
           | None => (Ok tt, mkWorld (fixed_objs w) (axes_objs w) (fig_axes w ++ [ax]))
           end.

(** ** [numpy] object arrays of shape [(rows, cols)], stored row-major *)

Record ndarray : Type := mkArray {
  arr_rows : Z;
  arr_cols : Z;
  arr_data : list (option ref);
}.

(** [np.full((rows, cols), None, dtype=object)]. *)
Definition np_full (rows cols : Z) : result ndarray :=
  if (rows <? 0) || (cols <? 0) then Raise ValueError
  else Ok (mkArray rows cols (replicate (Z.to_nat (rows * cols)) None)).

(** An index along an axis of length [n]. *)
Definition np_axis (n i : Z) : result Z :=
  let j := if i <? 0 then i + n else i in
  if (j <? 0) || (n <=? j) then Raise IndexError else Ok j.

Definition np_offset (a : ndarray) (r c : Z) : result nat :=
  match np_axis (arr_rows a) r, np_axis (arr_cols a) c with
  | Ok r', Ok c' => Ok (Z.to_nat (r' * arr_cols a + c'))
  | Raise e, _ => Raise e
  | _, Raise e => Raise e
  end.

(** [a[r, c]]. *)
Definition np_get (a : ndarray) (r c : Z) : result (option ref) :=
  match np_offset a r c with
  | Ok k => match arr_data a !! k with Some x => Ok x | None => Raise IndexError end
  | Raise e => Raise e
  end.

(** [a[r, c] = x]. *)
Definition np_set (a : ndarray) (r c : Z) (x : option ref) : result ndarray :=
  match np_offset a r c with
  | Ok k => Ok (mkArray (arr_rows a) (arr_cols a) (<[k := x]> (arr_data a)))
  | Raise e => Raise e
  end.

Definition arr_at (a : ndarray) (r c : Z) : option ref :=
  default None (arr_data a !! Z.to_nat (r * arr_cols a + c)).

(** [a.ravel().tolist()], [a.tolist()] and [a.T.tolist()]. *)
Definition ravel_tolist (a : ndarray) : list (option ref) := arr_data a.

Definition tolist (a : ndarray) : list (list (option ref)) :=
  (fun r => (fun c => arr_at a r c) <$> range (arr_cols a)) <$> range (arr_rows a).

Definition T_tolist (a : ndarray) : list (list (option ref)) :=
  (fun c => (fun r => arr_at a r c) <$> range (arr_rows a)) <$> range (arr_cols a).

(** [np.broadcast_to(axes_pad, 2)] on a number or a sequence of numbers. *)
Inductive PadArg : Type :=
| PadScalar (x : Q)
| PadSeq (l : list Q).

Definition broadcast_to_2 (p : PadArg) : result (Q * Q) :=
  match p with
  | PadScalar x => Ok (x, x)
  | PadSeq [x] => Ok (x, x)
  | PadSeq [x; y] => Ok (x, y)
  | PadSeq _ => Raise ValueError
  end.

(** Modelled from the spec: [cbook._check_in_list] is imported from the
    host library; an invalid [direction] is a configuration error raised at
    construction, so the call raises unless the value is in the list. *)
Definition _check_in_list (values : list string) (v : string) : M unit :=
  if str_in v values then ret tt else raise ValueError.

(** ** [_tick_only] *)

Definition toggle_bottom (ax : option ref) (b : bool) : M unit :=
  modify_axes ax (with_bottom b).

Definition toggle_left (ax : option ref) (b : bool) : M unit :=
  modify_axes ax (with_left b).

Definition _tick_only (ax : option ref) (bottom_on left_on : bool) : M unit :=
  let bottom_off := negb bottom_on in
  let left_off := negb left_on in
  toggle_bottom ax bottom_off ;;
  toggle_left ax left_off.

(** [SubplotDivider(fig, rect, **kw)], [SubplotDivider(fig, *rect, **kw)] or
    [Divider(fig, rect, **kw)] with [kw = dict(horizontal=[], vertical=[],
    aspect=aspect)], chosen by the type and length of [rect]. *)
Definition make_divider (host : Host) (rect : RectArg) (aspect : bool) : M Divider :=
  let build (k : DividerKind) : M Divider :=
    match divider_init host rect with
    | Some e => raise e
    | None => ret (mkDivider k [] [] aspect)
    end in
  match rect with
  | RectSeq r =>
      if (length r =? 3)%nat then build (SubplotDivider rect)
      else if (length r =? 4)%nat then build (PlainDivider r)
      else raise Exception
  | _ => build (SubplotDivider rect)
  end.

(** ** [class Grid] *)

Module Grid.

Record t : Type := mk {
  _nrows : Z;
  _ncols : Z;
  ngrids : Z;
  _horiz_pad_size : ref;
  _vert_pad_size : ref;
  _direction : string;
  _divider : Divider;
  axes_all : list (option ref);
  axes_column : list (list (option ref));
  axes_row : list (list (option ref));
  axes_llc : option ref;
}.

Definition with_divider (d : Divider) (self : t) : t :=
  mk (_nrows self) (_ncols self) (ngrids self) (_horiz_pad_size self)
     (_vert_pad_size self) (_direction self) d (axes_all self)
     (axes_column self) (axes_row self) (axes_llc self).

Definition with_axes (a : ndarray) (llc : option ref) (self : t) : t :=
  mk (_nrows self) (_ncols self) (ngrids self) (_horiz_pad_size self)
     (_vert_pad_size self) (_direction self) (_divider self)
     (ravel_tolist a) (T_tolist a) (tolist a) llc.

Definition _init_axes_pad (axes_pad : PadArg) : M (ref * ref) :=
  let* axes_pad := lift (broadcast_to_2 axes_pad) in
  let* hp := new_fixed (fst axes_pad) in
  let* vp := new_fixed (snd axes_pad) in
  ret (hp, vp).

Definition _get_col_row (self : t) (n : Z) : result (Z * Z) :=
  if String.eqb (_direction self) "column" then
    match divmod n (_nrows self) with
    | Ok (col, row) => Ok (col, row)
    | Raise e => Raise e
    end
  else
    match divmod n (_ncols self) with
    | Ok (row, col) => Ok (col, row)
    | Raise e => Raise e
    end.

(** One round of the loops that build [h], [h_ax_pos] and [v], [v_ax_pos]. *)
Definition cell_step (pad : ref) (acc : list Size * list Z) : list Size * list Z :=
  let '(h, h_ax_pos) := acc in
  let h := match h with [] => h | _ => h ++ [SizeFixed pad] end in
  let h_ax_pos := h_ax_pos ++ [Z.of_nat (length h)] in
  let sz := SizeScaled 1 in
  (h ++ [sz], h_ax_pos).

Definition cells (pad : ref) (n : Z) : list Size * list Z :=
  fold_left (fun acc _ => cell_step pad acc) (range n) ([], []).

(** The body of the loop over [range(self.ngrids)]. *)
Definition locate (self : t) (h_ax_pos v_ax_pos : list Z) (i : Z) : M unit :=
  let* (col, row) := lift (_get_col_row self i) in
  let* x := lift (py_index h_ax_pos col) in
  let* y := lift (py_index v_ax_pos (_nrows self - 1 - row)) in
  let locator := new_locator x y None None in
  let* ax := lift (py_index (axes_all self) i) in
  set_axes_locator ax locator.

Definition _update_locators (self : t) : M t :=
  let '(h, h_ax_pos) := cells (_horiz_pad_size self) (_ncols self) in
  let '(v, v_ax_pos) := cells (_vert_pad_size self) (_nrows self) in
  mfor (range (ngrids self)) (locate self h_ax_pos v_ax_pos) ;;
  ret (with_divider (set_vertical v (set_horizontal h (_divider self))) self).

Definition __len__ (self : t) : Z := Z.of_nat (length (axes_all self)).

Definition __getitem__ (self : t) (i : Z) : result (option ref) :=
  py_index (axes_all self) i.

Definition get_geometry (self : t) : Z * Z := (_nrows self, _ncols self).

Definition set_axes_pad (self : t) (axes_pad : list Q) : M unit :=
  let* h := lift (py_index axes_pad 0) in
  set_fixed_size (_horiz_pad_size self) h ;;
  let* v := lift (py_index axes_pad 1) in
  set_fixed_size (_vert_pad_size self) v.

Definition get_axes_pad (self : t) : M (Q * Q) :=
  let* h := get_fixed_size (_horiz_pad_size self) in
  let* v := get_fixed_size (_vert_pad_size self) in
  ret (h, v).

(** [l[:-1]] and [l[-1]] on a column. *)
Definition but_last {A} (l : list A) : list A := take (length l - 1)%nat l.

Definition set_label_mode (self : t) (mode : string) : M unit :=
  if String.eqb mode "all" then
    mfor (axes_all self) (fun ax => _tick_only ax false false)
  else if String.eqb mode "L" then
    (* left-most axes *)
    let* col0 := lift (py_index (axes_column self) 0) in
    mfor (but_last col0) (fun ax => _tick_only ax true false) ;;
    (* lower-left axes *)
    let* ax := lift (py_index col0 (-1)) in
    _tick_only ax false false ;;
    mfor (drop 1 (axes_column self)) (fun col =>
      (* axes with no labels *)
      mfor (but_last col) (fun ax => _tick_only ax true true) ;;
      (* bottom *)
      let* ax := lift (py_index col (-1)) in
      _tick_only ax false true)
  else if String.eqb mode "1" then
    mfor (axes_all self) (fun ax => _tick_only ax true true) ;;
    let ax := axes_llc self in
    _tick_only ax false false
  else ret tt.

(** The loop that fills [axes_array]. *)
Definition fill_slot (host : Host) (self : t) (share_all share_x share_y : bool)
    (axes_array : ndarray) (i : Z) : M ndarray :=
  let* (col, row) := lift (_get_col_row self i) in
  let* (sx, sy) :=
    (if share_all then
       let* s := lift (np_get axes_array 0 0) in ret (s, s)
     else
       let* sx := (if share_x then lift (np_get axes_array 0 col) else ret None) in
       let* sy := (if share_y then lift (np_get axes_array row 0) else ret None) in
       ret (sx, sy)) in
  let* ax := new_axes host None sx sy in
  lift (np_set axes_array row col (Some ax)).

Fixpoint fill_slots (host : Host) (self : t) (share_all share_x share_y : bool)
    (axes_array : ndarray) (l : list Z) : M ndarray :=
  match l with
  | [] => ret axes_array
  | i :: l' =>
      let* axes_array := fill_slot host self share_all share_x share_y axes_array i in
      fill_slots host self share_all share_x share_y axes_array l'
  end.

Definition __init__ (host : Host) (rect : RectArg) (nrows_ncols : Z * Z)
    (ngrids : option Z) (direction : string) (axes_pad : PadArg)
    (add_all share_all share_x share_y : bool) (label_mode : string) : M t :=
  let '(nrows, ncols) := nrows_ncols in
  let* ngrids :=
    match ngrids with
    | None => ret (nrows * ncols)
    | Some ngrids =>
        if negb ((0 <? ngrids) && (ngrids <=? nrows * ncols))
        then raise Exception else ret ngrids
    end in
  let* (hp, vp) := _init_axes_pad axes_pad in
  _check_in_list ["column"; "row"]%string direction ;;
  let* divider := make_divider host rect false in
  let self := mk nrows ncols ngrids hp vp direction divider [] [] [] None in
  let* axes_array := lift (np_full nrows ncols) in
  let* axes_array :=
    fill_slots host self share_all share_x share_y axes_array (range ngrids) in
  let* col0 := lift (py_index (T_tolist axes_array) 0) in
  let* llc := lift (py_index col0 (-1)) in
  let self := with_axes axes_array llc self in
  let* self := _update_locators self in
  (if add_all then mfor (axes_all self) (add_axes host) else ret tt) ;;
  set_label_mode self label_mode ;;
  ret self.

End Grid.

(** ** [class ImageGrid(Grid)] *)

Module ImageGrid.

Record t : Type := mk {
  base : Grid.t;                       (* the attributes of [Grid] *)
  _colorbar_mode : option string;
  _colorbar_location : string;
  _colorbar_pad : SizeSpec;
  _colorbar_size : SizeSpec;
  cbar_axes : list ref;
}.

Definition with_base (g : Grid.t) (self : t) : t :=
  mk g (_colorbar_mode self) (_colorbar_location self) (_colorbar_pad self)
     (_colorbar_size self) (cbar_axes self).

Definition with_cbar_axes (l : list ref) (self : t) : t :=
  mk (base self) (_colorbar_mode self) (_colorbar_location self)
     (_colorbar_pad self) (_colorbar_size self) l.

Definition cbar_at (self : t) (i : Z) : M (option ref) :=
  let* c := lift (py_index (cbar_axes self) i) in ret (Some c).

(** [for i in range(self.ngrids): self.cbar_axes[i].set_visible(False)],
    then the locator and visibility of [self.cbar_axes[0]]. *)
Definition show_single (self : t) (locator : Locator) : M unit :=
  mfor (range (Grid.ngrids (base self))) (fun i =>
    let* c := cbar_at self i in set_visible c false) ;;
  let* c := cbar_at self 0 in
  set_axes_locator c locator ;;
  let* c := cbar_at self 0 in
  set_visible c true.

(** The block before the loops: a single colorbar on the left or at the
    bottom.  Returns the initial [h] and [v]. *)
Definition single_before (self : t) : M (list Size * list Size) :=
  let g := base self in
  if opt_str_eq (_colorbar_mode self) "single"
     && str_in (_colorbar_location self) ["left"; "bottom"]%string then
    if String.eqb (_colorbar_location self) "left" then
      let sz := SizeFraction (Grid._nrows g) (SizeAxesX (Grid.axes_llc g) None None) in
      let h := [SizeFromAny (_colorbar_size self) sz; SizeFromAny (_colorbar_pad self) sz] in
      show_single self (new_locator 0 0 None (Some (-1))) ;;
      ret (h, [])
    else
      let sz := SizeFraction (Grid._ncols g) (SizeAxesY (Grid.axes_llc g) None None) in
      let v := [SizeFromAny (_colorbar_size self) sz; SizeFromAny (_colorbar_pad self) sz] in
      show_single self (new_locator 0 0 (Some (-1)) None) ;;
      ret ([], v)
  else ret ([], []).

(** Does the cell at position [k] along an axis of [n] cells get a
    colorbar cell on the side [side]: [each], or [edge] at [k = edge]. *)
Definition cbar_here (self : t) (side : string) (k edge : Z) : bool :=
  (opt_str_eq (_colorbar_mode self) "each"
   || (opt_str_eq (_colorbar_mode self) "edge" && (k =? edge)))
  && String.eqb (_colorbar_location self) side.

(** One round of [for col, ax in enumerate(self.axes_row[0])]. *)
Definition h_step (self : t) (col : Z) (ax : option ref)
    (acc : list Size * list Z * list Z) : result (list Size * list Z * list Z) :=
  let g := base self in
  let '(h, h_ax_pos, h_cb_pos) := acc in
  let h := match h with [] => h | _ => h ++ [SizeFixed (Grid._horiz_pad_size g)] end in
  match py_index (Grid.axes_all g) 0 with
  | Raise e => Raise e
  | Ok ax0 =>
      let sz := match ax with
                | Some _ => SizeAxesX ax (Some "axes"%string) (Some ax0)
                | None => SizeAxesX ax0 (Some "axes"%string) (Some ax0)
                end in
      let '(h, h_cb_pos) :=
        if cbar_here self "left" col 0 then
          (h ++ [SizeFromAny (_colorbar_size self) sz; SizeFromAny (_colorbar_pad self) sz],
           h_cb_pos ++ [Z.of_nat (length h)])
        else (h, h_cb_pos) in
      let h_ax_pos := h_ax_pos ++ [Z.of_nat (length h)] in
      let h := h ++ [sz] in
      Ok (if cbar_here self "right" col (Grid._ncols g - 1) then
            let h := h ++ [SizeFromAny (_colorbar_pad self) sz] in
            (h ++ [SizeFromAny (_colorbar_size self) sz], h_ax_pos,
             h_cb_pos ++ [Z.of_nat (length h)])
          else (h, h_ax_pos, h_cb_pos))
  end.

Fixpoint h_loop (self : t) (col : Z) (l : list (option ref))
    (acc : list Size * list Z * list Z) : result (list Size * list Z * list Z) :=
  match l with
  | [] => Ok acc
  | ax :: l' =>
      match h_step self col ax acc with
      | Ok acc' => h_loop self (col + 1) l' acc'
      | Raise e => Raise e
      end
  end.

(** One round of [for row, ax in enumerate(self.axes_column[0][::-1])]. *)
Definition v_step (self : t) (row : Z) (ax : option ref)
    (acc : list Size * list Z * list Z) : result (list Size * list Z * list Z) :=
  let g := base self in
  let '(v, v_ax_pos, v_cb_pos) := acc in
  let v := match v with [] => v | _ => v ++ [SizeFixed (Grid._vert_pad_size g)] end in
  match py_index (Grid.axes_all g) 0 with
  | Raise e => Raise e
  | Ok ax0 =>
      let sz := match ax with
                | Some _ => SizeAxesY ax (Some "axes"%string) (Some ax0)
                | None => SizeAxesY ax0 (Some "axes"%string) (Some ax0)
                end in
      let '(v, v_cb_pos) :=
        if cbar_here self "bottom" row 0 then
          (v ++ [SizeFromAny (_colorbar_size self) sz; SizeFromAny (_colorbar_pad self) sz],
           v_cb_pos ++ [Z.of_nat (length v)])
        else (v, v_cb_pos) in
      let v_ax_pos := v_ax_pos ++ [Z.of_nat (length v)] in
      let v := v ++ [sz] in
      Ok (if cbar_here self "top" row (Grid._nrows g - 1) then
            let v := v ++ [SizeFromAny (_colorbar_pad self) sz] in
            (v ++ [SizeFromAny (_colorbar_size self) sz], v_ax_pos,
             v_cb_pos ++ [Z.of_nat (length v)])
          else (v, v_ax_pos, v_cb_pos))
  end.

Fixpoint v_loop (self : t) (row : Z) (l : list (option ref))
    (acc : list Size * list Z * list Z) : result (list Size * list Z * list Z) :=
  match l with
  | [] => Ok acc
  | ax :: l' =>
      match v_step self row ax acc with
      | Ok acc' => v_loop self (row + 1) l' acc'
      | Raise e => Raise e
      end
  end.

(** The second half of the body of the loop over [range(self.ngrids)]:
    the locator of a colorbar axes. [locator] is the one just given to
    [self.axes_all[i]]. *)
Definition locate_cbar (self : t) (h_ax_pos h_cb_pos v_ax_pos v_cb_pos : list Z)
    (i col row : Z) (locator : Locator) : M unit :=
  let g := base self in
  let loc := _colorbar_location self in
  if opt_str_eq (_colorbar_mode self) "each" then
    let* locator :=
      (if str_in loc ["right"; "left"]%string then
         let* x := lift (py_index h_cb_pos col) in
         let* y := lift (py_index v_ax_pos (Grid._nrows g - 1 - row)) in
         ret (new_locator x y None None)
       else if str_in loc ["top"; "bottom"]%string then
         let* x := lift (py_index h_ax_pos col) in
         let* y := lift (py_index v_cb_pos (Grid._nrows g - 1 - row)) in
         ret (new_locator x y None None)
       else ret locator) in
    let* c := cbar_at self i in
    set_axes_locator c locator
  else if opt_str_eq (_colorbar_mode self) "edge" then
    if (String.eqb loc "left" && (col =? 0))
       || (String.eqb loc "right" && (col =? Grid._ncols g - 1)) then
      let* x := lift (py_index h_cb_pos 0) in
      let* y := lift (py_index v_ax_pos (Grid._nrows g - 1 - row)) in
      let* c := cbar_at self row in
      set_axes_locator c (new_locator x y None None)
    else if (String.eqb loc "bottom" && (row =? Grid._nrows g - 1))
            || (String.eqb loc "top" && (row =? 0)) then
      let* x := lift (py_index h_ax_pos col) in
      let* y := lift (py_index v_cb_pos 0) in
      let* c := cbar_at self col in
      set_axes_locator c (new_locator x y None None)
    else ret tt
  else ret tt.

(** The body of the loop over [range(self.ngrids)]. *)
Definition locate (self : t) (h_ax_pos h_cb_pos v_ax_pos v_cb_pos : list Z)
    (i : Z) : M unit :=
  let g := base self in
  let* (col, row) := lift (Grid._get_col_row g i) in
  let* x := lift (py_index h_ax_pos col) in
  let* y := lift (py_index v_ax_pos (Grid._nrows g - 1 - row)) in
  let locator := new_locator x y None None in
  let* ax := lift (py_index (Grid.axes_all g) i) in
  set_axes_locator ax locator ;;
  locate_cbar self h_ax_pos h_cb_pos v_ax_pos v_cb_pos i col row locator.

(** The block after the loops; returns the final [h] and [v]. *)
Definition after_loops (self : t) (h v : list Size) : M (list Size * list Size) :=
  let g := base self in
  let loc := _colorbar_location self in
  if opt_str_eq (_colorbar_mode self) "single" then
    if String.eqb loc "right" then
      let sz := SizeFraction (Grid._nrows g) (SizeAxesX (Grid.axes_llc g) None None) in
      let h := h ++ [SizeFromAny (_colorbar_pad self) sz] in
      let h := h ++ [SizeFromAny (_colorbar_size self) sz] in
      show_single self (new_locator (-2) 0 None (Some (-1))) ;;
      ret (h, v)
    else if String.eqb loc "top" then
      let sz := SizeFraction (Grid._ncols g) (SizeAxesY (Grid.axes_llc g) None None) in
      let v := v ++ [SizeFromAny (_colorbar_pad self) sz] in
      let v := v ++ [SizeFromAny (_colorbar_size self) sz] in
      show_single self (new_locator 0 (-2) (Some (-1)) None) ;;
      ret (h, v)
    else ret (h, v)
  else if opt_str_eq (_colorbar_mode self) "each" then
    mfor (range (Grid.ngrids g)) (fun i =>
      let* c := cbar_at self i in set_visible c true) ;;
    ret (h, v)
  else if opt_str_eq (_colorbar_mode self) "edge" then
    let count := if str_in loc ["right"; "left"]%string
                 then Grid._nrows g else Grid._ncols g in
    mfor (range count) (fun i =>
      let* c := cbar_at self i in set_visible c true) ;;
    (* [i] is what the last loop that ran left in it *)
    let* i := (if 0 <? count then ret (count - 1)
               else if 0 <? Grid.ngrids g then ret (Grid.ngrids g - 1)
               else raise NameError) in
    mfor (range2 (i + 1) (Grid.ngrids g)) (fun j =>
      let* c := cbar_at self j in set_visible c false) ;;
    ret (h, v)
  else
    mfor (range (Grid.ngrids g)) (fun i =>
      let* c := cbar_at self i in
      set_visible c false ;;
      let* c := cbar_at self i in
      set_position c [1; 1; 1 # 1000; 1 # 1000]%Q) ;;
    ret (h, v).

Definition _update_locators (self : t) : M t :=
  let g := base self in
  let* (h, v) := single_before self in
  let* row0 := lift (py_index (Grid.axes_row g) 0) in
  let* (h, h_ax_pos, h_cb_pos) := lift (h_loop self 0 row0 (h, [], [])) in
  let* col0 := lift (py_index (Grid.axes_column g) 0) in
  let* (v, v_ax_pos, v_cb_pos) := lift (v_loop self 0 (rev col0) (v, [], [])) in
  mfor (range (Grid.ngrids g)) (locate self h_ax_pos h_cb_pos v_ax_pos v_cb_pos) ;;
  let* (h, v) := after_loops self h v in
  ret (with_base
         (Grid.with_divider (set_vertical v (set_horizontal h (Grid._divider g))) g)
         self).

(** [self.cbar_axes = [CbarAxes(fig, rect, orientation=...) for _ in
    range(self.ngrids)]]. *)
Fixpoint new_cbar_axes (host : Host) (o : string) (l : list Z) : M (list ref) :=
  match l with
  | [] => ret []
  | _ :: l' =>
      let* c := new_axes host (Some o) None None in
      let* cs := new_cbar_axes host o l' in
      ret (c :: cs)
  end.

Definition set_cax (ax : option ref) (c : ref) : M unit :=
  modify_axes ax (with_cax c).

(** The [if cbar_set_cax:] block. *)
Definition bind_cax (self : t) : M unit :=
  let g := base self in
  if opt_str_eq (_colorbar_mode self) "single" then
    mfor (Grid.axes_all g) (fun ax =>
      let* c := lift (py_index (cbar_axes self) 0) in set_cax ax c)
  else if opt_str_eq (_colorbar_mode self) "edge" then
    mfor (zip (range (Z.of_nat (length (Grid.axes_all g)))) (Grid.axes_all g))
      (fun '(index, ax) =>
         let* (col, row) := lift (Grid._get_col_row g index) in
         if str_in (_colorbar_location self) ["left"; "right"]%string then
           let* c := lift (py_index (cbar_axes self) row) in set_cax ax c
         else
           let* c := lift (py_index (cbar_axes self) col) in set_cax ax c)
  else
    mfor (zip (Grid.axes_all g) (cbar_axes self)) (fun '(ax, c) => set_cax ax c).

Definition __init__ (host : Host) (rect : RectArg) (nrows_ncols : Z * Z)
    (ngrids : option Z) (direction : string) (axes_pad : PadArg)
    (add_all share_all aspect : bool) (label_mode : string)
    (cbar_mode : option string) (cbar_location : string)
    (cbar_pad : option SizeSpec) (cbar_size : SizeSpec) (cbar_set_cax : bool)
    : M t :=
  let '(nrows, ncols) := nrows_ncols in
  let* ngrids :=
    match ngrids with
    | None => ret (nrows * ncols)
    | Some ngrids =>
        if negb ((0 <? ngrids) && (ngrids <=? nrows * ncols))
        then raise Exception else ret ngrids
    end in
  let* (hp, vp) := Grid._init_axes_pad axes_pad in
  let* colorbar_pad :=
    match cbar_pad with
    | None =>
        (* horizontal or vertical arrangement? *)
        if str_in cbar_location ["left"; "right"]%string then
          let* x := get_fixed_size hp in ret (SpecNumber x)
        else
          let* x := get_fixed_size vp in ret (SpecNumber x)
    | Some cbar_pad => ret cbar_pad
    end in
  _check_in_list ["column"; "row"]%string direction ;;
  let* divider := make_divider host rect aspect in
  let g := Grid.mk nrows ncols ngrids hp vp direction divider [] [] [] None in
  let* axes_array := lift (np_full nrows ncols) in
  let* axes_array :=
    Grid.fill_slots host g share_all true true axes_array (range ngrids) in
  let* col0 := lift (py_index (T_tolist axes_array) 0) in
  let* llc := lift (py_index col0 (-1)) in
  let g := Grid.with_axes axes_array llc g in
  let* cbars := new_cbar_axes host cbar_location (range ngrids) in
  let self := mk g cbar_mode cbar_location colorbar_pad cbar_size cbars in
  let* self := _update_locators self in
  (if add_all then
     mfor (Grid.axes_all (base self) ++ (Some <$> cbar_axes self)) (add_axes host)
   else ret tt) ;;
  (if cbar_set_cax then bind_cax self else ret tt) ;;
  Grid.set_label_mode (base self) label_mode ;;
  ret self.

End ImageGrid.

(** * Vocabulary of the statements *)

(** A grid of two rows and three columns with five slots, as
    [_get_col_row] reads it. *)
Definition grid_2x3 (direction : string) : Grid.t :=
  Grid.mk 2 3 5 0%nat 1%nat direction (mkDivider (PlainDivider []) [] [] false)
          [] [] [] None.

(** What a run cannot touch: the axes objects and the figure. *)
Definition same_layout (w w' : World) : Prop :=
  axes_objs w' = axes_objs w /\ fig_axes w' = fig_axes w.

(** A colorbar axes as its constructor leaves it: the artists switched
    off, except the one on the side of its orientation. *)
Definition cbar_obj (o : string) : AxesObj :=
  toggle_all o true (with_left false (with_bottom false (fresh_axes (Some o) None None))).

(** The configurations that the constructors refuse: [ngrids] given and
    outside [(0, nrows*ncols]], a [direction] other than "row" and "column",
    a [rect] sequence of a length other than 3 and 4. *)
Definition refused_config (nrows_ncols : Z * Z) (ngrids : option Z)
    (direction : string) (rect : RectArg) : Prop :=
  (exists n, ngrids = Some n /\ ~ (0 < n <= fst nrows_ncols * snd nrows_ncols))
  \/ (direction <> "row"%string /\ direction <> "column"%string)
  \/ (exists l, rect = RectSeq l /\ length l <> 3%nat /\ length l <> 4%nat).

Definition empty_world : World := mkWorld [] [] [].

(** [h] interleaves the cells [cs] with [pad]: one entry per cell and one
    [pad] between consecutive cells, none leading or trailing; so
    [2 * length cs - 1] entries, the cells at the even positions and [pad]
    at the odd ones. *)
Definition interleaved (pad : Size) (cs h : list Size) : Prop :=
  length h = (2 * length cs - 1)%nat
  /\ (forall k c, cs !! k = Some c -> h !! (2 * k)%nat = Some c)
  /\ (forall k, (S k < length cs)%nat -> h !! (2 * k + 1)%nat = Some pad).

(** The positions of the cells in such a sequence: [0, 2, 4, ...]. *)
Definition even_positions (n : nat) : list Z :=
  (fun k => Z.of_nat (2 * k)) <$> seq 0 n.

(** A round of an interleaving loop that appends the cell [c]. *)
Definition interleave_step (pad c : Size) (acc : list Size * list Z)
    : list Size * list Z :=
  let '(h, pos) := acc in
  let h := match h with [] => h | _ => h ++ [pad] end in
  (h ++ [c], pos ++ [Z.of_nat (length h)]).

(** The grid as the constructor has it when it calls [_update_locators]. *)
Definition Grid_before_locators (nrows ncols n : Z) (hp vp : ref)
    (direction : string) (divider : Divider) (axes_array : ndarray)
    (llc : option ref) : Grid.t :=
  Grid.with_axes axes_array llc
    (Grid.mk nrows ncols n hp vp direction divider [] [] [] None).

(** Every run of [m] leaves the observation [f] of the store unchanged,
    whether it returns or raises. *)
Definition keeps {A B} (f : World -> B) (m : M A) : Prop :=
  forall w r w', m w = (r, w') -> f w' = f w.

(** The observations used below. *)
Definition the_object (r : ref) (w : World) : option AxesObj := axes_objs w !! r.

Definition seen_through {B} (proj : AxesObj -> B) (w : World) : list B :=
  proj <$> axes_objs w.

(** The position in [axes_all] of the cell that slot index [i] fills. *)
Definition slot_offset (self : Grid.t) (i : Z) : nat :=
  match Grid._get_col_row self i with
  | Ok (col, row) => Z.to_nat (row * Grid._ncols self + col)
  | Raise _ => 0%nat
  end.

(** No axes object sits in two cells. *)
Definition no_sharing (l : list (option ref)) : Prop :=
  forall k k' r, l !! k = Some (Some r) -> l !! k' = Some (Some r) -> k = k'.

(** What the constructors have built when they call [_update_locators]:
    a grid [g] whose lists are views of the array [arr], in the store [w]. *)
Record axes_built (g : Grid.t) (arr : ndarray) (w : World) : Prop := {
  built_rows : 0 < Grid._nrows g;
  built_cols : 0 < Grid._ncols g;
  built_ngrids : 0 < Grid.ngrids g <= Grid._nrows g * Grid._ncols g;
  built_arr_rows : arr_rows arr = Grid._nrows g;
  built_arr_cols : arr_cols arr = Grid._ncols g;
  built_all : Grid.axes_all g = arr_data arr;
  built_row : Grid.axes_row g = tolist arr;
  built_column : Grid.axes_column g = T_tolist arr;
  built_length :
    length (Grid.axes_all g) = Z.to_nat (Grid._nrows g * Grid._ncols g);
  built_valid :
    forall k r, Grid.axes_all g !! k = Some (Some r) -> (r < length (axes_objs w))%nat;
  built_no_sharing : no_sharing (Grid.axes_all g);
  built_filled :
    forall k r, Grid.axes_all g !! k = Some (Some r) ->
                exists i, 0 <= i < Grid.ngrids g /\ slot_offset g i = k;
}.

(** [cbar_mode] is none of the modes that insert colorbar cells. *)
Definition no_colorbar_mode (m : option string) : Prop :=
  m <> Some "each"%string /\ m <> Some "edge"%string /\ m <> Some "single"%string.

(** The cells of an [ImageGrid]: [Size.AxesX(ax, aspect="axes",
    ref_ax=axes_all[0])] with [axes_all[0]] standing in for an empty slot. *)
Definition axes_cell_x (ax0 ax : option ref) : Size :=
  SizeAxesX (match ax with Some _ => ax | None => ax0 end)
            (Some "axes"%string) (Some ax0).

Definition axes_cell_y (ax0 ax : option ref) : Size :=
  SizeAxesY (match ax with Some _ => ax | None => ax0 end)
            (Some "axes"%string) (Some ax0).

(** The length a [Size.Fixed] term of a sequence currently stands for. *)
Definition fixed_size_of (w : World) (s : Size) : option Q :=
  match s with
  | SizeFixed p => fixed_objs w !! p
  | _ => None
  end.

(** Is the term a [Size.from_any] term?  The colorbar cells and their
    padding are; the axes cells and the padding between them are not. *)
Definition is_from_any (s : Size) : bool :=
  match s with SizeFromAny _ _ => true | _ => false end.

Definition no_from_any (s : Size) : bool := negb (is_from_any s).

(** [pad] before every cell. *)
Definition padded (pad : Size) (cells : list Size) : list Size :=
  flat_map (fun c => [pad; c]) cells.

(** A colorbar cell of reference size [sz] and its padding, in the order
    of the sequence: the cell first when the colorbars are on the [near]
    side (left, bottom), the padding first on the other side. *)
Definition cbar_pair (loc near : string) (size pad : SizeSpec) (sz : Size) : list Size :=
  if String.eqb loc near then [SizeFromAny size sz; SizeFromAny pad sz]
  else [SizeFromAny pad sz; SizeFromAny size sz].

(** The reference sizes of the colorbar cells along the axis whose sides
    are [near] and [far], in the order of the sequence: none when the
    colorbars are on no side of this axis; else for "single" the fraction
    [frac], for "each" every cell, for "edge" the cell at that edge. *)
Definition cbar_refs (mode : option string) (loc near far : string)
    (frac : Size) (cells : list Size) : list Size :=
  if String.eqb loc near || String.eqb loc far then
    if opt_str_eq mode "single" then [frac]
    else if opt_str_eq mode "each" then cells
    else if opt_str_eq mode "edge" then
      if String.eqb loc near then take 1 cells else drop (length cells - 1) cells
    else []
  else [].

(** Modelled from the spec: the size classes are not in the sources here.
    The length a term stands for, where that is a plain number: a fixed
    length stands for the [fixed_size] its object holds in the store, and
    [Size.from_any] parses a number into a fixed length of its own, which
    holds that number. *)
Definition length_of (w : World) (s : Size) : option Q :=
  match s with
  | SizeFixed p => fixed_objs w !! p
  | SizeFromAny (SpecNumber x) _ => Some x
  | _ => None
  end.

(** The elements of [l] at the positions, counted from [k], where [here]
    holds. *)
Fixpoint pick {A} (here : Z -> bool) (k : Z) (l : list A) : list A :=
  match l with
  | [] => []
  | x :: l' => (if here k then [x] else []) ++ pick here (k + 1) l'
  end.

(** What the locator loop of [Grid] leaves in the store for slot [i]. *)
Definition grid_located (g : Grid.t) (h_ax_pos v_ax_pos : list Z) (i : Z)
    (w : World) : Prop :=
  exists col row x y ax o,
    Grid._get_col_row g i = Ok (col, row)
    /\ py_index h_ax_pos col = Ok x
    /\ py_index v_ax_pos (Grid._nrows g - 1 - row) = Ok y
    /\ py_index (Grid.axes_all g) i = Ok (Some ax)
    /\ the_object ax w = Some o
    /\ axes_locator o = Some (new_locator x y None None).

(** The positions [ps] are those of the cells [cs] in the sequence [h]. *)
Definition cells_at (ps : list Z) (cs h : list Size) : Prop :=
  length ps = length cs
  /\ forall k c, cs !! k = Some c ->
                 exists x, ps !! k = Some (Z.of_nat x) /\ h !! x = Some c.

(** What the locator loop of [ImageGrid] leaves in the store for the
    colorbar axes of slot [i] when [cbar_mode="each"]. *)
Definition cbar_locator_of (g : ImageGrid.t) (hp hc vp vc : list Z) (col row : Z)
    (l lc : Locator) : Prop :=
  if str_in (ImageGrid._colorbar_location g) ["right"; "left"]%string then
    exists kx ky,
      py_index hc col = Ok kx
      /\ py_index vp (Grid._nrows (ImageGrid.base g) - 1 - row) = Ok ky
      /\ lc = new_locator kx ky None None
  else if str_in (ImageGrid._colorbar_location g) ["top"; "bottom"]%string then
    exists kx ky,
      py_index hp col = Ok kx
      /\ py_index vc (Grid._nrows (ImageGrid.base g) - 1 - row) = Ok ky
      /\ lc = new_locator kx ky None None
  else lc = l.

Definition cbar_located (g : ImageGrid.t) (hp hc vp vc : list Z) (i : Z)
    (w : World) : Prop :=
  exists col row x y c o lc,
    Grid._get_col_row (ImageGrid.base g) i = Ok (col, row)
    /\ py_index hp col = Ok x
    /\ py_index vp (Grid._nrows (ImageGrid.base g) - 1 - row) = Ok y
    /\ py_index (ImageGrid.cbar_axes g) i = Ok c
    /\ the_object c w = Some o
    /\ axes_locator o = Some lc
    /\ cbar_locator_of g hp hc vp vc col row (new_locator x y None None) lc.

(** The colorbar axes of a slot under [cbar_mode="each"]: beside the axes
    of the slot (left or right: same vertical cell, the colorbar cell of
    its column), or above or below it (same horizontal cell, the colorbar
    cell of its row). *)
Definition cbar_beside (g : ImageGrid.t) (ax0 cx cy : option ref) (lx ly : Z)
    (lc : Locator) : Prop :=
  let h := div_horizontal (Grid._divider (ImageGrid.base g)) in
  let v := div_vertical (Grid._divider (ImageGrid.base g)) in
  let size := ImageGrid._colorbar_size g in
  if str_in (ImageGrid._colorbar_location g) ["right"; "left"]%string then
    exists kx, lc = new_locator kx ly None None
               /\ py_index h kx = Ok (SizeFromAny size (axes_cell_x ax0 cx))
  else if str_in (ImageGrid._colorbar_location g) ["top"; "bottom"]%string then
    exists ky, lc = new_locator lx ky None None
               /\ py_index v ky = Ok (SizeFromAny size (axes_cell_y ax0 cy))
  else lc = new_locator lx ly None None.

(** The tick labels of an axes, bottom then left, as last set through
    [toggle], and the cell of the divider its locator draws it in. *)
Definition tick_labels (w : World) (ax : option ref) : option (option bool * option bool) :=
  match ax with
  | Some a =>
      match axes_objs w !! a with
      | Some o => Some (ticklabels (axis_bottom o), ticklabels (axis_left o))
      | None => None
      end
  | None => None
  end.

Definition drawn_at (w : World) (ax : option ref) : option (Z * Z) :=
  match ax with
  | Some a =>
      match axes_objs w !! a with
      | Some o =>
          match axes_locator o with
          | Some l => Some (nx l, ny l)
          | None => None
          end
      | None => None
      end
  | None => None
  end.

(** A 2x2 grid built with the given direction and label mode, then
    [set_label_mode(mode)]. *)
Definition labelled_2x2 (direction mode0 mode : string) : M Grid.t :=
  let* g := Grid.__init__ plain_host (RectSeq [0; 0; 1; 1]%Q) (2, 2) None direction
              (PadScalar (1 # 50)) true false true true mode0 in
  Grid.set_label_mode g mode ;;
  ret g.

(** The colorbar axes that a round of the locator loop places under
    [cbar_mode="edge"]: [cbar_axes[row]] for a slot of the edge column
    (colorbars left or right), [cbar_axes[col]] for a slot of the edge row
    (colorbars bottom or top), none otherwise. *)
Definition edge_col (g : ImageGrid.t) (col : Z) : bool :=
  (String.eqb (ImageGrid._colorbar_location g) "left" && (col =? 0))
  || (String.eqb (ImageGrid._colorbar_location g) "right"
      && (col =? Grid._ncols (ImageGrid.base g) - 1)).

Definition edge_row (g : ImageGrid.t) (row : Z) : bool :=
  (String.eqb (ImageGrid._colorbar_location g) "bottom"
   && (row =? Grid._nrows (ImageGrid.base g) - 1))
  || (String.eqb (ImageGrid._colorbar_location g) "top" && (row =? 0)).

Definition edge_slot (g : ImageGrid.t) (col row : Z) : option Z :=
  if edge_col g col then Some row
  else if edge_row g row then Some col
  else None.

(** Its locator: the first colorbar cell in one direction, the cell of the
    slot's axes in the other. *)
Definition edge_locator_of (g : ImageGrid.t) (hc vc : list Z) (col : Z) (x y : Z)
    (lc : Locator) : Prop :=
  if edge_col g col
  then exists kx, py_index hc 0 = Ok kx /\ lc = new_locator kx y None None
  else exists ky, py_index vc 0 = Ok ky /\ lc = new_locator x ky None None.

Definition cbar_edge_located (g : ImageGrid.t) (hp hc vp vc : list Z) (i : Z)
    (w : World) : Prop :=
  exists col row x y,
    Grid._get_col_row (ImageGrid.base g) i = Ok (col, row)
    /\ py_index hp col = Ok x
    /\ py_index vp (Grid._nrows (ImageGrid.base g) - 1 - row) = Ok y
    /\ forall k, edge_slot g col row = Some k ->
         exists c o lc,
           py_index (ImageGrid.cbar_axes g) k = Ok c
           /\ the_object c w = Some o
           /\ axes_locator o = Some lc
           /\ edge_locator_of g hc vc col x y lc.

(** The colorbar axes of an edge slot shares the vertical cell of the
    slot's axes (edge column) or its horizontal cell (edge row). *)
Definition cbar_along (g : ImageGrid.t) (col lx ly : Z) (lc : Locator) : Prop :=
  if edge_col g col
  then exists kx, lc = new_locator kx ly None None
  else exists ky, lc = new_locator lx ky None None.

(** ** Vocabulary of the further properties *)

(** The slot index whose cell is [(row, col)]: the inverse of
    [_get_col_row]. *)
Definition slot_index (self : Grid.t) (row col : Z) : Z :=
  if String.eqb (Grid._direction self) "column"
  then col * Grid._nrows self + row
  else row * Grid._ncols self + col.

(** What the loop over [range(self.ngrids)] passes as [sharex] and
    [sharey] to the axes of slot [i] at [(col, row)], [n0] axes objects
    having been created before the loop: the loop creates the axes of slot
    [j] as object [n0 + j]. *)
Definition shared_x (self : Grid.t) (share_all share_x : bool) (n0 : nat)
    (i col row : Z) : option ref :=
  if share_all then (if i =? 0 then None else Some n0)
  else if share_x
       then (if row =? 0 then None
             else Some (n0 + Z.to_nat (slot_index self 0 col))%nat)
       else None.

Definition shared_y (self : Grid.t) (share_all share_y : bool) (n0 : nat)
    (i col row : Z) : option ref :=
  if share_all then (if i =? 0 then None else Some n0)
  else if share_y
       then (if col =? 0 then None
             else Some (n0 + Z.to_nat (slot_index self row 0))%nat)
       else None.

Definition slot_axes (self : Grid.t) (share_all share_x share_y : bool) (n0 : nat)
    (i : Z) : AxesObj :=
  match Grid._get_col_row self i with
  | Ok (col, row) =>
      fresh_axes None (shared_x self share_all share_x n0 i col row)
        (shared_y self share_all share_y n0 i col row)
  | Raise _ => fresh_axes None None None
  end.

(** The array and the store when the loop over [range(self.ngrids)] has
    run for the slots below [i]: the axes of slot [j] is object
    [length objs0 + j], it sits in the cell of [j], and the other cells
    still hold [None]. *)
Definition filled_upto (self : Grid.t) (share_all share_x share_y : bool)
    (objs0 : list AxesObj) (i : Z) (a : ndarray) (w : World) : Prop :=
  arr_rows a = Grid._nrows self /\ arr_cols a = Grid._ncols self
  /\ length (arr_data a) = Z.to_nat (Grid._nrows self * Grid._ncols self)
  /\ (forall j, 0 <= j < i ->
        arr_data a !! slot_offset self j = Some (Some (length objs0 + Z.to_nat j)%nat))
  /\ (forall j, i <= j < Grid._nrows self * Grid._ncols self ->
        arr_data a !! slot_offset self j = Some None)
  /\ axes_objs w
     = objs0 ++ (slot_axes self share_all share_x share_y (length objs0) <$> seqZ 0 i).

(** A view of an axes object that no setter of this module changes. *)
Definition setter_blind {B} (proj : AxesObj -> B) : Prop :=
  forall a,
    (forall l, proj (with_locator l a) = proj a)
    /\ (forall b, proj (with_visible b a) = proj a)
    /\ (forall p, proj (with_position p a) = proj a)
    /\ (forall b, proj (with_bottom b a) = proj a)
    /\ (forall b, proj (with_left b a) = proj a)
    /\ (forall c, proj (with_cax c a) = proj a).

(** The grid as [Grid.__init__] has it when it starts to create axes, in a
    store [w] taken before the call. *)
Definition Grid_seed (nrows ncols : Z) (ngrids : option Z) (w : World)
    (direction : string) (d : Divider) : Grid.t :=
  Grid.mk nrows ncols (default (nrows * ncols) ngrids) (length (fixed_objs w))
    (S (length (fixed_objs w))) direction d [] [] [] None.

(** A labelling script: the calls [_tick_only(ax, bottom_on, left_on)] of a
    run of [set_label_mode], in order. *)
Definition tick_action (a : option ref * bool * bool) : M unit :=
  let '(ax, bottom_on, left_on) := a in _tick_only ax bottom_on left_on.

(** The calls for one column: [bottom_on=True] but for its last axes. *)
Definition col_script (left_on : bool) (col : list (option ref))
    : list (option ref * bool * bool) :=
  ((fun ax => (ax, true, left_on)) <$> Grid.but_last col)
  ++ match last col with
     | Some ax => [(ax, false, left_on)]
     | None => []
     end.

(** The calls of [set_label_mode("L")]: [left_on=False] in the first
    column only. *)
Definition script_L (cols : list (list (option ref))) : list (option ref * bool * bool) :=
  match cols with
  | [] => []
  | col0 :: rest => col_script false col0 ++ concat (col_script true <$> rest)
  end.

(** The tick labels that [set_label_mode(mode)] leaves on the axes of row
    [r] and column [c] of the array, bottom then left. *)
Definition labels_of_mode (mode : string) (nrows r c : Z) : option bool * option bool :=
  if String.eqb mode "all" then (Some true, Some true)
  else if String.eqb mode "L" then (Some (r =? nrows - 1), Some (c =? 0))
  else (Some ((r =? nrows - 1) && (c =? 0)), Some ((r =? nrows - 1) && (c =? 0))).

(** A host none of whose calls raises, and a [rect] that the constructors
    accept. *)
Definition quiet_host (host : Host) : Prop :=
  (forall r, divider_init host r = None)
  /\ (forall o sx sy, axes_init host o sx sy = None)
  /\ (forall ax, add_axes_check host ax = None).

Definition rect_ok (rect : RectArg) : Prop :=
  match rect with
  | RectSeq l => length l = 3%nat \/ length l = 4%nat
  | _ => True
  end.

(** What [ImageGrid._update_locators] leaves in [visible] of
    [cbar_axes[k]]; [None] where it never calls [set_visible]. *)
Definition cbar_shown (cbar_mode : option string) (cbar_location : string)
    (nrows ncols k : Z) : option bool :=
  if opt_str_eq cbar_mode "single" then
    if str_in cbar_location ["left"; "bottom"; "right"; "top"]%string
    then Some (k =? 0) else None
  else if opt_str_eq cbar_mode "each" then Some true
  else if opt_str_eq cbar_mode "edge" then
    Some (k <? (if str_in cbar_location ["right"; "left"]%string
                then nrows else ncols))
  else Some false.

(** And in [position]: only the colorbar axes of a grid without colorbars
    are moved. *)
Definition cbar_parked (cbar_mode : option string) : option (list Q) :=
  if opt_str_eq cbar_mode "single" || opt_str_eq cbar_mode "each"
     || opt_str_eq cbar_mode "edge"
  then None else Some [1; 1; 1 # 1000; 1 # 1000]%Q.

Definition cbar_display (a : AxesObj) : option bool * option (list Q) :=
  (visible a, position a).

(** Every colorbar axes of [g] shows [vis k] and [pos] in the store [w]. *)
Definition cbars_display (g : ImageGrid.t) (w : World) (vis : Z -> option bool)
    (pos : option (list Q)) : Prop :=
  forall k, 0 <= k < Grid.ngrids (ImageGrid.base g) ->
    exists c o, py_index (ImageGrid.cbar_axes g) k = Ok c
                /\ the_object c w = Some o
                /\ visible o = vis k /\ position o = pos.

(** The colorbar axes that the [if cbar_set_cax:] block binds to
    [axes_all[k]]. *)
Definition cax_of (self : ImageGrid.t) (k : Z) : result ref :=
  if opt_str_eq (ImageGrid._colorbar_mode self) "single" then
    py_index (ImageGrid.cbar_axes self) 0
  else if opt_str_eq (ImageGrid._colorbar_mode self) "edge" then
    match Grid._get_col_row (ImageGrid.base self) k with
    | Ok (col, row) =>
        py_index (ImageGrid.cbar_axes self)
          (if str_in (ImageGrid._colorbar_location self) ["left"; "right"]%string
           then row else col)
    | Raise e => Raise e
    end
  else py_index (ImageGrid.cbar_axes self) k.

(** The store holds [L] axes objects. *)
Definition holds (L : nat) (w : World) : Prop := length (axes_objs w) = L.

(** * Properties *)

(** ** The slot-index mapping *)

Section GetColRow.

Variable g : Grid.t.
Hypothesis rows_pos : 0 < Grid._nrows g.
Hypothesis cols_pos : 0 < Grid._ncols g.

Lemma get_col_row_column (n : Z) :
  Grid._direction g = "column"%string ->
  Grid._get_col_row g n = Ok (n / Grid._nrows g, n mod Grid._nrows g).
Proof.
  intros Hd. unfold Grid._get_col_row, divmod. rewrite Hd. simpl.
  destruct (Z.eqb_spec (Grid._nrows g) 0); [lia | reflexivity].
Qed.

Lemma get_col_row_row (n : Z) :
  Grid._direction g <> "column"%string ->
  Grid._get_col_row g n = Ok (n mod Grid._ncols g, n / Grid._ncols g).
Proof.
  intros Hd. unfold Grid._get_col_row, divmod.
  destruct (String.eqb_spec (Grid._direction g) "column"); [contradiction |].
  destruct (Z.eqb_spec (Grid._ncols g) 0); [lia | reflexivity].
Qed.

Lemma get_col_row_total (n : Z) :
  exists col row, Grid._get_col_row g n = Ok (col, row).
Proof.
  destruct (String.eqb_spec (Grid._direction g) "column") as [Hd | Hd].
  - eexists _, _. apply get_col_row_column, Hd.
  - eexists _, _. apply get_col_row_row, Hd.
Qed.

Lemma get_col_row_in_grid (n col row : Z) :
  0 <= n < Grid._nrows g * Grid._ncols g ->
  Grid._get_col_row g n = Ok (col, row) ->
  0 <= row < Grid._nrows g /\ 0 <= col < Grid._ncols g.
Proof.
  intros Hn H.
  destruct (String.eqb_spec (Grid._direction g) "column") as [Hd | Hd].
  - rewrite (get_col_row_column _ Hd) in H. injection H as <- <-.
    split; [apply Z.mod_pos_bound; lia |].
    split; [apply Z.div_pos; lia | apply Z.div_lt_upper_bound; lia].
  - rewrite (get_col_row_row _ Hd) in H. injection H as <- <-.
    split; [| apply Z.mod_pos_bound; lia].
    split; [apply Z.div_pos; lia | apply Z.div_lt_upper_bound; lia].
Qed.

Lemma get_col_row_inj (i j : Z) :
  Grid._get_col_row g i = Grid._get_col_row g j -> i = j.
Proof.
  intros H.
  destruct (String.eqb_spec (Grid._direction g) "column") as [Hd | Hd].
  - rewrite !(get_col_row_column _ Hd) in H. injection H as Hq Hr.
    rewrite (Z.div_mod i (Grid._nrows g)), (Z.div_mod j (Grid._nrows g)) by lia.
    congruence.
  - rewrite !(get_col_row_row _ Hd) in H. injection H as Hr Hq.
    rewrite (Z.div_mod i (Grid._ncols g)), (Z.div_mod j (Grid._ncols g)) by lia.
    congruence.
Qed.

End GetColRow.

Lemma get_col_row_transposed (g g' : Grid.t) (i r c : Z) :
  Grid._direction g = "row"%string ->
  Grid._direction g' = "column"%string ->
  Grid._nrows g' = Grid._ncols g ->
  Grid._get_col_row g i = Ok (c, r) <-> Grid._get_col_row g' i = Ok (r, c).
Proof.
  intros Hd Hd' Hn. unfold Grid._get_col_row. rewrite Hd, Hd', Hn. simpl.
  destruct (divmod i (Grid._ncols g)) as [[q m] |]; [| split; discriminate].
  split; intros H; injection H as <- <-; reflexivity.
Qed.

(** C1: under a valid configuration [_get_col_row] sends the indices
    [0 .. ngrids-1] to pairwise distinct cells of the grid, so exactly
    [ngrids] distinct cells are covered; and index [i] is at [(r, c)] under
    direction "row" with shape [(nrows, ncols)] iff it is at [(c, r)] under
    direction "column" with shape [(ncols, nrows)]. *)
Theorem C1_slot_mapping_injective_and_transposed (g : Grid.t) :
  0 < Grid._nrows g -> 0 < Grid._ncols g ->
  0 < Grid.ngrids g <= Grid._nrows g * Grid._ncols g ->
  (forall i, 0 <= i < Grid.ngrids g ->
     exists col row, Grid._get_col_row g i = Ok (col, row)
                     /\ 0 <= row < Grid._nrows g /\ 0 <= col < Grid._ncols g)
  /\ (forall i j, 0 <= i < Grid.ngrids g -> 0 <= j < Grid.ngrids g ->
        Grid._get_col_row g i = Grid._get_col_row g j -> i = j)
  /\ NoDup (Grid._get_col_row g <$> range (Grid.ngrids g))
  /\ Z.of_nat (length (Grid._get_col_row g <$> range (Grid.ngrids g))) = Grid.ngrids g
  /\ (forall g' i r c,
        Grid._direction g = "row"%string ->
        Grid._direction g' = "column"%string ->
        Grid._nrows g' = Grid._ncols g -> Grid._ncols g' = Grid._nrows g ->
        Grid._get_col_row g i = Ok (c, r) <-> Grid._get_col_row g' i = Ok (r, c)).
Proof.
  intros Hr Hc Hn. split; [| split; [| split; [| split]]].
  - intros i Hi. destruct (get_col_row_total g Hr Hc i) as (col & row & E).
    exists col, row. split; [exact E |].
    apply (get_col_row_in_grid g Hr Hc i); [lia | exact E].
  - intros i j _ _. apply get_col_row_inj; assumption.
  - apply NoDup_fmap_2_strong; [| apply NoDup_seqZ].
    intros i j _ _. apply get_col_row_inj; assumption.
  - rewrite length_fmap. unfold range. rewrite length_seqZ. lia.
  - intros g' i r c Hd Hd' Hn' _. apply get_col_row_transposed; assumption.
Qed.

Lemma C1_slot_mapping_witness :
  Grid._get_col_row (grid_2x3 "row") 4 = Ok (1, 1)
  /\ Grid._get_col_row (grid_2x3 "row") 2 <> Grid._get_col_row (grid_2x3 "row") 4.
Proof.
  assert (H2 : 0 < Grid._nrows (grid_2x3 "row")) by (simpl; lia).
  assert (H3 : 0 < Grid._ncols (grid_2x3 "row")) by (simpl; lia).
  assert (H5 : 0 < Grid.ngrids (grid_2x3 "row")
               <= Grid._nrows (grid_2x3 "row") * Grid._ncols (grid_2x3 "row"))
    by (simpl; lia).
  destruct (C1_slot_mapping_injective_and_transposed (grid_2x3 "row") H2 H3 H5)
    as (_ & Hinj & _).
  split; [reflexivity |].
  intros E. apply Hinj in E; [discriminate | simpl; lia | simpl; lia].
Defined.

(** ** Reasoning about runs *)

Lemma bind_ok {A B} (m : M A) (k : A -> M B) (w w' : World) (b : B) :
  bind m k w = (Ok b, w') ->
  exists a w1, m w = (Ok a, w1) /\ k a w1 = (Ok b, w').
Proof.
  unfold bind. destruct (m w) as [[a | e] w1]; [eauto | discriminate].
Qed.

Lemma bind_raise_l {A B} (m : M A) (k : A -> M B) (w w' : World) (e : exn) :
  m w = (Raise e, w') -> bind m k w = (Raise e, w').
Proof. unfold bind. intros ->. reflexivity. Qed.

Lemma bind_ok_l {A B} (m : M A) (k : A -> M B) (w w1 : World) (a : A) :
  m w = (Ok a, w1) -> bind m k w = k a w1.
Proof. unfold bind. intros ->. reflexivity. Qed.

Lemma lift_ok {A} (r : result A) (w w' : World) (a : A) :
  lift r w = (Ok a, w') -> r = Ok a /\ w' = w.
Proof. unfold lift. intros H. injection H as -> ->. auto. Qed.

Lemma ret_ok {A} (x a : A) (w w' : World) :
  ret x w = (Ok a, w') -> a = x /\ w' = w.
Proof. unfold ret. intros H. injection H as -> ->. auto. Qed.

(** Split a successful run of [let* x := m in k] into its two runs. *)
Ltac run_bind H :=
  let a := fresh "a" in
  let w := fresh "w" in
  let H1 := fresh H in
  apply bind_ok in H; destruct H as (a & w & H1 & H).

Ltac run_lift H :=
  let E := fresh "E" in
  apply lift_ok in H; destruct H as [E ->].

Ltac run_ret H :=
  let E := fresh "E" in
  apply ret_ok in H; destruct H as [E ->].

Ltac run_lifts :=
  repeat match goal with
         | X : lift _ _ = (Ok _, _) |- _ => run_lift X
         end.

Lemma same_layout_refl (w : World) : same_layout w w.
Proof. split; reflexivity. Qed.

Lemma same_layout_trans (w1 w2 w3 : World) :
  same_layout w1 w2 -> same_layout w2 w3 -> same_layout w1 w3.
Proof. intros [? ?] [? ?]. split; congruence. Qed.

Lemma init_axes_pad_layout (p : PadArg) (w w' : World) (r : result (ref * ref)) :
  Grid._init_axes_pad p w = (r, w') -> same_layout w w'.
Proof.
  unfold Grid._init_axes_pad, bind, lift, new_fixed, ret.
  destruct (broadcast_to_2 p) as [[x y] | e]; intros H; injection H as <- <-;
    split; reflexivity.
Qed.

Lemma get_fixed_size_world (p : ref) (w w' : World) (r : result Q) :
  get_fixed_size p w = (r, w') -> w' = w.
Proof.
  unfold get_fixed_size. destruct (fixed_objs w !! p); intros H; injection H as <- <-;
    reflexivity.
Qed.

Lemma check_in_list_raises (values : list string) (v : string) (w : World) :
  str_in v values = false -> _check_in_list values v w = (Raise ValueError, w).
Proof. unfold _check_in_list. intros ->. reflexivity. Qed.

Lemma check_in_list_world (values : list string) (v : string) (w w' : World)
    (r : result unit) :
  _check_in_list values v w = (r, w') -> w' = w.
Proof.
  unfold _check_in_list, ret, raise. destruct (str_in v values); intros H;
    injection H as <- <-; reflexivity.
Qed.

Lemma make_divider_world (host : Host) (rect : RectArg) (aspect : bool)
    (w w' : World) (r : result Divider) :
  make_divider host rect aspect w = (r, w') -> w' = w.
Proof.
  unfold make_divider, ret, raise.
  destruct (divider_init host rect);
    destruct rect as [s | n | | l]; try destruct (length l =? 3)%nat;
    try destruct (length l =? 4)%nat;
    intros H; injection H as <- <-; reflexivity.
Qed.

Lemma make_divider_raises (host : Host) (l : list Q) (aspect : bool) (w : World) :
  length l <> 3%nat -> length l <> 4%nat ->
  exists e, make_divider host (RectSeq l) aspect w = (Raise e, w).
Proof.
  intros H3 H4. unfold make_divider.
  destruct (Nat.eqb_spec (length l) 3); [contradiction |].
  destruct (Nat.eqb_spec (length l) 4); [contradiction |].
  exists Exception. reflexivity.
Qed.

Lemma ngrids_check_raises (n k : Z) :
  ~ (0 < n <= k) -> negb ((0 <? n) && (n <=? k)) = true.
Proof.
  intros H. destruct (Z.ltb_spec 0 n), (Z.leb_spec n k); simpl; try reflexivity. lia.
Qed.

Lemma direction_check_fails (direction : string) :
  direction <> "row"%string -> direction <> "column"%string ->
  str_in direction ["column"; "row"]%string = false.
Proof.
  intros Hr Hc. unfold str_in. simpl.
  destruct (String.eqb_spec direction "column"); [contradiction |].
  destruct (String.eqb_spec direction "row"); [contradiction | reflexivity].
Qed.

(** Run the first action of a sequence, in a goal that asks for a raise. *)
Ltac step_refusal a w1 E :=
  lazymatch goal with
  | |- exists e w', bind ?m ?k ?w = (Raise e, w') /\ _ =>
      destruct (m w) as [[a | ?] w1] eqn:E;
      [ rewrite (bind_ok_l _ _ _ _ _ E); lazy beta iota
      | rewrite (bind_raise_l _ _ _ _ _ E); eexists _, _; split; [reflexivity |] ]
  end.

Lemma ngrids_check_world (ngrids : option Z) (k : Z) (w w' : World) (r : result Z) :
  match ngrids with
  | None => ret k
  | Some ngrids =>
      if negb ((0 <? ngrids) && (ngrids <=? k)) then raise Exception else ret ngrids
  end w = (r, w') ->
  w' = w /\ forall n a, ngrids = Some n -> r = Ok a -> 0 < n <= k.
Proof.
  destruct ngrids as [n |].
  - destruct (negb _) eqn:E; intros H; injection H as <- <-.
    + split; [reflexivity | discriminate].
    + split; [reflexivity |]. intros n' a [= <-] _.
      apply negb_false_iff, andb_true_iff in E. lia.
  - intros H. injection H as <- <-. split; [reflexivity | discriminate].
Qed.

Lemma ngrids_check_ok (ngrids : option Z) (k a : Z) (w w' : World) :
  match ngrids with
  | None => ret k
  | Some ngrids =>
      if negb ((0 <? ngrids) && (ngrids <=? k)) then raise Exception else ret ngrids
  end w = (Ok a, w') ->
  w' = w /\ a = default k ngrids /\ forall n, ngrids = Some n -> 0 < n <= k.
Proof.
  intros H. pose proof (ngrids_check_world _ _ _ _ _ H) as [-> Hn].
  split; [reflexivity |]. split; [| intros n E; eapply Hn; eauto].
  unfold ret, raise in H.
  destruct ngrids as [n |]; [destruct (negb _); [discriminate |] |];
    injection H as E; subst a; reflexivity.
Qed.

Lemma Grid_init_refuses (host : Host) (rect : RectArg) (nrows_ncols : Z * Z)
    (ngrids : option Z) (direction : string) (axes_pad : PadArg)
    (add_all share_all share_x share_y : bool) (label_mode : string) (w : World) :
  refused_config nrows_ncols ngrids direction rect ->
  exists e w',
    Grid.__init__ host rect nrows_ncols ngrids direction axes_pad add_all
      share_all share_x share_y label_mode w = (Raise e, w')
    /\ same_layout w w'.
Proof.
  intros Hbad. destruct nrows_ncols as [nrows ncols]. unfold Grid.__init__.
  step_refusal n w1 E1; apply ngrids_check_world in E1; destruct E1 as [-> Hn];
    [| apply same_layout_refl].
  step_refusal p w2 E2; pose proof (init_axes_pad_layout _ _ _ _ E2) as L2; [| exact L2].
  destruct p as [hp vp].
  step_refusal u w3 E3; pose proof (check_in_list_world _ _ _ _ _ E3) as ->; [| exact L2].
  step_refusal d w4 E4; pose proof (make_divider_world _ _ _ _ _ _ E4) as ->; [| exact L2].
  exfalso. destruct Hbad as [(k & -> & Hbad) | [[Hr Hc] | (l & -> & H3 & H4)]].
  - apply Hbad. simpl. eapply Hn; reflexivity.
  - rewrite check_in_list_raises in E3 by (apply direction_check_fails; assumption).
    discriminate.
  - destruct (make_divider_raises host l false w2 H3 H4) as [e He]. congruence.
Qed.

Lemma colorbar_pad_world (cbar_pad : option SizeSpec) (cbar_location : string)
    (hp vp : ref) (w w' : World) (r : result SizeSpec) :
  match cbar_pad with
  | None =>
      if str_in cbar_location ["left"; "right"]%string then
        let* x := get_fixed_size hp in ret (SpecNumber x)
      else
        let* x := get_fixed_size vp in ret (SpecNumber x)
  | Some cbar_pad => ret cbar_pad
  end w = (r, w') ->
  w' = w.
Proof.
  destruct cbar_pad as [c |]; [intros H; injection H as <- <-; reflexivity |].
  destruct (str_in _ _); unfold bind, ret;
    match goal with
    | |- context [get_fixed_size ?p w] =>
        destruct (get_fixed_size p w) as [[x | e] w1] eqn:E;
        apply get_fixed_size_world in E; subst w1
    end; intros H; injection H as <- <-; reflexivity.
Qed.

Lemma ImageGrid_init_refuses (host : Host) (rect : RectArg) (nrows_ncols : Z * Z)
    (ngrids : option Z) (direction : string) (axes_pad : PadArg)
    (add_all share_all aspect : bool) (label_mode : string)
    (cbar_mode : option string) (cbar_location : string)
    (cbar_pad : option SizeSpec) (cbar_size : SizeSpec) (cbar_set_cax : bool)
    (w : World) :
  refused_config nrows_ncols ngrids direction rect ->
  exists e w',
    ImageGrid.__init__ host rect nrows_ncols ngrids direction axes_pad add_all
      share_all aspect label_mode cbar_mode cbar_location cbar_pad cbar_size
      cbar_set_cax w = (Raise e, w')
    /\ same_layout w w'.
Proof.
  intros Hbad. destruct nrows_ncols as [nrows ncols]. unfold ImageGrid.__init__.
  step_refusal n w1 E1; apply ngrids_check_world in E1; destruct E1 as [-> Hn];
    [| apply same_layout_refl].
  step_refusal p w2 E2; pose proof (init_axes_pad_layout _ _ _ _ E2) as L2; [| exact L2].
  destruct p as [hp vp].
  step_refusal c w3 E3; pose proof (colorbar_pad_world _ _ _ _ _ _ _ E3) as ->;
    [| exact L2].
  step_refusal u w4 E4; pose proof (check_in_list_world _ _ _ _ _ E4) as ->; [| exact L2].
  step_refusal d w5 E5; pose proof (make_divider_world _ _ _ _ _ _ E5) as ->; [| exact L2].
  exfalso. destruct Hbad as [(k & -> & Hbad) | [[Hr Hc] | (l & -> & H3 & H4)]].
  - apply Hbad. simpl. eapply Hn; reflexivity.
  - rewrite check_in_list_raises in E4 by (apply direction_check_fails; assumption).
    discriminate.
  - destruct (make_divider_raises host l aspect w2 H3 H4) as [e He]. congruence.
Qed.

(** ** Interleaving cells and padding *)

Lemma interleave_fold (pad : Size) (cs : list Size) :
  exists h, fold_left (fun acc c => interleave_step pad c acc) cs ([], [])
            = (h, even_positions (length cs))
            /\ interleaved pad cs h.
Proof.
  induction cs as [| c cs IH] using rev_ind.
  - exists []. split; [reflexivity |]. repeat split.
    + intros k c Hk. discriminate.
    + cbn [length]. lia.
  - destruct IH as (h & Hfold & Hlen & Hcell & Hpad).
    rewrite fold_left_app, Hfold. cbn [fold_left interleave_step].
    destruct cs as [| c0 cs' _] using rev_ind.
    + (* the first cell *)
      destruct h; [| discriminate]. exists [c]. split; [reflexivity |].
      repeat split.
      * intros [| k] c' Hk; [exact Hk | discriminate].
      * cbn [length app]. lia.
    + rewrite !length_app in *. cbn [length] in *.
      assert (Hlen' : length h = (2 * length cs' + 1)%nat) by lia.
      destruct h as [| s h'] eqn:Eh; [cbn [length] in Hlen'; lia |]. rewrite <- Eh in *.
      exists ((h ++ [pad]) ++ [c]). split.
      * f_equal. unfold even_positions.
        replace (length cs' + 1 + 1)%nat with (S (length cs' + 1)) by lia.
        rewrite seq_S, fmap_app. cbn [fmap list_fmap]. rewrite length_app. cbn [length].
        do 3 f_equal. lia.
      * repeat split.
        -- rewrite !length_app. cbn [length]. lia.
        -- intros k c' Hk.
           destruct (decide (k < length cs' + 1)%nat) as [Hlt | Hge].
           ++ rewrite lookup_app_l in Hk by (rewrite length_app; cbn [length]; lia).
              rewrite <- app_assoc, lookup_app_l by lia.
              apply Hcell, Hk.
           ++ rewrite lookup_app_r in Hk by (rewrite length_app; cbn [length]; lia).
              rewrite length_app in Hk. cbn [length] in Hk.
              destruct (k - (length cs' + 1))%nat as [| j] eqn:Ej; [| discriminate].
              injection Hk as <-.
              rewrite lookup_app_r by (rewrite length_app; cbn [length]; lia).
              rewrite length_app. cbn [length].
              replace (2 * k - (length h + 1))%nat with 0%nat by lia. reflexivity.
        -- intros k Hk. rewrite !length_app in Hk. cbn [length] in Hk.
           destruct (decide (S k < length cs' + 1)%nat) as [Hlt | Hge].
           ++ rewrite <- app_assoc, lookup_app_l by lia. apply Hpad, Hlt.
           ++ rewrite <- app_assoc, lookup_app_r by lia.
              replace (2 * k + 1 - length h)%nat with 0%nat by lia. reflexivity.
Qed.

Lemma fold_left_const_step {A B C} (f : A -> A) (g : C -> A -> A) (c0 : C)
    (l : list B) (a : A) :
  (forall x, f x = g c0 x) ->
  fold_left (fun acc _ => f acc) l a
  = fold_left (fun acc c => g c acc) (replicate (length l) c0) a.
Proof.
  intros Hfg. revert a. induction l as [| x l IH]; intros a; [reflexivity |].
  cbn [fold_left length replicate]. rewrite Hfg. apply IH.
Qed.

Lemma cells_spec (pad : ref) (n : Z) :
  exists h,
    Grid.cells pad n = (h, even_positions (Z.to_nat n))
    /\ interleaved (SizeFixed pad) (replicate (Z.to_nat n) (SizeScaled 1)) h.
Proof.
  unfold Grid.cells.
  rewrite (fold_left_const_step (Grid.cell_step pad)
             (interleave_step (SizeFixed pad)) (SizeScaled 1))
    by (intros [h pos]; reflexivity).
  unfold range. rewrite length_seqZ.
  destruct (interleave_fold (SizeFixed pad) (replicate (Z.to_nat n) (SizeScaled 1)))
    as (h & Hfold & Hh).
  rewrite length_replicate in Hfold. exists h. split; [exact Hfold | exact Hh].
Qed.

(** *** Successful runs of [Grid], step by step *)

Lemma Grid_update_locators_ok (self g : Grid.t) (w w' : World) :
  Grid._update_locators self w = (Ok g, w') ->
  exists h h_ax_pos v v_ax_pos,
    Grid.cells (Grid._horiz_pad_size self) (Grid._ncols self) = (h, h_ax_pos)
    /\ Grid.cells (Grid._vert_pad_size self) (Grid._nrows self) = (v, v_ax_pos)
    /\ mfor (range (Grid.ngrids self)) (Grid.locate self h_ax_pos v_ax_pos) w
       = (Ok tt, w')
    /\ g = Grid.with_divider (set_vertical v (set_horizontal h (Grid._divider self))) self.
Proof.
  unfold Grid._update_locators.
  destruct (Grid.cells (Grid._horiz_pad_size self) _) as [h h_ax_pos].
  destruct (Grid.cells (Grid._vert_pad_size self) _) as [v v_ax_pos].
  intros H. run_bind H. run_ret H. destruct a.
  exists h, h_ax_pos, v, v_ax_pos. auto.
Qed.

Lemma Grid_init_ok (host : Host) (rect : RectArg) (nrows ncols : Z)
    (ngrids : option Z) (direction : string) (axes_pad : PadArg)
    (add_all share_all share_x share_y : bool) (label_mode : string)
    (w w' : World) (g : Grid.t) :
  Grid.__init__ host rect (nrows, ncols) ngrids direction axes_pad add_all
    share_all share_x share_y label_mode w = (Ok g, w') ->
  exists n hp vp divider arr0 arr col0 llc w1 w2 w3 w4,
    (forall k, ngrids = Some k -> 0 < k <= nrows * ncols)
    /\ n = default (nrows * ncols) ngrids
    /\ Grid._init_axes_pad axes_pad w = (Ok (hp, vp), w1)
    /\ str_in direction ["column"; "row"]%string = true
    /\ make_divider host rect false w1 = (Ok divider, w1)
    /\ np_full nrows ncols = Ok arr0
    /\ Grid.fill_slots host (Grid.mk nrows ncols n hp vp direction divider [] [] [] None)
         share_all share_x share_y arr0 (range n) w1 = (Ok arr, w2)
    /\ py_index (T_tolist arr) 0 = Ok col0
    /\ py_index col0 (-1) = Ok llc
    /\ Grid._update_locators
         (Grid_before_locators nrows ncols n hp vp direction divider arr llc) w2
       = (Ok g, w3)
    /\ (if add_all then mfor (Grid.axes_all g) (add_axes host) else ret tt) w3
       = (Ok tt, w4)
    /\ Grid.set_label_mode g label_mode w4 = (Ok tt, w').
Proof.
  unfold Grid.__init__. intros H.
  run_bind H. rename a into n, w0 into w1, H0 into E1.
  apply ngrids_check_ok in E1. destruct E1 as (-> & Hn & Hrange).
  run_bind H. destruct a as [hp vp]. rename w0 into w2, H0 into E2.
  run_bind H. rename H0 into E3.
  pose proof (check_in_list_world _ _ _ _ _ E3) as ->.
  run_bind H. rename a0 into divider, H0 into E4.
  pose proof (make_divider_world _ _ _ _ _ _ E4) as ->.
  run_bind H. run_lift H0. rename a0 into arr0.
  run_bind H. rename a0 into arr, w0 into w3, H0 into E5.
  run_bind H. run_lift H0. rename a0 into col0.
  run_bind H. run_lift H0. rename a0 into llc.
  run_bind H. rename a0 into g', w0 into w4, H0 into E6.
  run_bind H. destruct a0. rename w0 into w5, H0 into E7.
  run_bind H. destruct a0. rename w0 into w6, H0 into E8.
  run_ret H. subst g'.
  exists n, hp, vp, divider, arr0, arr, col0, llc, w2, w3, w4, w5.
  repeat split; try assumption.
  - eapply Hrange; eauto.
  - eapply Hrange; eauto.
  - unfold _check_in_list in E3. destruct (str_in _ _); [reflexivity | discriminate].
Qed.

Lemma Grid_init_sizes (host : Host) (rect : RectArg) (nrows ncols : Z)
    (ngrids : option Z) (direction : string) (axes_pad : PadArg)
    (add_all share_all share_x share_y : bool) (label_mode : string)
    (w w' : World) (g : Grid.t) :
  Grid.__init__ host rect (nrows, ncols) ngrids direction axes_pad add_all
    share_all share_x share_y label_mode w = (Ok g, w') ->
  Grid._nrows g = nrows /\ Grid._ncols g = ncols
  /\ interleaved (SizeFixed (Grid._horiz_pad_size g))
       (replicate (Z.to_nat ncols) (SizeScaled 1))
       (div_horizontal (Grid._divider g))
  /\ interleaved (SizeFixed (Grid._vert_pad_size g))
       (replicate (Z.to_nat nrows) (SizeScaled 1))
       (div_vertical (Grid._divider g)).
Proof.
  intros H. apply Grid_init_ok in H.
  destruct H as (n & hp & vp & divider & arr0 & arr & col0 & llc & w1 & w2 & w3 & w4
                 & _ & _ & _ & _ & _ & _ & _ & _ & _ & Hloc & _ & _).
  apply Grid_update_locators_ok in Hloc.
  destruct Hloc as (h & h_ax_pos & v & v_ax_pos & Hh & Hv & _ & ->).
  cbn in Hh, Hv |- *.
  destruct (cells_spec hp ncols) as (h' & Eh & Ih).
  destruct (cells_spec vp nrows) as (v' & Ev & Iv).
  rewrite Eh in Hh. rewrite Ev in Hv. injection Hh as <- _. injection Hv as <- _.
  auto.
Qed.

(** *** Successful runs of [ImageGrid], step by step *)

Lemma ImageGrid_init_ok (host : Host) (rect : RectArg) (nrows ncols : Z)
    (ngrids : option Z) (direction : string) (axes_pad : PadArg)
    (add_all share_all aspect : bool) (label_mode : string)
    (cbar_mode : option string) (cbar_location : string)
    (cbar_pad : option SizeSpec) (cbar_size : SizeSpec) (cbar_set_cax : bool)
    (w w' : World) (g : ImageGrid.t) :
  ImageGrid.__init__ host rect (nrows, ncols) ngrids direction axes_pad add_all
    share_all aspect label_mode cbar_mode cbar_location cbar_pad cbar_size
    cbar_set_cax w = (Ok g, w') ->
  exists n hp vp cpad divider arr0 arr col0 llc cbars w1 w2 w3 w4 w5 w6,
    (forall k, ngrids = Some k -> 0 < k <= nrows * ncols)
    /\ n = default (nrows * ncols) ngrids
    /\ Grid._init_axes_pad axes_pad w = (Ok (hp, vp), w1)
    /\ match cbar_pad with
       | None =>
           if str_in cbar_location ["left"; "right"]%string then
             let* x := get_fixed_size hp in ret (SpecNumber x)
           else
             let* x := get_fixed_size vp in ret (SpecNumber x)
       | Some cbar_pad => ret cbar_pad
       end w1 = (Ok cpad, w1)
    /\ str_in direction ["column"; "row"]%string = true
    /\ make_divider host rect aspect w1 = (Ok divider, w1)
    /\ np_full nrows ncols = Ok arr0
    /\ Grid.fill_slots host (Grid.mk nrows ncols n hp vp direction divider [] [] [] None)
         share_all true true arr0 (range n) w1 = (Ok arr, w2)
    /\ py_index (T_tolist arr) 0 = Ok col0
    /\ py_index col0 (-1) = Ok llc
    /\ ImageGrid.new_cbar_axes host cbar_location (range n) w2 = (Ok cbars, w3)
    /\ ImageGrid._update_locators
         (ImageGrid.mk
            (Grid_before_locators nrows ncols n hp vp direction divider arr llc)
            cbar_mode cbar_location cpad cbar_size cbars) w3
       = (Ok g, w4)
    /\ (if add_all then
          mfor (Grid.axes_all (ImageGrid.base g) ++ (Some <$> ImageGrid.cbar_axes g))
            (add_axes host)
        else ret tt) w4 = (Ok tt, w5)
    /\ (if cbar_set_cax then ImageGrid.bind_cax g else ret tt) w5 = (Ok tt, w6)
    /\ Grid.set_label_mode (ImageGrid.base g) label_mode w6 = (Ok tt, w').
Proof.
  unfold ImageGrid.__init__. intros H.
  run_bind H. rename a into n, w0 into w1, H0 into E1.
  apply ngrids_check_ok in E1. destruct E1 as (-> & Hn & Hrange).
  run_bind H. destruct a as [hp vp]. rename w0 into w2, H0 into E2.
  run_bind H. rename a into cpad, H0 into E2'.
  pose proof (colorbar_pad_world _ _ _ _ _ _ _ E2') as ->.
  run_bind H. rename H0 into E3.
  pose proof (check_in_list_world _ _ _ _ _ E3) as ->.
  run_bind H. rename a0 into divider, H0 into E4.
  pose proof (make_divider_world _ _ _ _ _ _ E4) as ->.
  run_bind H. run_lift H0. rename a0 into arr0.
  run_bind H. rename a0 into arr, w0 into w3, H0 into E5.
  run_bind H. run_lift H0. rename a0 into col0.
  run_bind H. run_lift H0. rename a0 into llc.
  run_bind H. rename a0 into cbars, w0 into w4, H0 into E5'.
  run_bind H. rename a0 into g', w0 into w5, H0 into E6.
  run_bind H. destruct a0. rename w0 into w6, H0 into E7.
  run_bind H. destruct a0. rename w0 into w7, H0 into E8.
  run_bind H. destruct a0. rename w0 into w8, H0 into E9.
  run_ret H. subst g'.
  exists n, hp, vp, cpad, divider, arr0, arr, col0, llc, cbars, w2, w3, w4, w5, w6, w7.
  repeat split; try assumption.
  - eapply Hrange; eauto.
  - eapply Hrange; eauto.
  - unfold _check_in_list in E3. destruct (str_in _ _); [reflexivity | discriminate].
Qed.

Lemma ImageGrid_update_locators_ok (self g : ImageGrid.t) (w w' : World) :
  ImageGrid._update_locators self w = (Ok g, w') ->
  exists h0 v0 row0 col0 h h_ax_pos h_cb_pos v v_ax_pos v_cb_pos h' v' w1 w2,
    ImageGrid.single_before self w = (Ok (h0, v0), w1)
    /\ py_index (Grid.axes_row (ImageGrid.base self)) 0 = Ok row0
    /\ ImageGrid.h_loop self 0 row0 (h0, [], []) = Ok (h, h_ax_pos, h_cb_pos)
    /\ py_index (Grid.axes_column (ImageGrid.base self)) 0 = Ok col0
    /\ ImageGrid.v_loop self 0 (rev col0) (v0, [], []) = Ok (v, v_ax_pos, v_cb_pos)
    /\ mfor (range (Grid.ngrids (ImageGrid.base self)))
         (ImageGrid.locate self h_ax_pos h_cb_pos v_ax_pos v_cb_pos) w1 = (Ok tt, w2)
    /\ ImageGrid.after_loops self h v w2 = (Ok (h', v'), w')
    /\ g = ImageGrid.with_base
             (Grid.with_divider
                (set_vertical v' (set_horizontal h' (Grid._divider (ImageGrid.base self))))
                (ImageGrid.base self))
             self.
Proof.
  unfold ImageGrid._update_locators. intros H.
  run_bind H. destruct a as [h0 v0]. rename w0 into w1, H0 into R1.
  run_bind H. run_lift H0. rename a into row0.
  run_bind H. run_lift H0. destruct a as [[h h_ax_pos] h_cb_pos].
  run_bind H. run_lift H0. rename a into col0.
  run_bind H. run_lift H0. destruct a as [[v v_ax_pos] v_cb_pos].
  run_bind H. destruct a. rename w0 into w2, H0 into R2.
  run_bind H. destruct a as [h' v']. rename H0 into R3.
  run_ret H.
  exists h0, v0, row0, col0, h, h_ax_pos, h_cb_pos, v, v_ax_pos, v_cb_pos, h', v', w1, w2.
  repeat split; auto.
Qed.

(** ** Indexing and array shapes *)

Lemma py_index_nonneg {A} (l : list A) (i : Z) (x : A) :
  0 <= i -> py_index l i = Ok x ->
  l !! Z.to_nat i = Some x /\ i < Z.of_nat (length l).
Proof.
  unfold py_index. intros Hi.
  destruct (Z.ltb_spec i 0); [lia |].
  destruct (Z.ltb_spec i 0); [lia |].
  destruct (Z.leb_spec (Z.of_nat (length l)) i); simpl; [discriminate |].
  destruct (l !! Z.to_nat i); [| discriminate]. intros [= ->]. auto.
Qed.

Lemma py_index_lookup {A} (l : list A) (k : nat) (x : A) :
  l !! k = Some x -> py_index l (Z.of_nat k) = Ok x.
Proof.
  intros H. pose proof (lookup_lt_Some _ _ _ H) as Hk. unfold py_index.
  destruct (Z.ltb_spec (Z.of_nat k) 0); [lia |].
  destruct (Z.ltb_spec (Z.of_nat k) 0); [lia |].
  destruct (Z.leb_spec (Z.of_nat (length l)) (Z.of_nat k)); [lia |]. simpl.
  rewrite Nat2Z.id, H. reflexivity.
Qed.

Lemma py_index_last {A} (l : list A) (x : A) :
  py_index l (-1) = Ok x ->
  l !! (length l - 1)%nat = Some x /\ (0 < length l)%nat.
Proof.
  unfold py_index. simpl.
  destruct (Z.ltb_spec (-1 + Z.of_nat (length l)) 0); simpl; [discriminate |].
  destruct (Z.leb_spec (Z.of_nat (length l)) (-1 + Z.of_nat (length l))); [lia |].
  replace (Z.to_nat (-1 + Z.of_nat (length l))) with (length l - 1)%nat by lia.
  destruct (l !! _); [| discriminate]. intros [= ->]. split; [reflexivity | lia].
Qed.

Lemma np_full_ok (rows cols : Z) (a : ndarray) :
  np_full rows cols = Ok a ->
  0 <= rows /\ 0 <= cols
  /\ a = mkArray rows cols (replicate (Z.to_nat (rows * cols)) None).
Proof.
  unfold np_full.
  destruct (Z.ltb_spec rows 0), (Z.ltb_spec cols 0); simpl; try discriminate.
  intros [= <-]. auto.
Qed.

Lemma np_axis_ok (n i j : Z) :
  0 <= i -> np_axis n i = Ok j -> j = i /\ i < n.
Proof.
  unfold np_axis. intros Hi. destruct (Z.ltb_spec i 0); [lia |].
  destruct (Z.ltb_spec i 0); [lia |].
  destruct (Z.leb_spec n i); simpl; [discriminate |]. intros [= <-]. auto.
Qed.

Lemma np_offset_ok (a : ndarray) (r c : Z) (k : nat) :
  0 <= r -> 0 <= c -> np_offset a r c = Ok k ->
  k = Z.to_nat (r * arr_cols a + c) /\ r < arr_rows a /\ c < arr_cols a.
Proof.
  unfold np_offset. intros Hr Hc.
  destruct (np_axis (arr_rows a) r) as [r' |] eqn:Er; [| discriminate].
  destruct (np_axis (arr_cols a) c) as [c' |] eqn:Ec; [| discriminate].
  apply np_axis_ok in Er; [| exact Hr]. apply np_axis_ok in Ec; [| exact Hc].
  destruct Er as [-> ?], Ec as [-> ?]. intros [= <-]. auto.
Qed.

Lemma np_set_ok (a a' : ndarray) (r c : Z) (x : option ref) :
  0 <= r -> 0 <= c -> np_set a r c x = Ok a' ->
  r < arr_rows a /\ c < arr_cols a
  /\ a' = mkArray (arr_rows a) (arr_cols a)
            (<[Z.to_nat (r * arr_cols a + c) := x]> (arr_data a)).
Proof.
  unfold np_set. intros Hr Hc.
  destruct (np_offset a r c) as [k |] eqn:E; [| discriminate].
  apply np_offset_ok in E; [| exact Hr | exact Hc]. destruct E as (-> & ? & ?).
  intros [= <-]. auto.
Qed.

(** The rows and columns of the lists made from an array. *)
Lemma tolist_lookup (a : ndarray) (r : nat) (row : list (option ref)) :
  tolist a !! r = Some row ->
  Z.of_nat r < arr_rows a
  /\ row = (fun c => arr_at a (Z.of_nat r) c) <$> range (arr_cols a).
Proof.
  unfold tolist. rewrite list_lookup_fmap. unfold range at 2.
  destruct (seqZ 0 (arr_rows a) !! r) as [z |] eqn:E; [| discriminate].
  apply lookup_seqZ in E. destruct E as [-> Hr]. simpl. intros [= <-]. auto.
Qed.

Lemma T_tolist_lookup (a : ndarray) (c : nat) (col : list (option ref)) :
  T_tolist a !! c = Some col ->
  Z.of_nat c < arr_cols a
  /\ col = (fun r => arr_at a r (Z.of_nat c)) <$> range (arr_rows a).
Proof.
  unfold T_tolist. rewrite list_lookup_fmap. unfold range at 2.
  destruct (seqZ 0 (arr_cols a) !! c) as [z |] eqn:E; [| discriminate].
  apply lookup_seqZ in E. destruct E as [-> Hr]. simpl. intros [= <-]. auto.
Qed.

Lemma range_lookup (n : Z) (k : nat) :
  Z.of_nat k < n -> range n !! k = Some (Z.of_nat k).
Proof. intros H. unfold range. rewrite lookup_seqZ_lt by exact H. f_equal. Qed.

Lemma range_length (n : Z) : length (range n) = Z.to_nat n.
Proof. apply length_seqZ. Qed.

Lemma range_elem (n i : Z) : i ∈ range n <-> 0 <= i < n.
Proof. unfold range. rewrite elem_of_seqZ. lia. Qed.

(** ** Frames: what a run leaves unchanged *)

Section Keeps.

Context {B : Type} (f : World -> B).

Lemma keeps_ret {A} (a : A) : keeps f (ret a).
Proof. intros w r w' H. injection H as _ <-. reflexivity. Qed.

Lemma keeps_raise {A} (e : exn) : keeps f (@raise A e).
Proof. intros w r w' H. injection H as _ <-. reflexivity. Qed.

Lemma keeps_lift {A} (x : result A) : keeps f (lift x).
Proof. intros w r w' H. injection H as _ <-. reflexivity. Qed.

Lemma keeps_bind {A C} (m : M A) (k : A -> M C) :
  keeps f m -> (forall a, keeps f (k a)) -> keeps f (bind m k).
Proof.
  intros Hm Hk w r w' H. unfold bind in H.
  destruct (m w) as [[a | e] w1] eqn:E.
  - rewrite (Hk a _ _ _ H). apply (Hm _ _ _ E).
  - injection H as _ <-. apply (Hm _ _ _ E).
Qed.

Lemma keeps_mfor {A} (l : list A) (body : A -> M unit) :
  (forall x, x ∈ l -> keeps f (body x)) -> keeps f (mfor l body).
Proof.
  induction l as [| x l IH]; intros Hb; [apply keeps_ret |].
  cbn [mfor]. apply keeps_bind.
  - apply Hb. left.
  - intros _. apply IH. intros y Hy. apply Hb. right. exact Hy.
Qed.

Lemma keeps_if {A} (b : bool) (m1 m2 : M A) :
  keeps f m1 -> keeps f m2 -> keeps f (if b then m1 else m2).
Proof. destruct b; auto. Qed.

End Keeps.

Lemma keeps_fixed_modify (ax : option ref) (g : AxesObj -> AxesObj) :
  keeps fixed_objs (modify_axes ax g).
Proof.
  intros w r w' H. unfold modify_axes in H.
  destruct ax as [x |]; [destruct (axes_objs w !! x) |]; injection H as _ <-;
    reflexivity.
Qed.

Lemma keeps_fig_modify (ax : option ref) (g : AxesObj -> AxesObj) :
  keeps fig_axes (modify_axes ax g).
Proof.
  intros w r w' H. unfold modify_axes in H.
  destruct ax as [x |]; [destruct (axes_objs w !! x) |]; injection H as _ <-;
    reflexivity.
Qed.

Lemma keeps_proj_modify {B} (proj : AxesObj -> B) (ax : option ref)
    (g : AxesObj -> AxesObj) :
  (forall a, proj (g a) = proj a) ->
  keeps (seen_through proj) (modify_axes ax g).
Proof.
  intros Hg w r w' H. unfold modify_axes in H.
  destruct ax as [x |]; [destruct (axes_objs w !! x) as [a |] eqn:E |];
    injection H as _ <-; try reflexivity.
  unfold seen_through. cbn [axes_objs].
  rewrite list_fmap_insert, Hg. apply list_insert_id.
  rewrite list_lookup_fmap, E. reflexivity.
Qed.

Lemma keeps_object_modify (r x : ref) (g : AxesObj -> AxesObj) :
  r <> x -> keeps (the_object r) (modify_axes (Some x) g).
Proof.
  intros Hne w res w' H. unfold modify_axes in H.
  destruct (axes_objs w !! x) as [a |] eqn:E; injection H as _ <-; try reflexivity.
  unfold the_object. cbn [axes_objs]. apply list_lookup_insert_ne. congruence.
Qed.

Lemma modify_axes_ok (ax : option ref) (g : AxesObj -> AxesObj) (w w' : World) :
  modify_axes ax g w = (Ok tt, w') ->
  exists x a, ax = Some x /\ axes_objs w !! x = Some a
              /\ axes_objs w' = <[x := g a]> (axes_objs w)
              /\ the_object x w' = Some (g a).
Proof.
  unfold modify_axes. destruct ax as [x |]; [| discriminate].
  destruct (axes_objs w !! x) as [a |] eqn:E; [| discriminate].
  intros H. injection H as <-. exists x, a. repeat split; try reflexivity;
    try exact E.
  unfold the_object. cbn [axes_objs]. apply list_lookup_insert_eq.
  apply lookup_lt_Some in E. exact E.
Qed.

Lemma keeps_fixed_add_axes (host : Host) (ax : option ref) :
  keeps fixed_objs (add_axes host ax).
Proof.
  intros w r w' H. unfold add_axes in H.
  destruct (add_axes_check host ax); injection H as _ <-; reflexivity.
Qed.

Lemma keeps_objs_add_axes (host : Host) (ax : option ref) :
  keeps axes_objs (add_axes host ax).
Proof.
  intros w r w' H. unfold add_axes in H.
  destruct (add_axes_check host ax); injection H as _ <-; reflexivity.
Qed.

Lemma keeps_fixed_new_axes (host : Host) (o : option string) (sx sy : option ref) :
  keeps fixed_objs (new_axes host o sx sy).
Proof.
  intros w r w' H. unfold new_axes in H.
  destruct (axes_init host o sx sy); [injection H as _ <-; reflexivity |].
  destruct (axes_cla o _); injection H as _ <-; reflexivity.
Qed.

Lemma new_image_axes_ok (host : Host) (sx sy : option ref) (w w' : World) (r : ref) :
  new_axes host None sx sy w = (Ok r, w') ->
  r = length (axes_objs w)
  /\ w' = mkWorld (fixed_objs w) (axes_objs w ++ [fresh_axes None sx sy]) (fig_axes w).
Proof.
  unfold new_axes. destruct (axes_init host None sx sy); [discriminate |].
  cbn [axes_cla]. intros H. injection H as <- <-. auto.
Qed.

Lemma new_cbar_axes_one_ok (host : Host) (o : string) (w w' : World) (r : ref) :
  new_axes host (Some o) None None w = (Ok r, w') ->
  str_in o axis_keys = true
  /\ r = length (axes_objs w)
  /\ w' = mkWorld (fixed_objs w) (axes_objs w ++ [cbar_obj o]) (fig_axes w).
Proof.
  unfold new_axes. destruct (axes_init host (Some o) None None); [discriminate |].
  cbn [axes_cla]. unfold _config_axes.
  destruct (str_in o axis_keys); [| discriminate].
  intros H. injection H as <- <-. auto.
Qed.

Lemma cbar_obj_fields (o : string) :
  orientation (cbar_obj o) = Some o
  /\ sharex (cbar_obj o) = None /\ sharey (cbar_obj o) = None
  /\ axes_locator (cbar_obj o) = None /\ visible (cbar_obj o) = None
  /\ position (cbar_obj o) = None /\ cax (cbar_obj o) = None.
Proof.
  unfold cbar_obj, toggle_all.
  destruct (String.eqb o "bottom"); [| destruct (String.eqb o "left")];
    repeat split; reflexivity.
Qed.

Lemma keeps_objs_fixed_size (p : ref) (v : Q) : keeps axes_objs (set_fixed_size p v).
Proof.
  intros w r w' H. unfold set_fixed_size in H.
  destruct (fixed_objs w !! p); injection H as _ <-; reflexivity.
Qed.

(** ** Filling the array of axes *)

Lemma fill_slot_ok (host : Host) (self : Grid.t) (share_all share_x share_y : bool)
    (a a' : ndarray) (i : Z) (w w' : World) :
  Grid.fill_slot host self share_all share_x share_y a i w = (Ok a', w') ->
  exists col row sx sy,
    Grid._get_col_row self i = Ok (col, row)
    /\ w' = mkWorld (fixed_objs w) (axes_objs w ++ [fresh_axes None sx sy]) (fig_axes w)
    /\ np_set a row col (Some (length (axes_objs w))) = Ok a'.
Proof.
  unfold Grid.fill_slot. intros H.
  run_bind H. run_lift H0. destruct a0 as [col row].
  run_bind H. destruct a0 as [sx sy].
  assert (w0 = w) as ->.
  { destruct share_all.
    - run_bind H0. run_lift H1. run_ret H0. reflexivity.
    - run_bind H0. run_bind H0. run_ret H0.
      destruct share_x; [run_lift H1 | run_ret H1];
        (destruct share_y; [run_lift H2 | run_ret H2]); reflexivity. }
  run_bind H. run_lift H.
  apply new_image_axes_ok in H1. destruct H1 as [-> ->].
  exists col, row, sx, sy. auto.
Qed.

Section FillSlots.

Variable host : Host.
Variable self : Grid.t.
Variables share_all share_x share_y : bool.
Hypothesis rows_pos : 0 < Grid._nrows self.
Hypothesis cols_pos : 0 < Grid._ncols self.

Lemma fill_slots_spec (l : list Z) :
  forall (a a' : ndarray) (w w' : World),
    Grid.fill_slots host self share_all share_x share_y a l w = (Ok a', w') ->
    (forall i, i ∈ l -> 0 <= i < Grid._nrows self * Grid._ncols self) ->
    arr_rows a = Grid._nrows self -> arr_cols a = Grid._ncols self ->
    arr_rows a' = Grid._nrows self /\ arr_cols a' = Grid._ncols self
    /\ length (arr_data a') = length (arr_data a)
    /\ fixed_objs w' = fixed_objs w /\ fig_axes w' = fig_axes w
    /\ (length (axes_objs w) <= length (axes_objs w'))%nat
    /\ ((forall k r, arr_data a !! k = Some (Some r) -> (r < length (axes_objs w))%nat) ->
        no_sharing (arr_data a) ->
        (forall k r, arr_data a' !! k = Some (Some r) -> (r < length (axes_objs w'))%nat)
        /\ no_sharing (arr_data a'))
    /\ (forall k r, arr_data a' !! k = Some (Some r) ->
          arr_data a !! k = Some (Some r) \/ exists i, i ∈ l /\ slot_offset self i = k).
Proof.
  induction l as [| i l IH]; intros a a' w w' H Hl Hr Hc.
  - injection H as <- <-. repeat split; auto.
  - cbn [Grid.fill_slots] in H. run_bind H. rename a0 into a1, w0 into w1.
    apply fill_slot_ok in H0. destruct H0 as (col & row & sx & sy & Ecr & -> & Eset).
    assert (Hi : 0 <= i < Grid._nrows self * Grid._ncols self) by (apply Hl; left).
    destruct (get_col_row_in_grid self rows_pos cols_pos i col row Hi Ecr) as [Hrow Hcol].
    apply np_set_ok in Eset; [| lia | lia]. destruct Eset as (_ & _ & ->).
    apply IH in H; [| intros j Hj; apply Hl; right; exact Hj | exact Hr | exact Hc].
    cbn [arr_rows arr_cols arr_data axes_objs fixed_objs fig_axes] in H.
    destruct H as (Hr' & Hc' & Hlen & Hfx & Hfig & Hgrow & Hvi & Hfrom).
    rewrite length_app in Hgrow, Hvi. cbn [length] in Hgrow, Hvi.
    rewrite length_insert in Hlen.
    assert (Eoff : slot_offset self i = Z.to_nat (row * arr_cols a + col)).
    { unfold slot_offset. rewrite Ecr, Hc. reflexivity. }
    split; [exact Hr' |]. split; [exact Hc' |]. split; [exact Hlen |].
    split; [exact Hfx |]. split; [exact Hfig |]. split; [lia |]. split.
    + intros Hv Hs. apply Hvi.
      * intros k r Hk.
        destruct (decide (Z.to_nat (row * arr_cols a + col) = k)) as [<- | Hne].
        -- apply list_lookup_insert_Some in Hk.
           destruct Hk as [(_ & E & _) | [? _]]; [| congruence].
           injection E as <-. lia.
        -- rewrite list_lookup_insert_ne in Hk by exact Hne.
           apply Hv in Hk. lia.
      * intros k k' r Hk Hk'.
        apply list_lookup_insert_Some in Hk, Hk'.
        destruct Hk as [(<- & E & _) | [Hne Hk]], Hk' as [(<- & E' & _) | [Hne' Hk']];
          try reflexivity.
        -- injection E as <-. apply Hv in Hk'. lia.
        -- injection E' as <-. apply Hv in Hk. lia.
        -- eapply Hs; eassumption.
    + intros k r Hk. apply Hfrom in Hk. destruct Hk as [Hk | (j & Hj & Ej)].
      * apply list_lookup_insert_Some in Hk.
        destruct Hk as [(<- & E & _) | [Hne Hk]]; [| left; exact Hk].
        right. exists i. split; [left | exact Eoff].
      * right. exists j. split; [right; exact Hj | exact Ej].
Qed.

End FillSlots.

Lemma fill_slots_shape (host : Host) (self : Grid.t) (sa sx sy : bool) (l : list Z) :
  forall (a a' : ndarray) (w w' : World),
    Grid.fill_slots host self sa sx sy a l w = (Ok a', w') ->
    arr_rows a' = arr_rows a /\ arr_cols a' = arr_cols a.
Proof.
  induction l as [| i l IH]; intros a a' w w' H.
  - injection H as <- <-. auto.
  - cbn [Grid.fill_slots] in H. run_bind H.
    apply fill_slot_ok in H0. destruct H0 as (col & row & s1 & s2 & _ & _ & Eset).
    apply IH in H. unfold np_set in Eset.
    destruct (np_offset a row col); [| discriminate]. injection Eset as <-.
    exact H.
Qed.

Lemma before_locators_built (host : Host) (nrows ncols n : Z) (ngrids : option Z)
    (hp vp : ref) (direction : string) (divider : Divider) (sa sx sy : bool)
    (arr0 arr : ndarray) (col0 : list (option ref)) (llc : option ref)
    (w1 w2 : World) :
  (forall k, ngrids = Some k -> 0 < k <= nrows * ncols) ->
  n = default (nrows * ncols) ngrids ->
  np_full nrows ncols = Ok arr0 ->
  Grid.fill_slots host (Grid.mk nrows ncols n hp vp direction divider [] [] [] None)
    sa sx sy arr0 (range n) w1 = (Ok arr, w2) ->
  py_index (T_tolist arr) 0 = Ok col0 ->
  py_index col0 (-1) = Ok llc ->
  axes_built (Grid_before_locators nrows ncols n hp vp direction divider arr llc) arr w2
  /\ fixed_objs w2 = fixed_objs w1 /\ fig_axes w2 = fig_axes w1
  /\ (length (axes_objs w1) <= length (axes_objs w2))%nat.
Proof.
  intros Hrange -> Hfull Hfill Hcol0 Hllc.
  apply np_full_ok in Hfull. destruct Hfull as (Hr0 & Hc0 & ->).
  pose proof (fill_slots_shape _ _ _ _ _ _ _ _ _ _ Hfill) as [Sr Sc].
  cbn [arr_rows arr_cols] in Sr, Sc.
  apply py_index_nonneg in Hcol0; [| lia]. destruct Hcol0 as [Hcol0 _].
  apply T_tolist_lookup in Hcol0. destruct Hcol0 as [Hcpos ->].
  apply py_index_last in Hllc. destruct Hllc as [_ Hrpos].
  rewrite length_fmap, range_length in Hrpos.
  assert (Hrows : 0 < nrows) by lia. assert (Hcols : 0 < ncols) by lia.
  set (n := default (nrows * ncols) ngrids) in *.
  assert (Hn : 0 < n <= nrows * ncols).
  { subst n. destruct ngrids as [k |]; [apply Hrange; reflexivity | simpl; nia]. }
  set (self := Grid.mk nrows ncols n hp vp direction divider [] [] [] None) in *.
  destruct (fill_slots_spec host self sa sx sy Hrows Hcols _ _ _ _ _ Hfill)
    as (Rr & Rc & Rlen & Rfx & Rfig & Rgrow & Rvi & Rfrom); try reflexivity.
  { intros i Hi. apply range_elem in Hi. unfold self. cbn. lia. }
  cbn [arr_data] in Rlen, Rvi, Rfrom. rewrite length_replicate in Rlen.
  destruct Rvi as [Rvalid Rshare].
  { intros k r Hk. apply lookup_replicate in Hk. destruct Hk; discriminate. }
  { intros k k' r Hk. apply lookup_replicate in Hk. destruct Hk; discriminate. }
  split; [| auto].
  constructor; cbn; auto.
  intros k r Hk. apply Rfrom in Hk. destruct Hk as [Hk | (i & Hi & Ei)].
  - apply lookup_replicate in Hk. destruct Hk; discriminate.
  - exists i. apply range_elem in Hi. split; [lia | exact Ei].
Qed.

Lemma axes_built_with_divider (g : Grid.t) (d : Divider) (arr : ndarray) (w : World) :
  axes_built g arr w -> axes_built (Grid.with_divider d g) arr w.
Proof. intros [? ? ? ? ? ? ? ? ? ? ? ?]. constructor; assumption. Qed.

Lemma axes_built_later (g : Grid.t) (arr : ndarray) (w w' : World) :
  (length (axes_objs w) <= length (axes_objs w'))%nat ->
  axes_built g arr w -> axes_built g arr w'.
Proof.
  intros Hle [? ? ? ? ? ? ? ? ? Hv ? ?]. constructor; try assumption.
  intros k r Hk. apply Hv in Hk. lia.
Qed.

Lemma axes_built_first (g : Grid.t) (arr : ndarray) (w : World) :
  axes_built g arr w ->
  exists ax0 row0 col0,
    py_index (Grid.axes_all g) 0 = Ok ax0
    /\ py_index (Grid.axes_row g) 0 = Ok row0
    /\ py_index (Grid.axes_column g) 0 = Ok col0
    /\ row0 = (fun c => arr_at arr 0 c) <$> range (Grid._ncols g)
    /\ col0 = (fun r => arr_at arr r 0) <$> range (Grid._nrows g).
Proof.
  intros Hb. pose proof (built_rows _ _ _ Hb) as Hr. pose proof (built_cols _ _ _ Hb) as Hc.
  destruct (lookup_lt_is_Some_2 (Grid.axes_all g) 0) as [ax0 E0].
  { rewrite (built_length _ _ _ Hb). nia. }
  exists ax0, ((fun c => arr_at arr 0 c) <$> range (Grid._ncols g)),
         ((fun r => arr_at arr r 0) <$> range (Grid._nrows g)).
  split; [apply (py_index_lookup _ 0), E0 |].
  split; [| split; [| auto]].
  - apply (py_index_lookup _ 0). rewrite (built_row _ _ _ Hb). unfold tolist.
    rewrite list_lookup_fmap, (built_arr_rows _ _ _ Hb), (built_arr_cols _ _ _ Hb).
    rewrite (range_lookup _ 0) by (simpl; lia). reflexivity.
  - apply (py_index_lookup _ 0). rewrite (built_column _ _ _ Hb). unfold T_tolist.
    rewrite list_lookup_fmap, (built_arr_rows _ _ _ Hb), (built_arr_cols _ _ _ Hb).
    rewrite (range_lookup _ 0) by (simpl; lia). reflexivity.
Qed.

(** ** The size sequences of an [ImageGrid] without colorbar cells *)

Lemma opt_str_eq_false (m : option string) (s : string) :
  m <> Some s -> opt_str_eq m s = false.
Proof.
  destruct m as [x |]; [| reflexivity]. simpl. intros H.
  destruct (String.eqb_spec x s); [congruence | reflexivity].
Qed.

Lemma opt_str_eq_true (m : option string) (s : string) :
  m = Some s -> opt_str_eq m s = true.
Proof. intros ->. apply String.eqb_refl. Qed.

Lemma cbar_here_plain (self : ImageGrid.t) (side : string) (k e : Z) :
  ImageGrid._colorbar_mode self <> Some "each"%string ->
  ImageGrid._colorbar_mode self <> Some "edge"%string ->
  ImageGrid.cbar_here self side k e = false.
Proof.
  intros H1 H2. unfold ImageGrid.cbar_here.
  rewrite (opt_str_eq_false _ _ H1), (opt_str_eq_false _ _ H2). reflexivity.
Qed.

Lemma fold_left_fmap_step {A C S} (f : A -> C) (step : C -> S -> S) (l : list A) (a : S) :
  fold_left (fun acc x => step (f x) acc) l a
  = fold_left (fun acc c => step c acc) (f <$> l) a.
Proof. revert a. induction l as [| x l IH]; intros a; [reflexivity | apply IH]. Qed.

Lemma h_loop_plain (self : ImageGrid.t) (ax0 : option ref) :
  py_index (Grid.axes_all (ImageGrid.base self)) 0 = Ok ax0 ->
  ImageGrid._colorbar_mode self <> Some "each"%string ->
  ImageGrid._colorbar_mode self <> Some "edge"%string ->
  forall (l : list (option ref)) (col : Z) (h : list Size) (pos cb : list Z),
    ImageGrid.h_loop self col l (h, pos, cb)
    = Ok (fold_left
            (fun acc ax =>
               interleave_step (SizeFixed (Grid._horiz_pad_size (ImageGrid.base self)))
                 (axes_cell_x ax0 ax) acc)
            l (h, pos), cb).
Proof.
  intros E0 H1 H2. induction l as [| ax l IH]; intros col h pos cb; [reflexivity |].
  cbn [ImageGrid.h_loop fold_left]. unfold ImageGrid.h_step. rewrite E0.
  rewrite !cbar_here_plain by assumption.
  rewrite IH. unfold interleave_step, axes_cell_x. destruct ax; reflexivity.
Qed.

Lemma v_loop_plain (self : ImageGrid.t) (ax0 : option ref) :
  py_index (Grid.axes_all (ImageGrid.base self)) 0 = Ok ax0 ->
  ImageGrid._colorbar_mode self <> Some "each"%string ->
  ImageGrid._colorbar_mode self <> Some "edge"%string ->
  forall (l : list (option ref)) (row : Z) (v : list Size) (pos cb : list Z),
    ImageGrid.v_loop self row l (v, pos, cb)
    = Ok (fold_left
            (fun acc ax =>
               interleave_step (SizeFixed (Grid._vert_pad_size (ImageGrid.base self)))
                 (axes_cell_y ax0 ax) acc)
            l (v, pos), cb).
Proof.
  intros E0 H1 H2. induction l as [| ax l IH]; intros row v pos cb; [reflexivity |].
  cbn [ImageGrid.v_loop fold_left]. unfold ImageGrid.v_step. rewrite E0.
  rewrite !cbar_here_plain by assumption.
  rewrite IH. unfold interleave_step, axes_cell_y. destruct ax; reflexivity.
Qed.

Lemma single_before_other (self : ImageGrid.t) (w : World) :
  ImageGrid._colorbar_mode self <> Some "single"%string ->
  ImageGrid.single_before self w = (Ok ([], []), w).
Proof.
  intros H. unfold ImageGrid.single_before.
  rewrite (opt_str_eq_false _ _ H). reflexivity.
Qed.

Lemma after_loops_plain (self : ImageGrid.t) (h v h' v' : list Size) (w w' : World) :
  no_colorbar_mode (ImageGrid._colorbar_mode self) ->
  ImageGrid.after_loops self h v w = (Ok (h', v'), w') ->
  h' = h /\ v' = v.
Proof.
  intros (H1 & H2 & H3). unfold ImageGrid.after_loops.
  rewrite (opt_str_eq_false _ _ H1), (opt_str_eq_false _ _ H2), (opt_str_eq_false _ _ H3).
  intros H. run_bind H. run_ret H. injection E as <- <-. auto.
Qed.

Lemma ImageGrid_init_sizes (host : Host) (rect : RectArg) (nrows ncols : Z)
    (ngrids : option Z) (direction : string) (axes_pad : PadArg)
    (add_all share_all aspect : bool) (label_mode : string)
    (cbar_mode : option string) (cbar_location : string)
    (cbar_pad : option SizeSpec) (cbar_size : SizeSpec) (cbar_set_cax : bool)
    (w w' : World) (g : ImageGrid.t) :
  no_colorbar_mode cbar_mode ->
  ImageGrid.__init__ host rect (nrows, ncols) ngrids direction axes_pad add_all
    share_all aspect label_mode cbar_mode cbar_location cbar_pad cbar_size
    cbar_set_cax w = (Ok g, w') ->
  exists ax0 row0 col0,
    py_index (Grid.axes_all (ImageGrid.base g)) 0 = Ok ax0
    /\ py_index (Grid.axes_row (ImageGrid.base g)) 0 = Ok row0
    /\ py_index (Grid.axes_column (ImageGrid.base g)) 0 = Ok col0
    /\ length row0 = Z.to_nat ncols /\ length col0 = Z.to_nat nrows
    /\ interleaved (SizeFixed (Grid._horiz_pad_size (ImageGrid.base g)))
         (axes_cell_x ax0 <$> row0)
         (div_horizontal (Grid._divider (ImageGrid.base g)))
    /\ interleaved (SizeFixed (Grid._vert_pad_size (ImageGrid.base g)))
         (axes_cell_y ax0 <$> rev col0)
         (div_vertical (Grid._divider (ImageGrid.base g))).
Proof.
  intros Hmode H. apply ImageGrid_init_ok in H.
  destruct H as (n & hp & vp & cpad & divider & arr0 & arr & c0 & llc & cbars
                 & w1 & w2 & w3 & w4 & w5 & w6
                 & Hrange & Hn & _ & _ & _ & _ & Hfull & Hfill & Hc0 & Hllc & _
                 & Hloc & _).
  destruct (before_locators_built _ _ _ _ _ _ _ _ _ _ _ _ _ _ _ _ _ _
              Hrange Hn Hfull Hfill Hc0 Hllc) as (Hb & _).
  set (g0 := Grid_before_locators nrows ncols n hp vp direction divider arr llc) in *.
  destruct (axes_built_first _ _ _ Hb) as (ax0 & row0 & col0 & E0 & Er & Ec & Hrow0 & Hcol0).
  apply ImageGrid_update_locators_ok in Hloc.
  destruct Hloc as (h0 & v0 & row0' & col0' & h & hpos & hcb & v & vpos & vcb & h' & v'
                    & wa & wb & Hsb & Er' & Hh & Ec' & Hv & _ & Hafter & ->).
  cbn [ImageGrid.base ImageGrid._colorbar_mode] in *.
  destruct Hmode as (M1 & M2 & M3).
  rewrite single_before_other in Hsb by exact M3. injection Hsb as <- <- <-.
  rewrite Er in Er'. injection Er' as <-. rewrite Ec in Ec'. injection Ec' as <-.
  rewrite (h_loop_plain _ ax0) in Hh by assumption.
  rewrite (v_loop_plain _ ax0) in Hv by assumption.
  apply after_loops_plain in Hafter; [| repeat split; assumption].
  destruct Hafter as [-> ->].
  cbn [ImageGrid.base Grid._horiz_pad_size Grid._vert_pad_size] in Hh, Hv.
  rewrite (fold_left_fmap_step (axes_cell_x ax0) (interleave_step (SizeFixed hp))) in Hh.
  rewrite (fold_left_fmap_step (axes_cell_y ax0) (interleave_step (SizeFixed vp))) in Hv.
  destruct (interleave_fold (SizeFixed hp) (axes_cell_x ax0 <$> row0)) as (hh & Fh & Ih).
  destruct (interleave_fold (SizeFixed vp) (axes_cell_y ax0 <$> rev col0)) as (vv & Fv & Iv).
  rewrite Fh in Hh. rewrite Fv in Hv. injection Hh as <- _ _. injection Hv as <- _ _.
  exists ax0, row0, col0. cbn.
  repeat split; try assumption; try apply Ih; try apply Iv.
  - rewrite Hrow0, length_fmap, range_length. reflexivity.
  - rewrite Hcol0, length_fmap, range_length. reflexivity.
Qed.

(** C3, as stated, fails for [ImageGrid]: its cells are not [Scaled(1)]
    but [AxesX]/[AxesY] terms of the axes. *)
Lemma C3_image_grid_cells_are_not_scaled :
  exists g w',
    ImageGrid.__init__ plain_host (RectSeq [0; 0; 1; 1]%Q) (1, 2) None "row"
      (PadScalar (1 # 50)) true false true "L" None "right" None
      (SpecString "5%") true empty_world = (Ok g, w')
    /\ ~ interleaved (SizeFixed (Grid._horiz_pad_size (ImageGrid.base g)))
           (replicate 2 (SizeScaled 1))
           (div_horizontal (Grid._divider (ImageGrid.base g))).
Proof.
  eexists _, _. split; [vm_compute; reflexivity |].
  intros (_ & Hcell & _). specialize (Hcell 0%nat (SizeScaled 1) eq_refl).
  discriminate Hcell.
Qed.

(** C3, amended: the construction pass of [Grid] builds the horizontal
    sequence by interleaving one [Scaled(1)] cell per column with the
    horizontal [Fixed] padding object between consecutive cells, none
    leading or trailing ([2*ncols-1] entries, cells at the even positions,
    the padding at the odd ones), and the vertical sequence likewise with
    one cell per row.  [ImageGrid] without a colorbar mode interleaves in
    the same way, but its cells are the [AxesX] terms of the first row and
    the [AxesY] terms of the first column taken bottom-up. *)
Theorem C3_size_sequences_interleave_cells_and_padding :
  (forall (host : Host) (rect : RectArg) (nrows ncols : Z) (ngrids : option Z)
          (direction : string) (axes_pad : PadArg)
          (add_all share_all share_x share_y : bool) (label_mode : string)
          (w w' : World) (g : Grid.t),
     Grid.__init__ host rect (nrows, ncols) ngrids direction axes_pad add_all
       share_all share_x share_y label_mode w = (Ok g, w') ->
     interleaved (SizeFixed (Grid._horiz_pad_size g))
       (replicate (Z.to_nat ncols) (SizeScaled 1))
       (div_horizontal (Grid._divider g))
     /\ interleaved (SizeFixed (Grid._vert_pad_size g))
          (replicate (Z.to_nat nrows) (SizeScaled 1))
          (div_vertical (Grid._divider g)))
  /\ (forall (host : Host) (rect : RectArg) (nrows ncols : Z) (ngrids : option Z)
             (direction : string) (axes_pad : PadArg)
             (add_all share_all aspect : bool) (label_mode : string)
             (cbar_mode : option string) (cbar_location : string)
             (cbar_pad : option SizeSpec) (cbar_size : SizeSpec)
             (cbar_set_cax : bool) (w w' : World) (g : ImageGrid.t),
        no_colorbar_mode cbar_mode ->
        ImageGrid.__init__ host rect (nrows, ncols) ngrids direction axes_pad add_all
          share_all aspect label_mode cbar_mode cbar_location cbar_pad cbar_size
          cbar_set_cax w = (Ok g, w') ->
        exists ax0 row0 col0,
          py_index (Grid.axes_all (ImageGrid.base g)) 0 = Ok ax0
          /\ py_index (Grid.axes_row (ImageGrid.base g)) 0 = Ok row0
          /\ py_index (Grid.axes_column (ImageGrid.base g)) 0 = Ok col0
          /\ length row0 = Z.to_nat ncols /\ length col0 = Z.to_nat nrows
          /\ interleaved (SizeFixed (Grid._horiz_pad_size (ImageGrid.base g)))
               (axes_cell_x ax0 <$> row0)
               (div_horizontal (Grid._divider (ImageGrid.base g)))
          /\ interleaved (SizeFixed (Grid._vert_pad_size (ImageGrid.base g)))
               (axes_cell_y ax0 <$> rev col0)
               (div_vertical (Grid._divider (ImageGrid.base g)))).
Proof.
  split.
  - intros. eapply Grid_init_sizes; eassumption.
  - intros. eapply ImageGrid_init_sizes; eassumption.
Qed.

Lemma C3_size_sequences_witness :
  (exists g w',
     Grid.__init__ plain_host (RectSeq [0; 0; 1; 1]%Q) (2, 3) None "row"
       (PadScalar (1 # 50)) true false true true "L" empty_world = (Ok g, w')
     /\ interleaved (SizeFixed (Grid._horiz_pad_size g)) (replicate 3 (SizeScaled 1))
          (div_horizontal (Grid._divider g)))
  /\ (exists g w',
        ImageGrid.__init__ plain_host (RectSeq [0; 0; 1; 1]%Q) (1, 2) None "row"
          (PadScalar (1 # 50)) true false true "L" None "right" None
          (SpecString "5%") true empty_world = (Ok g, w')
        /\ div_horizontal (Grid._divider (ImageGrid.base g)) !! 1%nat
           = Some (SizeFixed (Grid._horiz_pad_size (ImageGrid.base g)))).
Proof.
  split.
  - eexists _, _. split; [vm_compute; reflexivity |].
    refine (proj1 (proj1 C3_size_sequences_interleave_cells_and_padding
                     plain_host (RectSeq [0; 0; 1; 1]%Q) 2 3 None "row"%string
                     (PadScalar (1 # 50)) true false true true "L"%string
                     empty_world _ _ _)).
    vm_compute. reflexivity.
  - eexists _, _. split; [vm_compute; reflexivity |].
    assert (Hmode : no_colorbar_mode None) by (repeat split; discriminate).
    destruct (proj2 C3_size_sequences_interleave_cells_and_padding
                plain_host (RectSeq [0; 0; 1; 1]%Q) 1 2 None "row"%string
                (PadScalar (1 # 50)) true false true "L"%string None "right"%string
                None (SpecString "5%") true empty_world _ _ Hmode
                ltac:(vm_compute; reflexivity))
      as (ax0 & row0 & col0 & _ & _ & _ & _ & _ & (_ & _ & Hpad) & _).
    reflexivity.
Defined.

(** ** Frames of the methods *)

Ltac keeps_step :=
  lazy beta;
  lazymatch goal with
  | |- keeps _ (bind _ _) => apply keeps_bind; [| intros ?]
  | |- keeps _ (ret _) => apply keeps_ret
  | |- keeps _ (raise _) => apply keeps_raise
  | |- keeps _ (lift _) => apply keeps_lift
  | |- keeps _ (mfor _ _) => apply keeps_mfor; intros ? _
  | |- keeps _ (if ?b then _ else _) => destruct b
  | |- keeps _ (match ?x with _ => _ end) => destruct x
  end.

Ltac keeps_setters :=
  unfold ImageGrid.show_single; unfold ImageGrid.cbar_at, ImageGrid.set_cax;
  unfold _tick_only; unfold toggle_bottom, toggle_left, set_axes_locator,
    set_visible, set_position.

Lemma keeps_fixed_set_label_mode (g : Grid.t) (mode : string) :
  keeps fixed_objs (Grid.set_label_mode g mode).
Proof.
  unfold Grid.set_label_mode. keeps_setters.
  repeat keeps_step; apply keeps_fixed_modify.
Qed.

Lemma keeps_fixed_grid_locators (g : Grid.t) :
  keeps fixed_objs (Grid._update_locators g).
Proof.
  unfold Grid._update_locators.
  destruct (Grid.cells (Grid._horiz_pad_size g) _) as [h hpos].
  destruct (Grid.cells (Grid._vert_pad_size g) _) as [v vpos].
  unfold Grid.locate. keeps_setters.
  repeat keeps_step; apply keeps_fixed_modify.
Qed.

Lemma keeps_fixed_add_all (host : Host) (l : list (option ref)) (b : bool) :
  keeps fixed_objs (if b then mfor l (add_axes host) else ret tt).
Proof. repeat keeps_step. apply keeps_fixed_add_axes. Qed.

Lemma keeps_objs_add_all (host : Host) (l : list (option ref)) (b : bool) :
  keeps axes_objs (if b then mfor l (add_axes host) else ret tt).
Proof. repeat keeps_step. apply keeps_objs_add_axes. Qed.

Lemma init_axes_pad_ok (axes_pad : PadArg) (hp vp : ref) (w w1 : World) :
  Grid._init_axes_pad axes_pad w = (Ok (hp, vp), w1) ->
  exists h0 v0,
    broadcast_to_2 axes_pad = Ok (h0, v0)
    /\ hp = length (fixed_objs w) /\ vp = S hp
    /\ w1 = mkWorld (fixed_objs w ++ [h0; v0]) (axes_objs w) (fig_axes w).
Proof.
  unfold Grid._init_axes_pad. intros H.
  run_bind H. run_lift H0. destruct a as [h0 v0].
  run_bind H. run_bind H. run_ret H.
  unfold new_fixed in H1, H0. cbn in H1, H0.
  injection H0 as Ha Hw0. injection H1 as Ha0 Hw2. injection E0 as Ehp Evp. subst.
  exists h0, v0. cbn. rewrite length_app. cbn. rewrite <- app_assoc.
  repeat split; try reflexivity; try assumption. lia.
Qed.

Lemma keeps_fixed_fill_slots (host : Host) (self : Grid.t) (sa sx sy : bool)
    (l : list Z) (a : ndarray) :
  keeps fixed_objs (Grid.fill_slots host self sa sx sy a l).
Proof.
  revert a. induction l as [| i l IH]; intros a; cbn [Grid.fill_slots].
  - apply keeps_ret.
  - apply keeps_bind; [| intros a'; apply IH].
    unfold Grid.fill_slot. repeat keeps_step; apply keeps_fixed_new_axes.
Qed.

(** The padding objects of a constructed [Grid]: two distinct [Size.Fixed]
    objects holding the broadcast [axes_pad]. *)
Lemma Grid_init_pads (host : Host) (rect : RectArg) (nrows ncols : Z)
    (ngrids : option Z) (direction : string) (axes_pad : PadArg)
    (add_all share_all share_x share_y : bool) (label_mode : string)
    (w w' : World) (g : Grid.t) :
  Grid.__init__ host rect (nrows, ncols) ngrids direction axes_pad add_all
    share_all share_x share_y label_mode w = (Ok g, w') ->
  exists h0 v0,
    broadcast_to_2 axes_pad = Ok (h0, v0)
    /\ Grid._horiz_pad_size g = length (fixed_objs w)
    /\ Grid._vert_pad_size g = S (length (fixed_objs w))
    /\ fixed_objs w' = fixed_objs w ++ [h0; v0].
Proof.
  intros H. apply Grid_init_ok in H.
  destruct H as (n & hp & vp & divider & arr0 & arr & col0 & llc & w1 & w2 & w3 & w4
                 & _ & _ & Hpad & _ & _ & _ & Hfill & _ & _ & Hloc & Hadd & Hlab).
  apply init_axes_pad_ok in Hpad. destruct Hpad as (h0 & v0 & Hb & -> & -> & ->).
  exists h0, v0. split; [exact Hb |].
  pose proof (keeps_fixed_set_label_mode _ _ _ _ _ Hlab) as F4.
  pose proof (keeps_fixed_add_all _ _ _ _ _ _ Hadd) as F3.
  pose proof (keeps_fixed_grid_locators _ _ _ _ Hloc) as F2.
  pose proof (keeps_fixed_fill_slots _ _ _ _ _ _ _ _ _ _ Hfill) as F1.
  apply Grid_update_locators_ok in Hloc.
  destruct Hloc as (h & hpos & v & vpos & _ & _ & _ & ->). cbn in *.
  repeat split. congruence.
Qed.

(** ** Setting and reading the padding *)

Lemma set_fixed_size_ok (p : ref) (v : Q) (w : World) :
  (p < length (fixed_objs w))%nat ->
  set_fixed_size p v w
  = (Ok tt, mkWorld (<[p := v]> (fixed_objs w)) (axes_objs w) (fig_axes w)).
Proof.
  intros Hp. unfold set_fixed_size.
  destruct (lookup_lt_is_Some_2 _ _ Hp) as [x ->]. reflexivity.
Qed.

Lemma set_axes_pad_ok (g : Grid.t) (h v : Q) (w : World) :
  (Grid._horiz_pad_size g < length (fixed_objs w))%nat ->
  (Grid._vert_pad_size g < length (fixed_objs w))%nat ->
  Grid.set_axes_pad g [h; v] w
  = (Ok tt, mkWorld (<[Grid._vert_pad_size g := v]>
                       (<[Grid._horiz_pad_size g := h]> (fixed_objs w)))
                    (axes_objs w) (fig_axes w)).
Proof.
  intros Hh Hv. unfold Grid.set_axes_pad.
  rewrite (bind_ok_l _ _ w w h) by reflexivity.
  rewrite (bind_ok_l _ _ _ _ tt (set_fixed_size_ok _ h w Hh)).
  rewrite (bind_ok_l _ _ _ _ v) by reflexivity.
  rewrite set_fixed_size_ok; [reflexivity |].
  cbn. rewrite length_insert. exact Hv.
Qed.

Lemma get_axes_pad_ok (g : Grid.t) (h v : Q) (w : World) :
  fixed_objs w !! Grid._horiz_pad_size g = Some h ->
  fixed_objs w !! Grid._vert_pad_size g = Some v ->
  Grid.get_axes_pad g w = (Ok (h, v), w).
Proof.
  intros Hh Hv. unfold Grid.get_axes_pad, bind, get_fixed_size, ret.
  rewrite Hh, Hv. reflexivity.
Qed.

Lemma interleaved_entries (pad : Size) (cs h : list Size) (s : Size) :
  interleaved pad cs h -> s ∈ h -> s = pad \/ s ∈ cs.
Proof.
  intros (Hlen & Hcell & Hpad) Hs.
  apply list_elem_of_lookup in Hs. destruct Hs as [j Hj].
  pose proof (lookup_lt_Some _ _ _ Hj) as Hlt. rewrite Hlen in Hlt.
  destruct (Nat.Even_or_Odd j) as [[k ->] | [k ->]].
  - right. destruct (lookup_lt_is_Some_2 cs k) as [c Hc]; [lia |].
    rewrite (Hcell _ _ Hc) in Hj. injection Hj as <-.
    apply list_elem_of_lookup. exists k. exact Hc.
  - left. rewrite Hpad in Hj by lia. injection Hj as <-. reflexivity.
Qed.

(** C5: the [Fixed] entries of the sequences of a constructed [Grid] are
    its two padding objects themselves, two distinct objects; so
    [set_axes_pad((h, v))] succeeds by assigning to them, touches nothing
    else, [get_axes_pad()] then returns [(h, v)], and the entries of the
    sequences, unchanged in number and order, now stand for [h] and [v]. *)
Theorem C5_padding_objects_are_shared_and_round_trip
    (host : Host) (rect : RectArg) (nrows ncols : Z) (ngrids : option Z)
    (direction : string) (axes_pad : PadArg)
    (add_all share_all share_x share_y : bool) (label_mode : string)
    (w w' : World) (g : Grid.t) (h v : Q) :
  Grid.__init__ host rect (nrows, ncols) ngrids direction axes_pad add_all
    share_all share_x share_y label_mode w = (Ok g, w') ->
  (forall k, (S k < Z.to_nat ncols)%nat ->
     div_horizontal (Grid._divider g) !! (2 * k + 1)%nat
     = Some (SizeFixed (Grid._horiz_pad_size g)))
  /\ (forall k, (S k < Z.to_nat nrows)%nat ->
        div_vertical (Grid._divider g) !! (2 * k + 1)%nat
        = Some (SizeFixed (Grid._vert_pad_size g)))
  /\ (forall p, SizeFixed p ∈ div_horizontal (Grid._divider g) ->
                p = Grid._horiz_pad_size g)
  /\ (forall p, SizeFixed p ∈ div_vertical (Grid._divider g) ->
                p = Grid._vert_pad_size g)
  /\ Grid._horiz_pad_size g <> Grid._vert_pad_size g
  /\ exists w'',
       Grid.set_axes_pad g [h; v] w' = (Ok tt, w'')
       /\ Grid.get_axes_pad g w'' = (Ok (h, v), w'')
       /\ axes_objs w'' = axes_objs w' /\ fig_axes w'' = fig_axes w'
       /\ length (div_horizontal (Grid._divider g)) = (2 * Z.to_nat ncols - 1)%nat
       /\ length (div_vertical (Grid._divider g)) = (2 * Z.to_nat nrows - 1)%nat
       /\ (forall p, SizeFixed p ∈ div_horizontal (Grid._divider g) ->
                     fixed_size_of w'' (SizeFixed p) = Some h)
       /\ (forall p, SizeFixed p ∈ div_vertical (Grid._divider g) ->
                     fixed_size_of w'' (SizeFixed p) = Some v).
Proof.
  intros H.
  destruct (Grid_init_sizes _ _ _ _ _ _ _ _ _ _ _ _ _ _ _ H) as (_ & _ & Ih & Iv).
  destruct (Grid_init_pads _ _ _ _ _ _ _ _ _ _ _ _ _ _ _ H)
    as (h0 & v0 & _ & Ehp & Evp & Efix).
  assert (Hh_only : forall p, SizeFixed p ∈ div_horizontal (Grid._divider g) ->
                              p = Grid._horiz_pad_size g).
  { intros p Hp. destruct (interleaved_entries _ _ _ _ Ih Hp) as [E | E].
    - injection E as ->. reflexivity.
    - apply elem_of_replicate in E. destruct E as [E _]. discriminate. }
  assert (Hv_only : forall p, SizeFixed p ∈ div_vertical (Grid._divider g) ->
                              p = Grid._vert_pad_size g).
  { intros p Hp. destruct (interleaved_entries _ _ _ _ Iv Hp) as [E | E].
    - injection E as ->. reflexivity.
    - apply elem_of_replicate in E. destruct E as [E _]. discriminate. }
  assert (Lh : (Grid._horiz_pad_size g < length (fixed_objs w'))%nat)
    by (rewrite Efix, length_app, Ehp; cbn; lia).
  assert (Lv : (Grid._vert_pad_size g < length (fixed_objs w'))%nat)
    by (rewrite Efix, length_app, Evp; cbn; lia).
  destruct Ih as (Hlh & _ & Hph). destruct Iv as (Hlv & _ & Hpv).
  rewrite length_replicate in Hlh, Hlv, Hph, Hpv.
  split; [exact Hph |]. split; [exact Hpv |].
  split; [exact Hh_only |]. split; [exact Hv_only |].
  split; [lia |].
  eexists. split; [apply set_axes_pad_ok; assumption |].
  assert (Gh : <[Grid._vert_pad_size g := v]>
                 (<[Grid._horiz_pad_size g := h]> (fixed_objs w'))
               !! Grid._horiz_pad_size g = Some h).
  { rewrite list_lookup_insert_ne by lia. apply list_lookup_insert_eq. exact Lh. }
  assert (Gv : <[Grid._vert_pad_size g := v]>
                 (<[Grid._horiz_pad_size g := h]> (fixed_objs w'))
               !! Grid._vert_pad_size g = Some v).
  { apply list_lookup_insert_eq. rewrite length_insert. exact Lv. }
  split; [apply get_axes_pad_ok; assumption |].
  split; [reflexivity |]. split; [reflexivity |].
  split; [exact Hlh |]. split; [exact Hlv |]. split.
  - intros p Hp. rewrite (Hh_only p Hp). exact Gh.
  - intros p Hp. rewrite (Hv_only p Hp). exact Gv.
Qed.

Lemma C5_padding_witness :
  exists g w' w'',
    Grid.__init__ plain_host (RectSeq [0; 0; 1; 1]%Q) (2, 3) None "row"
      (PadScalar (1 # 50)) true false true true "L" empty_world = (Ok g, w')
    /\ Grid.set_axes_pad g [1 # 10; 1 # 5]%Q w' = (Ok tt, w'')
    /\ Grid.get_axes_pad g w'' = (Ok (1 # 10, 1 # 5)%Q, w'')
    /\ div_horizontal (Grid._divider g) !! 1%nat = Some (SizeFixed (Grid._horiz_pad_size g)).
Proof.
  destruct (C5_padding_objects_are_shared_and_round_trip
              plain_host (RectSeq [0; 0; 1; 1]%Q) 2 3 None "row"%string
              (PadScalar (1 # 50)) true false true true "L"%string
              empty_world _ _ (1 # 10)%Q (1 # 5)%Q ltac:(vm_compute; reflexivity))
    as (Hph & _ & _ & _ & _ & w'' & Hset & Hget & _).
  eexists _, _, w''.
  split; [vm_compute; reflexivity |].
  split; [exact Hset |]. split; [exact Hget |].
  apply (Hph 0%nat). vm_compute. lia.
Defined.

(** ** Loops *)

(** In a loop that returns, every round returned. *)
Lemma mfor_ok_each {A} (l : list A) (body : A -> M unit) (w w' : World) :
  mfor l body w = (Ok tt, w') ->
  forall x, x ∈ l -> exists w1 w2, body x w1 = (Ok tt, w2).
Proof.
  revert w. induction l as [| y l IH]; intros w H x Hx.
  - inversion Hx.
  - cbn [mfor] in H. run_bind H. destruct a.
    apply elem_of_cons in Hx. destruct Hx as [-> | Hx]; [eauto | eapply IH; eauto].
Qed.

(** What each round of a loop establishes, and no other round undoes,
    holds when the loop returns. *)
Lemma mfor_establishes {A} (l : list A) (body : A -> M unit)
    (Q : A -> World -> Prop) :
  NoDup l ->
  (forall x w w', x ∈ l -> body x w = (Ok tt, w') -> Q x w') ->
  (forall x y w w', x ∈ l -> y ∈ l -> x <> y ->
                    body y w = (Ok tt, w') -> Q x w -> Q x w') ->
  forall w w', mfor l body w = (Ok tt, w') -> forall x, x ∈ l -> Q x w'.
Proof.
  intros Hnd Hest Hstab.
  assert (Hkeep : forall l' x w w',
             (forall y, y ∈ l' -> y ∈ l /\ x <> y) -> x ∈ l ->
             mfor l' body w = (Ok tt, w') -> Q x w -> Q x w').
  { induction l' as [| y l' IH]; intros x w w' Hl' Hx H HQ.
    - injection H as <-. exact HQ.
    - cbn [mfor] in H. run_bind H. destruct a.
      destruct (Hl' y) as [Hy Hne]; [left |].
      eapply IH; [| exact Hx | exact H |].
      + intros z Hz. apply Hl'. right. exact Hz.
      + eapply Hstab; eauto. }
  assert (Hgen : forall l', NoDup l' -> (forall y, y ∈ l' -> y ∈ l) ->
             forall w w', mfor l' body w = (Ok tt, w') -> forall x, x ∈ l' -> Q x w').
  { induction l' as [| y l' IH]; intros Hnd' Hsub w w' H x Hx.
    - inversion Hx.
    - cbn [mfor] in H. run_bind H. destruct a.
      apply NoDup_cons in Hnd'. destruct Hnd' as [Hy Hnd'].
      apply elem_of_cons in Hx. destruct Hx as [-> | Hx].
      + eapply Hkeep; [| apply Hsub; left | exact H |].
        * intros z Hz. split; [apply Hsub; right; exact Hz |].
          intros ->. contradiction.
        * eapply Hest; [apply Hsub; left | exact H0].
      + eapply IH; eauto. intros z Hz. apply Hsub. right. exact Hz. }
  intros w w' H x Hx. eapply Hgen; eauto.
Qed.

Lemma range_NoDup (n : Z) : NoDup (range n).
Proof. apply NoDup_seqZ. Qed.

(** A round of the locator loop of [Grid] that returns. *)
Lemma Grid_locate_ok (g : Grid.t) (h_ax_pos v_ax_pos : list Z) (i : Z) (w w' : World) :
  Grid.locate g h_ax_pos v_ax_pos i w = (Ok tt, w') ->
  exists col row x y ax a,
    Grid._get_col_row g i = Ok (col, row)
    /\ py_index h_ax_pos col = Ok x
    /\ py_index v_ax_pos (Grid._nrows g - 1 - row) = Ok y
    /\ py_index (Grid.axes_all g) i = Ok (Some ax)
    /\ axes_objs w !! ax = Some a
    /\ axes_objs w' = <[ax := with_locator (new_locator x y None None) a]> (axes_objs w).
Proof.
  unfold Grid.locate. intros H.
  run_bind H. run_lift H0. destruct a as [col row].
  run_bind H. run_lift H0. rename a into x.
  run_bind H. run_lift H0. rename a into y.
  run_bind H. run_lift H0. rename a into ax.
  apply modify_axes_ok in H. destruct H as (r & a & -> & Ha & Hw & _).
  exists col, row, x, y, r, a. repeat split; assumption.
Qed.

(** ** Constructed grids *)

Lemma Grid_init_built (host : Host) (rect : RectArg) (nrows ncols : Z)
    (ngrids : option Z) (direction : string) (axes_pad : PadArg)
    (add_all share_all share_x share_y : bool) (label_mode : string)
    (w w' : World) (g : Grid.t) :
  Grid.__init__ host rect (nrows, ncols) ngrids direction axes_pad add_all
    share_all share_x share_y label_mode w = (Ok g, w') ->
  exists arr w2 w3 w4,
    Grid._nrows g = nrows /\ Grid._ncols g = ncols
    /\ Grid._direction g = direction
    /\ Grid.ngrids g = default (nrows * ncols) ngrids
    /\ axes_built g arr w2
    /\ mfor (range (Grid.ngrids g))
         (Grid.locate g (even_positions (Z.to_nat ncols))
            (even_positions (Z.to_nat nrows))) w2 = (Ok tt, w3)
    /\ axes_objs w4 = axes_objs w3
    /\ Grid.set_label_mode g label_mode w4 = (Ok tt, w').
Proof.
  intros H. apply Grid_init_ok in H.
  destruct H as (n & hp & vp & divider & arr0 & arr & col0 & llc & w1 & w2 & w3 & w4
                 & Hrange & Hn & _ & _ & _ & Hfull & Hfill & Hc0 & Hllc & Hloc
                 & Hadd & Hlab).
  destruct (before_locators_built _ _ _ _ _ _ _ _ _ _ _ _ _ _ _ _ _ _
              Hrange Hn Hfull Hfill Hc0 Hllc) as (Hb & _).
  apply Grid_update_locators_ok in Hloc.
  destruct Hloc as (h & hpos & v & vpos & Hh & Hv & Hloop & ->).
  cbn [Grid_before_locators Grid.with_axes Grid._horiz_pad_size Grid._vert_pad_size
       Grid._ncols Grid._nrows Grid.ngrids] in Hh, Hv, Hloop.
  destruct (cells_spec hp ncols) as (h' & Eh & _).
  destruct (cells_spec vp nrows) as (v' & Ev & _).
  rewrite Eh in Hh. rewrite Ev in Hv. injection Hh as _ <-. injection Hv as _ <-.
  exists arr, w2, w3, w4.
  split; [reflexivity |]. split; [reflexivity |]. split; [reflexivity |].
  split; [exact Hn |].
  split; [apply axes_built_with_divider, Hb |].
  split; [exact Hloop |].
  split; [exact (keeps_objs_add_all _ _ _ _ _ _ Hadd) | exact Hlab].
Qed.

(** A cell of the grid is named by one pair only. *)
Lemma cell_offset_inj (n r c r' c' : Z) :
  0 <= c < n -> 0 <= c' < n -> r * n + c = r' * n + c' -> r = r' /\ c = c'.
Proof. intros Hc Hc' E. assert (r = r') by nia. subst r'. split; [reflexivity | lia]. Qed.

Section Built.

Variables (g : Grid.t) (arr : ndarray) (w : World).
Hypothesis built : axes_built g arr w.

Lemma slot_offset_cell (i col row : Z) :
  Grid._get_col_row g i = Ok (col, row) ->
  slot_offset g i = Z.to_nat (row * Grid._ncols g + col).
Proof. unfold slot_offset. intros ->. reflexivity. Qed.

(** A cell that no slot index fills holds [None]. *)
Lemma unfilled_cell_is_None (r c : Z) :
  0 <= r < Grid._nrows g -> 0 <= c < Grid._ncols g ->
  (forall i, 0 <= i < Grid.ngrids g -> Grid._get_col_row g i <> Ok (c, r)) ->
  Grid.axes_all g !! Z.to_nat (r * Grid._ncols g + c) = Some None.
Proof.
  intros Hr Hc Hfree.
  destruct (lookup_lt_is_Some_2 (Grid.axes_all g) (Z.to_nat (r * Grid._ncols g + c)))
    as [[x |] Hx]; [rewrite (built_length _ _ _ built); nia | | exact Hx].
  exfalso. destruct (built_filled _ _ _ built _ _ Hx) as (i & Hi & Ei).
  pose proof (built_rows _ _ _ built) as Hrows.
  pose proof (built_cols _ _ _ built) as Hcols.
  pose proof (built_ngrids _ _ _ built) as Hn.
  destruct (get_col_row_total g Hrows Hcols i) as (col & row & Ecr).
  destruct (get_col_row_in_grid g Hrows Hcols i col row ltac:(lia) Ecr) as [Hrow Hcol].
  rewrite (slot_offset_cell _ _ _ Ecr) in Ei.
  destruct (cell_offset_inj (Grid._ncols g) row col r c); [lia | lia | nia |].
  subst. exact (Hfree i Hi Ecr).
Qed.

(** When every slot index below [ngrids] holds an axes, none above does. *)
Lemma filled_prefix :
  (forall i, 0 <= i < Grid.ngrids g ->
             exists ax, Grid.axes_all g !! Z.to_nat i = Some (Some ax)) ->
  forall k r, Grid.axes_all g !! k = Some (Some r) -> Z.of_nat k < Grid.ngrids g.
Proof.
  intros Hall k r Hk.
  set (n := Z.to_nat (Grid.ngrids g)).
  assert (Hincl : incl (slot_offset g <$> range (Grid.ngrids g)) (seq 0 n)).
  { apply NoDup_length_incl.
    - apply NoDup_ListNoDup, NoDup_seq.
    - rewrite length_fmap, range_length, length_seq. reflexivity.
    - intros a Ha. apply in_seq in Ha.
      destruct (Hall (Z.of_nat a)) as [ax Hax]; [subst n; lia |].
      rewrite Nat2Z.id in Hax.
      destruct (built_filled _ _ _ built _ _ Hax) as (i & Hi & Ei).
      apply list_elem_of_In, list_elem_of_fmap. exists i.
      split; [symmetry; exact Ei | apply range_elem; lia]. }
  destruct (built_filled _ _ _ built _ _ Hk) as (i & Hi & Ei).
  assert (Hin : In k (seq 0 n)).
  { apply Hincl, list_elem_of_In, list_elem_of_fmap. exists i.
    split; [symmetry; exact Ei | apply range_elem; lia]. }
  apply in_seq in Hin. subst n. lia.
Qed.

Lemma beyond_fill_order_is_None :
  (forall i, 0 <= i < Grid.ngrids g ->
             exists ax, Grid.axes_all g !! Z.to_nat i = Some (Some ax)) ->
  forall i, Grid.ngrids g <= i < Grid._nrows g * Grid._ncols g ->
            Grid.__getitem__ g i = Ok None.
Proof.
  intros Hall i Hi. pose proof (built_ngrids _ _ _ built) as Hn.
  destruct (lookup_lt_is_Some_2 (Grid.axes_all g) (Z.to_nat i)) as [[x |] Hx].
  - rewrite (built_length _ _ _ built). lia.
  - apply (filled_prefix Hall) in Hx. lia.
  - unfold Grid.__getitem__. rewrite <- (Z2Nat.id i) by lia.
    apply py_index_lookup, Hx.
Qed.

End Built.

Lemma new_cbar_axes_ok (host : Host) (o : string) (l : list Z) :
  forall (w w' : World) (cs : list ref),
    ImageGrid.new_cbar_axes host o l w = (Ok cs, w') ->
    cs = seq (length (axes_objs w)) (length l)
    /\ axes_objs w' = axes_objs w ++ replicate (length l) (cbar_obj o)
    /\ fixed_objs w' = fixed_objs w /\ fig_axes w' = fig_axes w.
Proof.
  induction l as [| i l IH]; intros w w' cs H.
  - injection H as <- <-. cbn. rewrite app_nil_r. auto.
  - cbn [ImageGrid.new_cbar_axes] in H. run_bind H. run_bind H. run_ret H.
    apply new_cbar_axes_one_ok in H0. destruct H0 as (_ & -> & ->).
    apply IH in H1. cbn in H1.
    destruct H1 as (-> & -> & -> & ->). subst cs.
    rewrite length_app, <- app_assoc. cbn.
    replace (length (axes_objs w) + 1)%nat with (S (length (axes_objs w))) by lia.
    auto.
Qed.

(** ** Refused configurations *)

Lemma new_cbar_axes_side (host : Host) (o : string) (i : Z) (l : list Z)
    (w w' : World) (cs : list ref) :
  ImageGrid.new_cbar_axes host o (i :: l) w = (Ok cs, w') ->
  str_in o axis_keys = true.
Proof.
  cbn [ImageGrid.new_cbar_axes]. intros H. run_bind H.
  apply new_cbar_axes_one_ok in H0. apply H0.
Qed.

(** [ImageGrid.__init__] raises for a [cbar_location] that names no side:
    it cannot create its colorbar axes. *)
Lemma ImageGrid_init_refuses_location (host : Host) (rect : RectArg)
    (nrows_ncols : Z * Z) (ngrids : option Z) (direction : string)
    (axes_pad : PadArg) (add_all share_all aspect : bool) (label_mode : string)
    (cbar_mode : option string) (cbar_location : string)
    (cbar_pad : option SizeSpec) (cbar_size : SizeSpec) (cbar_set_cax : bool)
    (w : World) :
  str_in cbar_location axis_keys = false ->
  exists e w',
    ImageGrid.__init__ host rect nrows_ncols ngrids direction axes_pad add_all
      share_all aspect label_mode cbar_mode cbar_location cbar_pad cbar_size
      cbar_set_cax w = (Raise e, w').
Proof.
  intros Hbad. destruct nrows_ncols as [nrows ncols].
  destruct (ImageGrid.__init__ host rect (nrows, ncols) ngrids direction axes_pad
              add_all share_all aspect label_mode cbar_mode cbar_location cbar_pad
              cbar_size cbar_set_cax w) as [[g | e] w'] eqn:E; [| eauto].
  exfalso. apply ImageGrid_init_ok in E.
  destruct E as (n & hp & vp & cpad & divider & arr0 & arr & col0 & llc & cbars
                 & w1 & w2 & w3 & w4 & w5 & w6
                 & Hrange & Hn & _ & _ & _ & _ & Hfull & Hfill & Hcol0 & Hllc & Hcb & _).
  destruct (before_locators_built host nrows ncols n ngrids hp vp direction divider
              share_all true true arr0 arr col0 llc w1 w2
              Hrange Hn Hfull Hfill Hcol0 Hllc) as (Hb & _).
  pose proof (built_ngrids _ _ _ Hb) as Hpos. cbn in Hpos.
  unfold range in Hcb. rewrite (seqZ_cons 0 n) in Hcb by lia.
  apply new_cbar_axes_side in Hcb. congruence.
Qed.

(** C2, as stated, fails for [cbar_location]: [ImageGrid.__init__] stores
    it without a check, and a location that names no side is refused only
    by the constructor of the first colorbar axes, with a [KeyError], once
    the padding objects, the divider and the axes of the grid have been
    created. *)
Lemma C2_bad_cbar_location_is_refused_late :
  exists w',
    ImageGrid.__init__ plain_host (RectSeq [0; 0; 1; 1]%Q) (1, 2) None "row"
      (PadScalar (1 # 50)) true false true "L" None "middle" None
      (SpecString "5%") true empty_world = (Raise KeyError, w')
    /\ length (fixed_objs w') = 2%nat
    /\ length (axes_objs w') = 2%nat
    /\ ~ same_layout empty_world w'.
Proof.
  eexists. split; [vm_compute; reflexivity |].
  split; [reflexivity |]. split; [reflexivity |].
  intros [H _]. discriminate H.
Qed.

(** C2, amended: both constructors raise, before the divider or any axes
    exists, whenever [ngrids] is given and not in [(0, nrows*ncols]],
    whenever [direction] is neither "row" nor "column", and whenever [rect]
    is a sequence of a length other than 3 and 4; and [ImageGrid.__init__]
    raises whenever [cbar_location] is not one of the four sides, though
    that error can come after the axes of the grid exist. *)
Theorem C2_constructors_refuse_bad_configuration
    (host : Host) (rect : RectArg) (nrows_ncols : Z * Z)
    (ngrids : option Z) (direction : string) (axes_pad : PadArg)
    (add_all share_all share_x share_y aspect : bool) (label_mode : string)
    (cbar_mode : option string) (cbar_location : string)
    (cbar_pad : option SizeSpec) (cbar_size : SizeSpec) (cbar_set_cax : bool)
    (w : World) :
  (refused_config nrows_ncols ngrids direction rect ->
   (exists e w',
      Grid.__init__ host rect nrows_ncols ngrids direction axes_pad add_all
        share_all share_x share_y label_mode w = (Raise e, w')
      /\ same_layout w w')
   /\ (exists e w',
         ImageGrid.__init__ host rect nrows_ncols ngrids direction axes_pad add_all
           share_all aspect label_mode cbar_mode cbar_location cbar_pad cbar_size
           cbar_set_cax w = (Raise e, w')
         /\ same_layout w w'))
  /\ (str_in cbar_location ["left"; "right"; "top"; "bottom"]%string = false ->
      exists e w',
        ImageGrid.__init__ host rect nrows_ncols ngrids direction axes_pad add_all
          share_all aspect label_mode cbar_mode cbar_location cbar_pad cbar_size
          cbar_set_cax w = (Raise e, w')).
Proof.
  split.
  - intros Hbad. split.
    + apply Grid_init_refuses, Hbad.
    + apply ImageGrid_init_refuses, Hbad.
  - intros Hbad. apply ImageGrid_init_refuses_location.
    unfold str_in, axis_keys in *. cbn [existsb] in *.
    destruct (String.eqb cbar_location "left"); [discriminate |].
    destruct (String.eqb cbar_location "right"); [discriminate |].
    destruct (String.eqb cbar_location "top"); [discriminate |].
    destruct (String.eqb cbar_location "bottom"); [discriminate | reflexivity].
Qed.

Lemma C2_constructors_refuse_witness :
  ((exists e w',
      Grid.__init__ plain_host (RectSeq [0; 0; 1]%Q) (2, 2) (Some 5) "diagonal"
        (PadScalar (1 # 50)) true false true true "L" empty_world = (Raise e, w')
      /\ same_layout empty_world w')
   /\ (exists e w',
         ImageGrid.__init__ plain_host (RectSeq [0; 0; 1]%Q) (2, 2) (Some 5) "diagonal"
           (PadScalar (1 # 50)) true false true "L" None "middle" None
           (SpecString "5%") true empty_world = (Raise e, w')
         /\ same_layout empty_world w'))
  /\ (exists e w',
        ImageGrid.__init__ plain_host (RectSeq [0; 0; 1]%Q) (2, 2) (Some 5) "diagonal"
          (PadScalar (1 # 50)) true false true "L" None "middle" None
          (SpecString "5%") true empty_world = (Raise e, w')).
Proof.
  destruct (C2_constructors_refuse_bad_configuration plain_host (RectSeq [0; 0; 1]%Q)
              (2, 2) (Some 5) "diagonal"%string (PadScalar (1 # 50)) true false true
              true true "L"%string None "middle"%string None (SpecString "5%") true
              empty_world) as [H1 H2].
  split.
  - apply H1. left. exists 5. split; [reflexivity | simpl; lia].
  - apply H2. reflexivity.
Defined.

Lemma h_loop_ext (s s' : ImageGrid.t) :
  (forall col ax acc, ImageGrid.h_step s col ax acc = ImageGrid.h_step s' col ax acc) ->
  forall l col acc, ImageGrid.h_loop s col l acc = ImageGrid.h_loop s' col l acc.
Proof.
  intros Hstep. induction l as [| ax l IH]; intros col acc; [reflexivity |].
  cbn [ImageGrid.h_loop]. rewrite Hstep.
  destruct (ImageGrid.h_step s' col ax acc); [apply IH | reflexivity].
Qed.

Lemma v_loop_ext (s s' : ImageGrid.t) :
  (forall row ax acc, ImageGrid.v_step s row ax acc = ImageGrid.v_step s' row ax acc) ->
  forall l row acc, ImageGrid.v_loop s row l acc = ImageGrid.v_loop s' row l acc.
Proof.
  intros Hstep. induction l as [| ax l IH]; intros row acc; [reflexivity |].
  cbn [ImageGrid.v_loop]. rewrite Hstep.
  destruct (ImageGrid.v_step s' row ax acc); [apply IH | reflexivity].
Qed.

Lemma ImageGrid_init_built (host : Host) (rect : RectArg) (nrows ncols : Z)
    (ngrids : option Z) (direction : string) (axes_pad : PadArg)
    (add_all share_all aspect : bool) (label_mode : string)
    (cbar_mode : option string) (cbar_location : string)
    (cbar_pad : option SizeSpec) (cbar_size : SizeSpec) (cbar_set_cax : bool)
    (w w' : World) (g : ImageGrid.t) :
  ImageGrid.__init__ host rect (nrows, ncols) ngrids direction axes_pad add_all
    share_all aspect label_mode cbar_mode cbar_location cbar_pad cbar_size
    cbar_set_cax w = (Ok g, w') ->
  exists arr w2 w3 wa wb w4 w5 w6 h0 v0 row0 col0 h h_ax_pos h_cb_pos v v_ax_pos v_cb_pos,
    (Grid._nrows (ImageGrid.base g) = nrows /\ Grid._ncols (ImageGrid.base g) = ncols
     /\ Grid._direction (ImageGrid.base g) = direction
     /\ Grid.ngrids (ImageGrid.base g) = default (nrows * ncols) ngrids
     /\ ImageGrid._colorbar_mode g = cbar_mode
     /\ ImageGrid._colorbar_location g = cbar_location
     /\ ImageGrid._colorbar_size g = cbar_size)
    /\ axes_built (ImageGrid.base g) arr w2
    /\ ImageGrid.new_cbar_axes host cbar_location (range (Grid.ngrids (ImageGrid.base g))) w2
       = (Ok (ImageGrid.cbar_axes g), w3)
    /\ ImageGrid.single_before g w3 = (Ok (h0, v0), wa)
    /\ py_index (Grid.axes_row (ImageGrid.base g)) 0 = Ok row0
    /\ ImageGrid.h_loop g 0 row0 (h0, [], []) = Ok (h, h_ax_pos, h_cb_pos)
    /\ py_index (Grid.axes_column (ImageGrid.base g)) 0 = Ok col0
    /\ ImageGrid.v_loop g 0 (rev col0) (v0, [], []) = Ok (v, v_ax_pos, v_cb_pos)
    /\ mfor (range (Grid.ngrids (ImageGrid.base g)))
         (ImageGrid.locate g h_ax_pos h_cb_pos v_ax_pos v_cb_pos) wa = (Ok tt, wb)
    /\ ImageGrid.after_loops g h v wb
       = (Ok (div_horizontal (Grid._divider (ImageGrid.base g)),
              div_vertical (Grid._divider (ImageGrid.base g))), w4)
    /\ (if add_all then
          mfor (Grid.axes_all (ImageGrid.base g) ++ (Some <$> ImageGrid.cbar_axes g))
            (add_axes host)
        else ret tt) w4 = (Ok tt, w5)
    /\ (if cbar_set_cax then ImageGrid.bind_cax g else ret tt) w5 = (Ok tt, w6)
    /\ Grid.set_label_mode (ImageGrid.base g) label_mode w6 = (Ok tt, w').
Proof.
  intros H. apply ImageGrid_init_ok in H.
  destruct H as (n & hp & vp & cpad & divider & arr0 & arr & c0 & llc & cbars
                 & w1 & w2 & w3 & w4 & w5 & w6
                 & Hrange & Hn & _ & _ & _ & _ & Hfull & Hfill & Hc0 & Hllc & Hcb
                 & Hloc & Hadd & Hcax & Hlab).
  destruct (before_locators_built _ _ _ _ _ _ _ _ _ _ _ _ _ _ _ _ _ _
              Hrange Hn Hfull Hfill Hc0 Hllc) as (Hb & _).
  apply ImageGrid_update_locators_ok in Hloc.
  destruct Hloc as (h0 & v0 & row0 & col0 & h & hpos & hcb & v & vpos & vcb & h' & v'
                    & wa & wb & Hsb & Er & Hh & Ec & Hv & Hloop & Hafter & ->).
  exists arr, w2, w3, wa, wb, w4, w5, w6, h0, v0, row0, col0, h, hpos, hcb, v, vpos, vcb.
  split; [repeat split; try reflexivity; exact Hn |].
  split; [apply axes_built_with_divider, Hb |].
  split; [exact Hcb |]. split; [exact Hsb |]. split; [exact Er |].
  split; [rewrite <- Hh; apply h_loop_ext; reflexivity |].
  split; [exact Ec |].
  split; [rewrite <- Hv; apply v_loop_ext; reflexivity |].
  split; [exact Hloop |]. split; [exact Hafter |].
  split; [exact Hadd |]. split; [exact Hcax | exact Hlab].
Qed.

(** A round of the locator loop of [ImageGrid] that returns. *)
Lemma ImageGrid_locate_ok (g : ImageGrid.t)
    (h_ax_pos h_cb_pos v_ax_pos v_cb_pos : list Z) (i : Z) (w w' : World) :
  ImageGrid.locate g h_ax_pos h_cb_pos v_ax_pos v_cb_pos i w = (Ok tt, w') ->
  exists col row x y ax a w1,
    Grid._get_col_row (ImageGrid.base g) i = Ok (col, row)
    /\ py_index h_ax_pos col = Ok x
    /\ py_index v_ax_pos (Grid._nrows (ImageGrid.base g) - 1 - row) = Ok y
    /\ py_index (Grid.axes_all (ImageGrid.base g)) i = Ok (Some ax)
    /\ axes_objs w !! ax = Some a
    /\ axes_objs w1 = <[ax := with_locator (new_locator x y None None) a]> (axes_objs w)
    /\ the_object ax w1 = Some (with_locator (new_locator x y None None) a)
    /\ ImageGrid.locate_cbar g h_ax_pos h_cb_pos v_ax_pos v_cb_pos i col row
         (new_locator x y None None) w1 = (Ok tt, w').
Proof.
  unfold ImageGrid.locate. intros H.
  run_bind H. run_lift H0. destruct a as [col row].
  run_bind H. run_lift H0. rename a into x.
  run_bind H. run_lift H0. rename a into y.
  run_bind H. run_lift H0. rename a into ax.
  run_bind H. destruct a.
  apply modify_axes_ok in H0. destruct H0 as (r & a & -> & Ha & Hw & Hobj).
  exists col, row, x, y, r, a, w0. repeat split; assumption.
Qed.

Lemma Grid_all_located (g : Grid.t) (h_ax_pos v_ax_pos : list Z) (w w' : World) :
  mfor (range (Grid.ngrids g)) (Grid.locate g h_ax_pos v_ax_pos) w = (Ok tt, w') ->
  forall i, 0 <= i < Grid.ngrids g ->
            exists ax, Grid.axes_all g !! Z.to_nat i = Some (Some ax).
Proof.
  intros H i Hi.
  destruct (mfor_ok_each _ _ _ _ H i) as (w1 & w2 & Hbody); [apply range_elem, Hi |].
  apply Grid_locate_ok in Hbody.
  destruct Hbody as (col & row & x & y & ax & a & _ & _ & _ & Hax & _).
  apply py_index_nonneg in Hax; [| lia]. exists ax. apply Hax.
Qed.

Lemma ImageGrid_all_located (g : ImageGrid.t) (hp hc vp vc : list Z) (w w' : World) :
  mfor (range (Grid.ngrids (ImageGrid.base g))) (ImageGrid.locate g hp hc vp vc) w
  = (Ok tt, w') ->
  forall i, 0 <= i < Grid.ngrids (ImageGrid.base g) ->
            exists ax, Grid.axes_all (ImageGrid.base g) !! Z.to_nat i = Some (Some ax).
Proof.
  intros H i Hi.
  destruct (mfor_ok_each _ _ _ _ H i) as (w1 & w2 & Hbody); [apply range_elem, Hi |].
  apply ImageGrid_locate_ok in Hbody.
  destruct Hbody as (col & row & x & y & ax & a & w3 & _ & _ & _ & Hax & _).
  apply py_index_nonneg in Hax; [| lia]. exists ax. apply Hax.
Qed.

(** What the sequence interface of a built grid shows. *)
Lemma built_sequence (g : Grid.t) (arr : ndarray) (w : World) :
  axes_built g arr w ->
  (forall i, 0 <= i < Grid.ngrids g ->
             exists ax, Grid.axes_all g !! Z.to_nat i = Some (Some ax)) ->
  Grid.__len__ g = Grid._nrows g * Grid._ncols g
  /\ (forall i, Grid.ngrids g <= i < Grid._nrows g * Grid._ncols g ->
                Grid.__getitem__ g i = Ok None)
  /\ (forall r c, 0 <= r < Grid._nrows g -> 0 <= c < Grid._ncols g ->
        (forall i, 0 <= i < Grid.ngrids g -> Grid._get_col_row g i <> Ok (c, r)) ->
        Grid.__getitem__ g (r * Grid._ncols g + c) = Ok None).
Proof.
  intros Hb Hall.
  pose proof (built_rows _ _ _ Hb) as Hr. pose proof (built_cols _ _ _ Hb) as Hc.
  split; [| split].
  - unfold Grid.__len__. rewrite (built_length _ _ _ Hb). nia.
  - apply (beyond_fill_order_is_None g arr w Hb Hall).
  - intros r c Hr' Hc' Hfree. unfold Grid.__getitem__.
    rewrite <- (Z2Nat.id (r * Grid._ncols g + c)) by nia.
    apply py_index_lookup, (unfilled_cell_is_None g arr w Hb); assumption.
Qed.

(** C9: a constructed [Grid] or [ImageGrid] has length [nrows*ncols]
    whatever [ngrids] is, and indexing it gives [None] at every index from
    [ngrids] on, and at the position of every cell that no slot index
    fills. *)
Theorem C9_sequence_has_all_cells_and_None_when_unfilled :
  (forall (host : Host) (rect : RectArg) (nrows ncols : Z) (ngrids : option Z)
          (direction : string) (axes_pad : PadArg)
          (add_all share_all share_x share_y : bool) (label_mode : string)
          (w w' : World) (g : Grid.t),
     Grid.__init__ host rect (nrows, ncols) ngrids direction axes_pad add_all
       share_all share_x share_y label_mode w = (Ok g, w') ->
     Grid.ngrids g < nrows * ncols ->
     Grid.__len__ g = nrows * ncols
     /\ (forall i, Grid.ngrids g <= i < nrows * ncols -> Grid.__getitem__ g i = Ok None)
     /\ (forall r c, 0 <= r < nrows -> 0 <= c < ncols ->
           (forall i, 0 <= i < Grid.ngrids g -> Grid._get_col_row g i <> Ok (c, r)) ->
           Grid.__getitem__ g (r * ncols + c) = Ok None))
  /\ (forall (host : Host) (rect : RectArg) (nrows ncols : Z) (ngrids : option Z)
             (direction : string) (axes_pad : PadArg)
             (add_all share_all aspect : bool) (label_mode : string)
             (cbar_mode : option string) (cbar_location : string)
             (cbar_pad : option SizeSpec) (cbar_size : SizeSpec)
             (cbar_set_cax : bool) (w w' : World) (g : ImageGrid.t),
        ImageGrid.__init__ host rect (nrows, ncols) ngrids direction axes_pad add_all
          share_all aspect label_mode cbar_mode cbar_location cbar_pad cbar_size
          cbar_set_cax w = (Ok g, w') ->
        Grid.ngrids (ImageGrid.base g) < nrows * ncols ->
        Grid.__len__ (ImageGrid.base g) = nrows * ncols
        /\ (forall i, Grid.ngrids (ImageGrid.base g) <= i < nrows * ncols ->
                      Grid.__getitem__ (ImageGrid.base g) i = Ok None)
        /\ (forall r c, 0 <= r < nrows -> 0 <= c < ncols ->
              (forall i, 0 <= i < Grid.ngrids (ImageGrid.base g) ->
                         Grid._get_col_row (ImageGrid.base g) i <> Ok (c, r)) ->
              Grid.__getitem__ (ImageGrid.base g) (r * ncols + c) = Ok None)).
Proof.
  split.
  - intros until g. intros H _. apply Grid_init_built in H.
    destruct H as (arr & w2 & w3 & w4 & <- & <- & _ & _ & Hb & Hloop & _).
    apply (built_sequence g arr w2 Hb). eapply Grid_all_located, Hloop.
  - intros until g. intros H _. apply ImageGrid_init_built in H.
    destruct H as (arr & w2 & w3 & wa & wb & w4 & w5 & w6 & h0 & v0 & row0 & col0
                   & h & hp & hc & v & vp & vc
                   & (<- & <- & _) & Hb & _ & _ & _ & _ & _ & _ & Hloop & _).
    apply (built_sequence _ arr w2 Hb). eapply ImageGrid_all_located, Hloop.
Qed.

Lemma C9_sequence_witness :
  exists g w',
    Grid.__init__ plain_host (RectSeq [0; 0; 1; 1]%Q) (2, 3) (Some 4) "row"
      (PadScalar (1 # 50)) false false true true "none" empty_world = (Ok g, w')
    /\ Grid.__len__ g = 6
    /\ Grid.__getitem__ g 3 = Ok (Some 3%nat)
    /\ Grid.__getitem__ g 4 = Ok None
    /\ Grid.__getitem__ g 5 = Ok None.
Proof.
  eexists _, _. split; [vm_compute; reflexivity |].
  destruct (proj1 C9_sequence_has_all_cells_and_None_when_unfilled
              plain_host (RectSeq [0; 0; 1; 1]%Q) 2 3 (Some 4) "row"%string
              (PadScalar (1 # 50)) false false true true "none"%string
              empty_world _ _ ltac:(vm_compute; reflexivity) ltac:(vm_compute; reflexivity))
    as (Hlen & Hnone & _).
  split; [exact Hlen |]. split; [reflexivity |].
  split; apply Hnone; cbn; lia.
Defined.

(** ** Frames of [ImageGrid] *)

Ltac keeps_image_grid :=
  unfold ImageGrid._update_locators, ImageGrid.single_before, ImageGrid.locate,
    ImageGrid.locate_cbar, ImageGrid.after_loops, ImageGrid.bind_cax;
  keeps_setters; repeat keeps_step.

Lemma keeps_fixed_image_locators (g : ImageGrid.t) :
  keeps fixed_objs (ImageGrid._update_locators g).
Proof. keeps_image_grid; apply keeps_fixed_modify. Qed.

Lemma keeps_fixed_bind_cax (g : ImageGrid.t) (b : bool) :
  keeps fixed_objs (if b then ImageGrid.bind_cax g else ret tt).
Proof. keeps_image_grid; apply keeps_fixed_modify. Qed.

Lemma ImageGrid_init_pads (host : Host) (rect : RectArg) (nrows ncols : Z)
    (ngrids : option Z) (direction : string) (axes_pad : PadArg)
    (add_all share_all aspect : bool) (label_mode : string)
    (cbar_mode : option string) (cbar_location : string)
    (cbar_pad : option SizeSpec) (cbar_size : SizeSpec) (cbar_set_cax : bool)
    (w w' : World) (g : ImageGrid.t) :
  ImageGrid.__init__ host rect (nrows, ncols) ngrids direction axes_pad add_all
    share_all aspect label_mode cbar_mode cbar_location cbar_pad cbar_size
    cbar_set_cax w = (Ok g, w') ->
  exists h0 v0,
    broadcast_to_2 axes_pad = Ok (h0, v0)
    /\ Grid._horiz_pad_size (ImageGrid.base g) = length (fixed_objs w)
    /\ Grid._vert_pad_size (ImageGrid.base g) = S (length (fixed_objs w))
    /\ fixed_objs w' = fixed_objs w ++ [h0; v0]
    /\ ImageGrid._colorbar_pad g
       = match cbar_pad with
         | None => SpecNumber (if str_in cbar_location ["left"; "right"]%string
                               then h0 else v0)
         | Some p => p
         end.
Proof.
  intros H. apply ImageGrid_init_ok in H.
  destruct H as (n & hp & vp & cpad & divider & arr0 & arr & c0 & llc & cbars
                 & w1 & w2 & w3 & w4 & w5 & w6
                 & _ & _ & Hpad & Hcpad & _ & _ & _ & Hfill & _ & _ & Hcb
                 & Hloc & Hadd & Hcax & Hlab).
  apply init_axes_pad_ok in Hpad. destruct Hpad as (h0 & v0 & Hb & -> & -> & ->).
  exists h0, v0. split; [exact Hb |].
  assert (Hc : cpad = match cbar_pad with
                      | None => SpecNumber (if str_in cbar_location ["left"; "right"]%string
                                            then h0 else v0)
                      | Some p => p
                      end).
  { destruct cbar_pad as [p |]; [injection Hcpad as <-; reflexivity |].
    destruct (str_in cbar_location ["left"; "right"]%string);
      unfold bind, get_fixed_size, ret in Hcpad; cbn [fixed_objs] in Hcpad;
      rewrite lookup_app_r in Hcpad by lia.
    - rewrite Nat.sub_diag in Hcpad. cbn in Hcpad. injection Hcpad as <-. reflexivity.
    - replace (S (length (fixed_objs w)) - length (fixed_objs w))%nat with 1%nat
        in Hcpad by lia.
      cbn in Hcpad. injection Hcpad as <-. reflexivity. }
  pose proof (keeps_fixed_set_label_mode _ _ _ _ _ Hlab) as F6.
  pose proof (keeps_fixed_bind_cax _ _ _ _ _ Hcax) as F5.
  pose proof (keeps_fixed_add_all _ _ _ _ _ _ Hadd) as F4.
  pose proof (keeps_fixed_image_locators _ _ _ _ Hloc) as F3.
  apply new_cbar_axes_ok in Hcb. destruct Hcb as (_ & _ & F2 & _).
  pose proof (keeps_fixed_fill_slots _ _ _ _ _ _ _ _ _ _ Hfill) as F1.
  apply ImageGrid_update_locators_ok in Hloc.
  destruct Hloc as (h0' & v0' & row0 & col0 & h & hpos & hcb & v & vpos & vcb & h' & v'
                    & wa & wb & _ & _ & _ & _ & _ & _ & _ & ->).
  cbn in F1, F2, F3, F4, F5, F6 |- *.
  split; [reflexivity |]. split; [reflexivity |]. split; [congruence | exact Hc].
Qed.

(** ** The entries of the sequences of an [ImageGrid] *)

Lemma pick_ext {A} (f f' : Z -> bool) (l : list A) :
  forall k, (forall j, k <= j -> f j = f' j) -> pick f k l = pick f' k l.
Proof.
  induction l as [| x l IH]; intros k H; [reflexivity |].
  cbn [pick]. rewrite (H k) by lia. f_equal. apply IH. intros j Hj. apply H. lia.
Qed.

Lemma pick_true {A} (l : list A) : forall k, pick (fun _ => true) k l = l.
Proof. induction l as [| x l IH]; intros k; [reflexivity |]. cbn. f_equal. apply IH. Qed.

Lemma pick_false {A} (l : list A) : forall k, pick (fun _ => false) k l = [].
Proof. induction l as [| x l IH]; intros k; [reflexivity |]. cbn. apply IH. Qed.

Lemma pick_below {A} (e : Z) (l : list A) :
  forall k, e < k -> pick (fun j => j =? e) k l = [].
Proof.
  induction l as [| x l IH]; intros k H; [reflexivity |].
  cbn [pick]. destruct (Z.eqb_spec k e); [lia |]. cbn. apply IH. lia.
Qed.

Lemma pick_first {A} (l : list A) (k : Z) : pick (fun j => j =? k) k l = take 1 l.
Proof.
  destruct l as [| x l]; [reflexivity |]. cbn [pick]. rewrite Z.eqb_refl.
  rewrite pick_below by lia. reflexivity.
Qed.

Lemma pick_last {A} (l : list A) :
  forall k e, e = k + Z.of_nat (length l) - 1 ->
    pick (fun j => j =? e) k l = drop (length l - 1) l.
Proof.
  induction l as [| x l IH]; intros k e He; [reflexivity |].
  cbn [pick]. destruct l as [| y l].
  - cbn in He. destruct (Z.eqb_spec k e); [reflexivity | lia].
  - destruct (Z.eqb_spec k e); [cbn [length] in He; lia |].
    rewrite (IH (k + 1) e) by (cbn [length] in *; lia).
    cbn [length]. replace (S (S (length l)) - 1)%nat with (S (S (length l) - 1)) by lia.
    reflexivity.
Qed.

Lemma opt_str_eq_single_each (m : option string) :
  opt_str_eq m "single" = true -> opt_str_eq m "each" = false /\ opt_str_eq m "edge" = false.
Proof.
  destruct m as [s |]; [| discriminate]. cbn. intros H. apply String.eqb_eq in H.
  subst s. split; reflexivity.
Qed.

Lemma eqb_sides (loc a b : string) :
  a <> b -> String.eqb loc a = true -> String.eqb loc b = false.
Proof.
  intros Hab H. apply String.eqb_eq in H. subst loc. apply String.eqb_neq. exact Hab.
Qed.

(** What the loops pick along an axis of [length cells] cells. *)
Lemma pick_cbar_here (g : ImageGrid.t) (near far : string) (frac : Size)
    (cells : list Size) (e : Z) :
  near <> far ->
  e = Z.of_nat (length cells) - 1 ->
  pick (fun k => ImageGrid.cbar_here g near k 0 || ImageGrid.cbar_here g far k e) 0 cells
  = if opt_str_eq (ImageGrid._colorbar_mode g) "single" then []
    else cbar_refs (ImageGrid._colorbar_mode g) (ImageGrid._colorbar_location g)
           near far frac cells.
Proof.
  intros Hnf He. unfold ImageGrid.cbar_here, cbar_refs.
  destruct (opt_str_eq (ImageGrid._colorbar_mode g) "single") eqn:Es.
  { destruct (opt_str_eq_single_each _ Es) as [-> ->]. cbn. apply pick_false. }
  destruct (String.eqb (ImageGrid._colorbar_location g) near) eqn:En.
  - rewrite (eqb_sides _ _ _ Hnf En).
    destruct (opt_str_eq (ImageGrid._colorbar_mode g) "each");
      [| destruct (opt_str_eq (ImageGrid._colorbar_mode g) "edge")]; cbn.
    + apply pick_true.
    + rewrite <- (pick_first cells 0). apply pick_ext. intros j _.
      rewrite andb_true_r, andb_false_r, orb_false_r. reflexivity.
    + apply pick_false.
  - destruct (String.eqb (ImageGrid._colorbar_location g) far) eqn:Ef.
    + destruct (opt_str_eq (ImageGrid._colorbar_mode g) "each");
        [| destruct (opt_str_eq (ImageGrid._colorbar_mode g) "edge")]; cbn.
      * apply pick_true.
      * rewrite <- (pick_last cells 0 e) by lia. apply pick_ext. intros j _.
        rewrite andb_true_r, andb_false_r. reflexivity.
      * apply pick_false.
    + cbn. rewrite <- (pick_false cells 0). apply pick_ext. intros j _.
      rewrite !andb_false_r. reflexivity.
Qed.

Lemma filter_no_from_any_pair (loc near : string) (size pad : SizeSpec) (sz : Size) :
  List.filter no_from_any (cbar_pair loc near size pad sz) = []
  /\ List.filter is_from_any (cbar_pair loc near size pad sz)
     = cbar_pair loc near size pad sz.
Proof. unfold cbar_pair. destruct (String.eqb loc near); split; reflexivity. Qed.

Lemma cbar_here_side (g : ImageGrid.t) (side : string) (k e : Z) :
  ImageGrid.cbar_here g side k e = true ->
  String.eqb (ImageGrid._colorbar_location g) side = true.
Proof. unfold ImageGrid.cbar_here. intros H. apply andb_true_iff in H. apply H. Qed.

Lemma h_step_split (g : ImageGrid.t) (col : Z) (ax ax0 : option ref)
    (h h' : list Size) (p c p' c' : list Z) :
  py_index (Grid.axes_all (ImageGrid.base g)) 0 = Ok ax0 ->
  ImageGrid.h_step g col ax (h, p, c) = Ok (h', p', c') ->
  h' <> []
  /\ List.filter no_from_any h'
     = List.filter no_from_any h
       ++ match h with
          | [] => []
          | _ => [SizeFixed (Grid._horiz_pad_size (ImageGrid.base g))]
          end
       ++ [axes_cell_x ax0 ax]
  /\ List.filter is_from_any h'
     = List.filter is_from_any h
       ++ (if ImageGrid.cbar_here g "left" col 0
              || ImageGrid.cbar_here g "right" col (Grid._ncols (ImageGrid.base g) - 1)
           then cbar_pair (ImageGrid._colorbar_location g) "left"
                  (ImageGrid._colorbar_size g) (ImageGrid._colorbar_pad g)
                  (axes_cell_x ax0 ax)
           else []).
Proof.
  intros E0. unfold ImageGrid.h_step. cbv zeta. rewrite E0.
  assert (Ecell : match ax with
                  | Some _ => SizeAxesX ax (Some "axes"%string) (Some ax0)
                  | None => SizeAxesX ax0 (Some "axes"%string) (Some ax0)
                  end = axes_cell_x ax0 ax) by (destruct ax; reflexivity).
  rewrite Ecell. unfold cbar_pair.
  assert (Hcell : is_from_any (axes_cell_x ax0 ax) = false) by reflexivity.
  set (cell := axes_cell_x ax0 ax) in *. clearbody cell. clear Ecell.
  destruct (ImageGrid.cbar_here g "left" col 0) eqn:Hl;
    destruct (ImageGrid.cbar_here g "right" col _) eqn:Hr;
    try (apply cbar_here_side in Hl);
    try (apply cbar_here_side in Hr);
    try (rewrite (eqb_sides _ "left" "right" ltac:(discriminate) Hl) in Hr;
         discriminate Hr);
    try (rewrite Hl);
    try (rewrite (eqb_sides _ "right" "left" ltac:(discriminate) Hr));
    intros [= <- _ _];
    (split; [destruct h; cbn; try discriminate;
             intros E; apply app_eq_nil in E; destruct E; discriminate |]);
    destruct h as [| s h]; unfold no_from_any;
    rewrite ?List.filter_app; cbn [List.filter is_from_any negb app];
    rewrite ?Hcell; cbn [negb app]; rewrite ?app_nil_r, <- ?app_assoc;
    split; reflexivity.
Qed.

Lemma v_step_split (g : ImageGrid.t) (row : Z) (ax ax0 : option ref)
    (v v' : list Size) (p c p' c' : list Z) :
  py_index (Grid.axes_all (ImageGrid.base g)) 0 = Ok ax0 ->
  ImageGrid.v_step g row ax (v, p, c) = Ok (v', p', c') ->
  v' <> []
  /\ List.filter no_from_any v'
     = List.filter no_from_any v
       ++ match v with
          | [] => []
          | _ => [SizeFixed (Grid._vert_pad_size (ImageGrid.base g))]
          end
       ++ [axes_cell_y ax0 ax]
  /\ List.filter is_from_any v'
     = List.filter is_from_any v
       ++ (if ImageGrid.cbar_here g "bottom" row 0
              || ImageGrid.cbar_here g "top" row (Grid._nrows (ImageGrid.base g) - 1)
           then cbar_pair (ImageGrid._colorbar_location g) "bottom"
                  (ImageGrid._colorbar_size g) (ImageGrid._colorbar_pad g)
                  (axes_cell_y ax0 ax)
           else []).
Proof.
  intros E0. unfold ImageGrid.v_step. cbv zeta. rewrite E0.
  assert (Ecell : match ax with
                  | Some _ => SizeAxesY ax (Some "axes"%string) (Some ax0)
                  | None => SizeAxesY ax0 (Some "axes"%string) (Some ax0)
                  end = axes_cell_y ax0 ax) by (destruct ax; reflexivity).
  rewrite Ecell. unfold cbar_pair.
  assert (Hcell : is_from_any (axes_cell_y ax0 ax) = false) by reflexivity.
  set (cell := axes_cell_y ax0 ax) in *. clearbody cell. clear Ecell.
  destruct (ImageGrid.cbar_here g "bottom" row 0) eqn:Hl;
    destruct (ImageGrid.cbar_here g "top" row _) eqn:Hr;
    try (apply cbar_here_side in Hl);
    try (apply cbar_here_side in Hr);
    try (rewrite (eqb_sides _ "bottom" "top" ltac:(discriminate) Hl) in Hr;
         discriminate Hr);
    try (rewrite Hl);
    try (rewrite (eqb_sides _ "top" "bottom" ltac:(discriminate) Hr));
    intros [= <- _ _];
    (split; [destruct v; cbn; try discriminate;
             intros E; apply app_eq_nil in E; destruct E; discriminate |]);
    destruct v as [| s v]; unfold no_from_any;
    rewrite ?List.filter_app; cbn [List.filter is_from_any negb app];
    rewrite ?Hcell; cbn [negb app]; rewrite ?app_nil_r, <- ?app_assoc;
    split; reflexivity.
Qed.

Lemma h_loop_split (g : ImageGrid.t) (ax0 : option ref) (l : list (option ref)) :
  forall (col : Z) (h h' : list Size) (p c p' c' : list Z),
    py_index (Grid.axes_all (ImageGrid.base g)) 0 = Ok ax0 ->
    h <> [] ->
    ImageGrid.h_loop g col l (h, p, c) = Ok (h', p', c') ->
    List.filter no_from_any h'
    = List.filter no_from_any h
      ++ padded (SizeFixed (Grid._horiz_pad_size (ImageGrid.base g)))
           (axes_cell_x ax0 <$> l)
    /\ List.filter is_from_any h'
       = List.filter is_from_any h
         ++ flat_map (cbar_pair (ImageGrid._colorbar_location g) "left"
                        (ImageGrid._colorbar_size g) (ImageGrid._colorbar_pad g))
              (pick (fun k => ImageGrid.cbar_here g "left" k 0
                              || ImageGrid.cbar_here g "right" k
                                   (Grid._ncols (ImageGrid.base g) - 1))
                 col (axes_cell_x ax0 <$> l)).
Proof.
  induction l as [| ax l IH]; intros col h h' p c p' c' E0 Hne H.
  - injection H as <- _ _. cbn. rewrite !app_nil_r. auto.
  - cbn [ImageGrid.h_loop] in H.
    destruct (ImageGrid.h_step g col ax (h, p, c)) as [[[h1 p1] c1] |] eqn:E;
      [| discriminate].
    destruct (h_step_split _ _ _ _ _ _ _ _ _ _ E0 E) as (Hne1 & P1 & F1).
    destruct (IH _ _ _ _ _ _ _ E0 Hne1 H) as [P2 F2].
    destruct h as [| s h]; [contradiction |].
    rewrite P2, P1, F2, F1. rewrite fmap_cons. cbn [pick padded flat_map].
    rewrite flat_map_app, <- !app_assoc. split; [reflexivity |].
    destruct (_ || _); cbn [flat_map app]; rewrite ?app_nil_r; reflexivity.
Qed.

Lemma h_loop_split_start (g : ImageGrid.t) (ax0 : option ref) (l : list (option ref))
    (col : Z) (h' : list Size) (p c p' c' : list Z) :
  py_index (Grid.axes_all (ImageGrid.base g)) 0 = Ok ax0 ->
  ImageGrid.h_loop g col l ([], p, c) = Ok (h', p', c') ->
  List.filter no_from_any h'
  = tail (padded (SizeFixed (Grid._horiz_pad_size (ImageGrid.base g)))
            (axes_cell_x ax0 <$> l))
  /\ List.filter is_from_any h'
     = flat_map (cbar_pair (ImageGrid._colorbar_location g) "left"
                   (ImageGrid._colorbar_size g) (ImageGrid._colorbar_pad g))
         (pick (fun k => ImageGrid.cbar_here g "left" k 0
                         || ImageGrid.cbar_here g "right" k
                              (Grid._ncols (ImageGrid.base g) - 1))
            col (axes_cell_x ax0 <$> l)).
Proof.
  intros E0 H. destruct l as [| ax l].
  - injection H as <- _ _. auto.
  - cbn [ImageGrid.h_loop] in H.
    destruct (ImageGrid.h_step g col ax ([], p, c)) as [[[h1 p1] c1] |] eqn:E;
      [| discriminate].
    destruct (h_step_split _ _ _ _ _ _ _ _ _ _ E0 E) as (Hne1 & P1 & F1).
    destruct (h_loop_split _ _ _ _ _ _ _ _ _ _ E0 Hne1 H) as [P2 F2].
    rewrite P2, P1, F2, F1. rewrite fmap_cons. cbn [pick padded flat_map tail app List.filter].
    split; [reflexivity |].
    rewrite flat_map_app.
    destruct (_ || _); cbn [flat_map app]; rewrite ?app_nil_r; reflexivity.
Qed.

Lemma v_loop_split (g : ImageGrid.t) (ax0 : option ref) (l : list (option ref)) :
  forall (row : Z) (v v' : list Size) (p c p' c' : list Z),
    py_index (Grid.axes_all (ImageGrid.base g)) 0 = Ok ax0 ->
    v <> [] ->
    ImageGrid.v_loop g row l (v, p, c) = Ok (v', p', c') ->
    List.filter no_from_any v'
    = List.filter no_from_any v
      ++ padded (SizeFixed (Grid._vert_pad_size (ImageGrid.base g)))
           (axes_cell_y ax0 <$> l)
    /\ List.filter is_from_any v'
       = List.filter is_from_any v
         ++ flat_map (cbar_pair (ImageGrid._colorbar_location g) "bottom"
                        (ImageGrid._colorbar_size g) (ImageGrid._colorbar_pad g))
              (pick (fun k => ImageGrid.cbar_here g "bottom" k 0
                              || ImageGrid.cbar_here g "top" k
                                   (Grid._nrows (ImageGrid.base g) - 1))
                 row (axes_cell_y ax0 <$> l)).
Proof.
  induction l as [| ax l IH]; intros row v v' p c p' c' E0 Hne H.
  - injection H as <- _ _. cbn. rewrite !app_nil_r. auto.
  - cbn [ImageGrid.v_loop] in H.
    destruct (ImageGrid.v_step g row ax (v, p, c)) as [[[v1 p1] c1] |] eqn:E;
      [| discriminate].
    destruct (v_step_split _ _ _ _ _ _ _ _ _ _ E0 E) as (Hne1 & P1 & F1).
    destruct (IH _ _ _ _ _ _ _ E0 Hne1 H) as [P2 F2].
    destruct v as [| s v]; [contradiction |].
    rewrite P2, P1, F2, F1. rewrite fmap_cons. cbn [pick padded flat_map].
    rewrite flat_map_app, <- !app_assoc. split; [reflexivity |].
    destruct (_ || _); cbn [flat_map app]; rewrite ?app_nil_r; reflexivity.
Qed.

Lemma v_loop_split_start (g : ImageGrid.t) (ax0 : option ref) (l : list (option ref))
    (row : Z) (v' : list Size) (p c p' c' : list Z) :
  py_index (Grid.axes_all (ImageGrid.base g)) 0 = Ok ax0 ->
  ImageGrid.v_loop g row l ([], p, c) = Ok (v', p', c') ->
  List.filter no_from_any v'
  = tail (padded (SizeFixed (Grid._vert_pad_size (ImageGrid.base g)))
            (axes_cell_y ax0 <$> l))
  /\ List.filter is_from_any v'
     = flat_map (cbar_pair (ImageGrid._colorbar_location g) "bottom"
                   (ImageGrid._colorbar_size g) (ImageGrid._colorbar_pad g))
         (pick (fun k => ImageGrid.cbar_here g "bottom" k 0
                         || ImageGrid.cbar_here g "top" k
                              (Grid._nrows (ImageGrid.base g) - 1))
            row (axes_cell_y ax0 <$> l)).
Proof.
  intros E0 H. destruct l as [| ax l].
  - injection H as <- _ _. auto.
  - cbn [ImageGrid.v_loop] in H.
    destruct (ImageGrid.v_step g row ax ([], p, c)) as [[[v1 p1] c1] |] eqn:E;
      [| discriminate].
    destruct (v_step_split _ _ _ _ _ _ _ _ _ _ E0 E) as (Hne1 & P1 & F1).
    destruct (v_loop_split _ _ _ _ _ _ _ _ _ _ E0 Hne1 H) as [P2 F2].
    rewrite P2, P1, F2, F1. rewrite fmap_cons. cbn [pick padded flat_map tail app List.filter].
    split; [reflexivity |].
    rewrite flat_map_app.
    destruct (_ || _); cbn [flat_map app]; rewrite ?app_nil_r; reflexivity.
Qed.

(** The terms of the single colorbar, before and after the loops. *)
Lemma single_before_seqs (g : ImageGrid.t) (h0 v0 : list Size) (w w' : World) :
  ImageGrid.single_before g w = (Ok (h0, v0), w') ->
  h0 = (if opt_str_eq (ImageGrid._colorbar_mode g) "single"
           && String.eqb (ImageGrid._colorbar_location g) "left"
        then cbar_pair (ImageGrid._colorbar_location g) "left"
               (ImageGrid._colorbar_size g) (ImageGrid._colorbar_pad g)
               (SizeFraction (Grid._nrows (ImageGrid.base g))
                  (SizeAxesX (Grid.axes_llc (ImageGrid.base g)) None None))
        else [])
  /\ v0 = (if opt_str_eq (ImageGrid._colorbar_mode g) "single"
              && String.eqb (ImageGrid._colorbar_location g) "bottom"
           then cbar_pair (ImageGrid._colorbar_location g) "bottom"
                  (ImageGrid._colorbar_size g) (ImageGrid._colorbar_pad g)
                  (SizeFraction (Grid._ncols (ImageGrid.base g))
                     (SizeAxesY (Grid.axes_llc (ImageGrid.base g)) None None))
           else []).
Proof.
  unfold ImageGrid.single_before, cbar_pair, str_in. cbn [existsb].
  destruct (opt_str_eq _ "single"); cbn [andb];
    [| intros H; run_ret H; injection E as -> ->; auto].
  destruct (String.eqb _ "left") eqn:El.
  - rewrite (eqb_sides _ "left" "bottom" ltac:(discriminate) El). cbn [orb].
    intros H. run_bind H. run_ret H. injection E as -> ->. auto.
  - destruct (String.eqb _ "bottom") eqn:Eb; cbn [orb]; intros H.
    + run_bind H. run_ret H. injection E as -> ->. auto.
    + run_ret H. injection E as -> ->. auto.
Qed.

Lemma after_loops_seqs (g : ImageGrid.t) (h v h' v' : list Size) (w w' : World) :
  ImageGrid.after_loops g h v w = (Ok (h', v'), w') ->
  h' = h ++ (if opt_str_eq (ImageGrid._colorbar_mode g) "single"
                && String.eqb (ImageGrid._colorbar_location g) "right"
             then cbar_pair (ImageGrid._colorbar_location g) "left"
                    (ImageGrid._colorbar_size g) (ImageGrid._colorbar_pad g)
                    (SizeFraction (Grid._nrows (ImageGrid.base g))
                       (SizeAxesX (Grid.axes_llc (ImageGrid.base g)) None None))
             else [])
  /\ v' = v ++ (if opt_str_eq (ImageGrid._colorbar_mode g) "single"
                   && String.eqb (ImageGrid._colorbar_location g) "top"
                then cbar_pair (ImageGrid._colorbar_location g) "bottom"
                       (ImageGrid._colorbar_size g) (ImageGrid._colorbar_pad g)
                       (SizeFraction (Grid._ncols (ImageGrid.base g))
                          (SizeAxesY (Grid.axes_llc (ImageGrid.base g)) None None))
                else []).
Proof.
  unfold ImageGrid.after_loops, cbar_pair.
  destruct (opt_str_eq _ "single"); cbn [andb].
  - destruct (String.eqb _ "right") eqn:Er.
    + rewrite (eqb_sides _ "right" "left" ltac:(discriminate) Er).
      rewrite (eqb_sides _ "right" "top" ltac:(discriminate) Er).
      intros H. run_bind H. run_ret H. injection E as -> ->.
      rewrite <- app_assoc, app_nil_r. auto.
    + destruct (String.eqb _ "top") eqn:Et; intros H.
      * rewrite (eqb_sides _ "top" "bottom" ltac:(discriminate) Et).
        run_bind H. run_ret H. injection E as -> ->.
        rewrite <- app_assoc, app_nil_r. auto.
      * run_ret H. injection E as -> ->. rewrite !app_nil_r. auto.
  - destruct (opt_str_eq _ "each"); [| destruct (opt_str_eq _ "edge")]; intros H.
    + run_bind H. run_ret H. injection E as -> ->. rewrite !app_nil_r. auto.
    + run_bind H. run_bind H. run_bind H. run_ret H. injection E as -> ->.
      rewrite !app_nil_r. auto.
    + run_bind H. run_ret H. injection E as -> ->. rewrite !app_nil_r. auto.
Qed.

(** One axis of the divider: the start, the loop and the end put together. *)
Lemma sequence_split (mode : option string) (loc near far : string)
    (size cpad : SizeSpec) (frac pad : Size) (cells picked s0 s s_end : list Size) :
  near <> far ->
  s0 = (if opt_str_eq mode "single" && String.eqb loc near
        then cbar_pair loc near size cpad frac else []) ->
  picked = (if opt_str_eq mode "single" then []
            else cbar_refs mode loc near far frac cells) ->
  (s0 <> [] ->
   List.filter no_from_any s = List.filter no_from_any s0 ++ padded pad cells
   /\ List.filter is_from_any s
      = List.filter is_from_any s0 ++ flat_map (cbar_pair loc near size cpad) picked) ->
  (s0 = [] ->
   List.filter no_from_any s = tail (padded pad cells)
   /\ List.filter is_from_any s = flat_map (cbar_pair loc near size cpad) picked) ->
  s_end = s ++ (if opt_str_eq mode "single" && String.eqb loc far
                then cbar_pair loc near size cpad frac else []) ->
  List.filter no_from_any s_end
  = (if opt_str_eq mode "single" && String.eqb loc near
     then padded pad cells else tail (padded pad cells))
  /\ List.filter is_from_any s_end
     = flat_map (cbar_pair loc near size cpad) (cbar_refs mode loc near far frac cells).
Proof.
  intros Hnf E0 Ep Hfull Hempty ->. rewrite !List.filter_app.
  subst picked. unfold cbar_refs in *.
  destruct (opt_str_eq mode "single") eqn:Es; cbn [andb] in *.
  - destruct (String.eqb loc near) eqn:En.
    + rewrite (eqb_sides _ _ _ Hnf En). cbn [orb List.filter app flat_map].
      destruct Hfull as [P F].
      { subst s0. unfold cbar_pair. rewrite En. discriminate. }
      rewrite P, F, E0. unfold cbar_pair. rewrite En.
      cbn [List.filter no_from_any is_from_any negb flat_map app].
      rewrite !app_nil_r. split; reflexivity.
    + destruct (Hempty E0) as [P F]. rewrite P, F. cbn [orb flat_map app].
      destruct (String.eqb loc far); unfold cbar_pair; rewrite ?En;
        cbn [List.filter no_from_any is_from_any negb flat_map app];
        rewrite ?app_nil_r; split; reflexivity.
  - destruct (Hempty E0) as [P F]. rewrite P, F. cbn [List.filter]. rewrite !app_nil_r.
    split; reflexivity.
Qed.

Lemma first_cells_length (g : Grid.t) (arr : ndarray) (w : World)
    (row0 col0 : list (option ref)) :
  axes_built g arr w ->
  py_index (Grid.axes_row g) 0 = Ok row0 ->
  py_index (Grid.axes_column g) 0 = Ok col0 ->
  Z.of_nat (length row0) = Grid._ncols g /\ Z.of_nat (length col0) = Grid._nrows g.
Proof.
  intros Hb Er Ec.
  destruct (axes_built_first _ _ _ Hb) as (ax0 & r0 & c0 & _ & Er0 & Ec0 & -> & ->).
  rewrite Er0 in Er. injection Er as <-. rewrite Ec0 in Ec. injection Ec as <-.
  rewrite !length_fmap, !range_length.
  pose proof (built_rows _ _ _ Hb). pose proof (built_cols _ _ _ Hb). lia.
Qed.

(** The two sequences of a constructed [ImageGrid], split into the terms
    that are no [from_any] terms and those that are. *)
Lemma ImageGrid_init_sequences (host : Host) (rect : RectArg) (nrows ncols : Z)
    (ngrids : option Z) (direction : string) (axes_pad : PadArg)
    (add_all share_all aspect : bool) (label_mode : string)
    (cbar_mode : option string) (cbar_location : string)
    (cbar_pad : option SizeSpec) (cbar_size : SizeSpec) (cbar_set_cax : bool)
    (w w' : World) (g : ImageGrid.t) :
  ImageGrid.__init__ host rect (nrows, ncols) ngrids direction axes_pad add_all
    share_all aspect label_mode cbar_mode cbar_location cbar_pad cbar_size
    cbar_set_cax w = (Ok g, w') ->
  exists ax0 row0 col0,
    py_index (Grid.axes_all (ImageGrid.base g)) 0 = Ok ax0
    /\ py_index (Grid.axes_row (ImageGrid.base g)) 0 = Ok row0
    /\ py_index (Grid.axes_column (ImageGrid.base g)) 0 = Ok col0
    /\ List.filter no_from_any (div_horizontal (Grid._divider (ImageGrid.base g)))
       = (if opt_str_eq cbar_mode "single" && String.eqb cbar_location "left"
          then padded (SizeFixed (Grid._horiz_pad_size (ImageGrid.base g)))
                 (axes_cell_x ax0 <$> row0)
          else tail (padded (SizeFixed (Grid._horiz_pad_size (ImageGrid.base g)))
                       (axes_cell_x ax0 <$> row0)))
    /\ List.filter is_from_any (div_horizontal (Grid._divider (ImageGrid.base g)))
       = flat_map (cbar_pair cbar_location "left" cbar_size (ImageGrid._colorbar_pad g))
           (cbar_refs cbar_mode cbar_location "left" "right"
              (SizeFraction nrows
                 (SizeAxesX (Grid.axes_llc (ImageGrid.base g)) None None))
              (axes_cell_x ax0 <$> row0))
    /\ List.filter no_from_any (div_vertical (Grid._divider (ImageGrid.base g)))
       = (if opt_str_eq cbar_mode "single" && String.eqb cbar_location "bottom"
          then padded (SizeFixed (Grid._vert_pad_size (ImageGrid.base g)))
                 (axes_cell_y ax0 <$> rev col0)
          else tail (padded (SizeFixed (Grid._vert_pad_size (ImageGrid.base g)))
                       (axes_cell_y ax0 <$> rev col0)))
    /\ List.filter is_from_any (div_vertical (Grid._divider (ImageGrid.base g)))
       = flat_map (cbar_pair cbar_location "bottom" cbar_size (ImageGrid._colorbar_pad g))
           (cbar_refs cbar_mode cbar_location "bottom" "top"
              (SizeFraction ncols
                 (SizeAxesY (Grid.axes_llc (ImageGrid.base g)) None None))
              (axes_cell_y ax0 <$> rev col0)).
Proof.
  intros H. apply ImageGrid_init_built in H.
  destruct H as (arr & w2 & w3 & wa & wb & w4 & w5 & w6 & h0 & v0 & row0 & col0
                 & h & hp & hc & v & vp & vc
                 & (En & Ec & _ & _ & Em & El & Es) & Hb & _ & Hsb & Er & Hh & Ecol
                 & Hv & _ & Hafter & _).
  destruct (axes_built_first _ _ _ Hb) as (ax0 & r0 & c0 & E0 & _ & _ & _ & _).
  destruct (first_cells_length _ _ _ _ _ Hb Er Ecol) as [Lr Lc].
  apply single_before_seqs in Hsb. destruct Hsb as [Eh0 Ev0].
  apply after_loops_seqs in Hafter. destruct Hafter as [EH EV].
  exists ax0, row0, col0.
  split; [exact E0 |]. split; [exact Er |]. split; [exact Ecol |].
  rewrite <- Em, <- El, <- Es, <- En, <- Ec.
  match goal with
  | |- ?A /\ ?B /\ ?C /\ ?D => cut ((A /\ B) /\ (C /\ D)); [tauto |]
  end.
  split.
  - eapply (sequence_split _ _ "left" "right" _ _ _ _ _ _ h0 h);
      [discriminate | exact Eh0 | | | | exact EH].
    + apply (pick_cbar_here g "left" "right" _ _ (Grid._ncols (ImageGrid.base g) - 1));
        [discriminate |].
      rewrite length_fmap. lia.
    + intros Hne. exact (h_loop_split _ _ _ _ _ _ _ _ _ _ E0 Hne Hh).
    + intros Hz. rewrite Hz in Hh. exact (h_loop_split_start _ _ _ _ _ _ _ _ _ E0 Hh).
  - eapply (sequence_split _ _ "bottom" "top" _ _ _ _ _ _ v0 v);
      [discriminate | exact Ev0 | | | | exact EV].
    + apply (pick_cbar_here g "bottom" "top" _ _ (Grid._nrows (ImageGrid.base g) - 1));
        [discriminate |].
      rewrite length_fmap, length_rev. lia.
    + intros Hne. exact (v_loop_split _ _ _ _ _ _ _ _ _ _ E0 Hne Hv).
    + intros Hz. rewrite Hz in Hv. exact (v_loop_split_start _ _ _ _ _ _ _ _ _ E0 Hv).
Qed.

(** C10: with [cbar_pad=None] the colorbar pad of an [ImageGrid] is the
    number read from the padding object at construction: a value, not the
    object.  The terms of the two sequences that are no [from_any] terms
    are the axes cells with the padding object between them (and before
    the first one after a single colorbar on the left or at the bottom):
    the padding object stands nowhere else.  The [from_any] terms are the
    colorbar cells, each paired with a padding term [from_any(p0, sz)] that
    holds the number [p0].  [set_axes_pad] assigns to the two padding
    objects: the padding between the axes becomes the new one, the colorbar
    padding terms still stand for [p0], and nothing of the grid changes. *)
Theorem C10_colorbar_pad_is_a_snapshot
    (host : Host) (rect : RectArg) (nrows ncols : Z) (ngrids : option Z)
    (direction : string) (axes_pad : PadArg)
    (add_all share_all aspect : bool) (label_mode : string)
    (cbar_mode : option string) (cbar_location : string)
    (cbar_size : SizeSpec) (cbar_set_cax : bool)
    (w w' : World) (g : ImageGrid.t) :
  ImageGrid.__init__ host rect (nrows, ncols) ngrids direction axes_pad add_all
    share_all aspect label_mode cbar_mode cbar_location None cbar_size
    cbar_set_cax w = (Ok g, w') ->
  exists h0 v0 p0 ax0 row0 col0,
    broadcast_to_2 axes_pad = Ok (h0, v0)
    /\ p0 = (if str_in cbar_location ["left"; "right"]%string then h0 else v0)
    /\ Grid.get_axes_pad (ImageGrid.base g) w' = (Ok (h0, v0), w')
    /\ ImageGrid._colorbar_pad g = SpecNumber p0
    /\ py_index (Grid.axes_all (ImageGrid.base g)) 0 = Ok ax0
    /\ py_index (Grid.axes_row (ImageGrid.base g)) 0 = Ok row0
    /\ py_index (Grid.axes_column (ImageGrid.base g)) 0 = Ok col0
    /\ List.filter no_from_any (div_horizontal (Grid._divider (ImageGrid.base g)))
       = (if opt_str_eq cbar_mode "single" && String.eqb cbar_location "left"
          then padded (SizeFixed (Grid._horiz_pad_size (ImageGrid.base g)))
                 (axes_cell_x ax0 <$> row0)
          else tail (padded (SizeFixed (Grid._horiz_pad_size (ImageGrid.base g)))
                       (axes_cell_x ax0 <$> row0)))
    /\ List.filter is_from_any (div_horizontal (Grid._divider (ImageGrid.base g)))
       = flat_map (cbar_pair cbar_location "left" cbar_size (SpecNumber p0))
           (cbar_refs cbar_mode cbar_location "left" "right"
              (SizeFraction nrows
                 (SizeAxesX (Grid.axes_llc (ImageGrid.base g)) None None))
              (axes_cell_x ax0 <$> row0))
    /\ List.filter no_from_any (div_vertical (Grid._divider (ImageGrid.base g)))
       = (if opt_str_eq cbar_mode "single" && String.eqb cbar_location "bottom"
          then padded (SizeFixed (Grid._vert_pad_size (ImageGrid.base g)))
                 (axes_cell_y ax0 <$> rev col0)
          else tail (padded (SizeFixed (Grid._vert_pad_size (ImageGrid.base g)))
                       (axes_cell_y ax0 <$> rev col0)))
    /\ List.filter is_from_any (div_vertical (Grid._divider (ImageGrid.base g)))
       = flat_map (cbar_pair cbar_location "bottom" cbar_size (SpecNumber p0))
           (cbar_refs cbar_mode cbar_location "bottom" "top"
              (SizeFraction ncols
                 (SizeAxesY (Grid.axes_llc (ImageGrid.base g)) None None))
              (axes_cell_y ax0 <$> rev col0))
    /\ forall h v,
         exists w'',
           Grid.set_axes_pad (ImageGrid.base g) [h; v] w' = (Ok tt, w'')
           /\ Grid.get_axes_pad (ImageGrid.base g) w'' = (Ok (h, v), w'')
           /\ axes_objs w'' = axes_objs w' /\ fig_axes w'' = fig_axes w'
           /\ length_of w' (SizeFixed (Grid._horiz_pad_size (ImageGrid.base g))) = Some h0
           /\ length_of w'' (SizeFixed (Grid._horiz_pad_size (ImageGrid.base g))) = Some h
           /\ length_of w' (SizeFixed (Grid._vert_pad_size (ImageGrid.base g))) = Some v0
           /\ length_of w'' (SizeFixed (Grid._vert_pad_size (ImageGrid.base g))) = Some v
           /\ forall sz,
                length_of w' (SizeFromAny (SpecNumber p0) sz) = Some p0
                /\ length_of w'' (SizeFromAny (SpecNumber p0) sz) = Some p0.
Proof.
  intros H.
  destruct (ImageGrid_init_sequences _ _ _ _ _ _ _ _ _ _ _ _ _ _ _ _ _ _ _ H)
    as (ax0 & row0 & col0 & E0 & Er & Ec & Ph & Fh & Pv & Fv).
  destruct (ImageGrid_init_pads _ _ _ _ _ _ _ _ _ _ _ _ _ _ _ _ _ _ _ H)
    as (h0 & v0 & Hb & Ehp & Evp & Efix & Ecp).
  exists h0, v0, (if str_in cbar_location ["left"; "right"]%string then h0 else v0),
    ax0, row0, col0.
  assert (Lh : (Grid._horiz_pad_size (ImageGrid.base g) < length (fixed_objs w'))%nat)
    by (rewrite Efix, length_app, Ehp; cbn; lia).
  assert (Lv : (Grid._vert_pad_size (ImageGrid.base g) < length (fixed_objs w'))%nat)
    by (rewrite Efix, length_app, Evp; cbn; lia).
  assert (Gh : fixed_objs w' !! Grid._horiz_pad_size (ImageGrid.base g) = Some h0)
    by (rewrite Efix, Ehp, lookup_app_r by lia; rewrite Nat.sub_diag; reflexivity).
  assert (Gv : fixed_objs w' !! Grid._vert_pad_size (ImageGrid.base g) = Some v0).
  { rewrite Efix, Evp, lookup_app_r by lia.
    replace (S (length (fixed_objs w)) - length (fixed_objs w))%nat with 1%nat by lia.
    reflexivity. }
  rewrite Ecp in Fh, Fv.
  split; [exact Hb |]. split; [reflexivity |].
  split; [apply get_axes_pad_ok; assumption |].
  split; [exact Ecp |]. split; [exact E0 |]. split; [exact Er |]. split; [exact Ec |].
  split; [exact Ph |]. split; [exact Fh |]. split; [exact Pv |]. split; [exact Fv |].
  intros h v.
  assert (Sh : <[Grid._vert_pad_size (ImageGrid.base g) := v]>
                 (<[Grid._horiz_pad_size (ImageGrid.base g) := h]> (fixed_objs w'))
               !! Grid._horiz_pad_size (ImageGrid.base g) = Some h)
    by (rewrite list_lookup_insert_ne by lia; apply list_lookup_insert_eq; exact Lh).
  assert (Sv : <[Grid._vert_pad_size (ImageGrid.base g) := v]>
                 (<[Grid._horiz_pad_size (ImageGrid.base g) := h]> (fixed_objs w'))
               !! Grid._vert_pad_size (ImageGrid.base g) = Some v)
    by (apply list_lookup_insert_eq; rewrite length_insert; exact Lv).
  eexists. split; [apply set_axes_pad_ok; assumption |].
  split; [apply get_axes_pad_ok; cbn [fixed_objs]; assumption |].
  split; [reflexivity |]. split; [reflexivity |].
  split; [exact Gh |]. split; [exact Sh |]. split; [exact Gv |]. split; [exact Sv |].
  intros sz. split; reflexivity.
Qed.

Lemma C10_colorbar_pad_witness :
  exists g w' w'',
    ImageGrid.__init__ plain_host (RectSeq [0; 0; 1; 1]%Q) (2, 2) None "row"
      (PadSeq [1 # 50; 1 # 25]%Q) true false true "L" (Some "single"%string)
      "right" None (SpecString "5%") true empty_world = (Ok g, w')
    /\ Grid.set_axes_pad (ImageGrid.base g) [1 # 10; 1 # 5]%Q w' = (Ok tt, w'')
    /\ ImageGrid._colorbar_pad g = SpecNumber (1 # 50)
    /\ div_horizontal (Grid._divider (ImageGrid.base g))
       = [SizeAxesX (Some 0%nat) (Some "axes"%string) (Some (Some 0%nat));
          SizeFixed 0;
          SizeAxesX (Some 1%nat) (Some "axes"%string) (Some (Some 0%nat));
          SizeFromAny (SpecNumber (1 # 50))
            (SizeFraction 2 (SizeAxesX (Some 2%nat) None None));
          SizeFromAny (SpecString "5%")
            (SizeFraction 2 (SizeAxesX (Some 2%nat) None None))]
    /\ length_of w' (SizeFixed 0) = Some (1 # 50)%Q
    /\ length_of w'' (SizeFixed 0) = Some (1 # 10)%Q
    /\ length_of w''
         (SizeFromAny (SpecNumber (1 # 50))
            (SizeFraction 2 (SizeAxesX (Some 2%nat) None None)))
       = Some (1 # 50)%Q.
Proof.
  destruct (C10_colorbar_pad_is_a_snapshot
              plain_host (RectSeq [0; 0; 1; 1]%Q) 2 2 None "row"%string
              (PadSeq [1 # 50; 1 # 25]%Q) true false true "L"%string
              (Some "single"%string) "right"%string (SpecString "5%") true
              empty_world _ _ ltac:(vm_compute; reflexivity))
    as (h0 & v0 & p0 & ax0 & row0 & col0 & Hb & Hp & _ & Hcp & _ & _ & _ & _ & _ & _ & _
        & Hset).
  destruct (Hset (1 # 10)%Q (1 # 5)%Q) as (w'' & Hs & _ & _ & _ & G1 & G2 & _ & _ & G3).
  injection Hb as <- <-. cbn in Hp. subst p0.
  eexists _, _, w''. split; [vm_compute; reflexivity |].
  split; [exact Hs |]. split; [exact Hcp |]. split; [reflexivity |].
  split; [exact G1 |]. split; [exact G2 |]. apply G3.
Defined.

(** ** What touches only the colorbar axes *)

Lemma keeps_bind_ok {A C B} (f : World -> B) (m : M A) (k : A -> M C) :
  keeps f m ->
  (forall a, (exists w w', m w = (Ok a, w')) -> keeps f (k a)) ->
  keeps f (bind m k).
Proof.
  intros Hm Hk w r w' H. unfold bind in H.
  destruct (m w) as [[a | e] w1] eqn:E.
  - rewrite (Hk a (ex_intro _ w (ex_intro _ w1 E)) _ _ _ H). apply (Hm _ _ _ E).
  - injection H as _ <-. apply (Hm _ _ _ E).
Qed.

Lemma cbar_at_ok (g : ImageGrid.t) (i : Z) (a : option ref) (w w' : World) :
  ImageGrid.cbar_at g i w = (Ok a, w') ->
  exists c, a = Some c /\ py_index (ImageGrid.cbar_axes g) i = Ok c
            /\ c ∈ ImageGrid.cbar_axes g /\ w' = w.
Proof.
  unfold ImageGrid.cbar_at. intros H. run_bind H. run_lift H0. run_ret H.
  exists a0. repeat split; try assumption.
  unfold py_index in E.
  destruct (_ || _); [discriminate |].
  destruct (ImageGrid.cbar_axes g !! _) eqn:El; [| discriminate].
  injection E as <-. apply list_elem_of_lookup. eauto.
Qed.

Lemma keeps_cbar_at {B} (f : World -> B) (g : ImageGrid.t) (i : Z) :
  keeps f (ImageGrid.cbar_at g i).
Proof. unfold ImageGrid.cbar_at. repeat keeps_step. Qed.

(** A setter applied to a colorbar axes keeps every other object. *)
Lemma keeps_object_cbar_setter (r : ref) (g : ImageGrid.t) (i : Z)
    (k : option ref -> M unit) :
  r ∉ ImageGrid.cbar_axes g ->
  (forall c, c ∈ ImageGrid.cbar_axes g -> keeps (the_object r) (k (Some c))) ->
  keeps (the_object r) (let* c := ImageGrid.cbar_at g i in k c).
Proof.
  intros Hr Hk. apply keeps_bind_ok; [apply keeps_cbar_at |].
  intros a (w & w' & H). apply cbar_at_ok in H. destruct H as (c & -> & _ & Hc & _).
  apply Hk, Hc.
Qed.

Ltac keeps_cbar :=
  repeat first
    [ apply keeps_object_cbar_setter;
      [assumption | intros ? ?]
    | keeps_step ];
  try (apply keeps_object_modify; congruence).

Section CbarFrames.

Variables (g : ImageGrid.t) (r : ref).
Hypothesis not_cbar : r ∉ ImageGrid.cbar_axes g.

Lemma keeps_object_show_single (l : Locator) :
  keeps (the_object r) (ImageGrid.show_single g l).
Proof.
  unfold ImageGrid.show_single, set_visible, set_axes_locator. keeps_cbar.
Qed.

Lemma keeps_object_single_before : keeps (the_object r) (ImageGrid.single_before g).
Proof.
  unfold ImageGrid.single_before.
  repeat keeps_step; apply keeps_object_show_single.
Qed.

Lemma keeps_object_locate_cbar (hp hc vp vc : list Z) (i col row : Z) (l : Locator) :
  keeps (the_object r) (ImageGrid.locate_cbar g hp hc vp vc i col row l).
Proof.
  unfold ImageGrid.locate_cbar, set_axes_locator. keeps_cbar.
Qed.

Lemma keeps_object_after_loops (h v : list Size) :
  keeps (the_object r) (ImageGrid.after_loops g h v).
Proof.
  unfold ImageGrid.after_loops, set_visible, set_position.
  repeat first
    [ apply keeps_object_show_single
    | apply keeps_object_cbar_setter; [assumption | intros ? ?]
    | keeps_step ];
  try (apply keeps_object_modify; congruence).
Qed.

End CbarFrames.

(** ** Frames of the last steps of the constructors *)

Lemma seen_through_lookup {B} (proj : AxesObj -> B) (w w' : World) (r : ref)
    (o : AxesObj) :
  seen_through proj w' = seen_through proj w ->
  the_object r w = Some o ->
  exists o', the_object r w' = Some o' /\ proj o' = proj o.
Proof.
  unfold seen_through, the_object. intros E Ho.
  assert (H : (proj <$> axes_objs w') !! r = Some (proj o))
    by (rewrite E, list_lookup_fmap, Ho; reflexivity).
  rewrite list_lookup_fmap in H.
  destruct (axes_objs w' !! r) as [o' |]; [| discriminate].
  injection H as H. eauto.
Qed.

Lemma keeps_locator_set_label_mode (g : Grid.t) (mode : string) :
  keeps (seen_through axes_locator) (Grid.set_label_mode g mode).
Proof.
  unfold Grid.set_label_mode. keeps_setters.
  repeat keeps_step; apply keeps_proj_modify; reflexivity.
Qed.

Lemma keeps_visible_set_label_mode (g : Grid.t) (mode : string) :
  keeps (seen_through visible) (Grid.set_label_mode g mode).
Proof.
  unfold Grid.set_label_mode. keeps_setters.
  repeat keeps_step; apply keeps_proj_modify; reflexivity.
Qed.

Lemma keeps_locator_bind_cax (g : ImageGrid.t) (b : bool) :
  keeps (seen_through axes_locator) (if b then ImageGrid.bind_cax g else ret tt).
Proof.
  unfold ImageGrid.bind_cax. keeps_setters.
  repeat keeps_step; apply keeps_proj_modify; reflexivity.
Qed.

Lemma keeps_visible_bind_cax (g : ImageGrid.t) (b : bool) :
  keeps (seen_through visible) (if b then ImageGrid.bind_cax g else ret tt).
Proof.
  unfold ImageGrid.bind_cax. keeps_setters.
  repeat keeps_step; apply keeps_proj_modify; reflexivity.
Qed.

(** From the store after the locators are set to the final store of
    [ImageGrid.__init__]: locators and visibility stay. *)
Lemma ImageGrid_tail_frame (host : Host) (g : ImageGrid.t) (add_all cbar_set_cax : bool)
    (label_mode : string) (w4 w5 w6 w' : World) (r : ref) (o : AxesObj) :
  (if add_all then
     mfor (Grid.axes_all (ImageGrid.base g) ++ (Some <$> ImageGrid.cbar_axes g))
       (add_axes host)
   else ret tt) w4 = (Ok tt, w5) ->
  (if cbar_set_cax then ImageGrid.bind_cax g else ret tt) w5 = (Ok tt, w6) ->
  Grid.set_label_mode (ImageGrid.base g) label_mode w6 = (Ok tt, w') ->
  the_object r w4 = Some o ->
  exists o', the_object r w' = Some o'
             /\ axes_locator o' = axes_locator o /\ visible o' = visible o.
Proof.
  intros Hadd Hcax Hlab Ho.
  pose proof (keeps_objs_add_all _ _ _ _ _ _ Hadd) as F1.
  assert (Ho5 : the_object r w5 = Some o) by (unfold the_object; rewrite F1; exact Ho).
  destruct (seen_through_lookup (fun a => (axes_locator a, visible a)) w5 w' r o)
    as (o' & Ho' & E); [| exact Ho5 |].
  - unfold seen_through.
    pose proof (keeps_locator_bind_cax _ _ _ _ _ Hcax) as L1.
    pose proof (keeps_visible_bind_cax _ _ _ _ _ Hcax) as V1.
    pose proof (keeps_locator_set_label_mode _ _ _ _ _ Hlab) as L2.
    pose proof (keeps_visible_set_label_mode _ _ _ _ _ Hlab) as V2.
    unfold seen_through in *.
    apply list_eq. intros k. rewrite !list_lookup_fmap.
    assert (EL : (axes_locator <$> axes_objs w') !! k = (axes_locator <$> axes_objs w5) !! k)
      by congruence.
    assert (EV : (visible <$> axes_objs w') !! k = (visible <$> axes_objs w5) !! k)
      by congruence.
    rewrite !list_lookup_fmap in EL. rewrite !list_lookup_fmap in EV.
    destruct (axes_objs w' !! k), (axes_objs w5 !! k); cbn in *; congruence.
  - exists o'. injection E as E1 E2. auto.
Qed.

Lemma py_index_inj {A} (l : list A) (i j : Z) (x : A) :
  NoDup l -> 0 <= i -> 0 <= j ->
  py_index l i = Ok x -> py_index l j = Ok x -> i = j.
Proof.
  intros Hnd Hi Hj Ei Ej.
  apply py_index_nonneg in Ei; [| exact Hi]. apply py_index_nonneg in Ej; [| exact Hj].
  destruct Ei as [Ei _], Ej as [Ej _].
  pose proof (NoDup_lookup _ _ _ _ Hnd Ei Ej). lia.
Qed.

(** ** The single colorbar *)

Ltac run_setter H :=
  unfold set_visible, set_axes_locator, set_position, toggle_bottom, toggle_left,
    ImageGrid.set_cax in H;
  apply modify_axes_ok in H.

Lemma hide_cbar_ok (g : ImageGrid.t) (i : Z) (w w' : World) :
  (let* c := ImageGrid.cbar_at g i in set_visible c false) w = (Ok tt, w') ->
  exists c a, py_index (ImageGrid.cbar_axes g) i = Ok c
              /\ axes_objs w !! c = Some a
              /\ axes_objs w' = <[c := with_visible false a]> (axes_objs w)
              /\ the_object c w' = Some (with_visible false a).
Proof.
  intros H. run_bind H. apply cbar_at_ok in H0. destruct H0 as (c & -> & Hc & _ & ->).
  run_setter H. destruct H as (x & a' & [= <-] & Ha & Hw & Ho).
  exists c, a'. auto.
Qed.

Lemma show_single_ok (g : ImageGrid.t) (l : Locator) (c0 : ref) (cs : list ref)
    (w w' : World) :
  ImageGrid.cbar_axes g = c0 :: cs ->
  NoDup (ImageGrid.cbar_axes g) ->
  length (ImageGrid.cbar_axes g) = Z.to_nat (Grid.ngrids (ImageGrid.base g)) ->
  ImageGrid.show_single g l w = (Ok tt, w') ->
  (exists o, the_object c0 w' = Some o
             /\ axes_locator o = Some l /\ visible o = Some true)
  /\ (forall c, c ∈ cs ->
        exists o, the_object c w' = Some o /\ visible o = Some false).
Proof.
  intros Ecb Hnd Hlen H. unfold ImageGrid.show_single in H.
  run_bind H. destruct a. rename w0 into w1, H0 into Hloop.
  run_bind H. apply cbar_at_ok in H0. destruct H0 as (c & -> & Hc & _ & ->).
  run_bind H. destruct a. rename w0 into w2, H0 into Hset.
  run_bind H. apply cbar_at_ok in H0. destruct H0 as (c' & -> & Hc' & _ & ->).
  assert (c = c0) as ->.
  { apply py_index_nonneg in Hc; [| lia]. rewrite Ecb in Hc. cbn in Hc.
    destruct Hc as [[= ->] _]. reflexivity. }
  assert (c' = c0) as ->.
  { apply py_index_nonneg in Hc'; [| lia]. rewrite Ecb in Hc'. cbn in Hc'.
    destruct Hc' as [[= ->] _]. reflexivity. }
  run_setter Hset. destruct Hset as (x & a & [= <-] & Ha & Hw2 & Ho2).
  run_setter H. destruct H as (x & a' & [= <-] & Ha' & Hw' & Ho').
  unfold the_object in Ho2. rewrite Ha' in Ho2. injection Ho2 as ->.
  split; [exists (with_visible true (with_locator l a)); auto |].
  intros c Hc1.
  (* [c] is [cbar_axes[i]] for an index that the loop has hidden *)
  apply list_elem_of_lookup in Hc1. destruct Hc1 as [k Hk].
  assert (Hi : py_index (ImageGrid.cbar_axes g) (Z.of_nat (S k)) = Ok c)
    by (apply py_index_lookup; rewrite Ecb; exact Hk).
  assert (Hin : Z.of_nat (S k) ∈ range (Grid.ngrids (ImageGrid.base g))).
  { apply range_elem. apply py_index_nonneg in Hi; [| lia]. lia. }
  pose proof (mfor_establishes (range (Grid.ngrids (ImageGrid.base g)))
                (fun i => let* c := ImageGrid.cbar_at g i in set_visible c false)
                (fun i w => exists c o, py_index (ImageGrid.cbar_axes g) i = Ok c
                                        /\ the_object c w = Some o
                                        /\ visible o = Some false)
                (range_NoDup _)) as Hest.
  destruct (Hest) with (w := w) (w' := w1) (x := Z.of_nat (S k))
    as (c1 & o & Hc1 & Ho & Hv); try assumption.
  - intros i wi wi' _ Hb. apply hide_cbar_ok in Hb.
    destruct Hb as (ci & ai & Hci & _ & _ & Hoi).
    exists ci, (with_visible false ai). repeat split; assumption.
  - intros i j wi wi' Hi' Hj' Hne Hb (ci & oi & Hci & Hoi & Hvi).
    apply hide_cbar_ok in Hb. destruct Hb as (cj & aj & Hcj & _ & Hwj & _).
    exists ci, oi. repeat split; try assumption.
    unfold the_object. rewrite Hwj. rewrite list_lookup_insert_ne; [exact Hoi |].
    intros ->. apply Hne. apply range_elem in Hi'. apply range_elem in Hj'.
    eapply (py_index_inj _ i j); [exact Hnd | lia | lia | exact Hci | exact Hcj].
  - rewrite Hi in Hc1. injection Hc1 as <-.
    assert (Hne : c0 <> c).
    { intros <-. rewrite Ecb in Hnd. apply NoDup_cons in Hnd.
      destruct Hnd as [Hnin _]. apply Hnin. apply list_elem_of_lookup. eauto. }
    exists o. split; [| exact Hv].
    unfold the_object in *. rewrite Hw', Hw2.
    rewrite !list_lookup_insert_ne by exact Hne. exact Ho.
Qed.

(** The colorbar axes of a constructed [ImageGrid]: new objects, created
    after the axes of the grid. *)
Lemma cbar_axes_fresh (host : Host) (g : Grid.t) (arr : ndarray) (o : string)
    (cbars : list ref) (w2 w3 : World) :
  axes_built g arr w2 ->
  ImageGrid.new_cbar_axes host o (range (Grid.ngrids g)) w2 = (Ok cbars, w3) ->
  NoDup cbars
  /\ length cbars = Z.to_nat (Grid.ngrids g)
  /\ (exists c0 cs, cbars = c0 :: cs)
  /\ (forall c, c ∈ cbars ->
        (length (axes_objs w2) <= c)%nat
        /\ the_object c w3 = Some (cbar_obj o))
  /\ (forall k r, Grid.axes_all g !! k = Some (Some r) -> r ∉ cbars).
Proof.
  intros Hb H. apply new_cbar_axes_ok in H. destruct H as (-> & Hobjs & _ & _).
  rewrite range_length in *. pose proof (built_ngrids _ _ _ Hb) as Hn.
  split; [apply NoDup_seq |].
  split; [apply length_seq |]. split.
  { destruct (Z.to_nat (Grid.ngrids g)) as [| n] eqn:E; [lia |]. cbn. eauto. }
  split.
  - intros c Hc. apply list_elem_of_In, in_seq in Hc. split; [lia |].
    unfold the_object. rewrite Hobjs, lookup_app_r by lia.
    apply lookup_replicate. split; [reflexivity | lia].
  - intros k r Hk Hr. apply list_elem_of_In, in_seq in Hr.
    apply (built_valid _ _ _ Hb) in Hk. lia.
Qed.

Lemma locate_cbar_plain (g : ImageGrid.t) (hp hc vp vc : list Z) (i col row : Z)
    (l : Locator) :
  ImageGrid._colorbar_mode g <> Some "each"%string ->
  ImageGrid._colorbar_mode g <> Some "edge"%string ->
  ImageGrid.locate_cbar g hp hc vp vc i col row l = ret tt.
Proof.
  intros H1 H2. unfold ImageGrid.locate_cbar.
  rewrite (opt_str_eq_false _ _ H1), (opt_str_eq_false _ _ H2). reflexivity.
Qed.

(** The locator loop keeps an object that is no axes of the grid, when the
    colorbar half of its body does. *)
Lemma keeps_object_locate (g : ImageGrid.t) (r : ref) (hp hc vp vc : list Z) (i : Z) :
  (forall k, Grid.axes_all (ImageGrid.base g) !! k <> Some (Some r)) ->
  (forall col row l, keeps (the_object r)
                       (ImageGrid.locate_cbar g hp hc vp vc i col row l)) ->
  keeps (the_object r) (ImageGrid.locate g hp hc vp vc i).
Proof.
  intros Hr Hcb. unfold ImageGrid.locate.
  apply keeps_bind; [apply keeps_lift | intros [col row]].
  apply keeps_bind; [apply keeps_lift | intros x].
  apply keeps_bind; [apply keeps_lift | intros y].
  apply keeps_bind_ok; [apply keeps_lift |]. intros ax (w & w' & Hax).
  apply lift_ok in Hax. destruct Hax as [Hax _].
  apply keeps_bind; [| intros _; apply Hcb].
  destruct ax as [x0 |]; [| intros w0 r0 w0' H0; injection H0 as _ <-; reflexivity].
  apply keeps_object_modify. intros ->.
  unfold py_index in Hax. destruct (_ || _); [discriminate |].
  destruct (Grid.axes_all (ImageGrid.base g) !! _) eqn:E; [| discriminate].
  injection Hax as ->. exact (Hr _ E).
Qed.

Lemma single_before_right (g : ImageGrid.t) (w : World) :
  ImageGrid._colorbar_location g = "right"%string ->
  ImageGrid.single_before g w = (Ok ([], []), w).
Proof.
  intros E. unfold ImageGrid.single_before. rewrite E. cbn.
  rewrite andb_false_r. reflexivity.
Qed.

Lemma after_loops_single_right (g : ImageGrid.t) (h v h' v' : list Size) (w w' : World) :
  ImageGrid._colorbar_mode g = Some "single"%string ->
  ImageGrid._colorbar_location g = "right"%string ->
  ImageGrid.after_loops g h v w = (Ok (h', v'), w') ->
  h' = h ++ [SizeFromAny (ImageGrid._colorbar_pad g)
               (SizeFraction (Grid._nrows (ImageGrid.base g))
                  (SizeAxesX (Grid.axes_llc (ImageGrid.base g)) None None));
             SizeFromAny (ImageGrid._colorbar_size g)
               (SizeFraction (Grid._nrows (ImageGrid.base g))
                  (SizeAxesX (Grid.axes_llc (ImageGrid.base g)) None None))]
  /\ v' = v
  /\ ImageGrid.show_single g (new_locator (-2) 0 None (Some (-1))) w = (Ok tt, w').
Proof.
  intros Em El. unfold ImageGrid.after_loops. rewrite Em, El. cbn [opt_str_eq].
  rewrite !String.eqb_refl. intros H. run_bind H. destruct a. run_ret H.
  injection E as -> ->. rewrite <- app_assoc. auto.
Qed.

(** An [ImageGrid] with [cbar_mode="single"] and [cbar_location="right"]
    has exactly one colorbar cell, whatever its direction: its horizontal
    sequence is the axes cells interleaved with the padding, followed by
    [from_any(colorbar pad, sz)] and [from_any(colorbar size, sz)] with
    [sz = Fraction(nrows, AxesX(axes_llc))]; the vertical sequence has none.
    The first colorbar axes has the locator [nx=-2, ny=0, ny1=-1] and is
    visible; every other colorbar axes is not.  Which axes [axes_llc] is
    depends on the direction. *)
Lemma single_colorbar_on_the_right
    (host : Host) (rect : RectArg) (nrows ncols : Z) (ngrids : option Z)
    (direction : string) (axes_pad : PadArg)
    (add_all share_all aspect : bool) (label_mode : string)
    (cbar_pad : option SizeSpec) (cbar_size : SizeSpec) (cbar_set_cax : bool)
    (w w' : World) (g : ImageGrid.t) :
  ImageGrid.__init__ host rect (nrows, ncols) ngrids direction axes_pad add_all
    share_all aspect label_mode (Some "single"%string) "right" cbar_pad cbar_size
    cbar_set_cax w = (Ok g, w') ->
  exists ax0 row0 col0 cells c0 cs o0,
    py_index (Grid.axes_all (ImageGrid.base g)) 0 = Ok ax0
    /\ py_index (Grid.axes_row (ImageGrid.base g)) 0 = Ok row0
    /\ py_index (Grid.axes_column (ImageGrid.base g)) 0 = Ok col0
    /\ interleaved (SizeFixed (Grid._horiz_pad_size (ImageGrid.base g)))
         (axes_cell_x ax0 <$> row0) cells
    /\ div_horizontal (Grid._divider (ImageGrid.base g))
       = cells ++ [SizeFromAny (ImageGrid._colorbar_pad g)
                     (SizeFraction nrows
                        (SizeAxesX (Grid.axes_llc (ImageGrid.base g)) None None));
                   SizeFromAny cbar_size
                     (SizeFraction nrows
                        (SizeAxesX (Grid.axes_llc (ImageGrid.base g)) None None))]
    /\ interleaved (SizeFixed (Grid._vert_pad_size (ImageGrid.base g)))
         (axes_cell_y ax0 <$> rev col0)
         (div_vertical (Grid._divider (ImageGrid.base g)))
    /\ ImageGrid.cbar_axes g = c0 :: cs
    /\ Z.of_nat (length (ImageGrid.cbar_axes g)) = Grid.ngrids (ImageGrid.base g)
    /\ axes_objs w' !! c0 = Some o0
    /\ axes_locator o0 = Some (new_locator (-2) 0 None (Some (-1)))
    /\ visible o0 = Some true
    /\ (forall c, c ∈ cs ->
          exists o, axes_objs w' !! c = Some o /\ visible o = Some false).
Proof.
  intros H. apply ImageGrid_init_built in H.
  destruct H as (arr & w2 & w3 & wa & wb & w4 & w5 & w6 & h0 & v0 & row0' & col0'
                 & h & hp & hc & v & vp & vc
                 & (En & Ec & _ & _ & Em & El & Es) & Hb & Hcb & Hsb & Er & Hh & Ecol
                 & Hv & Hloop & Hafter & Hadd & Hcax & Hlab).
  assert (M1 : ImageGrid._colorbar_mode g <> Some "each"%string) by (rewrite Em; discriminate).
  assert (M2 : ImageGrid._colorbar_mode g <> Some "edge"%string) by (rewrite Em; discriminate).
  destruct (axes_built_first _ _ _ Hb) as (ax0 & row0 & col0 & E0 & Er0 & Ec0 & _ & _).
  rewrite Er0 in Er. injection Er as <-. rewrite Ec0 in Ecol. injection Ecol as <-.
  rewrite single_before_right in Hsb by exact El. injection Hsb as <- <- <-.
  rewrite (h_loop_plain _ ax0) in Hh by assumption.
  rewrite (v_loop_plain _ ax0) in Hv by assumption.
  rewrite (fold_left_fmap_step (axes_cell_x ax0)
             (interleave_step (SizeFixed (Grid._horiz_pad_size (ImageGrid.base g))))) in Hh.
  rewrite (fold_left_fmap_step (axes_cell_y ax0)
             (interleave_step (SizeFixed (Grid._vert_pad_size (ImageGrid.base g))))) in Hv.
  destruct (interleave_fold (SizeFixed (Grid._horiz_pad_size (ImageGrid.base g)))
              (axes_cell_x ax0 <$> row0)) as (hh & Fh & Ih).
  destruct (interleave_fold (SizeFixed (Grid._vert_pad_size (ImageGrid.base g)))
              (axes_cell_y ax0 <$> rev col0)) as (vv & Fv & Iv).
  rewrite Fh in Hh. rewrite Fv in Hv. injection Hh as <- _ _. injection Hv as <- _ _.
  apply after_loops_single_right in Hafter; [| exact Em | exact El].
  destruct Hafter as (Eh' & Ev' & Hshow).
  destruct (cbar_axes_fresh _ _ _ _ _ _ _ Hb Hcb) as (Hnd & Hlen & (c0 & cs & Ecb) & _ & _).
  destruct (show_single_ok g _ c0 cs _ _ Ecb Hnd Hlen Hshow) as ((o0 & Ho0 & Hl0 & Hv0) & Hrest).
  destruct (ImageGrid_tail_frame _ _ _ _ _ _ _ _ _ _ _ Hadd Hcax Hlab Ho0)
    as (o0' & Ho0' & Hl0' & Hv0').
  exists ax0, row0, col0, hh, c0, cs, o0'.
  split; [exact E0 |]. split; [exact Er0 |]. split; [exact Ec0 |].
  split; [exact Ih |]. split; [rewrite Eh', En, Es; reflexivity |].
  split; [rewrite Ev'; exact Iv |]. split; [exact Ecb |].
  split; [rewrite Hlen; pose proof (built_ngrids _ _ _ Hb); lia |].
  split; [exact Ho0' |]. split; [congruence |]. split; [congruence |].
  intros c Hc. destruct (Hrest c Hc) as (o & Ho & Hvo).
  destruct (ImageGrid_tail_frame _ _ _ _ _ _ _ _ _ _ _ Hadd Hcax Hlab Ho)
    as (o' & Ho' & _ & Hvo').
  exists o'. split; [exact Ho' | congruence].
Qed.

(** With [direction="row"] the axes that the single colorbar on the right
    is sized against is the one drawn in the lower-left cell: on a 2x2 grid
    [axes_llc] is the slot of index 2, of logical position column 0, row 1,
    and its locator is that of cell [(0, 0)] of the divider. *)
Lemma single_colorbar_row_direction :
  exists g w' c0 cs o0,
    ImageGrid.__init__ plain_host (RectSeq [0; 0; 1; 1]%Q) (2, 2) None "row"
      (PadSeq [1 # 50; 1 # 25]%Q) true false true "L" (Some "single"%string)
      "right" None (SpecString "5%") true empty_world = (Ok g, w')
    /\ drop 3 (div_horizontal (Grid._divider (ImageGrid.base g)))
       = [SizeFromAny (SpecNumber (1 # 50))
            (SizeFraction 2 (SizeAxesX (Grid.axes_llc (ImageGrid.base g)) None None));
          SizeFromAny (SpecString "5%")
            (SizeFraction 2 (SizeAxesX (Grid.axes_llc (ImageGrid.base g)) None None))]
    /\ Grid.__getitem__ (ImageGrid.base g) 2 = Ok (Grid.axes_llc (ImageGrid.base g))
    /\ Grid._get_col_row (ImageGrid.base g) 2 = Ok (0, 1)
    /\ drawn_at w' (Grid.axes_llc (ImageGrid.base g)) = Some (0, 0)
    /\ ImageGrid.cbar_axes g = c0 :: cs
    /\ axes_objs w' !! c0 = Some o0
    /\ axes_locator o0 = Some (new_locator (-2) 0 None (Some (-1)))
    /\ visible o0 = Some true.
Proof.
  destruct (single_colorbar_on_the_right
              plain_host (RectSeq [0; 0; 1; 1]%Q) 2 2 None "row"%string
              (PadSeq [1 # 50; 1 # 25]%Q) true false true "L"%string None
              (SpecString "5%") true empty_world _ _ ltac:(vm_compute; reflexivity))
    as (ax0 & row0 & col0 & cells & c0 & cs & o0 & _ & _ & _ & _ & _ & _ & Ecb
        & _ & Ho0 & Hl0 & Hv0 & _).
  eexists _, _, c0, cs, o0. split; [vm_compute; reflexivity |].
  split; [reflexivity |]. split; [reflexivity |]. split; [reflexivity |].
  split; [reflexivity |]. auto.
Qed.

(** C8 at an [ImageGrid] built with [direction="column"]: on a 2x2 grid
    with [cbar_mode="single"] and [cbar_location="right"] the pad term and
    the size term are appended after the last horizontal axes cell, but the
    axes they are sized against, [axes_llc], is not the lower-left one.  It
    is the slot of index 2, of logical position column 1, row 0, which its
    locator draws in the top-right cell [(2, 2)] of the divider; the axes
    drawn in the lower-left cell [(0, 0)] is the slot of index 1.  The
    entry [axes_column[0][-1]] stored as [axes_llc] is taken from the array
    of axes, whose rows and columns are not those of the locators for this
    direction. *)
Theorem C8_single_colorbar_column_direction :
  exists g w' llc a1,
    ImageGrid.__init__ plain_host (RectSeq [0; 0; 1; 1]%Q) (2, 2) None "column"
      (PadSeq [1 # 50; 1 # 25]%Q) true false true "L" (Some "single"%string)
      "right" None (SpecString "5%") true empty_world = (Ok g, w')
    /\ Grid.axes_llc (ImageGrid.base g) = llc
    /\ drop 3 (div_horizontal (Grid._divider (ImageGrid.base g)))
       = [SizeFromAny (SpecNumber (1 # 50)) (SizeFraction 2 (SizeAxesX llc None None));
          SizeFromAny (SpecString "5%") (SizeFraction 2 (SizeAxesX llc None None))]
    /\ Grid.__getitem__ (ImageGrid.base g) 2 = Ok llc
    /\ Grid._get_col_row (ImageGrid.base g) 2 = Ok (1, 0)
    /\ drawn_at w' llc = Some (2, 2)
    /\ Grid.__getitem__ (ImageGrid.base g) 1 = Ok a1
    /\ Grid._get_col_row (ImageGrid.base g) 1 = Ok (0, 1)
    /\ drawn_at w' a1 = Some (0, 0)
    /\ a1 <> llc
    /\ py_index (Grid.axes_column (ImageGrid.base g)) 0
       = Ok [Grid.axes_all (ImageGrid.base g) !!! 0%nat; llc].
Proof.
  eexists _, _, _, _. vm_compute.
  repeat match goal with |- _ /\ _ => split end; try reflexivity.
  discriminate.
Qed.

(** ** Locators *)

Lemma even_positions_index (n : nat) (k x : Z) :
  0 <= k -> py_index (even_positions n) k = Ok x -> x = 2 * k /\ k < Z.of_nat n.
Proof.
  intros Hk H. apply py_index_nonneg in H; [| exact Hk]. destruct H as [H Hlt].
  unfold even_positions in *. rewrite length_fmap, length_seq in Hlt.
  rewrite list_lookup_fmap, lookup_seq_lt in H by lia. cbn in H.
  injection H as <-. lia.
Qed.

(** Two slot indices that hold the same axes are the same index. *)
Lemma axes_all_index_inj (g : Grid.t) (arr : ndarray) (w : World) (i j : Z) (ax : ref) :
  axes_built g arr w -> 0 <= i -> 0 <= j ->
  py_index (Grid.axes_all g) i = Ok (Some ax) ->
  py_index (Grid.axes_all g) j = Ok (Some ax) -> i = j.
Proof.
  intros Hb Hi Hj Ei Ej.
  apply py_index_nonneg in Ei; [| exact Hi]. apply py_index_nonneg in Ej; [| exact Hj].
  destruct Ei as [Ei _], Ej as [Ej _].
  pose proof (built_no_sharing _ _ _ Hb _ _ _ Ei Ej). lia.
Qed.

Lemma Grid_locate_loop (g : Grid.t) (arr : ndarray) (w0 : World)
    (h_ax_pos v_ax_pos : list Z) (w w' : World) :
  axes_built g arr w0 ->
  mfor (range (Grid.ngrids g)) (Grid.locate g h_ax_pos v_ax_pos) w = (Ok tt, w') ->
  forall i, 0 <= i < Grid.ngrids g -> grid_located g h_ax_pos v_ax_pos i w'.
Proof.
  intros Hb H i Hi.
  apply (mfor_establishes (range (Grid.ngrids g)) (Grid.locate g h_ax_pos v_ax_pos)
           (grid_located g h_ax_pos v_ax_pos) (range_NoDup _)) with (w := w);
    [| | exact H | apply range_elem, Hi].
  - intros j wj wj' _ Hbody. apply Grid_locate_ok in Hbody.
    destruct Hbody as (col & row & x & y & ax & a & E1 & E2 & E3 & E4 & Ha & Hw).
    exists col, row, x, y, ax, (with_locator (new_locator x y None None) a).
    repeat split; try assumption.
    unfold the_object. rewrite Hw. apply list_lookup_insert_eq.
    apply lookup_lt_Some in Ha. exact Ha.
  - intros k j wj wj' Hk Hj Hne Hbody (col & row & x & y & ax & o & E1 & E2 & E3 & E4 & Ho & Hl).
    apply Grid_locate_ok in Hbody.
    destruct Hbody as (col' & row' & x' & y' & ax' & a & _ & _ & _ & E4' & Ha & Hw).
    exists col, row, x, y, ax, o. repeat split; try assumption.
    unfold the_object. rewrite Hw. rewrite list_lookup_insert_ne; [exact Ho |].
    intros ->. apply Hne. apply range_elem in Hk. apply range_elem in Hj.
    eapply (axes_all_index_inj g arr w0 k j); [exact Hb | lia | lia | exact E4 | exact E4'].
Qed.

Lemma Grid_init_locators (host : Host) (rect : RectArg) (nrows ncols : Z)
    (ngrids : option Z) (direction : string) (axes_pad : PadArg)
    (add_all share_all share_x share_y : bool) (label_mode : string)
    (w w' : World) (g : Grid.t) :
  Grid.__init__ host rect (nrows, ncols) ngrids direction axes_pad add_all
    share_all share_x share_y label_mode w = (Ok g, w') ->
  forall i, 0 <= i < Grid.ngrids g ->
    exists col row ax o,
      Grid._get_col_row g i = Ok (col, row)
      /\ Grid.__getitem__ g i = Ok (Some ax)
      /\ axes_objs w' !! ax = Some o
      /\ axes_locator o = Some (new_locator (2 * col) (2 * (nrows - 1 - row)) None None)
      /\ div_horizontal (Grid._divider g) !! Z.to_nat (2 * col) = Some (SizeScaled 1)
      /\ div_vertical (Grid._divider g) !! Z.to_nat (2 * (nrows - 1 - row))
         = Some (SizeScaled 1).
Proof.
  intros H i Hi.
  destruct (Grid_init_sizes _ _ _ _ _ _ _ _ _ _ _ _ _ _ _ H) as (_ & _ & Ih & Iv).
  apply Grid_init_built in H.
  destruct H as (arr & w2 & w3 & w4 & En & Ec & _ & _ & Hb & Hloop & Hobjs & Hlab).
  destruct (Grid_locate_loop g arr w2 _ _ _ _ Hb Hloop i Hi)
    as (col & row & x & y & ax & o & E1 & E2 & E3 & E4 & Ho & Hl).
  pose proof (built_rows _ _ _ Hb) as Hrows. pose proof (built_cols _ _ _ Hb) as Hcols.
  pose proof (built_ngrids _ _ _ Hb) as Hn.
  destruct (get_col_row_in_grid g Hrows Hcols i col row ltac:(lia) E1) as [Hrow Hcol].
  apply even_positions_index in E2; [| lia]. destruct E2 as [-> _].
  rewrite En in E3. apply even_positions_index in E3; [| lia]. destruct E3 as [-> _].
  assert (Ho4 : the_object ax w4 = Some o) by (unfold the_object; rewrite Hobjs; exact Ho).
  destruct (seen_through_lookup axes_locator w4 w' ax o) as (o' & Ho' & El');
    [exact (keeps_locator_set_label_mode _ _ _ _ _ Hlab) | exact Ho4 |].
  exists col, row, ax, o'.
  split; [exact E1 |]. split; [exact E4 |]. split; [exact Ho' |].
  split; [congruence |].
  destruct Ih as (_ & Hcx & _). destruct Iv as (_ & Hcy & _). split.
  - replace (Z.to_nat (2 * col)) with (2 * Z.to_nat col)%nat by lia.
    apply Hcx. apply lookup_replicate. split; [reflexivity | lia].
  - replace (Z.to_nat (2 * (nrows - 1 - row))) with (2 * Z.to_nat (nrows - 1 - row))%nat
      by lia.
    apply Hcy. apply lookup_replicate. split; [reflexivity | lia].
Qed.

(** *** Where the loops of [ImageGrid] put the cells *)

Lemma cbar_here_each (g : ImageGrid.t) (side : string) (k e : Z) :
  ImageGrid._colorbar_mode g = Some "each"%string ->
  ImageGrid.cbar_here g side k e = String.eqb (ImageGrid._colorbar_location g) side.
Proof. intros E. unfold ImageGrid.cbar_here. rewrite E. reflexivity. Qed.

Lemma lookup_snoc_cell {A} (l tl : list A) (x : A) :
  ((l ++ [x]) ++ tl) !! length l = Some x.
Proof. rewrite <- app_assoc. apply list_lookup_middle. reflexivity. Qed.

(** One round of the horizontal loop: the cell is appended behind what is
    there, at the recorded position; with [cbar_mode="each"] on the left or
    right, so is its colorbar cell. *)
Lemma h_step_spec (g : ImageGrid.t) (ax0 : option ref) (col : Z) (ax : option ref)
    (h h1 : list Size) (p c p1 c1 : list Z) :
  py_index (Grid.axes_all (ImageGrid.base g)) 0 = Ok ax0 ->
  ImageGrid.h_step g col ax (h, p, c) = Ok (h1, p1, c1) ->
  (exists pre post,
     h1 = ((h ++ pre) ++ [axes_cell_x ax0 ax]) ++ post
     /\ p1 = p ++ [Z.of_nat (length (h ++ pre))])
  /\ (ImageGrid._colorbar_mode g = Some "each"%string ->
      str_in (ImageGrid._colorbar_location g) ["right"; "left"]%string = true ->
      exists pre post,
        h1 = ((h ++ pre) ++ [SizeFromAny (ImageGrid._colorbar_size g)
                               (axes_cell_x ax0 ax)]) ++ post
        /\ c1 = c ++ [Z.of_nat (length (h ++ pre))]).
Proof.
  intros E0. unfold ImageGrid.h_step. rewrite E0. cbv zeta.
  replace (match ax with
           | Some _ => SizeAxesX ax (Some "axes"%string) (Some ax0)
           | None => SizeAxesX ax0 (Some "axes"%string) (Some ax0)
           end) with (axes_cell_x ax0 ax) by (destruct ax; reflexivity).
  set (cell := axes_cell_x ax0 ax).
  set (pad := SizeFixed (Grid._horiz_pad_size (ImageGrid.base g))).
  set (ha := match h with [] => h | _ :: _ => h ++ [pad] end).
  assert (Hha : exists q, ha = h ++ q).
  { subst ha. destruct h; [exists []; rewrite app_nil_r; reflexivity | eauto]. }
  destruct Hha as [q ->].
  assert (Hside : ImageGrid._colorbar_mode g = Some "each"%string ->
                  str_in (ImageGrid._colorbar_location g) ["right"; "left"]%string = true ->
                  ImageGrid.cbar_here g "left" col 0
                  = negb (ImageGrid.cbar_here g "right" col (Grid._ncols (ImageGrid.base g) - 1))).
  { intros Em Hs. rewrite !(cbar_here_each _ _ _ _ Em). unfold str_in in Hs.
    cbn [existsb] in Hs.
    destruct (String.eqb_spec (ImageGrid._colorbar_location g) "right") as [-> |];
      [reflexivity |].
    destruct (String.eqb_spec (ImageGrid._colorbar_location g) "left"); [reflexivity |].
    discriminate. }
  destruct (ImageGrid.cbar_here g "left" col 0) eqn:EL;
    destruct (ImageGrid.cbar_here g "right" col _) eqn:ER;
    intros [= <- <- <-]; split;
    try (intros Em Hs; specialize (Hside Em Hs); try discriminate Hside).
  - eexists (q ++ [_; _]), [_; _]. rewrite <- !app_assoc. split; reflexivity.
  - eexists (q ++ [_; _]), []. rewrite <- !app_assoc, ?app_nil_r. split; reflexivity.
  - exists q, [SizeFromAny (ImageGrid._colorbar_pad g) cell; cell].
    rewrite <- !app_assoc. split; reflexivity.
  - eexists q, [_; _]. rewrite <- !app_assoc. split; reflexivity.
  - exists (q ++ [cell; SizeFromAny (ImageGrid._colorbar_pad g) cell]), [].
    rewrite <- !app_assoc, ?app_nil_r. split; reflexivity.
  - exists q, []. rewrite ?app_nil_r. split; reflexivity.
Qed.

Lemma v_step_spec (g : ImageGrid.t) (ax0 : option ref) (row : Z) (ax : option ref)
    (v v1 : list Size) (p c p1 c1 : list Z) :
  py_index (Grid.axes_all (ImageGrid.base g)) 0 = Ok ax0 ->
  ImageGrid.v_step g row ax (v, p, c) = Ok (v1, p1, c1) ->
  (exists pre post,
     v1 = ((v ++ pre) ++ [axes_cell_y ax0 ax]) ++ post
     /\ p1 = p ++ [Z.of_nat (length (v ++ pre))])
  /\ (ImageGrid._colorbar_mode g = Some "each"%string ->
      str_in (ImageGrid._colorbar_location g) ["top"; "bottom"]%string = true ->
      exists pre post,
        v1 = ((v ++ pre) ++ [SizeFromAny (ImageGrid._colorbar_size g)
                               (axes_cell_y ax0 ax)]) ++ post
        /\ c1 = c ++ [Z.of_nat (length (v ++ pre))]).
Proof.
  intros E0. unfold ImageGrid.v_step. rewrite E0. cbv zeta.
  replace (match ax with
           | Some _ => SizeAxesY ax (Some "axes"%string) (Some ax0)
           | None => SizeAxesY ax0 (Some "axes"%string) (Some ax0)
           end) with (axes_cell_y ax0 ax) by (destruct ax; reflexivity).
  set (cell := axes_cell_y ax0 ax).
  set (pad := SizeFixed (Grid._vert_pad_size (ImageGrid.base g))).
  set (va := match v with [] => v | _ :: _ => v ++ [pad] end).
  assert (Hva : exists q, va = v ++ q).
  { subst va. destruct v; [exists []; rewrite app_nil_r; reflexivity | eauto]. }
  destruct Hva as [q ->].
  assert (Hside : ImageGrid._colorbar_mode g = Some "each"%string ->
                  str_in (ImageGrid._colorbar_location g) ["top"; "bottom"]%string = true ->
                  ImageGrid.cbar_here g "bottom" row 0
                  = negb (ImageGrid.cbar_here g "top" row (Grid._nrows (ImageGrid.base g) - 1))).
  { intros Em Hs. rewrite !(cbar_here_each _ _ _ _ Em). unfold str_in in Hs.
    cbn [existsb] in Hs.
    destruct (String.eqb_spec (ImageGrid._colorbar_location g) "top") as [-> |];
      [reflexivity |].
    destruct (String.eqb_spec (ImageGrid._colorbar_location g) "bottom"); [reflexivity |].
    discriminate. }
  destruct (ImageGrid.cbar_here g "bottom" row 0) eqn:EL;
    destruct (ImageGrid.cbar_here g "top" row _) eqn:ER;
    intros [= <- <- <-]; split;
    try (intros Em Hs; specialize (Hside Em Hs); try discriminate Hside).
  - eexists (q ++ [_; _]), [_; _]. rewrite <- !app_assoc. split; reflexivity.
  - eexists (q ++ [_; _]), []. rewrite <- !app_assoc, ?app_nil_r. split; reflexivity.
  - exists q, [SizeFromAny (ImageGrid._colorbar_pad g) cell; cell].
    rewrite <- !app_assoc. split; reflexivity.
  - eexists q, [_; _]. rewrite <- !app_assoc. split; reflexivity.
  - exists (q ++ [cell; SizeFromAny (ImageGrid._colorbar_pad g) cell]), [].
    rewrite <- !app_assoc, ?app_nil_r. split; reflexivity.
  - exists q, []. rewrite ?app_nil_r. split; reflexivity.
Qed.

Lemma cells_at_nil (h : list Size) : cells_at [] [] h.
Proof. split; [reflexivity | intros k c Hk; discriminate]. Qed.

Lemma cells_at_cons (x : nat) (c : Size) (ps : list Z) (cs h : list Size) :
  h !! x = Some c -> cells_at ps cs h -> cells_at (Z.of_nat x :: ps) (c :: cs) h.
Proof.
  intros Hx [Hlen Hcs]. split; [cbn; lia |].
  intros [| k] c' Hk; [injection Hk as <-; eauto | apply Hcs, Hk].
Qed.

Lemma cells_at_index (ps : list Z) (cs h : list Size) (k : Z) (c : Size) :
  cells_at ps cs h -> 0 <= k -> py_index cs k = Ok c ->
  exists x, py_index ps k = Ok x /\ py_index h x = Ok c.
Proof.
  intros [Hlen Hcs] Hk Hc. apply py_index_nonneg in Hc; [| exact Hk].
  destruct Hc as [Hc _]. destruct (Hcs _ _ Hc) as (x & Hp & Hx).
  exists (Z.of_nat x). split; [| apply py_index_lookup, Hx].
  rewrite <- (Z2Nat.id k) by exact Hk. apply py_index_lookup, Hp.
Qed.

Lemma h_loop_spec (g : ImageGrid.t) (ax0 : option ref) :
  py_index (Grid.axes_all (ImageGrid.base g)) 0 = Ok ax0 ->
  forall (l : list (option ref)) (col : Z) (h h' : list Size) (p c p' c' : list Z),
    ImageGrid.h_loop g col l (h, p, c) = Ok (h', p', c') ->
    (exists tl, h' = h ++ tl)
    /\ (exists ps, p' = p ++ ps /\ cells_at ps (axes_cell_x ax0 <$> l) h')
    /\ (ImageGrid._colorbar_mode g = Some "each"%string ->
        str_in (ImageGrid._colorbar_location g) ["right"; "left"]%string = true ->
        exists cps,
          c' = c ++ cps
          /\ cells_at cps
               ((fun ax => SizeFromAny (ImageGrid._colorbar_size g) (axes_cell_x ax0 ax))
                  <$> l) h').
Proof.
  intros E0. induction l as [| ax l IH]; intros col h h' p c p' c' H.
  - injection H as <- <- <-. split; [exists []; rewrite app_nil_r; reflexivity |].
    split; [exists []; rewrite app_nil_r; split; [reflexivity | apply cells_at_nil] |].
    intros _ _. exists []. rewrite app_nil_r. split; [reflexivity | apply cells_at_nil].
  - cbn [ImageGrid.h_loop] in H.
    destruct (ImageGrid.h_step g col ax (h, p, c)) as [[[h1 p1] c1] |] eqn:Es;
      [| discriminate].
    destruct (h_step_spec g ax0 _ _ _ _ _ _ _ _ E0 Es) as ((pre & post & Eh1 & Ep1) & Hcb).
    destruct (IH _ _ _ _ _ _ _ H) as ((tl & Eh') & (ps & Ep' & Hps) & Hcps).
    split; [| split].
    + exists ((pre ++ [axes_cell_x ax0 ax]) ++ post ++ tl).
      rewrite Eh', Eh1, <- !app_assoc. reflexivity.
    + exists (Z.of_nat (length (h ++ pre)) :: ps).
      split; [rewrite Ep', Ep1, <- app_assoc; reflexivity |].
      rewrite fmap_cons. apply cells_at_cons; [| exact Hps].
      rewrite Eh', Eh1, <- (app_assoc _ post tl). apply lookup_snoc_cell.
    + intros Em Hs. destruct (Hcb Em Hs) as (cpre & cpost & Eh1' & Ec1).
      destruct (Hcps Em Hs) as (cps & Ec' & Hcps').
      exists (Z.of_nat (length (h ++ cpre)) :: cps).
      split; [rewrite Ec', Ec1, <- app_assoc; reflexivity |].
      rewrite fmap_cons. apply cells_at_cons; [| exact Hcps'].
      rewrite Eh', Eh1', <- (app_assoc _ cpost tl). apply lookup_snoc_cell.
Qed.

Lemma v_loop_spec (g : ImageGrid.t) (ax0 : option ref) :
  py_index (Grid.axes_all (ImageGrid.base g)) 0 = Ok ax0 ->
  forall (l : list (option ref)) (row : Z) (v v' : list Size) (p c p' c' : list Z),
    ImageGrid.v_loop g row l (v, p, c) = Ok (v', p', c') ->
    (exists tl, v' = v ++ tl)
    /\ (exists ps, p' = p ++ ps /\ cells_at ps (axes_cell_y ax0 <$> l) v')
    /\ (ImageGrid._colorbar_mode g = Some "each"%string ->
        str_in (ImageGrid._colorbar_location g) ["top"; "bottom"]%string = true ->
        exists cps,
          c' = c ++ cps
          /\ cells_at cps
               ((fun ax => SizeFromAny (ImageGrid._colorbar_size g) (axes_cell_y ax0 ax))
                  <$> l) v').
Proof.
  intros E0. induction l as [| ax l IH]; intros row v v' p c p' c' H.
  - injection H as <- <- <-. split; [exists []; rewrite app_nil_r; reflexivity |].
    split; [exists []; rewrite app_nil_r; split; [reflexivity | apply cells_at_nil] |].
    intros _ _. exists []. rewrite app_nil_r. split; [reflexivity | apply cells_at_nil].
  - cbn [ImageGrid.v_loop] in H.
    destruct (ImageGrid.v_step g row ax (v, p, c)) as [[[v1 p1] c1] |] eqn:Es;
      [| discriminate].
    destruct (v_step_spec g ax0 _ _ _ _ _ _ _ _ E0 Es) as ((pre & post & Ev1 & Ep1) & Hcb).
    destruct (IH _ _ _ _ _ _ _ H) as ((tl & Ev') & (ps & Ep' & Hps) & Hcps).
    split; [| split].
    + exists ((pre ++ [axes_cell_y ax0 ax]) ++ post ++ tl).
      rewrite Ev', Ev1, <- !app_assoc. reflexivity.
    + exists (Z.of_nat (length (v ++ pre)) :: ps).
      split; [rewrite Ep', Ep1, <- app_assoc; reflexivity |].
      rewrite fmap_cons. apply cells_at_cons; [| exact Hps].
      rewrite Ev', Ev1, <- (app_assoc _ post tl). apply lookup_snoc_cell.
    + intros Em Hs. destruct (Hcb Em Hs) as (cpre & cpost & Ev1' & Ec1).
      destruct (Hcps Em Hs) as (cps & Ec' & Hcps').
      exists (Z.of_nat (length (v ++ cpre)) :: cps).
      split; [rewrite Ec', Ec1, <- app_assoc; reflexivity |].
      rewrite fmap_cons. apply cells_at_cons; [| exact Hcps'].
      rewrite Ev', Ev1', <- (app_assoc _ cpost tl). apply lookup_snoc_cell.
Qed.

Lemma cells_at_app (ps : list Z) (cs h tl : list Size) :
  cells_at ps cs h -> cells_at ps cs (h ++ tl).
Proof.
  intros [Hlen Hcs]. split; [exact Hlen |].
  intros k c Hk. destruct (Hcs _ _ Hk) as (x & Hp & Hx).
  exists x. split; [exact Hp | apply lookup_app_l_Some, Hx].
Qed.

Lemma after_loops_extends (g : ImageGrid.t) (h v h' v' : list Size) (w w' : World) :
  ImageGrid.after_loops g h v w = (Ok (h', v'), w') ->
  (exists t, h' = h ++ t) /\ (exists t, v' = v ++ t).
Proof.
  unfold ImageGrid.after_loops.
  destruct (opt_str_eq _ "single");
    [destruct (String.eqb _ "right"); [| destruct (String.eqb _ "top")]
    | destruct (opt_str_eq _ "each"); [| destruct (opt_str_eq _ "edge")]];
    intros H.
  - run_bind H. run_ret H. injection E as -> ->.
    split; [rewrite <- app_assoc; eauto | exists []; rewrite app_nil_r; reflexivity].
  - run_bind H. run_ret H. injection E as -> ->.
    split; [exists []; rewrite app_nil_r; reflexivity | rewrite <- app_assoc; eauto].
  - run_ret H. injection E as -> ->. split; exists []; rewrite app_nil_r; reflexivity.
  - run_bind H. run_ret H. injection E as -> ->.
    split; exists []; rewrite app_nil_r; reflexivity.
  - run_bind H. run_bind H. run_bind H. run_ret H. injection E as -> ->.
    split; exists []; rewrite app_nil_r; reflexivity.
  - run_bind H. run_ret H. injection E as -> ->.
    split; exists []; rewrite app_nil_r; reflexivity.
Qed.

Lemma locate_cbar_each_ok (g : ImageGrid.t) (hp hc vp vc : list Z) (i col row : Z)
    (l : Locator) (w w' : World) :
  ImageGrid._colorbar_mode g = Some "each"%string ->
  ImageGrid.locate_cbar g hp hc vp vc i col row l w = (Ok tt, w') ->
  exists c a lc,
    py_index (ImageGrid.cbar_axes g) i = Ok c
    /\ axes_objs w !! c = Some a
    /\ axes_objs w' = <[c := with_locator lc a]> (axes_objs w)
    /\ cbar_locator_of g hp hc vp vc col row l lc.
Proof.
  intros Em. unfold ImageGrid.locate_cbar, cbar_locator_of. rewrite Em. cbn [opt_str_eq].
  rewrite String.eqb_refl. intros H.
  run_bind H. rename a into lc. run_bind H.
  apply cbar_at_ok in H1. destruct H1 as (c & -> & Hc & _ & ->).
  run_setter H. destruct H as (x & a & [= <-] & Ha & Hw & _).
  exists c, a, lc. split; [exact Hc |]. split.
  - destruct (str_in _ ["right"; "left"]%string);
      [| destruct (str_in _ ["top"; "bottom"]%string)].
    + run_bind H0. run_bind H0. run_lifts. run_ret H0. exact Ha.
    + run_bind H0. run_bind H0. run_lifts. run_ret H0. exact Ha.
    + run_ret H0. exact Ha.
  - destruct (str_in _ ["right"; "left"]%string);
      [| destruct (str_in _ ["top"; "bottom"]%string)].
    + run_bind H0. run_bind H0. run_lifts. run_ret H0.
      split; [exact Hw | eauto].
    + run_bind H0. run_bind H0. run_lifts. run_ret H0.
      split; [exact Hw | eauto].
    + run_ret H0. split; [exact Hw | assumption].
Qed.

Lemma py_index_elem {A} (l : list A) (i : Z) (x : A) :
  py_index l i = Ok x -> exists k, l !! k = Some x.
Proof.
  unfold py_index. destruct (_ || _); [discriminate |].
  destruct (l !! _) eqn:E; [| discriminate]. intros [= <-]. eauto.
Qed.

Section ImageLocate.

Variables (g : ImageGrid.t) (arr : ndarray) (w0 : World).
Variables (hp hc vp vc : list Z).
Hypothesis built : axes_built (ImageGrid.base g) arr w0.
Hypothesis cbars_NoDup : NoDup (ImageGrid.cbar_axes g).
Hypothesis cbars_apart :
  forall k r, Grid.axes_all (ImageGrid.base g) !! k = Some (Some r) ->
              r ∉ ImageGrid.cbar_axes g.

Lemma ImageGrid_locate_loop_axes (w w' : World) :
  mfor (range (Grid.ngrids (ImageGrid.base g))) (ImageGrid.locate g hp hc vp vc) w
  = (Ok tt, w') ->
  forall i, 0 <= i < Grid.ngrids (ImageGrid.base g) ->
            grid_located (ImageGrid.base g) hp vp i w'.
Proof.
  intros H i Hi.
  apply (mfor_establishes (range (Grid.ngrids (ImageGrid.base g)))
           (ImageGrid.locate g hp hc vp vc)
           (grid_located (ImageGrid.base g) hp vp) (range_NoDup _)) with (w := w);
    [| | exact H | apply range_elem, Hi].
  - intros j wj wj' _ Hbody. apply ImageGrid_locate_ok in Hbody.
    destruct Hbody as (col & row & x & y & ax & a & w1 & E1 & E2 & E3 & E4 & Ha & Hw
                       & Ho & Hcb).
    exists col, row, x, y, ax, (with_locator (new_locator x y None None) a).
    repeat split; try assumption.
    destruct (py_index_elem _ _ _ E4) as [k Hk].
    rewrite (keeps_object_locate_cbar g ax (cbars_apart _ _ Hk) _ _ _ _ _ _ _ _ _ _ _ Hcb).
    exact Ho.
  - intros k j wj wj' Hk Hj Hne Hbody
           (col & row & x & y & ax & o & E1 & E2 & E3 & E4 & Ho & Hl).
    apply ImageGrid_locate_ok in Hbody.
    destruct Hbody as (col' & row' & x' & y' & ax' & a & w1 & _ & _ & _ & E4' & Ha & Hw
                       & _ & Hcb).
    exists col, row, x, y, ax, o. repeat split; try assumption.
    destruct (py_index_elem _ _ _ E4) as [m Hm].
    rewrite (keeps_object_locate_cbar g ax (cbars_apart _ _ Hm) _ _ _ _ _ _ _ _ _ _ _ Hcb).
    unfold the_object. rewrite Hw. rewrite list_lookup_insert_ne; [exact Ho |].
    intros ->. apply Hne. apply range_elem in Hk. apply range_elem in Hj.
    eapply (axes_all_index_inj _ arr w0 k j); [exact built | lia | lia | exact E4 | exact E4'].
Qed.

Lemma ImageGrid_locate_loop_cbar (w w' : World) :
  ImageGrid._colorbar_mode g = Some "each"%string ->
  mfor (range (Grid.ngrids (ImageGrid.base g))) (ImageGrid.locate g hp hc vp vc) w
  = (Ok tt, w') ->
  forall i, 0 <= i < Grid.ngrids (ImageGrid.base g) ->
            cbar_located g hp hc vp vc i w'.
Proof.
  intros Em H i Hi.
  apply (mfor_establishes (range (Grid.ngrids (ImageGrid.base g)))
           (ImageGrid.locate g hp hc vp vc)
           (cbar_located g hp hc vp vc) (range_NoDup _)) with (w := w);
    [| | exact H | apply range_elem, Hi].
  - intros j wj wj' _ Hbody. apply ImageGrid_locate_ok in Hbody.
    destruct Hbody as (col & row & x & y & ax & a & w1 & E1 & E2 & E3 & E4 & Ha & Hw
                       & Ho & Hcb).
    apply (locate_cbar_each_ok _ _ _ _ _ _ _ _ _ _ _ Em) in Hcb.
    destruct Hcb as (c & ac & lc & Hc & Hac & Hw' & Hlc).
    exists col, row, x, y, c, (with_locator lc ac), lc.
    repeat split; try assumption.
    unfold the_object. rewrite Hw'. apply list_lookup_insert_eq.
    apply lookup_lt_Some in Hac. exact Hac.
  - intros k j wj wj' Hk Hj Hne Hbody
           (col & row & x & y & c & o & lc & E1 & E2 & E3 & E4 & Ho & Hl & Hlc).
    apply ImageGrid_locate_ok in Hbody.
    destruct Hbody as (col' & row' & x' & y' & ax' & a & w1 & _ & _ & _ & E4' & Ha & Hw
                       & _ & Hcb).
    apply (locate_cbar_each_ok _ _ _ _ _ _ _ _ _ _ _ Em) in Hcb.
    destruct Hcb as (c' & ac & lc' & Hc' & Hac & Hw' & _).
    exists col, row, x, y, c, o, lc. repeat split; try assumption.
    unfold the_object. rewrite Hw', Hw.
    apply range_elem in Hk. apply range_elem in Hj.
    rewrite !list_lookup_insert_ne; [exact Ho | |].
    + intros ->. destruct (py_index_elem _ _ _ E4') as [m Hm].
      apply (cbars_apart _ _ Hm). destruct (py_index_elem _ _ _ E4) as [m' Hm'].
      apply list_elem_of_lookup. eauto.
    + intros ->. apply Hne.
      eapply (py_index_inj _ k j); [exact cbars_NoDup | lia | lia | exact E4 | exact Hc'].
Qed.

End ImageLocate.

Lemma py_index_fmap {A B} (f : A -> B) (l : list A) (k : Z) (x : A) :
  py_index l k = Ok x -> py_index (f <$> l) k = Ok (f x).
Proof.
  unfold py_index. rewrite length_fmap. destruct (_ || _); [discriminate |].
  rewrite list_lookup_fmap. destruct (l !! _); [| discriminate].
  intros [= <-]. reflexivity.
Qed.

Lemma py_index_in_range {A} (l : list A) (k : Z) :
  0 <= k < Z.of_nat (length l) -> exists x, py_index l k = Ok x.
Proof.
  intros Hk. destruct (lookup_lt_is_Some_2 l (Z.to_nat k)) as [x Hx]; [lia |].
  exists x. rewrite <- (Z2Nat.id k) by lia. apply py_index_lookup, Hx.
Qed.

Lemma keeps_locator_after_loops_each (g : ImageGrid.t) (h v : list Size) :
  ImageGrid._colorbar_mode g = Some "each"%string ->
  keeps (seen_through axes_locator) (ImageGrid.after_loops g h v).
Proof.
  intros Em. unfold ImageGrid.after_loops. rewrite Em. cbn [opt_str_eq].
  rewrite String.eqb_refl. cbn.
  keeps_setters. repeat keeps_step. apply keeps_proj_modify. reflexivity.
Qed.

(** ** Colorbars along an edge *)

Lemma edge_slot_inj (g : ImageGrid.t) (col row col' row' k : Z) :
  edge_slot g col row = Some k -> edge_slot g col' row' = Some k ->
  col = col' /\ row = row'.
Proof.
  unfold edge_slot, edge_col, edge_row.
  generalize (ImageGrid._colorbar_location g). intros loc.
  destruct (String.eqb_spec loc "left") as [E | _];
    [subst loc; cbn
    | destruct (String.eqb_spec loc "right") as [E | _];
      [subst loc; cbn
      | destruct (String.eqb_spec loc "bottom") as [E | _];
        [subst loc; cbn
        | destruct (String.eqb_spec loc "top") as [E | _];
          [subst loc; cbn | cbn; discriminate]]]];
    repeat match goal with
           | |- context [?a =? ?b] => destruct (Z.eqb_spec a b)
           end; cbn; intros [= <-] [= ?]; try discriminate; lia.
Qed.

Lemma locate_cbar_edge_ok (g : ImageGrid.t) (hp hc vp vc : list Z) (i col row : Z)
    (x y : Z) (w w' : World) :
  ImageGrid._colorbar_mode g = Some "edge"%string ->
  py_index hp col = Ok x ->
  py_index vp (Grid._nrows (ImageGrid.base g) - 1 - row) = Ok y ->
  ImageGrid.locate_cbar g hp hc vp vc i col row (new_locator x y None None) w
  = (Ok tt, w') ->
  match edge_slot g col row with
  | Some k =>
      exists c a lc,
        py_index (ImageGrid.cbar_axes g) k = Ok c
        /\ axes_objs w !! c = Some a
        /\ axes_objs w' = <[c := with_locator lc a]> (axes_objs w)
        /\ edge_locator_of g hc vc col x y lc
  | None => w' = w
  end.
Proof.
  intros Em Ex Ey. unfold ImageGrid.locate_cbar, edge_slot, edge_locator_of.
  rewrite Em. cbn [opt_str_eq].
  change (String.eqb "edge" "each") with false. rewrite String.eqb_refl.
  fold (edge_col g col). fold (edge_row g row).
  destruct (edge_col g col); [| destruct (edge_row g row)]; intros H.
  - run_bind H. run_bind H. run_bind H. run_lifts.
    apply cbar_at_ok in H2. destruct H2 as (c & -> & Hc & _ & ->).
    run_setter H. destruct H as (r & obj & [= <-] & Ha & Hw & _).
    rewrite Ey in *.
    match goal with X : Ok y = Ok _ |- _ => injection X as <- end.
    eexists c, obj, _. eauto 10.
  - run_bind H. run_bind H. run_bind H. run_lifts.
    apply cbar_at_ok in H2. destruct H2 as (c & -> & Hc & _ & ->).
    run_setter H. destruct H as (r & obj & [= <-] & Ha & Hw & _).
    rewrite Ex in *.
    match goal with X : Ok x = Ok _ |- _ => injection X as <- end.
    eexists c, obj, _. eauto 10.
  - run_ret H. reflexivity.
Qed.

Section ImageLocateEdge.

Variables (g : ImageGrid.t) (arr : ndarray) (w0 : World).
Variables (hp hc vp vc : list Z).
Hypothesis built : axes_built (ImageGrid.base g) arr w0.
Hypothesis cbars_NoDup : NoDup (ImageGrid.cbar_axes g).
Hypothesis cbars_apart :
  forall k r, Grid.axes_all (ImageGrid.base g) !! k = Some (Some r) ->
              r ∉ ImageGrid.cbar_axes g.

Lemma edge_slot_nonneg (i col row k : Z) :
  0 <= i < Grid.ngrids (ImageGrid.base g) ->
  Grid._get_col_row (ImageGrid.base g) i = Ok (col, row) ->
  edge_slot g col row = Some k -> 0 <= k.
Proof.
  intros Hi E Hk.
  pose proof (built_rows _ _ _ built) as Hrows.
  pose proof (built_cols _ _ _ built) as Hcols.
  pose proof (built_ngrids _ _ _ built) as Hn.
  destruct (get_col_row_in_grid _ Hrows Hcols i col row ltac:(lia) E) as [Hrow Hcol].
  unfold edge_slot in Hk.
  destruct (edge_col g col); [| destruct (edge_row g row)]; [| | discriminate];
    injection Hk as <-; lia.
Qed.

Lemma ImageGrid_locate_loop_edge (w w' : World) :
  ImageGrid._colorbar_mode g = Some "edge"%string ->
  mfor (range (Grid.ngrids (ImageGrid.base g))) (ImageGrid.locate g hp hc vp vc) w
  = (Ok tt, w') ->
  forall i, 0 <= i < Grid.ngrids (ImageGrid.base g) ->
            cbar_edge_located g hp hc vp vc i w'.
Proof.
  intros Em H i Hi.
  pose proof (built_rows _ _ _ built) as Hrows.
  pose proof (built_cols _ _ _ built) as Hcols.
  apply (mfor_establishes (range (Grid.ngrids (ImageGrid.base g)))
           (ImageGrid.locate g hp hc vp vc)
           (cbar_edge_located g hp hc vp vc) (range_NoDup _)) with (w := w);
    [| | exact H | apply range_elem, Hi].
  - intros j wj wj' _ Hbody. apply ImageGrid_locate_ok in Hbody.
    destruct Hbody as (col & row & x & y & ax & a & w1 & E1 & E2 & E3 & E4 & Ha & Hw
                       & Ho & Hcb).
    apply (locate_cbar_edge_ok _ _ _ _ _ _ _ _ _ _ _ _ Em E2 E3) in Hcb.
    exists col, row, x, y. split; [exact E1 |]. split; [exact E2 |]. split; [exact E3 |].
    intros k Hk. rewrite Hk in Hcb.
    destruct Hcb as (c & ac & lc & Hc & Hac & Hw' & Hlc).
    exists c, (with_locator lc ac), lc.
    split; [exact Hc |]. split; [| split; [reflexivity | exact Hlc]].
    unfold the_object. rewrite Hw'. apply list_lookup_insert_eq.
    apply lookup_lt_Some in Hac. exact Hac.
  - intros k j wj wj' Hk Hj Hne Hbody (col & row & x & y & E1 & E2 & E3 & Hall).
    apply range_elem in Hk. apply range_elem in Hj.
    apply ImageGrid_locate_ok in Hbody.
    destruct Hbody as (col' & row' & x' & y' & ax' & a & w1 & E1' & E2' & E3' & E4' & Ha
                       & Hw & _ & Hcb).
    apply (locate_cbar_edge_ok _ _ _ _ _ _ _ _ _ _ _ _ Em E2' E3') in Hcb.
    exists col, row, x, y. split; [exact E1 |]. split; [exact E2 |]. split; [exact E3 |].
    intros m Hm. destruct (Hall m Hm) as (c & o & lc & Hc & Ho & Hl & Hlc).
    exists c, o, lc. split; [exact Hc |]. split; [| split; assumption].
    assert (Hax : c <> ax').
    { intros ->. destruct (py_index_elem _ _ _ E4') as [n Hn].
      apply (cbars_apart _ _ Hn). destruct (py_index_elem _ _ _ Hc) as [n' Hn'].
      apply list_elem_of_lookup. eauto. }
    unfold the_object.
    destruct (edge_slot g col' row') as [m' |] eqn:Hm'.
    + destruct Hcb as (c' & ac & lc' & Hc' & Hac & Hw' & _).
      rewrite Hw', Hw. rewrite !list_lookup_insert_ne; [exact Ho | auto |].
      intros ->. apply Hne.
      assert (m = m').
      { eapply (py_index_inj _ m m'); [exact cbars_NoDup | | | exact Hc | exact Hc'].
        - eapply (edge_slot_nonneg k); eassumption.
        - eapply (edge_slot_nonneg j); eassumption. }
      subst m'. destruct (edge_slot_inj g _ _ _ _ _ Hm Hm') as [-> ->].
      apply (get_col_row_inj _ Hrows Hcols). congruence.
    + subst wj'. rewrite Hw. rewrite list_lookup_insert_ne; [exact Ho | auto].
Qed.

End ImageLocateEdge.

Lemma keeps_locator_after_loops_edge (g : ImageGrid.t) (h v : list Size) :
  ImageGrid._colorbar_mode g = Some "edge"%string ->
  keeps (seen_through axes_locator) (ImageGrid.after_loops g h v).
Proof.
  intros Em. unfold ImageGrid.after_loops. rewrite Em. cbn [opt_str_eq].
  change (String.eqb "edge" "single") with false.
  change (String.eqb "edge" "each") with false.
  rewrite String.eqb_refl. cbn.
  keeps_setters. repeat keeps_step; apply keeps_proj_modify; reflexivity.
Qed.

Lemma ImageGrid_init_locators (host : Host) (rect : RectArg) (nrows ncols : Z)
    (ngrids : option Z) (direction : string) (axes_pad : PadArg)
    (add_all share_all aspect : bool) (label_mode : string)
    (cbar_mode : option string) (cbar_location : string)
    (cbar_pad : option SizeSpec) (cbar_size : SizeSpec) (cbar_set_cax : bool)
    (w w' : World) (g : ImageGrid.t) :
  ImageGrid.__init__ host rect (nrows, ncols) ngrids direction axes_pad add_all
    share_all aspect label_mode cbar_mode cbar_location cbar_pad cbar_size
    cbar_set_cax w = (Ok g, w') ->
  exists ax0 row0 col0,
    py_index (Grid.axes_all (ImageGrid.base g)) 0 = Ok ax0
    /\ py_index (Grid.axes_row (ImageGrid.base g)) 0 = Ok row0
    /\ py_index (Grid.axes_column (ImageGrid.base g)) 0 = Ok col0
    /\ forall i, 0 <= i < Grid.ngrids (ImageGrid.base g) ->
         exists col row ax o cx cy lx ly,
           Grid._get_col_row (ImageGrid.base g) i = Ok (col, row)
           /\ Grid.__getitem__ (ImageGrid.base g) i = Ok (Some ax)
           /\ axes_objs w' !! ax = Some o
           /\ axes_locator o = Some (new_locator lx ly None None)
           /\ py_index row0 col = Ok cx
           /\ py_index (rev col0) (nrows - 1 - row) = Ok cy
           /\ py_index (div_horizontal (Grid._divider (ImageGrid.base g))) lx
              = Ok (axes_cell_x ax0 cx)
           /\ py_index (div_vertical (Grid._divider (ImageGrid.base g))) ly
              = Ok (axes_cell_y ax0 cy)
           /\ (cbar_mode = Some "each"%string ->
               exists c oc lc,
                 py_index (ImageGrid.cbar_axes g) i = Ok c
                 /\ axes_objs w' !! c = Some oc
                 /\ axes_locator oc = Some lc
                 /\ cbar_beside g ax0 cx cy lx ly lc)
           /\ (cbar_mode = Some "edge"%string ->
               forall k, edge_slot g col row = Some k ->
                 exists c oc lc,
                   py_index (ImageGrid.cbar_axes g) k = Ok c
                   /\ axes_objs w' !! c = Some oc
                   /\ axes_locator oc = Some lc
                   /\ cbar_along g col lx ly lc).
Proof.
  intros H. apply ImageGrid_init_built in H.
  destruct H as (arr & w2 & w3 & wa & wb & w4 & w5 & w6 & h0 & v0 & row0' & col0'
                 & h & hp & hc & v & vp & vc
                 & (En & Ec & _ & _ & Em & El & Es) & Hb & Hcb & Hsb & Er & Hh & Ecol
                 & Hv & Hloop & Hafter & Hadd & Hcax & Hlab).
  destruct (axes_built_first _ _ _ Hb) as (ax0 & row0 & col0 & E0 & Er0 & Ec0 & Hrow0 & Hcol0).
  rewrite Er0 in Er. injection Er as <-. rewrite Ec0 in Ecol. injection Ecol as <-.
  destruct (cbar_axes_fresh _ _ _ _ _ _ _ Hb Hcb) as (Hnd & Hlen & _ & _ & Hapart).
  destruct (h_loop_spec g ax0 E0 _ _ _ _ _ _ _ _ Hh) as (_ & (hps & Ehp & Hhps) & Hhcb).
  destruct (v_loop_spec g ax0 E0 _ _ _ _ _ _ _ _ Hv) as (_ & (vps & Evp & Hvps) & Hvcb).
  cbn [app] in Ehp, Evp. subst hps vps.
  destruct (after_loops_extends _ _ _ _ _ _ _ Hafter) as [[th Eh'] [tv Ev']].
  pose proof (built_rows _ _ _ Hb) as Hrows. pose proof (built_cols _ _ _ Hb) as Hcols.
  pose proof (built_ngrids _ _ _ Hb) as Hn.
  exists ax0, row0, col0.
  split; [exact E0 |]. split; [exact Er0 |]. split; [exact Ec0 |].
  intros i Hi.
  destruct (ImageGrid_locate_loop_axes g arr w2 hp hc vp vc Hb Hapart _ _ Hloop i Hi)
    as (col & row & x & y & ax & o & E1 & E2 & E3 & E4 & Ho & Hl).
  destruct (get_col_row_in_grid _ Hrows Hcols i col row ltac:(lia) E1) as [Hrow Hcol].
  destruct (py_index_in_range row0 col) as [cx Hcx].
  { rewrite Hrow0, length_fmap, range_length. lia. }
  destruct (py_index_in_range (rev col0) (Grid._nrows (ImageGrid.base g) - 1 - row))
    as [cy Hcy].
  { rewrite length_rev, Hcol0, length_fmap, range_length. lia. }
  assert (Hcol0' : 0 <= col) by lia.
  assert (Hrow0' : 0 <= Grid._nrows (ImageGrid.base g) - 1 - row) by lia.
  destruct (cells_at_index _ _ _ col _ (cells_at_app _ _ _ th Hhps) Hcol0'
              (py_index_fmap (axes_cell_x ax0) _ _ _ Hcx)) as (x' & Ex' & Hx').
  destruct (cells_at_index _ _ _ _ _ (cells_at_app _ _ _ tv Hvps) Hrow0'
              (py_index_fmap (axes_cell_y ax0) _ _ _ Hcy)) as (y' & Ey' & Hy').
  rewrite E2 in Ex'. injection Ex' as <-. rewrite E3 in Ey'. injection Ey' as <-.
  rewrite <- Eh' in Hx'. rewrite <- Ev' in Hy'.
  destruct (py_index_elem _ _ _ E4) as [m Hm].
  assert (Ho4 : the_object ax w4 = Some o).
  { rewrite (keeps_object_after_loops g ax (Hapart _ _ Hm) _ _ _ _ _ Hafter). exact Ho. }
  destruct (ImageGrid_tail_frame _ _ _ _ _ _ _ _ _ _ _ Hadd Hcax Hlab Ho4)
    as (o' & Ho' & Hl' & _).
  exists col, row, ax, o', cx, cy, x, y.
  split; [exact E1 |]. split; [exact E4 |]. split; [exact Ho' |].
  split; [congruence |]. split; [exact Hcx |].
  split; [rewrite <- En; exact Hcy |]. split; [exact Hx' |]. split; [exact Hy' |].
  split; intros Emode; rewrite <- Em in Emode.
  2: { intros k Hk.
       destruct (ImageGrid_locate_loop_edge g arr w2 hp hc vp vc Hb Hnd Hapart _ _ Emode
                   Hloop i Hi)
         as (col' & row' & x2 & y2 & E1' & E2' & E3' & Hall).
       rewrite E1 in E1'. injection E1' as <- <-.
       rewrite E2 in E2'. injection E2' as <-. rewrite E3 in E3'. injection E3' as <-.
       destruct (Hall k Hk) as (c & oc & lc & Hc & Hoc & Hlc & Hside).
       destruct (seen_through_lookup axes_locator wb w4 c oc) as (oc4 & Hoc4 & Hlc4);
         [exact (keeps_locator_after_loops_edge g h v Emode _ _ _ Hafter) | exact Hoc |].
       destruct (ImageGrid_tail_frame _ _ _ _ _ _ _ _ _ _ _ Hadd Hcax Hlab Hoc4)
         as (oc' & Hoc' & Hlc' & _).
       exists c, oc', lc. split; [exact Hc |]. split; [exact Hoc' |].
       split; [congruence |].
       unfold cbar_along, edge_locator_of in *.
       destruct (edge_col g col).
       - destruct Hside as (kx & _ & ->). eauto.
       - destruct Hside as (ky & _ & ->). eauto. }
  destruct (ImageGrid_locate_loop_cbar g hp hc vp vc Hnd Hapart _ _ Emode Hloop i Hi)
    as (col' & row' & x2 & y2 & c & oc & lc & E1' & E2' & E3' & Hc & Hoc & Hlc & Hside).
  rewrite E1 in E1'. injection E1' as <- <-.
  rewrite E2 in E2'. injection E2' as <-. rewrite E3 in E3'. injection E3' as <-.
  destruct (seen_through_lookup axes_locator wb w4 c oc) as (oc4 & Hoc4 & Hlc4);
    [exact (keeps_locator_after_loops_each g h v Emode _ _ _ Hafter) | exact Hoc |].
  destruct (ImageGrid_tail_frame _ _ _ _ _ _ _ _ _ _ _ Hadd Hcax Hlab Hoc4)
    as (oc' & Hoc' & Hlc' & _).
  exists c, oc', lc. split; [exact Hc |]. split; [exact Hoc' |].
  split; [congruence |].
  unfold cbar_beside, cbar_locator_of in *.
  destruct (str_in (ImageGrid._colorbar_location g) ["right"; "left"]%string) eqn:S1;
    [| destruct (str_in (ImageGrid._colorbar_location g) ["top"; "bottom"]%string) eqn:S2].
  - destruct Hside as (kx & ky & Hkx & Hky & ->).
    rewrite E3 in Hky. injection Hky as <-.
    destruct (Hhcb Emode eq_refl) as (cps & Ecps & Hcps). cbn [app] in Ecps. subst cps.
    destruct (cells_at_index _ _ _ col _ (cells_at_app _ _ _ th Hcps) Hcol0'
                (py_index_fmap _ _ _ _ Hcx)) as (kx' & Ekx' & Hkx').
    rewrite Hkx in Ekx'. injection Ekx' as <-.
    exists kx. split; [reflexivity |]. rewrite Eh'. exact Hkx'.
  - destruct Hside as (kx & ky & Hkx & Hky & ->).
    rewrite E2 in Hkx. injection Hkx as <-.
    destruct (Hvcb Emode eq_refl) as (cps & Ecps & Hcps). cbn [app] in Ecps. subst cps.
    destruct (cells_at_index _ _ _ _ _ (cells_at_app _ _ _ tv Hcps) Hrow0'
                (py_index_fmap _ _ _ _ Hcy)) as (ky' & Eky' & Hky').
    rewrite Hky in Eky'. injection Eky' as <-.
    exists ky. split; [reflexivity |]. rewrite Ev'. exact Hky'.
  - exact Hside.
Qed.

(** C4: in a constructed grid the axes at slot index [i], of logical
    position [(row, col) = _get_col_row(i)], has the locator whose [nx] is
    the position of the cell of column [col] in the horizontal sequence and
    whose [ny] is the position of the cell of row [nrows-1-row] in the
    vertical sequence, which runs bottom-up: in a [Grid], [nx = 2*col] and
    [ny = 2*(nrows-1-row)].  In an [ImageGrid] with [cbar_mode="each"] the
    colorbar axes of the slot takes the same [ny] (colorbars left or right)
    or the colorbar cell of the same row [nrows-1-row] (top or bottom); with
    [cbar_mode="edge"] the colorbar axes of the row of a slot of the edge
    column takes the same [ny], and the colorbar axes of the column of a
    slot of the edge row takes the same [nx]. *)
Theorem C4_locators_use_inverted_rows :
  (forall (host : Host) (rect : RectArg) (nrows ncols : Z) (ngrids : option Z)
          (direction : string) (axes_pad : PadArg)
          (add_all share_all share_x share_y : bool) (label_mode : string)
          (w w' : World) (g : Grid.t),
     Grid.__init__ host rect (nrows, ncols) ngrids direction axes_pad add_all
       share_all share_x share_y label_mode w = (Ok g, w') ->
     forall i, 0 <= i < Grid.ngrids g ->
       exists col row ax o,
         Grid._get_col_row g i = Ok (col, row)
         /\ Grid.__getitem__ g i = Ok (Some ax)
         /\ axes_objs w' !! ax = Some o
         /\ axes_locator o
            = Some (new_locator (2 * col) (2 * (nrows - 1 - row)) None None)
         /\ div_horizontal (Grid._divider g) !! Z.to_nat (2 * col)
            = Some (SizeScaled 1)
         /\ div_vertical (Grid._divider g) !! Z.to_nat (2 * (nrows - 1 - row))
            = Some (SizeScaled 1))
  /\ (forall (host : Host) (rect : RectArg) (nrows ncols : Z) (ngrids : option Z)
             (direction : string) (axes_pad : PadArg)
             (add_all share_all aspect : bool) (label_mode : string)
             (cbar_mode : option string) (cbar_location : string)
             (cbar_pad : option SizeSpec) (cbar_size : SizeSpec)
             (cbar_set_cax : bool) (w w' : World) (g : ImageGrid.t),
        ImageGrid.__init__ host rect (nrows, ncols) ngrids direction axes_pad add_all
          share_all aspect label_mode cbar_mode cbar_location cbar_pad cbar_size
          cbar_set_cax w = (Ok g, w') ->
        exists ax0 row0 col0,
          py_index (Grid.axes_all (ImageGrid.base g)) 0 = Ok ax0
          /\ py_index (Grid.axes_row (ImageGrid.base g)) 0 = Ok row0
          /\ py_index (Grid.axes_column (ImageGrid.base g)) 0 = Ok col0
          /\ forall i, 0 <= i < Grid.ngrids (ImageGrid.base g) ->
               exists col row ax o cx cy lx ly,
                 Grid._get_col_row (ImageGrid.base g) i = Ok (col, row)
                 /\ Grid.__getitem__ (ImageGrid.base g) i = Ok (Some ax)
                 /\ axes_objs w' !! ax = Some o
                 /\ axes_locator o = Some (new_locator lx ly None None)
                 /\ py_index row0 col = Ok cx
                 /\ py_index (rev col0) (nrows - 1 - row) = Ok cy
                 /\ py_index (div_horizontal (Grid._divider (ImageGrid.base g))) lx
                    = Ok (axes_cell_x ax0 cx)
                 /\ py_index (div_vertical (Grid._divider (ImageGrid.base g))) ly
                    = Ok (axes_cell_y ax0 cy)
                 /\ (cbar_mode = Some "each"%string ->
                     exists c oc lc,
                       py_index (ImageGrid.cbar_axes g) i = Ok c
                       /\ axes_objs w' !! c = Some oc
                       /\ axes_locator oc = Some lc
                       /\ cbar_beside g ax0 cx cy lx ly lc)
                 /\ (cbar_mode = Some "edge"%string ->
                     forall k, edge_slot g col row = Some k ->
                       exists c oc lc,
                         py_index (ImageGrid.cbar_axes g) k = Ok c
                         /\ axes_objs w' !! c = Some oc
                         /\ axes_locator oc = Some lc
                         /\ cbar_along g col lx ly lc)).
Proof.
  split.
  - intros until g. apply Grid_init_locators.
  - intros until g. apply ImageGrid_init_locators.
Qed.

Lemma C4_locators_witness :
  (exists g w' o,
     Grid.__init__ plain_host (RectSeq [0; 0; 1; 1]%Q) (2, 3) None "row"
       (PadScalar (1 # 50)) true false true true "L" empty_world = (Ok g, w')
     /\ Grid._get_col_row g 1 = Ok (1, 0)
     /\ axes_objs w' !! 1%nat = Some o
     /\ axes_locator o = Some (new_locator 2 2 None None))
  /\ (exists g w' oc,
        ImageGrid.__init__ plain_host (RectSeq [0; 0; 1; 1]%Q) (2, 2) None "row"
          (PadScalar (1 # 50)) true false true "L" (Some "each"%string) "bottom"
          None (SpecString "5%") true empty_world = (Ok g, w')
        /\ axes_objs w' !! 4%nat = Some oc
        /\ axes_locator oc = Some (new_locator 0 4 None None)).
Proof.
  split.
  - destruct (proj1 C4_locators_use_inverted_rows
                plain_host (RectSeq [0; 0; 1; 1]%Q) 2 3 None "row"%string
                (PadScalar (1 # 50)) true false true true "L"%string
                empty_world _ _ ltac:(vm_compute; reflexivity) 1
                ltac:(vm_compute; split; discriminate || reflexivity))
      as (col & row & ax & o & E1 & E2 & Ho & Hl & _).
    injection E1 as <- <-. injection E2 as <-.
    eexists _, _, o. split; [vm_compute; reflexivity |].
    split; [reflexivity |]. split; [exact Ho | exact Hl].
  - destruct (proj2 C4_locators_use_inverted_rows
                plain_host (RectSeq [0; 0; 1; 1]%Q) 2 2 None "row"%string
                (PadScalar (1 # 50)) true false true "L"%string
                (Some "each"%string) "bottom"%string None (SpecString "5%") true
                empty_world _ _ ltac:(vm_compute; reflexivity))
      as (ax0 & row0 & col0 & _ & _ & _ & Hall).
    destruct (Hall 0) as (col & row & ax & o & cx & cy & lx & ly & E1 & _ & _ & _ & _
                          & _ & _ & _ & Hcb & _);
      [vm_compute; split; discriminate || reflexivity |].
    destruct (Hcb eq_refl) as (c & oc & lc & Hc & Hoc & Hlc & _).
    vm_compute in Hc. injection Hc as <-.
    eexists _, _, oc. split; [vm_compute; reflexivity |].
    split; [exact Hoc |].
    vm_compute in Hoc. injection Hoc as <-. reflexivity.
Defined.

(** With [direction="row"] the two label modes do on a 2x2 grid what their
    documentation says: the slot of logical position [(col, row)] is drawn
    in cell [(2*col, 2*(1-row))] and its labels depend on that position. *)
Lemma label_modes_row_direction :
  forall mode : string, mode = "L"%string \/ mode = "1"%string ->
  exists g w,
    labelled_2x2 "row" "all" mode empty_world = (Ok g, w)
    /\ forall i, 0 <= i < 4 ->
         exists col row a,
           Grid._get_col_row g i = Ok (col, row)
           /\ Grid.__getitem__ g i = Ok a
           /\ drawn_at w a = Some (2 * col, 2 * (1 - row))
           /\ tick_labels w a
              = if String.eqb mode "L"
                then Some (Some (row =? 1), Some (col =? 0))
                else Some (Some ((row =? 1) && (col =? 0)),
                           Some ((row =? 1) && (col =? 0))).
Proof.
  intros mode [-> | ->]; eexists _, _; (split; [vm_compute; reflexivity |]);
    intros i Hi;
    assert (Hc : i = 0 \/ i = 1 \/ i = 2 \/ i = 3) by lia;
    destruct Hc as [-> | [-> | [-> | ->]]];
    eexists _, _, _; vm_compute; repeat split; reflexivity.
Qed.

(** C6 at a grid built with [direction="column"]: after
    [set_label_mode("L")] on a fully filled 2x2 grid, the slot of index 1,
    whose logical position is column 0, row 1 and which its locator draws in
    the bottom-left cell [(0, 0)] of the divider, has neither its left nor
    its bottom tick labels shown, and the slot of index 2, of logical
    position column 1, row 0, drawn in the top-right cell [(2, 2)], has
    both.  The labels follow the place of the axes in [axes_column], which
    for this direction is not the place [_get_col_row] and the locators give
    it. *)
Theorem C6_label_mode_L_column_direction :
  exists g w a1 a2,
    labelled_2x2 "column" "all" "L" empty_world = (Ok g, w)
    /\ Grid.ngrids g = Grid._nrows g * Grid._ncols g
    /\ Grid._get_col_row g 1 = Ok (0, 1)
    /\ Grid.__getitem__ g 1 = Ok a1
    /\ drawn_at w a1 = Some (0, 0)
    /\ tick_labels w a1 = Some (Some false, Some false)
    /\ Grid._get_col_row g 2 = Ok (1, 0)
    /\ Grid.__getitem__ g 2 = Ok a2
    /\ drawn_at w a2 = Some (2, 2)
    /\ tick_labels w a2 = Some (Some true, Some true)
    /\ py_index (Grid.axes_column g) 0 = Ok [Grid.axes_all g !!! 0%nat; a2]
    /\ py_index (Grid.axes_row g) 1 = Ok [a2; Grid.axes_all g !!! 3%nat].
Proof.
  eexists _, _, _, _. vm_compute. repeat split; reflexivity.
Qed.

(** C7 at a grid built with [direction="column"]: after
    [set_label_mode("1")] on a 2x2 grid, the slot of index 1, whose logical
    position is column 0, row 1 and which its locator draws in the
    bottom-left cell [(0, 0)] of the divider, has both tick labels
    suppressed; the one axes with both shown is [axes_llc], the slot of
    index 2, of logical position column 1, row 0, drawn in the top-right
    cell [(2, 2)]. *)
Theorem C7_label_mode_1_column_direction :
  exists g w a1 a2,
    labelled_2x2 "column" "L" "1" empty_world = (Ok g, w)
    /\ Grid._get_col_row g 1 = Ok (0, 1)
    /\ Grid.__getitem__ g 1 = Ok a1
    /\ drawn_at w a1 = Some (0, 0)
    /\ tick_labels w a1 = Some (Some false, Some false)
    /\ Grid._get_col_row g 2 = Ok (1, 0)
    /\ Grid.__getitem__ g 2 = Ok a2
    /\ drawn_at w a2 = Some (2, 2)
    /\ tick_labels w a2 = Some (Some true, Some true)
    /\ Grid.axes_llc g = a2
    /\ (forall i a, 0 <= i < 4 -> Grid.__getitem__ g i = Ok a ->
        tick_labels w a = Some (Some true, Some true) -> i = 2).
Proof.
  eexists _, _, _, _. vm_compute.
  repeat match goal with |- _ /\ _ => split end; try reflexivity.
  intros i a Hi.
  assert (Hc : i = 0 \/ i = 1 \/ i = 2 \/ i = 3).
  { destruct Hi as [H0 H4]. destruct i as [| p | p]; [auto | | now destruct H0].
    destruct p as [[p | p |] | [p | p |] |]; auto; now destruct p. }
  destruct Hc as [-> | [-> | [-> | ->]]]; vm_compute; intros E; injection E as <-;
    intros E; try discriminate E; reflexivity.
Qed.

(** * Further properties *)

(** ** The index mapping and its inverse *)

Section SlotIndex.

Variable g : Grid.t.
Hypothesis rows_pos : 0 < Grid._nrows g.
Hypothesis cols_pos : 0 < Grid._ncols g.

Lemma get_col_row_slot_index (row col : Z) :
  0 <= row < Grid._nrows g -> 0 <= col < Grid._ncols g ->
  Grid._get_col_row g (slot_index g row col) = Ok (col, row).
Proof.
  intros Hr Hc. unfold slot_index.
  destruct (String.eqb_spec (Grid._direction g) "column") as [Hd | Hd].
  - rewrite (get_col_row_column g rows_pos _ Hd).
    rewrite <- (Z.div_unique (col * Grid._nrows g + row) (Grid._nrows g) col row)
      by lia.
    rewrite <- (Z.mod_unique (col * Grid._nrows g + row) (Grid._nrows g) col row)
      by lia.
    reflexivity.
  - rewrite (get_col_row_row g cols_pos _ Hd).
    rewrite <- (Z.div_unique (row * Grid._ncols g + col) (Grid._ncols g) row col)
      by lia.
    rewrite <- (Z.mod_unique (row * Grid._ncols g + col) (Grid._ncols g) row col)
      by lia.
    reflexivity.
Qed.

Lemma slot_index_get_col_row (n col row : Z) :
  Grid._get_col_row g n = Ok (col, row) -> slot_index g row col = n.
Proof.
  intros H. unfold slot_index.
  destruct (String.eqb_spec (Grid._direction g) "column") as [Hd | Hd].
  - rewrite (get_col_row_column g rows_pos _ Hd) in H. injection H as <- <-.
    rewrite (Z.div_mod n (Grid._nrows g)) at 3 by lia. lia.
  - rewrite (get_col_row_row g cols_pos _ Hd) in H. injection H as <- <-.
    rewrite (Z.div_mod n (Grid._ncols g)) at 3 by lia. lia.
Qed.

Lemma slot_index_in_range (row col : Z) :
  0 <= row < Grid._nrows g -> 0 <= col < Grid._ncols g ->
  0 <= slot_index g row col < Grid._nrows g * Grid._ncols g.
Proof.
  intros Hr Hc. unfold slot_index.
  destruct (String.eqb (Grid._direction g) "column"); nia.
Qed.

End SlotIndex.

(** X1: on a grid with at least one row and one column, every cell
    [(row, col)] is the cell of one slot index of [0..nrows*ncols-1],
    [col*nrows+row] for [direction="column"] and [row*ncols+col]
    otherwise, and [_get_col_row] of no other index gives that cell. *)
Theorem get_col_row_reaches_every_cell (g : Grid.t) (row col : Z) :
  0 < Grid._nrows g -> 0 < Grid._ncols g ->
  0 <= row < Grid._nrows g -> 0 <= col < Grid._ncols g ->
  0 <= slot_index g row col < Grid._nrows g * Grid._ncols g
  /\ Grid._get_col_row g (slot_index g row col) = Ok (col, row)
  /\ forall n, Grid._get_col_row g n = Ok (col, row) -> n = slot_index g row col.
Proof.
  intros Hrows Hcols Hr Hc. split; [apply slot_index_in_range; assumption |].
  split; [apply get_col_row_slot_index; assumption |].
  intros n Hn. symmetry. apply slot_index_get_col_row; assumption.
Qed.

Lemma get_col_row_reaches_every_cell_witness :
  Grid._get_col_row (grid_2x3 "column") 3 = Ok (1, 1)
  /\ Grid._get_col_row (grid_2x3 "row") 4 = Ok (1, 1).
Proof.
  split.
  - exact (proj1 (proj2 (get_col_row_reaches_every_cell (grid_2x3 "column") 1 1
                           ltac:(simpl; lia) ltac:(simpl; lia)
                           ltac:(simpl; lia) ltac:(simpl; lia)))).
  - exact (proj1 (proj2 (get_col_row_reaches_every_cell (grid_2x3 "row") 1 1
                           ltac:(simpl; lia) ltac:(simpl; lia)
                           ltac:(simpl; lia) ltac:(simpl; lia)))).
Defined.

(** ** The loop that creates the axes *)

Lemma np_axis_in (n i : Z) : 0 <= i < n -> np_axis n i = Ok i.
Proof.
  intros Hi. unfold np_axis.
  destruct (Z.ltb_spec i 0); [lia |].
  destruct (Z.ltb_spec i 0); [lia |]. destruct (Z.leb_spec n i); [lia |]. reflexivity.
Qed.

Lemma np_offset_in (a : ndarray) (r c : Z) :
  0 <= r < arr_rows a -> 0 <= c < arr_cols a ->
  np_offset a r c = Ok (Z.to_nat (r * arr_cols a + c)).
Proof.
  intros Hr Hc. unfold np_offset. rewrite !np_axis_in by assumption. reflexivity.
Qed.

Section FillExact.

Variable host : Host.
Variable self : Grid.t.
Variables share_all share_x share_y : bool.
Variable objs0 : list AxesObj.
Hypothesis rows_pos : 0 < Grid._nrows self.
Hypothesis cols_pos : 0 < Grid._ncols self.

Lemma slot_offset_slot_index (row col : Z) :
  0 <= row < Grid._nrows self -> 0 <= col < Grid._ncols self ->
  slot_offset self (slot_index self row col) = Z.to_nat (row * Grid._ncols self + col).
Proof.
  intros Hr Hc. unfold slot_offset.
  rewrite (get_col_row_slot_index self rows_pos cols_pos) by assumption. reflexivity.
Qed.

Lemma slot_offset_inj (i j : Z) :
  0 <= i < Grid._nrows self * Grid._ncols self -> 0 <= j < Grid._nrows self * Grid._ncols self -> slot_offset self i = slot_offset self j -> i = j.
Proof.
  intros Hi Hj E.
  destruct (get_col_row_total self rows_pos cols_pos i) as (ci & ri & Ei).
  destruct (get_col_row_total self rows_pos cols_pos j) as (cj & rj & Ej).
  destruct (get_col_row_in_grid self rows_pos cols_pos i ci ri Hi Ei) as [Hri Hci].
  destruct (get_col_row_in_grid self rows_pos cols_pos j cj rj Hj Ej) as [Hrj Hcj].
  unfold slot_offset in E. rewrite Ei, Ej in E.
  assert (E' : ri * Grid._ncols self + ci = rj * Grid._ncols self + cj) by nia.
  destruct (cell_offset_inj _ _ _ _ _ Hci Hcj E') as [-> ->].
  apply (get_col_row_inj self rows_pos cols_pos). congruence.
Qed.

Lemma filled_upto_cell (i : Z) (a : ndarray) (w : World) (row col : Z) :
  filled_upto self share_all share_x share_y objs0 i a w ->
  0 <= row < Grid._nrows self -> 0 <= col < Grid._ncols self ->
  np_get a row col
  = Ok (if slot_index self row col <? i
        then Some (length objs0 + Z.to_nat (slot_index self row col))%nat
        else None).
Proof.
  intros (Hr & Hc & Hlen & Hlow & Hhigh & _) Hrow Hcol.
  unfold np_get. rewrite np_offset_in by (rewrite ?Hr, ?Hc; assumption).
  rewrite Hc, <- slot_offset_slot_index by assumption.
  pose proof (slot_index_in_range self rows_pos cols_pos row col Hrow Hcol) as Hin.
  destruct (Z.ltb_spec (slot_index self row col) i) as [Hlt | Hge].
  - rewrite Hlow by lia. reflexivity.
  - rewrite Hhigh by (lia). reflexivity.
Qed.

Lemma slot_index_origin : slot_index self 0 0 = 0.
Proof. unfold slot_index. destruct (String.eqb _ _); lia. Qed.

Lemma slot_index_top_before (i col row : Z) :
  0 <= i < Grid._nrows self * Grid._ncols self -> Grid._get_col_row self i = Ok (col, row) ->
  (slot_index self 0 col <? i) = negb (row =? 0).
Proof.
  intros Hi E.
  destruct (get_col_row_in_grid self rows_pos cols_pos i col row Hi E) as [Hr Hc].
  rewrite <- (slot_index_get_col_row self rows_pos cols_pos i col row E).
  unfold slot_index. destruct (String.eqb _ _);
    destruct (Z.eqb_spec row 0);
    match goal with |- (?x <? ?y) = _ => destruct (Z.ltb_spec x y) end;
    cbn; try reflexivity; nia.
Qed.

Lemma slot_index_left_before (i col row : Z) :
  0 <= i < Grid._nrows self * Grid._ncols self -> Grid._get_col_row self i = Ok (col, row) ->
  (slot_index self row 0 <? i) = negb (col =? 0).
Proof.
  intros Hi E.
  destruct (get_col_row_in_grid self rows_pos cols_pos i col row Hi E) as [Hr Hc].
  rewrite <- (slot_index_get_col_row self rows_pos cols_pos i col row E).
  unfold slot_index. destruct (String.eqb _ _);
    destruct (Z.eqb_spec col 0);
    match goal with |- (?x <? ?y) = _ => destruct (Z.ltb_spec x y) end;
    cbn; try reflexivity; nia.
Qed.

(** One round of the loop, computed. *)
Lemma fill_slot_step (i : Z) (a : ndarray) (w : World) :
  filled_upto self share_all share_x share_y objs0 i a w ->
  0 <= i < Grid._nrows self * Grid._ncols self ->
  exists col row,
    Grid._get_col_row self i = Ok (col, row)
    /\ Grid.fill_slot host self share_all share_x share_y a i w
       = match axes_init host None
                 (shared_x self share_all share_x (length objs0) i col row)
                 (shared_y self share_all share_y (length objs0) i col row) with
         | Some e => (Raise e, w)
         | None =>
             (Ok (mkArray (arr_rows a) (arr_cols a)
                    (<[slot_offset self i := Some (length (axes_objs w))]> (arr_data a))),
              mkWorld (fixed_objs w)
                (axes_objs w
                 ++ [slot_axes self share_all share_x share_y (length objs0) i])
                (fig_axes w))
         end.
Proof.
  intros Hinv Hi.
  destruct (get_col_row_total self rows_pos cols_pos i) as (col & row & E).
  destruct (get_col_row_in_grid self rows_pos cols_pos i col row Hi E) as [Hr Hc].
  exists col, row. split; [exact E |].
  pose proof Hinv as (Har & Hac & _).
  assert (Hsx : (if share_all then
                   let* s := lift (np_get a 0 0) in ret (s, s)
                 else
                   let* sx := (if share_x then lift (np_get a 0 col) else ret None) in
                   let* sy := (if share_y then lift (np_get a row 0) else ret None) in
                   ret (sx, sy)) w
                = (Ok (shared_x self share_all share_x (length objs0) i col row,
                       shared_y self share_all share_y (length objs0) i col row), w)).
  { pose proof (filled_upto_cell i a w 0 0 Hinv ltac:(lia) ltac:(lia)) as E00.
    pose proof (filled_upto_cell i a w 0 col Hinv ltac:(lia) ltac:(lia)) as E0c.
    pose proof (filled_upto_cell i a w row 0 Hinv ltac:(lia) ltac:(lia)) as Er0.
    rewrite slot_index_origin in E00.
    change (Z.to_nat 0) with 0%nat in E00. rewrite Nat.add_0_r in E00.
    rewrite (slot_index_top_before i col row Hi E) in E0c.
    rewrite (slot_index_left_before i col row Hi E) in Er0.
    unfold shared_x, shared_y, bind, lift, ret.
    destruct share_all.
    - rewrite E00. destruct (Z.ltb_spec 0 i), (Z.eqb_spec i 0); try lia; reflexivity.
    - destruct share_x, share_y; rewrite ?E0c, ?Er0;
        destruct (row =? 0), (col =? 0); reflexivity. }
  unfold Grid.fill_slot.
  unfold bind at 1. unfold lift at 1. rewrite E.
  unfold bind at 1. rewrite Hsx.
  unfold bind at 1. unfold new_axes.
  destruct (axes_init host None _ _) as [e |]; [reflexivity |].
  unfold lift, np_set. rewrite np_offset_in by (rewrite ?Har, ?Hac; assumption).
  unfold slot_offset, slot_axes. rewrite E, Hac. reflexivity.
Qed.

Lemma filled_upto_next (i : Z) (a : ndarray) (w : World) :
  filled_upto self share_all share_x share_y objs0 i a w ->
  0 <= i < Grid._nrows self * Grid._ncols self ->
  filled_upto self share_all share_x share_y objs0 (i + 1)
    (mkArray (arr_rows a) (arr_cols a)
       (<[slot_offset self i := Some (length (axes_objs w))]> (arr_data a)))
    (mkWorld (fixed_objs w)
       (axes_objs w ++ [slot_axes self share_all share_x share_y (length objs0) i])
       (fig_axes w)).
Proof.
  intros (Hr & Hc & Hlen & Hlow & Hhigh & Hobjs) Hi.
  assert (Hlenw : length (axes_objs w) = (length objs0 + Z.to_nat i)%nat).
  { rewrite Hobjs, length_app, length_fmap, length_seqZ. reflexivity. }
  unfold filled_upto. cbn [arr_rows arr_cols arr_data axes_objs].
  split; [exact Hr |]. split; [exact Hc |].
  split; [rewrite length_insert; exact Hlen |]. split; [| split].
  - intros j Hj. destruct (decide (j = i)) as [-> | Hne].
    + rewrite list_lookup_insert_eq; [rewrite Hlenw; reflexivity |].
      apply lookup_lt_Some with (x := None). apply Hhigh. lia.
    + rewrite list_lookup_insert_ne; [apply Hlow; lia |].
      intros E. apply slot_offset_inj in E; lia.
  - intros j Hj. rewrite list_lookup_insert_ne; [apply Hhigh; lia |].
    intros E. apply slot_offset_inj in E; lia.
  - rewrite Hobjs, <- app_assoc. f_equal.
    replace (i + 1) with (Z.of_nat (S (Z.to_nat i))) by lia.
    rewrite seqZ_S, Z2Nat.id, Z.add_0_l, fmap_app by lia. reflexivity.
Qed.

Lemma fill_slots_exact (m : nat) :
  forall (i : Z) (a a' : ndarray) (w w' : World),
    0 <= i -> i + Z.of_nat m <= Grid._nrows self * Grid._ncols self ->
    filled_upto self share_all share_x share_y objs0 i a w ->
    Grid.fill_slots host self share_all share_x share_y a (seqZ i (Z.of_nat m)) w
    = (Ok a', w') ->
    filled_upto self share_all share_x share_y objs0 (i + Z.of_nat m) a' w'
    /\ fixed_objs w' = fixed_objs w /\ fig_axes w' = fig_axes w.
Proof.
  induction m as [| m IH]; intros i a a' w w' Hi Hm Hinv H.
  - cbn in H. injection H as <- <-. rewrite Z.add_0_r. auto.
  - rewrite Nat2Z.inj_succ, seqZ_cons in H by lia.
    cbn [Grid.fill_slots] in H. run_bind H.
    destruct (fill_slot_step i a w Hinv ltac:(lia)) as (col & row & _ & Estep).
    rewrite Estep in H0. destruct (axes_init host None _ _); [discriminate |].
    injection H0 as <- <-.
    replace (Z.pred (Z.succ (Z.of_nat m))) with (Z.of_nat m) in H by lia.
    apply IH in H; [| lia | lia |];
      [| replace (Z.succ i) with (i + 1) by lia;
         apply filled_upto_next; [exact Hinv | lia]].
    replace (i + Z.of_nat (S m)) with (Z.succ i + Z.of_nat m) by lia.
    cbn [fixed_objs fig_axes] in H. exact H.
Qed.

End FillExact.

Lemma filled_upto_start (self : Grid.t) (sa sx sy : bool) (a : ndarray) (w : World) :
  np_full (Grid._nrows self) (Grid._ncols self) = Ok a ->
  0 < Grid._nrows self -> 0 < Grid._ncols self ->
  filled_upto self sa sx sy (axes_objs w) 0 a w.
Proof.
  intros H Hr Hc. apply np_full_ok in H. destruct H as (_ & _ & ->).
  unfold filled_upto. cbn [arr_rows arr_cols arr_data].
  split; [reflexivity |]. split; [reflexivity |].
  split; [apply length_replicate |]. split; [intros j Hj; lia |].
  split; [| cbn; rewrite app_nil_r; reflexivity].
  intros j Hj. apply lookup_replicate_2.
  destruct (get_col_row_total self Hr Hc j) as (col & row & E).
  destruct (get_col_row_in_grid self Hr Hc j col row Hj E) as [Hrow Hcol].
  unfold slot_offset. rewrite E. nia.
Qed.

(** ** What the setters leave alone *)

Lemma setter_blind_sharex : setter_blind sharex.
Proof. intros a. repeat split. Qed.

Lemma setter_blind_sharey : setter_blind sharey.
Proof. intros a. repeat split. Qed.

Lemma setter_blind_orientation : setter_blind orientation.
Proof. intros a. repeat split. Qed.

Lemma setter_blind_unit : setter_blind (fun _ : AxesObj => tt).
Proof. intros a. repeat split. Qed.

Ltac keeps_blind Hb :=
  keeps_setters; repeat keeps_step;
  apply keeps_proj_modify; intros ?; apply Hb.

Section Blind.

Context {B : Type} (proj : AxesObj -> B).
Hypothesis blind : setter_blind proj.

Lemma keeps_blind_grid_locate (g : Grid.t) (hpos vpos : list Z) (n : Z) :
  keeps (seen_through proj) (mfor (range n) (Grid.locate g hpos vpos)).
Proof. unfold Grid.locate. keeps_blind blind. Qed.

Lemma keeps_blind_set_label_mode (g : Grid.t) (mode : string) :
  keeps (seen_through proj) (Grid.set_label_mode g mode).
Proof. unfold Grid.set_label_mode. keeps_blind blind. Qed.

Lemma keeps_blind_image_locators (g : ImageGrid.t) :
  keeps (seen_through proj) (ImageGrid._update_locators g).
Proof.
  unfold ImageGrid._update_locators, ImageGrid.single_before, ImageGrid.locate,
    ImageGrid.locate_cbar, ImageGrid.after_loops.
  keeps_blind blind.
Qed.

Lemma keeps_blind_bind_cax (g : ImageGrid.t) (b : bool) :
  keeps (seen_through proj) (if b then ImageGrid.bind_cax g else ret tt).
Proof. unfold ImageGrid.bind_cax. keeps_blind blind. Qed.

End Blind.

Lemma keeps_seen_add_all {B} (proj : AxesObj -> B) (host : Host)
    (l : list (option ref)) (b : bool) :
  keeps (seen_through proj) (if b then mfor l (add_axes host) else ret tt).
Proof.
  intros w r w' H. unfold seen_through.
  rewrite (keeps_objs_add_all host l b w r w' H). reflexivity.
Qed.

(** ** The figure *)

Lemma add_axes_loop_fig (host : Host) (l : list (option ref)) :
  forall w w', mfor l (add_axes host) w = (Ok tt, w') ->
               fig_axes w' = fig_axes w ++ l.
Proof.
  induction l as [| x l IH]; intros w w' H.
  - injection H as <-. rewrite app_nil_r. reflexivity.
  - cbn [mfor] in H. run_bind H. apply IH in H. rewrite H.
    unfold add_axes in H0. destruct (add_axes_check host x); [discriminate |].
    injection H0 as _ <-. cbn [fig_axes]. rewrite <- app_assoc. reflexivity.
Qed.

Lemma keeps_fig_grid_locate (g : Grid.t) (hpos vpos : list Z) (n : Z) :
  keeps fig_axes (mfor (range n) (Grid.locate g hpos vpos)).
Proof.
  unfold Grid.locate. keeps_setters. repeat keeps_step. apply keeps_fig_modify.
Qed.

Lemma keeps_fig_set_label_mode (g : Grid.t) (mode : string) :
  keeps fig_axes (Grid.set_label_mode g mode).
Proof.
  unfold Grid.set_label_mode. keeps_setters. repeat keeps_step; apply keeps_fig_modify.
Qed.

(** ** The run of [Grid.__init__], step by step *)

Lemma Grid_init_story (host : Host) (rect : RectArg) (nrows ncols : Z)
    (ngrids : option Z) (direction : string) (axes_pad : PadArg)
    (add_all share_all share_x share_y : bool) (label_mode : string)
    (w w' : World) (g : Grid.t) :
  Grid.__init__ host rect (nrows, ncols) ngrids direction axes_pad add_all
    share_all share_x share_y label_mode w = (Ok g, w') ->
  exists h0 v0 d arr llc w2 w3 w4,
    (0 < nrows /\ 0 < ncols /\ 0 < Grid.ngrids g <= nrows * ncols)
    /\ broadcast_to_2 axes_pad = Ok (h0, v0)
    /\ make_divider host rect false w = (Ok d, w)
    /\ filled_upto (Grid_seed nrows ncols ngrids w direction d)
         share_all share_x share_y (axes_objs w) (Grid.ngrids g) arr w2
    /\ fixed_objs w2 = fixed_objs w ++ [h0; v0] /\ fig_axes w2 = fig_axes w
    /\ py_index (arr_data arr) ((nrows - 1) * ncols) = Ok llc
    /\ g = Grid.with_divider
             (set_vertical (fst (Grid.cells (S (length (fixed_objs w))) nrows))
                (set_horizontal (fst (Grid.cells (length (fixed_objs w)) ncols)) d))
             (Grid.with_axes arr llc (Grid_seed nrows ncols ngrids w direction d))
    /\ mfor (range (Grid.ngrids g))
         (Grid.locate g (even_positions (Z.to_nat ncols))
            (even_positions (Z.to_nat nrows))) w2 = (Ok tt, w3)
    /\ (if add_all then mfor (Grid.axes_all g) (add_axes host) else ret tt) w3
       = (Ok tt, w4)
    /\ Grid.set_label_mode g label_mode w4 = (Ok tt, w').
Proof.
  intros H. pose proof H as Hb. apply Grid_init_built in Hb.
  destruct Hb as (arr' & w2' & w3' & w4' & _ & _ & _ & Hng & Hbuilt & _).
  apply Grid_init_ok in H.
  destruct H as (n & hp & vp & d & arr0 & arr & col0 & llc & w1 & w2 & w3 & w4
                 & Hrange & Hn & Hpad & _ & Hdiv & Hfull & Hfill & Hc0 & Hllc & Hloc
                 & Hadd & Hlab).
  apply init_axes_pad_ok in Hpad. destruct Hpad as (h0 & v0 & Hbc & -> & -> & ->).
  pose proof (built_rows _ _ _ Hbuilt) as Hrows.
  pose proof (built_cols _ _ _ Hbuilt) as Hcols.
  pose proof (built_ngrids _ _ _ Hbuilt) as Hngr.
  apply Grid_update_locators_ok in Hloc.
  destruct Hloc as (h & hpos & v & vpos & Hh & Hv & Hloop & ->).
  cbn [Grid_before_locators Grid.with_axes Grid.with_divider Grid._horiz_pad_size
       Grid._vert_pad_size Grid._ncols Grid._nrows Grid.ngrids] in *.
  destruct (cells_spec (length (fixed_objs w)) ncols) as (h' & Eh & _).
  destruct (cells_spec (S (length (fixed_objs w))) nrows) as (v' & Ev & _).
  rewrite Eh in Hh. rewrite Ev in Hv. injection Hh as <- <-. injection Hv as <- <-.
  subst n.
  assert (Hfilled : filled_upto (Grid_seed nrows ncols ngrids w direction d)
                      share_all share_x share_y (axes_objs w)
                      (default (nrows * ncols) ngrids) arr w2
                    /\ fixed_objs w2 = fixed_objs w ++ [h0; v0]
                    /\ fig_axes w2 = fig_axes w).
  { assert (Hfill' :
      Grid.fill_slots host (Grid_seed nrows ncols ngrids w direction d)
        share_all share_x share_y arr0
        (seqZ 0 (Z.of_nat (Z.to_nat (default (nrows * ncols) ngrids))))
        (mkWorld (fixed_objs w ++ [h0; v0]) (axes_objs w) (fig_axes w)) = (Ok arr, w2))
      by (rewrite Z2Nat.id by lia; exact Hfill).
    clear Hfill. rename Hfill' into Hfill.
    eapply (fill_slots_exact host (Grid_seed nrows ncols ngrids w direction d)
              share_all share_x share_y (axes_objs w) Hrows Hcols _ 0) in Hfill.
    - rewrite Z.add_0_l, Z2Nat.id in Hfill by lia. exact Hfill.
    - lia.
    - cbn [Grid_seed Grid._nrows Grid._ncols]. lia.
    - apply (filled_upto_start (Grid_seed nrows ncols ngrids w direction d)
               share_all share_x share_y arr0
               (mkWorld (fixed_objs w ++ [h0; v0]) (axes_objs w) (fig_axes w)));
        assumption. }
  destruct Hfilled as (Hf & Hfx & Hfg).
  exists h0, v0, d, arr, llc, w2, w3, w4.
  split; [auto |]. split; [exact Hbc |].
  split.
  { pose proof (make_divider_world _ _ _ _ _ _ Hdiv) as _.
    unfold make_divider, raise, ret in *.
    destruct (divider_init host rect);
      destruct rect as [s | k | | l]; try destruct (length l =? 3)%nat;
      try destruct (length l =? 4)%nat; try discriminate;
      injection Hdiv as <-; reflexivity. }
  split; [exact Hf |]. split; [exact Hfx |]. split; [exact Hfg |].
  split.
  { destruct Hf as (Har & Hac & Hlen & _).
    cbn [Grid_seed Grid._nrows Grid._ncols] in Har, Hac, Hlen.
    apply py_index_nonneg in Hc0; [| lia]. destruct Hc0 as [Hc0 _].
    apply T_tolist_lookup in Hc0. destruct Hc0 as [_ ->].
    apply py_index_last in Hllc. destruct Hllc as [Hllc _].
    rewrite length_fmap, range_length, Har in Hllc.
    rewrite list_lookup_fmap in Hllc.
    rewrite (range_lookup _ (Z.to_nat nrows - 1)) in Hllc by lia.
    cbn in Hllc. injection Hllc as <-.
    unfold arr_at. rewrite Hac.
    replace (Z.of_nat (Z.to_nat nrows - 1)) with (nrows - 1) by lia.
    rewrite Z.add_0_r.
    destruct (lookup_lt_is_Some_2 (arr_data arr) (Z.to_nat ((nrows - 1) * ncols)))
      as [x Hx]; [nia |].
    rewrite Hx. cbn. rewrite <- (Z2Nat.id ((nrows - 1) * ncols)) by nia.
    apply py_index_lookup, Hx. }
  split; [rewrite Eh, Ev; reflexivity |].
  split; [exact Hloop |]. split; [exact Hadd | exact Hlab].
Qed.

(** ** The grid that [Grid.__init__] returns *)

Lemma filled_upto_object (self : Grid.t) (sa sx sy : bool) (objs0 : list AxesObj)
    (n : Z) (a : ndarray) (w : World) (j : Z) :
  filled_upto self sa sx sy objs0 n a w -> 0 <= j < n ->
  axes_objs w !! (length objs0 + Z.to_nat j)%nat
  = Some (slot_axes self sa sx sy (length objs0) j).
Proof.
  intros (_ & _ & _ & _ & _ & ->) Hj.
  rewrite lookup_app_r by lia.
  replace (length objs0 + Z.to_nat j - length objs0)%nat with (Z.to_nat j) by lia.
  rewrite list_lookup_fmap, lookup_seqZ_lt by lia. cbn. do 2 f_equal. lia.
Qed.

Lemma filled_upto_length (self : Grid.t) (sa sx sy : bool) (objs0 : list AxesObj)
    (n : Z) (a : ndarray) (w : World) :
  filled_upto self sa sx sy objs0 n a w ->
  length (axes_objs w) = (length objs0 + Z.to_nat n)%nat.
Proof.
  intros (_ & _ & _ & _ & _ & ->).
  rewrite length_app, length_fmap, length_seqZ. reflexivity.
Qed.

Lemma Grid_init_blind {B} (proj : AxesObj -> B) (host : Host) (g : Grid.t)
    (add_all : bool) (label_mode : string) (w2 w3 w4 w' : World) :
  setter_blind proj ->
  mfor (range (Grid.ngrids g))
    (Grid.locate g (even_positions (Z.to_nat (Grid._ncols g)))
       (even_positions (Z.to_nat (Grid._nrows g)))) w2 = (Ok tt, w3) ->
  (if add_all then mfor (Grid.axes_all g) (add_axes host) else ret tt) w3
  = (Ok tt, w4) ->
  Grid.set_label_mode g label_mode w4 = (Ok tt, w') ->
  seen_through proj w' = seen_through proj w2.
Proof.
  intros Hb H1 H2 H3.
  rewrite (keeps_blind_set_label_mode proj Hb _ _ _ _ _ H3).
  rewrite (keeps_seen_add_all proj _ _ _ _ _ _ H2).
  apply (keeps_blind_grid_locate proj Hb _ _ _ _ _ _ _ H1).
Qed.

Lemma seen_through_length {B} (proj : AxesObj -> B) (w w' : World) :
  seen_through proj w' = seen_through proj w ->
  length (axes_objs w') = length (axes_objs w).
Proof.
  unfold seen_through. intros E.
  rewrite <- (length_fmap proj (axes_objs w')), E. apply length_fmap.
Qed.

(** X2: the three lists of a constructed grid are views of one array:
    [axes_row[r][c]], [axes_column[c][r]] and [grid[r*ncols+c]] are the same
    entry, row-major whatever the direction, and [axes_llc] is the entry of
    the last row and first column. *)
Theorem Grid_views_agree (host : Host) (rect : RectArg) (nrows ncols : Z)
    (ngrids : option Z) (direction : string) (axes_pad : PadArg)
    (add_all share_all share_x share_y : bool) (label_mode : string)
    (w w' : World) (g : Grid.t) :
  Grid.__init__ host rect (nrows, ncols) ngrids direction axes_pad add_all
    share_all share_x share_y label_mode w = (Ok g, w') ->
  (forall r c, 0 <= r < nrows -> 0 <= c < ncols ->
     exists x row col,
       Grid.__getitem__ g (r * ncols + c) = Ok x
       /\ py_index (Grid.axes_row g) r = Ok row /\ py_index row c = Ok x
       /\ py_index (Grid.axes_column g) c = Ok col /\ py_index col r = Ok x)
  /\ Grid.__getitem__ g ((nrows - 1) * ncols) = Ok (Grid.axes_llc g).
Proof.
  intros H. apply Grid_init_story in H.
  destruct H as (h0 & v0 & d & arr & llc & w2 & w3 & w4 & (Hrows & Hcols & Hn) & _ & _
                 & Hf & _ & _ & Hllc & -> & _).
  destruct Hf as (Har & Hac & Hlen & _).
  cbn [Grid_seed Grid._nrows Grid._ncols] in Har, Hac, Hlen.
  cbn [Grid.with_divider Grid.with_axes Grid.__getitem__ Grid.axes_all Grid.axes_row
       Grid.axes_column Grid.axes_llc ravel_tolist].
  split; [| exact Hllc].
  intros r c Hr Hc.
  destruct (lookup_lt_is_Some_2 (arr_data arr) (Z.to_nat (r * ncols + c))) as [x Hx];
    [nia |].
  exists x, ((fun c => arr_at arr r c) <$> range ncols),
         ((fun r => arr_at arr r c) <$> range nrows).
  assert (Hat : arr_at arr r c = x) by (unfold arr_at; rewrite Hac, Hx; reflexivity).
  split; [| split; [| split; [| split]]].
  - rewrite <- (Z2Nat.id (r * ncols + c)) by nia. apply py_index_lookup, Hx.
  - rewrite <- (Z2Nat.id r) at 1 by lia. apply py_index_lookup.
    unfold tolist. rewrite list_lookup_fmap, Har, (range_lookup nrows) by lia.
    cbn. rewrite Hac, Z2Nat.id by lia. reflexivity.
  - rewrite <- (Z2Nat.id c) at 1 by lia. apply py_index_lookup.
    rewrite list_lookup_fmap, (range_lookup ncols) by lia.
    cbn. rewrite Z2Nat.id by lia. f_equal. exact Hat.
  - rewrite <- (Z2Nat.id c) at 1 by lia. apply py_index_lookup.
    unfold T_tolist. rewrite list_lookup_fmap, Hac, (range_lookup ncols) by lia.
    cbn. rewrite Har, Z2Nat.id by lia. reflexivity.
  - rewrite <- (Z2Nat.id r) at 1 by lia. apply py_index_lookup.
    rewrite list_lookup_fmap, (range_lookup nrows) by lia.
    cbn. rewrite Z2Nat.id by lia. f_equal. exact Hat.
Qed.

Lemma Grid_views_agree_witness :
  exists g w',
    Grid.__init__ plain_host (RectSeq [0; 0; 1; 1]%Q) (2, 3) None "column"
      (PadScalar (1 # 50)) true false true true "L" empty_world = (Ok g, w')
    /\ Grid.__getitem__ g 3 = Ok (Grid.axes_llc g).
Proof.
  eexists _, _. split; [vm_compute; reflexivity |].
  exact (proj2 (Grid_views_agree plain_host (RectSeq [0; 0; 1; 1]%Q) 2 3 None
                  "column"%string (PadScalar (1 # 50)) true false true true
                  "L"%string empty_world _ _ ltac:(vm_compute; reflexivity))).
Defined.

(** X3: a Grid creates [ngrids] axes objects, one per slot index in
    increasing order, and the one of slot [j] sits at [grid[row*ncols+col]]
    for [(col, row) = _get_col_row(j)]: at [grid[j]] when
    [direction="row"], at the transposed position when
    [direction="column"]. *)
Theorem Grid_axes_in_creation_order (host : Host) (rect : RectArg) (nrows ncols : Z)
    (ngrids : option Z) (direction : string) (axes_pad : PadArg)
    (add_all share_all share_x share_y : bool) (label_mode : string)
    (w w' : World) (g : Grid.t) :
  Grid.__init__ host rect (nrows, ncols) ngrids direction axes_pad add_all
    share_all share_x share_y label_mode w = (Ok g, w') ->
  length (axes_objs w') = (length (axes_objs w) + Z.to_nat (Grid.ngrids g))%nat
  /\ forall j col row,
       0 <= j < Grid.ngrids g -> Grid._get_col_row g j = Ok (col, row) ->
       Grid.__getitem__ g (row * ncols + col)
       = Ok (Some (length (axes_objs w) + Z.to_nat j)%nat)
       /\ (direction = "row"%string -> row * ncols + col = j)
       /\ (direction = "column"%string -> col * nrows + row = j).
Proof.
  intros H. apply Grid_init_story in H.
  destruct H as (h0 & v0 & d & arr & llc & w2 & w3 & w4 & (Hrows & Hcols & Hn) & _ & _
                 & Hf & _ & _ & _ & Hg & Hloop & Hadd & Hlab).
  assert (Hdims : Grid._nrows g = nrows /\ Grid._ncols g = ncols
                  /\ Grid._direction g = direction
                  /\ Grid.axes_all g = arr_data arr) by (subst g; auto).
  destruct Hdims as (En & Ec & Ed & Eall).
  split.
  - rewrite <- (filled_upto_length _ _ _ _ _ _ _ _ Hf).
    apply (seen_through_length (fun _ => tt)).
    rewrite <- En, <- Ec in Hloop.
    apply (Grid_init_blind _ host g add_all label_mode w2 w3 w4 w'); try assumption.
    intros a. repeat split.
  - intros j col row Hj E.
    assert (Hrows' : 0 < Grid._nrows g) by lia.
    assert (Hcols' : 0 < Grid._ncols g) by lia.
    destruct (get_col_row_in_grid g Hrows' Hcols' j col row ltac:(lia) E) as [Hr Hc].
    pose proof (slot_index_get_col_row g Hrows' Hcols' j col row E) as Hidx.
    split; [| split].
    + destruct Hf as (_ & _ & _ & Hlow & _).
      specialize (Hlow j Hj). unfold slot_offset in Hlow.
      assert (E' : Grid._get_col_row (Grid_seed nrows ncols ngrids w direction d) j
                   = Ok (col, row)) by (rewrite <- E; subst g; reflexivity).
      rewrite E' in Hlow. cbn [Grid_seed Grid._ncols] in Hlow.
      unfold Grid.__getitem__. rewrite Eall.
      rewrite <- (Z2Nat.id (row * ncols + col)) by nia.
      apply py_index_lookup, Hlow.
    + intros Hd. unfold slot_index in Hidx. rewrite Ed, Hd in Hidx. cbn in Hidx. lia.
    + intros Hd. unfold slot_index in Hidx. rewrite Ed, Hd in Hidx. cbn in Hidx. lia.
Qed.

Lemma Grid_axes_in_creation_order_witness :
  exists g w',
    Grid.__init__ plain_host (RectSeq [0; 0; 1; 1]%Q) (2, 3) None "column"
      (PadScalar (1 # 50)) true false true true "L" empty_world = (Ok g, w')
    /\ length (axes_objs w') = 6%nat
    /\ Grid.__getitem__ g 3 = Ok (Some 1%nat).
Proof.
  eexists _, _. split; [vm_compute; reflexivity |].
  destruct (Grid_axes_in_creation_order plain_host (RectSeq [0; 0; 1; 1]%Q) 2 3 None
              "column"%string (PadScalar (1 # 50)) true false true true
              "L"%string empty_world _ _ ltac:(vm_compute; reflexivity))
    as [Hlen Hall].
  split; [exact Hlen |].
  exact (proj1 (Hall 1 0 1 ltac:(vm_compute; split; discriminate || reflexivity)
                  eq_refl)).
Defined.

(** What the loop over [range(self.ngrids)] passed as [sharex] and
    [sharey], read in a later store [w'] that shows the same sharing as the
    store [w2] at the end of the loop. *)
Lemma filled_sharing (seed g : Grid.t) (share_all share_x share_y : bool)
    (objs0 : list AxesObj) (arr : ndarray) (w2 w' : World) :
  0 < Grid._nrows seed -> 0 < Grid._ncols seed ->
  Grid.ngrids g <= Grid._nrows seed * Grid._ncols seed ->
  filled_upto seed share_all share_x share_y objs0 (Grid.ngrids g) arr w2 ->
  Grid._nrows g = Grid._nrows seed -> Grid._ncols g = Grid._ncols seed ->
  Grid._direction g = Grid._direction seed ->
  Grid.axes_all g = arr_data arr ->
  seen_through (fun a => (sharex a, sharey a)) w'
  = seen_through (fun a => (sharex a, sharey a)) w2 ->
  forall j col row,
    0 <= j < Grid.ngrids g -> Grid._get_col_row g j = Ok (col, row) ->
    exists ax o first top left,
      Grid.__getitem__ g (row * Grid._ncols g + col) = Ok (Some ax)
      /\ axes_objs w' !! ax = Some o
      /\ Grid.__getitem__ g 0 = Ok (Some first)
      /\ Grid.__getitem__ g col = Ok (Some top)
      /\ Grid.__getitem__ g (row * Grid._ncols g) = Ok (Some left)
      /\ sharex o = (if share_all then (if j =? 0 then None else Some first)
                     else if share_x then (if row =? 0 then None else Some top)
                     else None)
      /\ sharey o = (if share_all then (if j =? 0 then None else Some first)
                     else if share_y then (if col =? 0 then None else Some left)
                     else None).
Proof.
  intros Hrs Hcs Hn Hf En Ec Ed Eall Hblind.
  set (nrows := Grid._nrows seed) in *. set (ncols := Grid._ncols seed) in *.
  assert (Hsame : forall i, Grid._get_col_row g i = Grid._get_col_row seed i)
    by (intros i; unfold Grid._get_col_row; rewrite En, Ec, Ed; reflexivity).
  rewrite Ec.
  assert (Hcell : forall r c, 0 <= r < nrows -> 0 <= c < ncols ->
                    slot_index seed r c < Grid.ngrids g ->
                    Grid.__getitem__ g (r * ncols + c)
                    = Ok (Some (length objs0
                                + Z.to_nat (slot_index seed r c))%nat)).
  { intros r c Hr Hc Hlt.
    pose proof (slot_index_in_range seed Hrs Hcs r c Hr Hc) as Hin.
    destruct Hf as (_ & _ & _ & Hlow & _).
    specialize (Hlow (slot_index seed r c) ltac:(lia)).
    rewrite (slot_offset_slot_index seed Hrs Hcs) in Hlow by assumption.
    unfold Grid.__getitem__. rewrite Eall.
    rewrite <- (Z2Nat.id (r * ncols + c)) by nia.
    apply py_index_lookup, Hlow. }
  intros j col row Hj E.
  rewrite Hsame in E.
  destruct (get_col_row_in_grid seed Hrs Hcs j col row ltac:(lia) E) as [Hr Hc].
  fold nrows in Hr. fold ncols in Hc.
  pose proof (slot_index_get_col_row seed Hrs Hcs j col row E) as Hidx.
  assert (H00 : slot_index seed 0 0 = 0)
    by (unfold slot_index; destruct (String.eqb _ _); lia).
  assert (Htop : slot_index seed 0 col <= j)
    by (rewrite <- Hidx; unfold slot_index; destruct (String.eqb _ _);
        fold nrows; fold ncols; nia).
  assert (Hleft : slot_index seed row 0 <= j)
    by (rewrite <- Hidx; unfold slot_index; destruct (String.eqb _ _);
        fold nrows; fold ncols; nia).
  pose proof (filled_upto_object _ _ _ _ _ _ _ _ j Hf Hj) as Hobj.
  destruct (seen_through_lookup (fun a => (sharex a, sharey a)) w2 w'
              (length objs0 + Z.to_nat j)%nat
              (slot_axes seed share_all share_x share_y (length objs0) j)
              Hblind Hobj)
    as (o & Ho & Eo).
  assert (Eax : Grid.__getitem__ g (row * ncols + col)
                = Ok (Some (length objs0 + Z.to_nat j)%nat)).
  { pose proof (Hcell row col ltac:(lia) ltac:(lia)) as Hc0.
    rewrite Hidx in Hc0. apply Hc0. lia. }
  assert (Efirst : Grid.__getitem__ g 0 = Ok (Some (length objs0))).
  { pose proof (Hcell 0 0 ltac:(lia) ltac:(lia)) as Hc0.
    rewrite H00 in Hc0. cbn [Z.mul Z.add Z.to_nat] in Hc0.
    rewrite Nat.add_0_r in Hc0. apply Hc0. lia. }
  assert (Etop : Grid.__getitem__ g col
                 = Ok (Some (length objs0
                             + Z.to_nat (slot_index seed 0 col))%nat)).
  { pose proof (Hcell 0 col ltac:(lia) ltac:(lia)) as Hc0.
    cbn [Z.mul Z.add] in Hc0. apply Hc0. lia. }
  assert (Eleft : Grid.__getitem__ g (row * ncols)
                  = Ok (Some (length objs0
                              + Z.to_nat (slot_index seed row 0))%nat)).
  { pose proof (Hcell row 0 ltac:(lia) ltac:(lia)) as Hc0.
    rewrite Z.add_0_r in Hc0. apply Hc0. lia. }
  exists (length objs0 + Z.to_nat j)%nat, o, (length objs0),
         (length objs0 + Z.to_nat (slot_index seed 0 col))%nat,
         (length objs0 + Z.to_nat (slot_index seed row 0))%nat.
  split; [exact Eax |]. split; [exact Ho |]. split; [exact Efirst |].
  split; [exact Etop |]. split; [exact Eleft |].
  injection Eo as -> ->. unfold slot_axes. rewrite E.
  cbn [fresh_axes sharex sharey]. unfold shared_x, shared_y. split; reflexivity.
Qed.

Lemma setter_blind_sharing : setter_blind (fun a => (sharex a, sharey a)).
Proof. intros a. repeat split. Qed.

(** X4: the axes of slot [j] at [(col, row)] is created with
    [sharex] the axes of row 0 in its column and [sharey] the axes of
    column 0 in its row (when [share_x], [share_y]), both the first axes
    of the grid when [share_all], and [None] for the axes that is itself
    the one shared; nothing changes them afterwards. *)
Theorem Grid_axes_sharing (host : Host) (rect : RectArg) (nrows ncols : Z)
    (ngrids : option Z) (direction : string) (axes_pad : PadArg)
    (add_all share_all share_x share_y : bool) (label_mode : string)
    (w w' : World) (g : Grid.t) :
  Grid.__init__ host rect (nrows, ncols) ngrids direction axes_pad add_all
    share_all share_x share_y label_mode w = (Ok g, w') ->
  forall j col row,
    0 <= j < Grid.ngrids g -> Grid._get_col_row g j = Ok (col, row) ->
    exists ax o first top left,
      Grid.__getitem__ g (row * ncols + col) = Ok (Some ax)
      /\ axes_objs w' !! ax = Some o
      /\ Grid.__getitem__ g 0 = Ok (Some first)
      /\ Grid.__getitem__ g col = Ok (Some top)
      /\ Grid.__getitem__ g (row * ncols) = Ok (Some left)
      /\ sharex o = (if share_all then (if j =? 0 then None else Some first)
                     else if share_x then (if row =? 0 then None else Some top)
                     else None)
      /\ sharey o = (if share_all then (if j =? 0 then None else Some first)
                     else if share_y then (if col =? 0 then None else Some left)
                     else None).
Proof.
  intros H. apply Grid_init_story in H.
  destruct H as (h0 & v0 & d & arr & llc & w2 & w3 & w4 & (Hrows & Hcols & Hn) & _ & _
                 & Hf & _ & _ & _ & Hg & Hloop & Hadd & Hlab).
  assert (Hdims : Grid._nrows g = nrows /\ Grid._ncols g = ncols
                  /\ Grid._direction g = direction
                  /\ Grid.axes_all g = arr_data arr) by (subst g; auto).
  destruct Hdims as (En & Ec & Ed & Eall).
  rewrite <- En, <- Ec in Hloop.
  pose proof (Grid_init_blind _ host g add_all label_mode w2 w3 w4 w'
                setter_blind_sharing Hloop Hadd Hlab) as Hblind.
  rewrite <- Ec.
  exact (filled_sharing (Grid_seed nrows ncols ngrids w direction d) g share_all
           share_x share_y (axes_objs w) arr w2 w' Hrows Hcols (proj2 Hn) Hf En Ec Ed
           Eall Hblind).
Qed.

Lemma Grid_axes_sharing_witness :
  exists g w' o,
    Grid.__init__ plain_host (RectSeq [0; 0; 1; 1]%Q) (2, 2) None "row"
      (PadScalar (1 # 50)) true false true true "L" empty_world = (Ok g, w')
    /\ axes_objs w' !! 3%nat = Some o
    /\ sharex o = Some 1%nat /\ sharey o = Some 2%nat.
Proof.
  destruct (Grid_axes_sharing plain_host (RectSeq [0; 0; 1; 1]%Q) 2 2 None
              "row"%string (PadScalar (1 # 50)) true false true true
              "L"%string empty_world _ _ ltac:(vm_compute; reflexivity)
              3 1 1 ltac:(vm_compute; split; discriminate || reflexivity) eq_refl)
    as (ax & o & first & top & left & Eax & Ho & _ & Etop & Eleft & Ex & Ey).
  vm_compute in Eax. injection Eax as <-.
  vm_compute in Etop. injection Etop as <-.
  vm_compute in Eleft. injection Eleft as <-.
  eexists _, _, o. split; [vm_compute; reflexivity |].
  split; [exact Ho |]. split; [exact Ex | exact Ey].
Defined.

(** X5: with [add_all] the constructor passes every entry of
    [axes_all] to [fig.add_axes], once and in order, the [None] of an
    unfilled cell included; without it the figure is left as it was. *)
Theorem Grid_adds_axes_to_figure (host : Host) (rect : RectArg) (nrows ncols : Z)
    (ngrids : option Z) (direction : string) (axes_pad : PadArg)
    (add_all share_all share_x share_y : bool) (label_mode : string)
    (w w' : World) (g : Grid.t) :
  Grid.__init__ host rect (nrows, ncols) ngrids direction axes_pad add_all
    share_all share_x share_y label_mode w = (Ok g, w') ->
  fig_axes w' = fig_axes w ++ (if add_all then Grid.axes_all g else []).
Proof.
  intros H. apply Grid_init_story in H.
  destruct H as (h0 & v0 & d & arr & llc & w2 & w3 & w4 & _ & _ & _
                 & _ & _ & Hfig & _ & _ & Hloop & Hadd & Hlab).
  rewrite (keeps_fig_set_label_mode _ _ _ _ _ Hlab).
  rewrite <- Hfig, <- (keeps_fig_grid_locate _ _ _ _ _ _ _ Hloop).
  destruct add_all.
  - apply (add_axes_loop_fig host _ _ _ Hadd).
  - injection Hadd as <-. rewrite app_nil_r. reflexivity.
Qed.

Lemma Grid_adds_axes_to_figure_witness :
  exists g w',
    Grid.__init__ plain_host (RectSeq [0; 0; 1; 1]%Q) (1, 2) None "row"
      (PadScalar (1 # 50)) true false true true "L" empty_world = (Ok g, w')
    /\ fig_axes w' = [Some 0%nat; Some 1%nat].
Proof.
  eexists _, _. split; [vm_compute; reflexivity |].
  exact (Grid_adds_axes_to_figure plain_host (RectSeq [0; 0; 1; 1]%Q) 1 2 None
           "row"%string (PadScalar (1 # 50)) true false true true
           "L"%string empty_world _ _ ltac:(vm_compute; reflexivity)).
Defined.

(** ** Label modes *)

Lemma mfor_app {A} (l1 l2 : list A) (f : A -> M unit) (w : World) :
  mfor (l1 ++ l2) f w = (mfor l1 f ;; mfor l2 f) w.
Proof.
  revert w. induction l1 as [| x l1 IH]; intros w; [reflexivity |].
  cbn [app mfor]. unfold bind.
  destruct (f x w) as [[[] | e] w1]; [| reflexivity]. rewrite IH. reflexivity.
Qed.

Lemma mfor_fmap {A C} (g : A -> C) (l : list A) (f : C -> M unit) (w : World) :
  mfor (g <$> l) f w = mfor l (fun x => f (g x)) w.
Proof.
  revert w. induction l as [| x l IH]; intros w; [reflexivity |].
  cbn [fmap list_fmap mfor]. unfold bind.
  destruct (f (g x) w) as [[[] | e] w1]; [apply IH | reflexivity].
Qed.

Lemma mfor_ext {A} (l : list A) (f g : A -> M unit) :
  (forall x w, x ∈ l -> f x w = g x w) -> forall w, mfor l f w = mfor l g w.
Proof.
  induction l as [| x l IH]; intros Hfg w; [reflexivity |].
  cbn [mfor]. unfold bind. rewrite Hfg by left.
  destruct (g x w) as [[[] | e] w1]; [| reflexivity].
  apply IH. intros y w' Hy. apply Hfg. right. exact Hy.
Qed.

Lemma mfor_concat {A C} (g : A -> list C) (l : list A) (f : C -> M unit) (w : World) :
  mfor (concat (g <$> l)) f w = mfor l (fun x => mfor (g x) f) w.
Proof.
  revert w. induction l as [| x l IH]; intros w; [reflexivity |].
  cbn [fmap list_fmap concat mfor]. rewrite mfor_app. unfold bind.
  destruct (mfor (g x) f w) as [[[] | e] w1]; [apply IH | reflexivity].
Qed.

Lemma mfor_single {A} (x : A) (f : A -> M unit) (w : World) :
  mfor [x] f w = f x w.
Proof.
  cbn [mfor]. unfold bind, ret. destruct (f x w) as [[[] | e] w1]; reflexivity.
Qed.

Lemma py_index_of_last {A} (l : list A) (x : A) :
  last l = Some x -> py_index l (-1) = Ok x.
Proof.
  intros H. rewrite last_lookup in H.
  assert (Hlen : (0 < length l)%nat) by (apply lookup_lt_Some in H; lia).
  unfold py_index. cbn.
  destruct (Z.ltb_spec (-1 + Z.of_nat (length l)) 0); [lia |].
  destruct (Z.leb_spec (Z.of_nat (length l)) (-1 + Z.of_nat (length l))); [lia |].
  cbn. replace (Z.to_nat (-1 + Z.of_nat (length l))) with (pred (length l)) by lia.
  rewrite H. reflexivity.
Qed.

(** One call of [_tick_only] on an axes of the store. *)
Lemma tick_only_run (r : ref) (b1 b2 : bool) (w : World) :
  (r < length (axes_objs w))%nat ->
  exists a,
    axes_objs w !! r = Some a
    /\ _tick_only (Some r) b1 b2 w
       = (Ok tt, mkWorld (fixed_objs w)
                   (<[r := with_left (negb b2) (with_bottom (negb b1) a)]> (axes_objs w))
                   (fig_axes w)).
Proof.
  intros Hr. destruct (lookup_lt_is_Some_2 _ _ Hr) as [a Ha]. exists a.
  split; [exact Ha |].
  unfold _tick_only, toggle_bottom, toggle_left, bind, modify_axes. rewrite Ha.
  cbn [axes_objs fixed_objs fig_axes].
  rewrite list_lookup_insert_eq by exact Hr. rewrite list_insert_insert_eq.
  reflexivity.
Qed.

(** A script whose axes are all in the store runs to its end; it changes
    only the axes it names, and an axes it names with one pair of flags
    only ends with the labels of that pair. *)
Lemma run_script (s : list (option ref * bool * bool)) :
  forall w,
    (forall ax b1 b2, (ax, b1, b2) ∈ s ->
       exists r, ax = Some r /\ (r < length (axes_objs w))%nat) ->
    exists w',
      mfor s tick_action w = (Ok tt, w')
      /\ length (axes_objs w') = length (axes_objs w)
      /\ (forall r, (forall b1 b2, (Some r, b1, b2) ∉ s) ->
                    axes_objs w' !! r = axes_objs w !! r)
      /\ (forall r b1 b2,
            (Some r, b1, b2) ∈ s ->
            (forall b1' b2', (Some r, b1', b2') ∈ s -> b1' = b1 /\ b2' = b2) ->
            tick_labels w' (Some r) = Some (Some (negb b1), Some (negb b2))).
Proof.
  induction s as [| [[ax c1] c2] s IH]; intros w Hv.
  - exists w. split; [reflexivity |]. split; [reflexivity |]. split; [reflexivity |].
    intros r b1 b2 Hin. inversion Hin.
  - destruct (Hv ax c1 c2 ltac:(left)) as (r0 & -> & Hr0).
    destruct (tick_only_run r0 c1 c2 w Hr0) as (a & Ha & Erun).
    set (w1 := mkWorld (fixed_objs w)
                 (<[r0 := with_left (negb c2) (with_bottom (negb c1) a)]> (axes_objs w))
                 (fig_axes w)) in *.
    assert (Hlen1 : length (axes_objs w1) = length (axes_objs w))
      by (unfold w1; cbn [axes_objs]; apply length_insert).
    destruct (IH w1) as (w' & Erest & Hlen & Hout & Hin).
    { intros ax b1 b2 Hin. destruct (Hv ax b1 b2 ltac:(right; exact Hin)) as (r & -> & Hr).
      exists r. split; [reflexivity | lia]. }
    exists w'. split; [| split; [lia | split]].
    + cbn [mfor tick_action]. unfold bind. rewrite Erun. exact Erest.
    + intros r Hr. rewrite Hout.
      * unfold w1. cbn [axes_objs]. apply list_lookup_insert_ne.
        intros <-. apply (Hr c1 c2). left.
      * intros b1 b2 Hc. apply (Hr b1 b2). right. exact Hc.
    + intros r b1 b2 Hmem Hcons.
      destruct (decide (Some r ∈ (fun x : option ref * bool * bool => x.1.1) <$> s))
        as [Hs | Hs].
      * apply list_elem_of_fmap in Hs. destruct Hs as ([[ax' d1] d2] & E & Hs).
        cbn in E. subst ax'.
        destruct (Hcons d1 d2 ltac:(right; exact Hs)) as [-> ->].
        apply Hin; [exact Hs |].
        intros b1' b2' H'. apply Hcons. right. exact H'.
      * assert (Hhead : (Some r, b1, b2) = (Some r0, c1, c2)).
        { apply elem_of_cons in Hmem. destruct Hmem as [E | Hm]; [exact E |].
          exfalso. apply Hs. apply list_elem_of_fmap.
          exists (Some r, b1, b2). split; [reflexivity | exact Hm]. }
        injection Hhead as -> -> ->.
        unfold tick_labels. rewrite Hout.
        -- unfold w1. cbn [axes_objs]. rewrite list_lookup_insert_eq by exact Hr0.
           reflexivity.
        -- intros d1 d2 Hd. apply Hs. apply list_elem_of_fmap.
           exists (Some r0, d1, d2). split; [reflexivity | exact Hd].
Qed.

(** [set_label_mode("L")] as a script. *)
Lemma col_script_run (left_on : bool) (col : list (option ref)) (x : option ref)
    (w : World) (k : M unit) :
  last col = Some x ->
  (mfor (Grid.but_last col) (fun ax => _tick_only ax true left_on) ;;
   let* ax := lift (py_index col (-1)) in
   _tick_only ax false left_on ;; k) w
  = (mfor (col_script left_on col) tick_action ;; k) w.
Proof.
  intros Hl. unfold col_script. rewrite Hl.
  unfold bind. rewrite mfor_app. unfold bind.
  rewrite mfor_fmap. cbn [tick_action].
  destruct (mfor (Grid.but_last col) _ w) as [[[] | e] w1]; [| reflexivity].
  unfold lift. rewrite (py_index_of_last _ _ Hl). rewrite mfor_single.
  cbn [tick_action]. reflexivity.
Qed.

Lemma col_script_body (left_on : bool) (col : list (option ref)) (x : option ref)
    (w : World) :
  last col = Some x ->
  (mfor (Grid.but_last col) (fun ax => _tick_only ax true left_on) ;;
   let* ax := lift (py_index col (-1)) in
   _tick_only ax false left_on) w
  = mfor (col_script left_on col) tick_action w.
Proof.
  intros Hl. unfold col_script. rewrite Hl.
  unfold bind. rewrite mfor_app. unfold bind.
  rewrite mfor_fmap. cbn [tick_action].
  destruct (mfor (Grid.but_last col) _ w) as [[[] | e] w1]; [| reflexivity].
  unfold lift. rewrite (py_index_of_last _ _ Hl). rewrite mfor_single.
  cbn [tick_action]. reflexivity.
Qed.

Lemma set_label_mode_L_script (g : Grid.t) (w : World) :
  Grid.axes_column g <> [] ->
  (forall col, col ∈ Grid.axes_column g -> col <> []) ->
  Grid.set_label_mode g "L" w = mfor (script_L (Grid.axes_column g)) tick_action w.
Proof.
  intros Hne Hcols. unfold Grid.set_label_mode.
  change (String.eqb "L" "all") with false. change (String.eqb "L" "L") with true.
  cbv iota.
  destruct (Grid.axes_column g) as [| col0 rest]; [contradiction |].
  destruct (last col0) as [x0 |] eqn:Hl0;
    [| apply last_None in Hl0; exfalso; apply (Hcols col0); [left | exact Hl0]].
  unfold bind at 1. unfold lift at 1.
  assert (E0 : py_index (col0 :: rest) 0 = Ok col0).
  { unfold py_index. cbn [length]. rewrite Nat2Z.inj_succ.
    destruct (Z.ltb_spec 0 0); [lia |]. destruct (Z.ltb_spec 0 0); [lia |].
    destruct (Z.leb_spec (Z.succ (Z.of_nat (length rest))) 0); [lia |]. reflexivity. }
  rewrite E0. cbn [drop script_L].
  rewrite (col_script_run false col0 x0 w _ Hl0).
  rewrite mfor_app. unfold bind.
  destruct (mfor (col_script false col0) tick_action w) as [[[] | e] w1];
    [| reflexivity].
  rewrite mfor_concat. apply mfor_ext.
  intros col w2 Hcol.
  destruct (last col) as [x |] eqn:Hl;
    [| apply last_None in Hl; exfalso; apply (Hcols col); [right; exact Hcol | exact Hl]].
  apply (col_script_body true col x w2 Hl).
Qed.

Lemma in_col_script (left_on : bool) (col : list (option ref)) (ax : option ref)
    (b1 b2 : bool) :
  (ax, b1, b2) ∈ col_script left_on col
  <-> exists r, col !! r = Some ax /\ b1 = negb (S r =? length col)%nat /\ b2 = left_on.
Proof.
  unfold col_script, Grid.but_last. rewrite elem_of_app, list_elem_of_fmap. split.
  - intros [(x & E & Hx) | Hlast].
    + injection E as -> -> ->. apply elem_of_take in Hx. destruct Hx as (r & Hr & Hlt).
      exists r. split; [exact Hr |]. split; [| reflexivity].
      destruct (Nat.eqb_spec (S r) (length col)); [lia | reflexivity].
    + destruct (last col) as [x |] eqn:Hl; [| inversion Hlast].
      apply list_elem_of_singleton in Hlast. injection Hlast as -> -> ->.
      rewrite last_lookup in Hl. exists (pred (length col)).
      split; [exact Hl |]. split; [| reflexivity].
      apply lookup_lt_Some in Hl.
      destruct (Nat.eqb_spec (S (pred (length col))) (length col)); [reflexivity | lia].
  - intros (r & Hr & -> & ->). pose proof (lookup_lt_Some _ _ _ Hr) as Hlt.
    destruct (Nat.eqb_spec (S r) (length col)) as [E | E]; cbn [negb].
    + right. rewrite last_lookup. replace (pred (length col)) with r by lia.
      rewrite Hr. left.
    + left. exists ax. split; [reflexivity |]. apply elem_of_take.
      exists r. split; [exact Hr | lia].
Qed.

Lemma in_concat_scripts (rest : list (list (option ref))) (a : option ref * bool * bool) :
  a ∈ concat (col_script true <$> rest)
  <-> exists k col, rest !! k = Some col /\ a ∈ col_script true col.
Proof.
  induction rest as [| col rest IH].
  - cbn. split; [intros H; inversion H | intros (k & c & H & _); discriminate].
  - cbn [fmap list_fmap concat]. rewrite elem_of_app, IH. split.
    + intros [H | (k & c & Hk & H)]; [exists 0%nat, col; auto | exists (S k), c; auto].
    + intros ([| k] & c & Hk & H); [injection Hk as <-; left; exact H |].
      right. exists k, c. auto.
Qed.

Lemma in_script_L (cols : list (list (option ref))) (ax : option ref) (b1 b2 : bool) :
  (ax, b1, b2) ∈ script_L cols
  <-> exists c col r,
        cols !! c = Some col /\ col !! r = Some ax
        /\ b1 = negb (S r =? length col)%nat /\ b2 = negb (c =? 0)%nat.
Proof.
  destruct cols as [| col0 rest]; cbn [script_L].
  - split; [intros H; inversion H | intros (c & col & r & H & _); discriminate].
  - rewrite elem_of_app, in_col_script, in_concat_scripts. split.
    + intros [(r & Hr & -> & ->) | (k & col & Hk & Hin)].
      * exists 0%nat, col0, r. auto.
      * apply in_col_script in Hin. destruct Hin as (r & Hr & -> & ->).
        exists (S k), col, r. auto.
    + intros ([| k] & col & r & Hc & Hr & -> & ->).
      * injection Hc as <-. left. exists r. auto.
      * right. exists k, col. split; [exact Hc |]. apply in_col_script.
        exists r. auto.
Qed.

Section LabelledGrid.

Variables (g : Grid.t) (arr : ndarray) (w0 : World).
Hypothesis built : axes_built g arr w0.
Hypothesis full : forall k x, Grid.axes_all g !! k = Some x -> x <> None.
Hypothesis llc_cell :
  Grid.axes_all g !! Z.to_nat ((Grid._nrows g - 1) * Grid._ncols g)
  = Some (Grid.axes_llc g).

Lemma full_cell (r c : Z) :
  0 <= r < Grid._nrows g -> 0 <= c < Grid._ncols g ->
  exists x, Grid.axes_all g !! Z.to_nat (r * Grid._ncols g + c) = Some (Some x)
            /\ (x < length (axes_objs w0))%nat
            /\ arr_at arr r c = Some x.
Proof.
  intros Hr Hc.
  destruct (lookup_lt_is_Some_2 (Grid.axes_all g) (Z.to_nat (r * Grid._ncols g + c)))
    as [[x |] Hx].
  - rewrite (built_length _ _ _ built). nia.
  - exists x. split; [exact Hx |]. split; [apply (built_valid _ _ _ built _ _ Hx) |].
    unfold arr_at. rewrite (built_arr_cols _ _ _ built), <- (built_all _ _ _ built), Hx.
    reflexivity.
  - exfalso. apply (full _ _ Hx). reflexivity.
Qed.

Lemma column_entry (c r : nat) (col : list (option ref)) (ax : option ref) :
  Grid.axes_column g !! c = Some col -> col !! r = Some ax ->
  length col = Z.to_nat (Grid._nrows g)
  /\ Z.of_nat c < Grid._ncols g /\ Z.of_nat r < Grid._nrows g
  /\ ax = arr_at arr (Z.of_nat r) (Z.of_nat c).
Proof.
  intros Hc Hr. rewrite (built_column _ _ _ built) in Hc.
  apply T_tolist_lookup in Hc. destruct Hc as [Hc ->].
  rewrite (built_arr_cols _ _ _ built) in Hc.
  rewrite (built_arr_rows _ _ _ built) in *.
  rewrite length_fmap, range_length. split; [reflexivity |].
  pose proof (lookup_lt_Some _ _ _ Hr) as Hlt.
  rewrite length_fmap, range_length in Hlt.
  rewrite list_lookup_fmap, (range_lookup _ r) in Hr by lia.
  cbn in Hr. injection Hr as <-. repeat split; lia.
Qed.

Lemma entry_column (r c : Z) :
  0 <= r < Grid._nrows g -> 0 <= c < Grid._ncols g ->
  exists col, Grid.axes_column g !! Z.to_nat c = Some col
              /\ col !! Z.to_nat r = Some (arr_at arr r c)
              /\ length col = Z.to_nat (Grid._nrows g).
Proof.
  intros Hr Hc. rewrite (built_column _ _ _ built). unfold T_tolist.
  rewrite (built_arr_cols _ _ _ built), (built_arr_rows _ _ _ built).
  exists ((fun r => arr_at arr r c) <$> range (Grid._nrows g)).
  split; [| split].
  - rewrite list_lookup_fmap, (range_lookup _ (Z.to_nat c)) by lia.
    cbn. rewrite Z2Nat.id by lia. reflexivity.
  - rewrite list_lookup_fmap, (range_lookup _ (Z.to_nat r)) by lia.
    cbn. rewrite Z2Nat.id by lia. reflexivity.
  - rewrite length_fmap, range_length. reflexivity.
Qed.

Lemma one_cell_per_axes (r c r' c' : Z) (x : ref) :
  0 <= r < Grid._nrows g -> 0 <= c < Grid._ncols g ->
  0 <= r' < Grid._nrows g -> 0 <= c' < Grid._ncols g ->
  arr_at arr r c = Some x -> arr_at arr r' c' = Some x -> r = r' /\ c = c'.
Proof.
  intros Hr Hc Hr' Hc' E E'.
  destruct (full_cell r c Hr Hc) as (y & Hy & _ & Ey).
  destruct (full_cell r' c' Hr' Hc') as (y' & Hy' & _ & Ey').
  rewrite E in Ey. injection Ey as <-. rewrite E' in Ey'. injection Ey' as <-.
  pose proof (built_no_sharing _ _ _ built _ _ _ Hy Hy') as Hk.
  apply (cell_offset_inj (Grid._ncols g)); [assumption | assumption | nia].
Qed.

Lemma label_mode_all_runs (w : World) :
  (length (axes_objs w0) <= length (axes_objs w))%nat ->
  exists w',
    Grid.set_label_mode g "all" w = (Ok tt, w')
    /\ forall r c, 0 <= r < Grid._nrows g -> 0 <= c < Grid._ncols g ->
         exists x, Grid.axes_all g !! Z.to_nat (r * Grid._ncols g + c) = Some (Some x)
                   /\ tick_labels w' (Some x) = Some (Some true, Some true).
Proof.
  intros Hw.
  destruct (run_script ((fun ax => (ax, false, false)) <$> Grid.axes_all g) w)
    as (w' & Erun & _ & _ & Hin).
  { intros ax b1 b2 H. apply list_elem_of_fmap in H. destruct H as (y & E & Hy).
    injection E as -> -> ->. apply list_elem_of_lookup in Hy. destruct Hy as [k Hk].
    destruct y as [x |]; [| exfalso; apply (full _ _ Hk); reflexivity].
    exists x. split; [reflexivity |].
    pose proof (built_valid _ _ _ built _ _ Hk). lia. }
  exists w'. split.
  - unfold Grid.set_label_mode. change (String.eqb "all" "all") with true. cbv iota.
    rewrite mfor_fmap in Erun. exact Erun.
  - intros r c Hr Hc. destruct (full_cell r c Hr Hc) as (x & Hx & _).
    exists x. split; [exact Hx |].
    apply (Hin x false false).
    + apply list_elem_of_fmap. exists (Some x). split; [reflexivity |].
      apply list_elem_of_lookup. eauto.
    + intros b1 b2 H. apply list_elem_of_fmap in H. destruct H as (y & E & _).
      injection E as _ -> ->. auto.
Qed.

Lemma label_mode_L_runs (w : World) :
  (length (axes_objs w0) <= length (axes_objs w))%nat ->
  exists w',
    Grid.set_label_mode g "L" w = (Ok tt, w')
    /\ forall r c, 0 <= r < Grid._nrows g -> 0 <= c < Grid._ncols g ->
         exists x, Grid.axes_all g !! Z.to_nat (r * Grid._ncols g + c) = Some (Some x)
                   /\ tick_labels w' (Some x)
                      = Some (Some (r =? Grid._nrows g - 1), Some (c =? 0)).
Proof.
  intros Hw.
  pose proof (built_rows _ _ _ built) as Hrows.
  pose proof (built_cols _ _ _ built) as Hcols.
  destruct (run_script (script_L (Grid.axes_column g)) w) as (w' & Erun & _ & _ & Hin).
  { intros ax b1 b2 H. apply in_script_L in H.
    destruct H as (c & col & r & Hc & Hr & _).
    destruct (column_entry c r col ax Hc Hr) as (_ & Hc' & Hr' & ->).
    destruct (full_cell (Z.of_nat r) (Z.of_nat c) ltac:(lia) ltac:(lia))
      as (x & _ & Hv & ->).
    exists x. split; [reflexivity | lia]. }
  exists w'. split.
  - rewrite set_label_mode_L_script; [exact Erun | |].
    + destruct (entry_column 0 0 ltac:(lia) ltac:(lia)) as (col & Hcol & _).
      intros E. rewrite E in Hcol. discriminate.
    + intros col Hcol E. apply list_elem_of_lookup in Hcol. destruct Hcol as [c Hc].
      rewrite (built_column _ _ _ built) in Hc. apply T_tolist_lookup in Hc.
      destruct Hc as [_ Hc]. rewrite E in Hc. symmetry in Hc.
      apply fmap_nil_inv in Hc. pose proof (range_length (arr_rows arr)) as Hl.
      rewrite Hc, (built_arr_rows _ _ _ built) in Hl. cbn in Hl. lia.
  - intros r c Hr Hc. destruct (full_cell r c Hr Hc) as (x & Hx & _ & Hat).
    destruct (entry_column r c Hr Hc) as (col & Hcol & Hent & Hlen).
    exists x. split; [exact Hx |].
    replace (r =? Grid._nrows g - 1)
      with (negb (negb (S (Z.to_nat r) =? length col)%nat)).
    2: { rewrite negb_involutive, Hlen.
         destruct (Nat.eqb_spec (S (Z.to_nat r)) (Z.to_nat (Grid._nrows g))),
           (Z.eqb_spec r (Grid._nrows g - 1)); try reflexivity; lia. }
    replace (c =? 0) with (negb (negb (Z.to_nat c =? 0)%nat)).
    2: { rewrite negb_involutive.
         destruct (Nat.eqb_spec (Z.to_nat c) 0), (Z.eqb_spec c 0); try reflexivity; lia. }
    apply Hin.
    + apply in_script_L. exists (Z.to_nat c), col, (Z.to_nat r).
      rewrite Hent, Hat. auto.
    + intros b1 b2 H. apply in_script_L in H.
      destruct H as (c' & col' & r' & Hc' & Hr' & -> & ->).
      destruct (column_entry c' r' col' _ Hc' Hr') as (Hlen' & Hcb & Hrb & E).
      symmetry in E.
      destruct (one_cell_per_axes r c (Z.of_nat r') (Z.of_nat c') x Hr Hc
                  ltac:(lia) ltac:(lia) Hat E) as [-> ->].
      rewrite !Nat2Z.id, Hlen, Hlen'. auto.
Qed.

Lemma label_mode_1_runs (w : World) :
  (length (axes_objs w0) <= length (axes_objs w))%nat ->
  exists w',
    Grid.set_label_mode g "1" w = (Ok tt, w')
    /\ forall r c, 0 <= r < Grid._nrows g -> 0 <= c < Grid._ncols g ->
         exists x, Grid.axes_all g !! Z.to_nat (r * Grid._ncols g + c) = Some (Some x)
                   /\ tick_labels w' (Some x)
                      = Some (Some ((r =? Grid._nrows g - 1) && (c =? 0)),
                              Some ((r =? Grid._nrows g - 1) && (c =? 0))).
Proof.
  intros Hw.
  pose proof (built_rows _ _ _ built) as Hrows.
  pose proof (built_cols _ _ _ built) as Hcols.
  destruct (run_script ((fun ax => (ax, true, true)) <$> Grid.axes_all g) w)
    as (w1 & Erun & Hlen1 & _ & Hin).
  { intros ax b1 b2 H. apply list_elem_of_fmap in H. destruct H as (y & E & Hy).
    injection E as -> -> ->. apply list_elem_of_lookup in Hy. destruct Hy as [k Hk].
    destruct y as [x |]; [| exfalso; apply (full _ _ Hk); reflexivity].
    exists x. split; [reflexivity |].
    pose proof (built_valid _ _ _ built _ _ Hk). lia. }
  rewrite mfor_fmap in Erun. cbn [tick_action] in Erun.
  destruct (full_cell (Grid._nrows g - 1) 0 ltac:(lia) ltac:(lia))
    as (xl & Hxl & Hvl & Hatl).
  rewrite Z.add_0_r, llc_cell in Hxl. injection Hxl as Hllc.
  destruct (tick_only_run xl false false w1 ltac:(lia)) as (a & Ha & Elast).
  eexists. split.
  - unfold Grid.set_label_mode.
    change (String.eqb "1" "all") with false. change (String.eqb "1" "L") with false.
    change (String.eqb "1" "1") with true. cbv iota.
    unfold bind. rewrite Erun, Hllc. exact Elast.
  - intros r c Hr Hc. destruct (full_cell r c Hr Hc) as (x & Hx & _ & Hat).
    exists x. split; [exact Hx |].
    assert (H1 : tick_labels w1 (Some x) = Some (Some false, Some false)).
    { apply (Hin x true true).
      - apply list_elem_of_fmap. exists (Some x). split; [reflexivity |].
        apply list_elem_of_lookup. eauto.
      - intros b1 b2 H. apply list_elem_of_fmap in H. destruct H as (y & E & _).
        injection E as _ -> ->. auto. }
    unfold tick_labels in *. cbn [axes_objs].
    destruct (decide (x = xl)) as [-> | Hne].
    + destruct (one_cell_per_axes r c (Grid._nrows g - 1) 0 xl Hr Hc
                  ltac:(lia) ltac:(lia) Hat Hatl) as [-> ->].
      rewrite list_lookup_insert_eq by (apply lookup_lt_Some in Ha; exact Ha).
      rewrite !Z.eqb_refl. reflexivity.
    + rewrite list_lookup_insert_ne by congruence.
      rewrite H1. do 2 f_equal.
      all: destruct (Z.eqb_spec r (Grid._nrows g - 1)), (Z.eqb_spec c 0);
        try reflexivity; subst; exfalso; apply Hne;
        rewrite Hat in Hatl; congruence.
Qed.

End LabelledGrid.

(** What a constructed, fully filled grid gives to the lemmas on label
    modes. *)
Lemma Grid_init_full (host : Host) (rect : RectArg) (nrows ncols : Z)
    (ngrids : option Z) (direction : string) (axes_pad : PadArg)
    (add_all share_all share_x share_y : bool) (label_mode : string)
    (w w' : World) (g : Grid.t) :
  Grid.__init__ host rect (nrows, ncols) ngrids direction axes_pad add_all
    share_all share_x share_y label_mode w = (Ok g, w') ->
  Grid.ngrids g = nrows * ncols ->
  exists arr w2,
    Grid._nrows g = nrows /\ Grid._ncols g = ncols
    /\ axes_built g arr w2
    /\ (length (axes_objs w2) <= length (axes_objs w'))%nat
    /\ (forall k x, Grid.axes_all g !! k = Some x -> x <> None)
    /\ Grid.axes_all g !! Z.to_nat ((Grid._nrows g - 1) * Grid._ncols g)
       = Some (Grid.axes_llc g).
Proof.
  intros H Hfull. pose proof H as Hs. apply Grid_init_story in Hs.
  destruct Hs as (h0 & v0 & d & arr & llc & v2 & v3 & v4 & (Hrows & Hcols & Hn) & _ & _
                  & Hf & _ & _ & Hllc & Hg & _).
  apply Grid_init_built in H.
  destruct H as (arr' & w2 & w3 & w4 & En & Ec & _ & _ & Hb & Hloop & Hobj & Hlab).
  exists arr', w2. split; [exact En |]. split; [exact Ec |]. split; [exact Hb |].
  split; [| split].
  - rewrite (seen_through_length (fun _ => tt) w4 w'
               (keeps_blind_set_label_mode _ setter_blind_unit _ _ _ _ _ Hlab)).
    rewrite Hobj.
    rewrite (seen_through_length (fun _ => tt) w2 w3
               (keeps_blind_grid_locate _ setter_blind_unit _ _ _ _ _ _ _ Hloop)).
    lia.
  - intros k x Hk ->.
    pose proof (lookup_lt_Some _ _ _ Hk) as Hlt.
    rewrite (built_length _ _ _ Hb), En, Ec in Hlt.
    destruct (Grid_all_located _ _ _ _ _ Hloop (Z.of_nat k) ltac:(lia)) as [ax Hax].
    rewrite Nat2Z.id in Hax. congruence.
  - rewrite En, Ec. apply py_index_nonneg in Hllc; [| nia].
    destruct Hllc as [Hllc _]. subst g. exact Hllc.
Qed.

(** X6: [set_label_mode] on a fully filled grid, in whatever state
    its axes are, returns and leaves the labels that the mode gives to
    the place of each axes in [axes_row]/[axes_column]: all shown for
    "all"; for "L" the bottom labels in the last row and the left labels in
    the first column; for "1" both labels on the axes of the last row and
    first column only. *)
Theorem Grid_label_modes_by_position (host : Host) (rect : RectArg) (nrows ncols : Z)
    (ngrids : option Z) (direction : string) (axes_pad : PadArg)
    (add_all share_all share_x share_y : bool) (label_mode mode : string)
    (w0 w1 w : World) (g : Grid.t) :
  Grid.__init__ host rect (nrows, ncols) ngrids direction axes_pad add_all
    share_all share_x share_y label_mode w0 = (Ok g, w1) ->
  Grid.ngrids g = nrows * ncols ->
  (length (axes_objs w1) <= length (axes_objs w))%nat ->
  mode = "all"%string \/ mode = "L"%string \/ mode = "1"%string ->
  exists w',
    Grid.set_label_mode g mode w = (Ok tt, w')
    /\ forall r c, 0 <= r < nrows -> 0 <= c < ncols ->
         exists ax, Grid.__getitem__ g (r * ncols + c) = Ok (Some ax)
                    /\ tick_labels w' (Some ax) = Some (labels_of_mode mode nrows r c).
Proof.
  intros H Hfull Hw Hmode.
  destruct (Grid_init_full _ _ _ _ _ _ _ _ _ _ _ _ _ _ _ H Hfull)
    as (arr & w2 & En & Ec & Hb & Hlen & Hall & Hllc).
  assert (Hw2 : (length (axes_objs w2) <= length (axes_objs w))%nat) by lia.
  assert (Hget : forall r c x, 0 <= r < nrows -> 0 <= c < ncols ->
                   Grid.axes_all g !! Z.to_nat (r * Grid._ncols g + c) = Some (Some x) ->
                   Grid.__getitem__ g (r * ncols + c) = Ok (Some x)).
  { intros r c x Hr Hc Hx. unfold Grid.__getitem__.
    rewrite <- (Z2Nat.id (r * ncols + c)) by nia. apply py_index_lookup.
    rewrite <- Ec. exact Hx. }
  destruct Hmode as [-> | [-> | ->]].
  - destruct (label_mode_all_runs g arr w2 Hb Hall w Hw2) as (w' & Erun & Hlab).
    exists w'. split; [exact Erun |]. intros r c Hr Hc.
    destruct (Hlab r c ltac:(lia) ltac:(lia)) as (x & Hx & Hl).
    exists x. split; [apply Hget; assumption | exact Hl].
  - destruct (label_mode_L_runs g arr w2 Hb Hall w Hw2) as (w' & Erun & Hlab).
    exists w'. split; [exact Erun |]. intros r c Hr Hc.
    destruct (Hlab r c ltac:(lia) ltac:(lia)) as (x & Hx & Hl).
    exists x. split; [apply Hget; assumption |]. rewrite Hl, En. reflexivity.
  - destruct (label_mode_1_runs g arr w2 Hb Hall Hllc w Hw2) as (w' & Erun & Hlab).
    exists w'. split; [exact Erun |]. intros r c Hr Hc.
    destruct (Hlab r c ltac:(lia) ltac:(lia)) as (x & Hx & Hl).
    exists x. split; [apply Hget; assumption |]. rewrite Hl, En. reflexivity.
Qed.

Lemma Grid_label_modes_by_position_witness :
  exists g w1 w',
    Grid.__init__ plain_host (RectSeq [0; 0; 1; 1]%Q) (2, 2) None "column"
      (PadScalar (1 # 50)) true false true true "all" empty_world = (Ok g, w1)
    /\ Grid.set_label_mode g "L" w1 = (Ok tt, w')
    /\ tick_labels w' (Some 1%nat) = Some (Some true, Some true).
Proof.
  destruct (Grid_label_modes_by_position plain_host (RectSeq [0; 0; 1; 1]%Q) 2 2 None
              "column"%string (PadScalar (1 # 50)) true false true true
              "all"%string "L"%string empty_world _ _ _
              ltac:(vm_compute; reflexivity) eq_refl (le_n _)
              ltac:(right; left; reflexivity))
    as (w' & Erun & Hlab).
  destruct (Hlab 1 0 ltac:(lia) ltac:(lia)) as (ax & Eax & Hl).
  vm_compute in Eax. injection Eax as <-.
  eexists _, _, w'. split; [vm_compute; reflexivity |].
  split; [exact Erun | exact Hl].
Defined.

(** X7: on a fully filled grid just constructed, [grid[i]] is
    drawn in the cell of [(col, row) = _get_col_row(i)] and, after
    [set_label_mode], labelled as the axes of row [i // ncols] and column
    [i % ncols].  The two places are the same for [direction="row"]; for
    [direction="column"] the first is [(i // nrows, i % nrows)]. *)
Theorem Grid_labels_and_places (host : Host) (rect : RectArg) (nrows ncols : Z)
    (ngrids : option Z) (direction : string) (axes_pad : PadArg)
    (add_all share_all share_x share_y : bool) (label_mode mode : string)
    (w0 w1 : World) (g : Grid.t) :
  Grid.__init__ host rect (nrows, ncols) ngrids direction axes_pad add_all
    share_all share_x share_y label_mode w0 = (Ok g, w1) ->
  Grid.ngrids g = nrows * ncols ->
  mode = "all"%string \/ mode = "L"%string \/ mode = "1"%string ->
  exists w',
    Grid.set_label_mode g mode w1 = (Ok tt, w')
    /\ forall i, 0 <= i < nrows * ncols ->
         exists col row ax,
           Grid._get_col_row g i = Ok (col, row)
           /\ Grid.__getitem__ g i = Ok (Some ax)
           /\ drawn_at w' (Some ax) = Some (2 * col, 2 * (nrows - 1 - row))
           /\ tick_labels w' (Some ax)
              = Some (labels_of_mode mode nrows (i / ncols) (i mod ncols))
           /\ (direction = "row"%string -> row = i / ncols /\ col = i mod ncols)
           /\ (direction = "column"%string -> col = i / nrows /\ row = i mod nrows).
Proof.
  intros H Hfull Hmode.
  destruct (Grid_init_full _ _ _ _ _ _ _ _ _ _ _ _ _ _ _ H Hfull)
    as (arr & w2 & En & Ec & Hb & Hlen & Hall & Hllc).
  pose proof (built_rows _ _ _ Hb) as Hrows. pose proof (built_cols _ _ _ Hb) as Hcols.
  assert (Hrun : exists w',
             Grid.set_label_mode g mode w1 = (Ok tt, w')
             /\ forall r c, 0 <= r < Grid._nrows g -> 0 <= c < Grid._ncols g ->
                  exists x,
                    Grid.axes_all g !! Z.to_nat (r * Grid._ncols g + c) = Some (Some x)
                    /\ tick_labels w' (Some x)
                       = Some (labels_of_mode mode (Grid._nrows g) r c)).
  { destruct Hmode as [-> | [-> | ->]].
    - apply (label_mode_all_runs g arr w2 Hb Hall w1 Hlen).
    - apply (label_mode_L_runs g arr w2 Hb Hall w1 Hlen).
    - apply (label_mode_1_runs g arr w2 Hb Hall Hllc w1 Hlen). }
  destruct Hrun as (w' & Erun & Hlab).
  exists w'. split; [exact Erun |].
  intros i Hi.
  destruct (Grid_init_locators _ _ _ _ _ _ _ _ _ _ _ _ _ _ _ H i ltac:(lia))
    as (col & row & ax & o & E1 & E2 & Ho & Hl & _).
  exists col, row, ax. split; [exact E1 |]. split; [exact E2 |].
  split; [| split; [| split]].
  - destruct (seen_through_lookup axes_locator w1 w' ax o
                (keeps_locator_set_label_mode _ _ _ _ _ Erun) Ho) as (o' & Ho' & El).
    unfold drawn_at. unfold the_object in Ho'. rewrite Ho', El, Hl. reflexivity.
  - assert (Hq : 0 <= i / ncols < nrows).
    { split; [apply Z.div_pos; lia | apply Z.div_lt_upper_bound; lia]. }
    assert (Hm : 0 <= i mod ncols < ncols) by (apply Z.mod_pos_bound; lia).
    destruct (Hlab (i / ncols) (i mod ncols) ltac:(lia) ltac:(lia)) as (x & Hx & Hlx).
    rewrite Ec in Hx.
    replace (i / ncols * ncols + i mod ncols) with i in Hx
      by (rewrite (Z.div_mod i ncols) at 1 by lia; lia).
    unfold Grid.__getitem__ in E2. apply py_index_nonneg in E2; [| lia].
    destruct E2 as [E2 _]. rewrite E2 in Hx. injection Hx as <-.
    rewrite Hlx, En. reflexivity.
  - intros Hd. rewrite <- Ec.
    rewrite (get_col_row_row g Hcols i) in E1
      by (destruct (Grid_init_built _ _ _ _ _ _ _ _ _ _ _ _ _ _ _ H)
            as (_ & _ & _ & _ & _ & _ & Ed & _); rewrite Ed, Hd; discriminate).
    injection E1 as <- <-. auto.
  - intros Hd. rewrite <- En.
    rewrite (get_col_row_column g Hrows i) in E1
      by (destruct (Grid_init_built _ _ _ _ _ _ _ _ _ _ _ _ _ _ _ H)
            as (_ & _ & _ & _ & _ & _ & Ed & _); rewrite Ed, Hd; reflexivity).
    injection E1 as <- <-. auto.
Qed.

Lemma Grid_labels_and_places_witness :
  exists g w1 w',
    Grid.__init__ plain_host (RectSeq [0; 0; 1; 1]%Q) (2, 2) None "row"
      (PadScalar (1 # 50)) true false true true "all" empty_world = (Ok g, w1)
    /\ Grid.set_label_mode g "1" w1 = (Ok tt, w')
    /\ drawn_at w' (Some 2%nat) = Some (0, 0)
    /\ tick_labels w' (Some 2%nat) = Some (Some true, Some true).
Proof.
  destruct (Grid_labels_and_places plain_host (RectSeq [0; 0; 1; 1]%Q) 2 2 None
              "row"%string (PadScalar (1 # 50)) true false true true
              "all"%string "1"%string empty_world _ _
              ltac:(vm_compute; reflexivity) eq_refl
              ltac:(right; right; reflexivity))
    as (w' & Erun & Hall).
  destruct (Hall 2 ltac:(lia)) as (col & row & ax & E1 & E2 & Hd & Hl & _).
  vm_compute in E1. injection E1 as <- <-.
  vm_compute in E2. injection E2 as <-.
  eexists _, _, w'. split; [vm_compute; reflexivity |].
  split; [exact Erun |]. split; [exact Hd | exact Hl].
Defined.

(** ** What the constructors refuse *)

(** X8: a grid needs a cell: with [nrows <= 0] or [ncols <= 0]
    both constructors raise, whatever the other arguments are. *)
Theorem constructors_refuse_empty_grids (host : Host) (rect : RectArg)
    (nrows ncols : Z) (ngrids : option Z) (direction : string) (axes_pad : PadArg)
    (add_all share_all share_x share_y aspect : bool) (label_mode : string)
    (cbar_mode : option string) (cbar_location : string)
    (cbar_pad : option SizeSpec) (cbar_size : SizeSpec) (cbar_set_cax : bool)
    (w : World) :
  nrows <= 0 \/ ncols <= 0 ->
  (exists e w',
     Grid.__init__ host rect (nrows, ncols) ngrids direction axes_pad add_all
       share_all share_x share_y label_mode w = (Raise e, w'))
  /\ (exists e w',
        ImageGrid.__init__ host rect (nrows, ncols) ngrids direction axes_pad add_all
          share_all aspect label_mode cbar_mode cbar_location cbar_pad cbar_size
          cbar_set_cax w = (Raise e, w')).
Proof.
  intros Hdim. split.
  - destruct (Grid.__init__ host rect (nrows, ncols) ngrids direction axes_pad add_all
                share_all share_x share_y label_mode w) as [[g | e] w'] eqn:E;
      [| eauto].
    exfalso. apply Grid_init_built in E.
    destruct E as (arr & w2 & w3 & w4 & En & Ec & _ & _ & Hb & _).
    pose proof (built_rows _ _ _ Hb). pose proof (built_cols _ _ _ Hb). lia.
  - destruct (ImageGrid.__init__ host rect (nrows, ncols) ngrids direction axes_pad
                add_all share_all aspect label_mode cbar_mode cbar_location cbar_pad
                cbar_size cbar_set_cax w) as [[g | e] w'] eqn:E; [| eauto].
    exfalso. apply ImageGrid_init_built in E.
    destruct E as (arr & w2 & w3 & wa & wb & w4 & w5 & w6 & h0 & v0 & row0 & col0
                   & h & hp & hc & v & vp & vc & (En & Ec & _) & Hb & _).
    pose proof (built_rows _ _ _ Hb). pose proof (built_cols _ _ _ Hb). lia.
Qed.

Lemma constructors_refuse_empty_grids_witness :
  (exists e w',
     Grid.__init__ plain_host (RectSeq [0; 0; 1; 1]%Q) (0, 3) None "row"
       (PadScalar (1 # 50)) true false true true "L" empty_world = (Raise e, w'))
  /\ (exists e w',
        ImageGrid.__init__ plain_host (RectSeq [0; 0; 1; 1]%Q) (0, 3) None "row"
          (PadScalar (1 # 50)) true false true "L" None "right" None
          (SpecString "5%") true empty_world = (Raise e, w')).
Proof.
  apply constructors_refuse_empty_grids. left. lia.
Defined.

(** A label mode that returned found an axes in every cell. *)
Lemma tick_only_None (b1 b2 : bool) (w : World) :
  _tick_only None b1 b2 w = (Raise AttributeError, w).
Proof. reflexivity. Qed.

Lemma tick_loop_ok_Some (l : list (option ref)) (b1 b2 : bool) (w w' : World) :
  mfor l (fun ax => _tick_only ax b1 b2) w = (Ok tt, w') ->
  forall x, x ∈ l -> x <> None.
Proof.
  intros H x Hx ->. destruct (mfor_ok_each _ _ _ _ H None Hx) as (w1 & w2 & E).
  rewrite tick_only_None in E. discriminate.
Qed.

Lemma label_mode_ok_full (g : Grid.t) (arr : ndarray) (w0 : World) (mode : string)
    (w w' : World) :
  axes_built g arr w0 ->
  mode = "all"%string \/ mode = "L"%string \/ mode = "1"%string ->
  Grid.set_label_mode g mode w = (Ok tt, w') ->
  forall k x, Grid.axes_all g !! k = Some x -> x <> None.
Proof.
  intros Hb Hmode H k x Hk.
  pose proof (built_rows _ _ _ Hb) as Hrows. pose proof (built_cols _ _ _ Hb) as Hcols.
  destruct Hmode as [-> | [-> | ->]].
  - unfold Grid.set_label_mode in H. change (String.eqb "all" "all") with true in H.
    cbv iota in H. apply (tick_loop_ok_Some _ _ _ _ _ H).
    apply list_elem_of_lookup. eauto.
  - rewrite set_label_mode_L_script in H.
    + pose proof (lookup_lt_Some _ _ _ Hk) as Hlt.
      rewrite (built_length _ _ _ Hb) in Hlt.
      set (r := Z.of_nat k / Grid._ncols g). set (c := Z.of_nat k mod Grid._ncols g).
      assert (Hr : 0 <= r < Grid._nrows g).
      { split; [apply Z.div_pos; lia | apply Z.div_lt_upper_bound; lia]. }
      assert (Hc : 0 <= c < Grid._ncols g) by (apply Z.mod_pos_bound; lia).
      assert (Ek : Z.to_nat (r * Grid._ncols g + c) = k).
      { unfold r, c. rewrite Z.mul_comm, <- Z.div_mod by lia. lia. }
      destruct (entry_column g arr w0 Hb r c Hr Hc) as (col & Hcol & Hent & Hlen).
      assert (Hat : arr_at arr r c = x).
      { unfold arr_at. rewrite (built_arr_cols _ _ _ Hb), <- (built_all _ _ _ Hb), Ek, Hk.
        reflexivity. }
      intros ->.
      destruct (mfor_ok_each _ _ _ _ H
                  (None, negb (S (Z.to_nat r) =? length col)%nat,
                   negb (Z.to_nat c =? 0)%nat)) as (w1 & w2 & E).
      * apply in_script_L. exists (Z.to_nat c), col, (Z.to_nat r).
        rewrite Hent, Hat. auto.
      * cbn [tick_action] in E. rewrite tick_only_None in E. discriminate.
    + destruct (entry_column g arr w0 Hb 0 0 ltac:(lia) ltac:(lia)) as (col & Hcol & _).
      intros E. rewrite E in Hcol. discriminate.
    + intros col Hcol E. apply list_elem_of_lookup in Hcol. destruct Hcol as [c Hc].
      rewrite (built_column _ _ _ Hb) in Hc. apply T_tolist_lookup in Hc.
      destruct Hc as [_ Hc]. rewrite E in Hc. symmetry in Hc.
      apply fmap_nil_inv in Hc. pose proof (range_length (arr_rows arr)) as Hl.
      rewrite Hc, (built_arr_rows _ _ _ Hb) in Hl. cbn in Hl. lia.
  - unfold Grid.set_label_mode in H.
    change (String.eqb "1" "all") with false in H.
    change (String.eqb "1" "L") with false in H.
    change (String.eqb "1" "1") with true in H. cbv iota in H.
    run_bind H. destruct a. apply (tick_loop_ok_Some _ _ _ _ _ H0).
    apply list_elem_of_lookup. eauto.
Qed.

(** X9: with [ngrids] below [nrows*ncols] and a label mode
    "L", "1" or "all" (the default is "L") both constructors raise:
    [set_label_mode] reaches the [None] of an unfilled cell. *)
Theorem constructors_refuse_partial_grids_with_labels (host : Host) (rect : RectArg)
    (nrows ncols n : Z) (direction : string) (axes_pad : PadArg)
    (add_all share_all share_x share_y aspect : bool) (label_mode : string)
    (cbar_mode : option string) (cbar_location : string)
    (cbar_pad : option SizeSpec) (cbar_size : SizeSpec) (cbar_set_cax : bool)
    (w : World) :
  n < nrows * ncols ->
  label_mode = "all"%string \/ label_mode = "L"%string \/ label_mode = "1"%string ->
  (exists e w',
     Grid.__init__ host rect (nrows, ncols) (Some n) direction axes_pad add_all
       share_all share_x share_y label_mode w = (Raise e, w'))
  /\ (exists e w',
        ImageGrid.__init__ host rect (nrows, ncols) (Some n) direction axes_pad add_all
          share_all aspect label_mode cbar_mode cbar_location cbar_pad cbar_size
          cbar_set_cax w = (Raise e, w')).
Proof.
  intros Hn Hmode. split.
  - destruct (Grid.__init__ host rect (nrows, ncols) (Some n) direction axes_pad add_all
                share_all share_x share_y label_mode w) as [[g | e] w'] eqn:E;
      [| eauto].
    exfalso. apply Grid_init_built in E.
    destruct E as (arr & w2 & w3 & w4 & En & Ec & _ & Eng & Hb & Hloop & _ & Hlab).
    cbn in Eng.
    destruct (built_sequence g arr w2 Hb (Grid_all_located _ _ _ _ _ Hloop))
      as (_ & Hnone & _).
    specialize (Hnone n ltac:(pose proof (built_ngrids _ _ _ Hb); lia)).
    unfold Grid.__getitem__ in Hnone.
    apply py_index_nonneg in Hnone; [| pose proof (built_ngrids _ _ _ Hb); lia].
    destruct Hnone as [Hnone _].
    apply (label_mode_ok_full g arr w2 label_mode w4 w' Hb Hmode Hlab _ _ Hnone).
    reflexivity.
  - destruct (ImageGrid.__init__ host rect (nrows, ncols) (Some n) direction axes_pad
                add_all share_all aspect label_mode cbar_mode cbar_location cbar_pad
                cbar_size cbar_set_cax w) as [[g | e] w'] eqn:E; [| eauto].
    exfalso. apply ImageGrid_init_built in E.
    destruct E as (arr & w2 & w3 & wa & wb & w4 & w5 & w6 & h0 & v0 & row0 & col0
                   & h & hp & hc & v & vp & vc & (En & Ec & _ & Eng & _) & Hb & _ & _ & _
                   & _ & _ & _ & Hloop & _ & _ & _ & Hlab).
    cbn in Eng.
    destruct (built_sequence _ arr w2 Hb (ImageGrid_all_located _ _ _ _ _ _ _ Hloop))
      as (_ & Hnone & _).
    specialize (Hnone n ltac:(pose proof (built_ngrids _ _ _ Hb); lia)).
    unfold Grid.__getitem__ in Hnone.
    apply py_index_nonneg in Hnone; [| pose proof (built_ngrids _ _ _ Hb); lia].
    destruct Hnone as [Hnone _].
    apply (label_mode_ok_full _ arr w2 label_mode w6 w' Hb Hmode Hlab _ _ Hnone).
    reflexivity.
Qed.

Lemma constructors_refuse_partial_grids_with_labels_witness :
  (exists e w',
     Grid.__init__ plain_host (RectSeq [0; 0; 1; 1]%Q) (2, 3) (Some 4) "row"
       (PadScalar (1 # 50)) true false true true "L" empty_world = (Raise e, w'))
  /\ (exists e w',
        ImageGrid.__init__ plain_host (RectSeq [0; 0; 1; 1]%Q) (2, 3) (Some 4) "row"
          (PadScalar (1 # 50)) true false true "L" None "right" None
          (SpecString "5%") true empty_world = (Raise e, w')).
Proof.
  apply constructors_refuse_partial_grids_with_labels;
    [lia | right; left; reflexivity].
Defined.

(** ** [set_axes_pad] on a sequence that is too short or too long *)

(** X10: [set_axes_pad] reads [axes_pad[0]] and [axes_pad[1]] in
    this order and assigns each as it is read: on an empty sequence it
    raises [IndexError] and changes nothing, on a sequence of one number
    it raises [IndexError] after the horizontal padding has been set, and
    it ignores what follows the second number. *)
Theorem set_axes_pad_reads_two_entries (host : Host) (rect : RectArg) (nrows ncols : Z)
    (ngrids : option Z) (direction : string) (axes_pad : PadArg)
    (add_all share_all share_x share_y : bool) (label_mode : string)
    (w0 w1 : World) (g : Grid.t) (h v : Q) (rest : list Q) :
  Grid.__init__ host rect (nrows, ncols) ngrids direction axes_pad add_all
    share_all share_x share_y label_mode w0 = (Ok g, w1) ->
  Grid.set_axes_pad g [] w1 = (Raise IndexError, w1)
  /\ (exists h0 v0 w2,
        Grid.get_axes_pad g w1 = (Ok (h0, v0), w1)
        /\ Grid.set_axes_pad g [h] w1 = (Raise IndexError, w2)
        /\ Grid.get_axes_pad g w2 = (Ok (h, v0), w2))
  /\ Grid.set_axes_pad g (h :: v :: rest) w1 = Grid.set_axes_pad g [h; v] w1.
Proof.
  intros H. apply Grid_init_pads in H.
  destruct H as (h0 & v0 & _ & Ehp & Evp & Efx).
  assert (Hh : fixed_objs w1 !! Grid._horiz_pad_size g = Some h0).
  { rewrite Ehp, Efx, lookup_app_r, Nat.sub_diag by lia. reflexivity. }
  assert (Hv : fixed_objs w1 !! Grid._vert_pad_size g = Some v0).
  { rewrite Evp, Efx, lookup_app_r by lia.
    replace (S (length (fixed_objs w0)) - length (fixed_objs w0))%nat with 1%nat by lia.
    reflexivity. }
  split; [reflexivity |]. split.
  - exists h0, v0,
      (mkWorld (<[Grid._horiz_pad_size g := h]> (fixed_objs w1)) (axes_objs w1)
         (fig_axes w1)).
    split; [apply get_axes_pad_ok; assumption |]. split.
    + unfold Grid.set_axes_pad, bind, lift, set_fixed_size.
      change (py_index [h] 0) with (Ok h). rewrite Hh. reflexivity.
    + apply get_axes_pad_ok; cbn [fixed_objs].
      * apply list_lookup_insert_eq. apply lookup_lt_Some in Hh. exact Hh.
      * rewrite list_lookup_insert_ne by (rewrite Ehp, Evp; lia). exact Hv.
  - unfold Grid.set_axes_pad, bind, lift.
    rewrite (py_index_lookup (h :: v :: rest) 0 h eq_refl : py_index _ 0 = _).
    rewrite (py_index_lookup (h :: v :: rest) 1 v eq_refl : py_index _ 1 = _).
    reflexivity.
Qed.

Lemma set_axes_pad_reads_two_entries_witness :
  exists g w1 w2,
    Grid.__init__ plain_host (RectSeq [0; 0; 1; 1]%Q) (1, 2) None "row"
      (PadScalar (1 # 50)) true false true true "L" empty_world = (Ok g, w1)
    /\ Grid.set_axes_pad g [1 # 10]%Q w1 = (Raise IndexError, w2)
    /\ Grid.get_axes_pad g w2 = (Ok (1 # 10, 1 # 50)%Q, w2).
Proof.
  destruct (set_axes_pad_reads_two_entries plain_host (RectSeq [0; 0; 1; 1]%Q) 1 2 None
              "row"%string (PadScalar (1 # 50)) true false true true "L"%string
              empty_world _ _ (1 # 10)%Q 0%Q [] ltac:(vm_compute; reflexivity))
    as (_ & (h0 & v0 & w2 & Eget & Eset & Eget2) & _).
  vm_compute in Eget. injection Eget as <- <-.
  eexists _, _, w2. split; [vm_compute; reflexivity |].
  split; [exact Eset | exact Eget2].
Defined.

(** ** The constructor of [Grid] returns *)

Lemma mfor_runs {A} (I : World -> Prop) (l : list A) (body : A -> M unit) :
  (forall x w, x ∈ l -> I w -> exists w', body x w = (Ok tt, w') /\ I w') ->
  forall w, I w -> exists w', mfor l body w = (Ok tt, w') /\ I w'.
Proof.
  induction l as [| x l IH]; intros Hb w Hw.
  - exists w. split; [reflexivity | exact Hw].
  - destruct (Hb x w ltac:(left) Hw) as (w1 & E1 & Hw1).
    destruct (IH ltac:(intros y v Hy; apply Hb; right; exact Hy) w1 Hw1)
      as (w' & E & Hw').
    exists w'. split; [| exact Hw'].
    cbn [mfor]. rewrite (bind_ok_l _ _ _ _ _ E1). exact E.
Qed.

Lemma fill_slots_total (host : Host) (self : Grid.t) (sa sx sy : bool)
    (objs0 : list AxesObj) :
  0 < Grid._nrows self -> 0 < Grid._ncols self ->
  (forall s t, axes_init host None s t = None) ->
  forall (m : nat) (i : Z) (a : ndarray) (w : World),
    0 <= i -> i + Z.of_nat m <= Grid._nrows self * Grid._ncols self ->
    filled_upto self sa sx sy objs0 i a w ->
    exists a' w',
      Grid.fill_slots host self sa sx sy a (seqZ i (Z.of_nat m)) w = (Ok a', w').
Proof.
  intros Hrows Hcols Hq. induction m as [| m IH]; intros i a w Hi Hm Hinv.
  - exists a, w. reflexivity.
  - rewrite Nat2Z.inj_succ, seqZ_cons by lia. cbn [Grid.fill_slots].
    destruct (fill_slot_step host self sa sx sy objs0 Hrows Hcols i a w Hinv ltac:(lia))
      as (col & row & _ & Estep).
    rewrite Hq in Estep. rewrite (bind_ok_l _ _ _ _ _ Estep).
    replace (Z.pred (Z.succ (Z.of_nat m))) with (Z.of_nat m) by lia.
    apply IH; [lia | lia |].
    replace (Z.succ i) with (i + 1) by lia.
    apply (filled_upto_next self sa sx sy objs0 Hrows Hcols); [exact Hinv | lia].
Qed.

Lemma even_positions_at (n : nat) (k : Z) :
  0 <= k < Z.of_nat n -> py_index (even_positions n) k = Ok (2 * k).
Proof.
  intros Hk. rewrite <- (Z2Nat.id k) at 1 by lia. apply py_index_lookup.
  unfold even_positions. rewrite list_lookup_fmap, lookup_seq_lt by lia.
  cbn. f_equal. lia.
Qed.

Lemma Grid_locate_loop_runs (g : Grid.t) (L : nat) (w : World) :
  0 < Grid._nrows g -> 0 < Grid._ncols g ->
  Grid.ngrids g <= Grid._nrows g * Grid._ncols g ->
  (forall i, 0 <= i < Grid.ngrids g ->
     exists x, Grid.axes_all g !! Z.to_nat i = Some (Some x) /\ (x < L)%nat) ->
  length (axes_objs w) = L ->
  exists w',
    mfor (range (Grid.ngrids g))
      (Grid.locate g (even_positions (Z.to_nat (Grid._ncols g)))
         (even_positions (Z.to_nat (Grid._nrows g)))) w = (Ok tt, w')
    /\ length (axes_objs w') = L.
Proof.
  intros Hrows Hcols Hn Hall Hw.
  apply (mfor_runs (fun w => length (axes_objs w) = L)); [| exact Hw].
  intros i v Hi Hv. apply range_elem in Hi.
  destruct (get_col_row_total g Hrows Hcols i) as (col & row & E).
  destruct (get_col_row_in_grid g Hrows Hcols i col row ltac:(lia) E) as [Hr Hc].
  destruct (Hall i Hi) as (x & Hx & Hlt).
  destruct (lookup_lt_is_Some_2 (axes_objs v) x ltac:(lia)) as [a Ha].
  eexists. unfold Grid.locate, bind, lift. rewrite E.
  rewrite (even_positions_at _ col) by lia.
  rewrite (even_positions_at _ (Grid._nrows g - 1 - row)) by lia.
  rewrite <- (Z2Nat.id i) at 1 by lia. rewrite (py_index_lookup _ _ _ Hx).
  unfold set_axes_locator, modify_axes. rewrite Ha.
  split; [reflexivity |]. cbn [axes_objs]. rewrite length_insert. exact Hv.
Qed.

Lemma filled_upto_full (self : Grid.t) (sa sx sy : bool) (objs0 : list AxesObj)
    (a : ndarray) (w : World) :
  0 < Grid._nrows self -> 0 < Grid._ncols self ->
  filled_upto self sa sx sy objs0 (Grid._nrows self * Grid._ncols self) a w ->
  forall k, Z.of_nat k < Grid._nrows self * Grid._ncols self ->
    exists x, arr_data a !! k = Some (Some x) /\ (x < length (axes_objs w))%nat.
Proof.
  intros Hrows Hcols Hf k Hk.
  pose proof (filled_upto_length _ _ _ _ _ _ _ _ Hf) as Hlen.
  destruct Hf as (_ & _ & _ & Hlow & _).
  set (r := Z.of_nat k / Grid._ncols self). set (c := Z.of_nat k mod Grid._ncols self).
  assert (Hr : 0 <= r < Grid._nrows self).
  { split; [apply Z.div_pos; lia | apply Z.div_lt_upper_bound; lia]. }
  assert (Hc : 0 <= c < Grid._ncols self) by (apply Z.mod_pos_bound; lia).
  assert (Ek : Z.to_nat (r * Grid._ncols self + c) = k).
  { unfold r, c. rewrite Z.mul_comm, <- Z.div_mod by lia. lia. }
  pose proof (slot_index_in_range self Hrows Hcols r c Hr Hc) as Hin.
  specialize (Hlow (slot_index self r c) Hin).
  rewrite (slot_offset_slot_index self Hrows Hcols r c Hr Hc), Ek in Hlow.
  eexists. split; [exact Hlow | lia].
Qed.

Lemma set_label_mode_other (g : Grid.t) (mode : string) (w : World) :
  mode <> "all"%string -> mode <> "L"%string -> mode <> "1"%string ->
  Grid.set_label_mode g mode w = (Ok tt, w).
Proof.
  intros H1 H2 H3. unfold Grid.set_label_mode.
  destruct (String.eqb_spec mode "all"); [contradiction |].
  destruct (String.eqb_spec mode "L"); [contradiction |].
  destruct (String.eqb_spec mode "1"); [contradiction |]. reflexivity.
Qed.

(** X11: on a host whose calls do not raise, [Grid.__init__]
    returns a grid for every full configuration: at least one row and one
    column, [ngrids] absent or equal to [nrows*ncols], a direction "row" or
    "column", a padding that broadcasts to two numbers, a [rect] that is
    not a sequence of a wrong length; whatever the label mode and the
    sharing flags are. *)
Theorem Grid_constructor_returns (host : Host) (rect : RectArg) (nrows ncols : Z)
    (ngrids : option Z) (direction : string) (axes_pad : PadArg)
    (add_all share_all share_x share_y : bool) (label_mode : string)
    (h0 v0 : Q) (w : World) :
  quiet_host host -> rect_ok rect ->
  broadcast_to_2 axes_pad = Ok (h0, v0) ->
  direction = "row"%string \/ direction = "column"%string ->
  0 < nrows -> 0 < ncols ->
  ngrids = None \/ ngrids = Some (nrows * ncols) ->
  exists g w',
    Grid.__init__ host rect (nrows, ncols) ngrids direction axes_pad add_all
      share_all share_x share_y label_mode w = (Ok g, w').
Proof.
  intros (Hqd & Hqa & Hqf) Hrect Hpad Hdir Hrows Hcols Hng.
  set (N := nrows * ncols). assert (HN : 0 < N) by (unfold N; nia).
  (* the checks and the objects made before the axes *)
  assert (E1 : match ngrids with
               | None => ret N
               | Some k => if negb ((0 <? k) && (k <=? N)) then raise Exception
                           else ret k
               end w = (Ok N, w)).
  { destruct Hng as [-> | ->]; [reflexivity |]. fold N.
    destruct (Z.ltb_spec 0 N); [| lia]. destruct (Z.leb_spec N N); [| lia].
    reflexivity. }
  set (hp := length (fixed_objs w)).
  set (w1 := mkWorld (fixed_objs w ++ [h0; v0]) (axes_objs w) (fig_axes w)).
  assert (E2 : Grid._init_axes_pad axes_pad w = (Ok (hp, S hp), w1)).
  { unfold Grid._init_axes_pad, bind, lift, new_fixed, ret. rewrite Hpad.
    cbn [fst snd fixed_objs axes_objs fig_axes].
    rewrite length_app, <- app_assoc. cbn [length app].
    unfold hp, w1. repeat f_equal. lia. }
  assert (E3 : _check_in_list ["column"; "row"]%string direction w1 = (Ok tt, w1)).
  { unfold _check_in_list. destruct Hdir as [-> | ->]; reflexivity. }
  assert (E4 : exists d, make_divider host rect false w1 = (Ok d, w1)).
  { unfold make_divider, ret, raise. rewrite Hqd.
    destruct rect as [s | k | | l]; eauto.
    destruct Hrect as [-> | ->]; cbn; eauto. }
  destruct E4 as [d E4].
  set (self := Grid.mk nrows ncols N hp (S hp) direction d [] [] [] None).
  assert (E5 : np_full nrows ncols
               = Ok (mkArray nrows ncols (replicate (Z.to_nat (nrows * ncols)) None))).
  { unfold np_full. destruct (Z.ltb_spec nrows 0); [lia |].
    destruct (Z.ltb_spec ncols 0); [lia |]. reflexivity. }
  set (arr0 := mkArray nrows ncols (replicate (Z.to_nat (nrows * ncols)) None)) in *.
  (* the axes *)
  pose proof (filled_upto_start self share_all share_x share_y arr0 w1 E5 Hrows Hcols)
    as Hstart.
  destruct (fill_slots_total host self share_all share_x share_y (axes_objs w1)
              Hrows Hcols (Hqa None) (Z.to_nat N) 0 arr0 w1 ltac:(lia)
              ltac:(unfold self; cbn [Grid._nrows Grid._ncols]; fold N; lia) Hstart)
    as (arr & w2 & E6).
  destruct (fill_slots_exact host self share_all share_x share_y (axes_objs w1)
              Hrows Hcols (Z.to_nat N) 0 arr0 arr w1 w2 ltac:(lia)
              ltac:(unfold self; cbn [Grid._nrows Grid._ncols]; fold N; lia) Hstart E6)
    as (Hf & _ & _).
  rewrite Z2Nat.id in E6, Hf by lia. rewrite Z.add_0_l in Hf.
  change (seqZ 0 N) with (range N) in E6.
  pose proof Hf as (Har & Hac & Hlen & _).
  unfold self in Har, Hac, Hlen. cbn [Grid._nrows Grid._ncols] in Har, Hac, Hlen.
  destruct (py_index_in_range (T_tolist arr) 0) as [col0 E7].
  { unfold T_tolist. rewrite length_fmap, range_length. lia. }
  assert (Hcol0 : length col0 = Z.to_nat nrows).
  { apply py_index_nonneg in E7; [| lia]. destruct E7 as [E7 _].
    apply T_tolist_lookup in E7. destruct E7 as [_ ->].
    rewrite length_fmap, range_length, Har. reflexivity. }
  destruct (last col0) as [llc |] eqn:Hlast;
    [| apply last_None in Hlast; rewrite Hlast in Hcol0; cbn in Hcol0; lia].
  pose proof (py_index_of_last _ _ Hlast) as E8.
  (* the locators *)
  assert (Hrange : forall k, ngrids = Some k -> 0 < k <= nrows * ncols)
    by (intros k Ek; destruct Hng as [Hn | Hn]; rewrite Hn in Ek;
        [discriminate | injection Ek as <-; lia]).
  assert (Hdef : N = default (nrows * ncols) ngrids)
    by (destruct Hng as [-> | ->]; reflexivity).
  destruct (before_locators_built host nrows ncols N ngrids hp (S hp) direction d
              share_all share_x share_y arr0 arr col0 llc w1 w2
              Hrange Hdef E5 E6 E7 E8) as (Hb & _).
  set (g0 := Grid_before_locators nrows ncols N hp (S hp) direction d arr llc) in *.
  assert (Hfull : forall k x, Grid.axes_all g0 !! k = Some x -> x <> None).
  { intros k x Hk ->. unfold g0 in Hk.
    cbn [Grid_before_locators Grid.with_axes Grid.axes_all] in Hk.
    unfold ravel_tolist in Hk.
    pose proof (lookup_lt_Some _ _ _ Hk) as Hlt. rewrite Hlen in Hlt.
    destruct (filled_upto_full self share_all share_x share_y _ arr w2 Hrows Hcols Hf k
                ltac:(unfold self; cbn [Grid._nrows Grid._ncols]; lia)) as (x & Hx & _).
    congruence. }
  destruct (Grid_locate_loop_runs g0 (length (axes_objs w2)) w2 Hrows Hcols
              ltac:(unfold g0; cbn; fold N; lia)) as (w3 & E9 & Hlen3);
    [| reflexivity |].
  { intros i Hi. unfold g0 in *.
    cbn [Grid_before_locators Grid.with_axes Grid.axes_all Grid.ngrids] in *.
    unfold ravel_tolist.
    apply (filled_upto_full self share_all share_x share_y _ arr w2 Hrows Hcols Hf).
    unfold self. cbn [Grid._nrows Grid._ncols]. fold N. lia. }
  destruct (cells_spec hp ncols) as (h & Eh & _).
  destruct (cells_spec (S hp) nrows) as (v & Ev & _).
  set (g := Grid.with_divider (set_vertical v (set_horizontal h d)) g0).
  assert (E9' : Grid._update_locators g0 w2 = (Ok g, w3)).
  { unfold Grid._update_locators.
    change (Grid._horiz_pad_size g0) with hp.
    change (Grid._vert_pad_size g0) with (S hp).
    change (Grid._ncols g0) with ncols. change (Grid._nrows g0) with nrows.
    rewrite Eh, Ev. erewrite bind_ok_l by exact E9. reflexivity. }
  (* the figure and the labels *)
  assert (E10 : exists w4,
             (if add_all then mfor (Grid.axes_all g) (add_axes host) else ret tt) w3
             = (Ok tt, w4)
             /\ length (axes_objs w4) = length (axes_objs w2)).
  { destruct add_all; [| exists w3; auto].
    apply (mfor_runs (fun w => length (axes_objs w) = length (axes_objs w2)));
      [| exact Hlen3].
    intros x u _ Hu. unfold add_axes. rewrite Hqf. eexists. split; [reflexivity |].
    exact Hu. }
  destruct E10 as (w4 & E10 & Hlen4).
  assert (Hbg : axes_built g arr w2) by (apply axes_built_with_divider, Hb).
  assert (Hllc : Grid.axes_all g !! Z.to_nat ((Grid._nrows g - 1) * Grid._ncols g)
                 = Some (Grid.axes_llc g)).
  { unfold g, g0.
    cbn [Grid.with_divider Grid_before_locators Grid.with_axes Grid.axes_all
         Grid.axes_llc Grid._nrows Grid._ncols].
    unfold ravel_tolist.
    rewrite last_lookup in Hlast.
    apply py_index_nonneg in E7; [| lia]. destruct E7 as [E7 _].
    apply T_tolist_lookup in E7. destruct E7 as [_ E7]. rewrite E7 in Hlast.
    rewrite length_fmap, range_length, Har in Hlast.
    rewrite list_lookup_fmap, (range_lookup _ (pred (Z.to_nat nrows))) in Hlast
      by lia.
    cbn in Hlast. injection Hlast as <-. unfold arr_at. rewrite Hac, Z.add_0_r.
    replace (Z.of_nat (pred (Z.to_nat nrows))) with (nrows - 1) by lia.
    destruct (lookup_lt_is_Some_2 (arr_data arr) (Z.to_nat ((nrows - 1) * ncols)))
      as [x Hx]; [nia |].
    rewrite Hx. reflexivity. }
  assert (E11 : exists w', Grid.set_label_mode g label_mode w4 = (Ok tt, w')).
  { destruct (String.eqb_spec label_mode "all") as [-> | Ha].
    { destruct (label_mode_all_runs g arr w2 Hbg Hfull w4 ltac:(lia)) as (w' & E & _).
      eauto. }
    destruct (String.eqb_spec label_mode "L") as [-> | Hl].
    { destruct (label_mode_L_runs g arr w2 Hbg Hfull w4 ltac:(lia)) as (w' & E & _).
      eauto. }
    destruct (String.eqb_spec label_mode "1") as [-> | H1].
    { destruct (label_mode_1_runs g arr w2 Hbg Hfull Hllc w4 ltac:(lia))
        as (w' & E & _). eauto. }
    exists w4. apply set_label_mode_other; assumption. }
  destruct E11 as (w' & E11).
  exists g, w'. unfold Grid.__init__. fold N.
  rewrite (bind_ok_l _ _ _ _ _ E1), (bind_ok_l _ _ _ _ _ E2),
    (bind_ok_l _ _ _ _ _ E3), (bind_ok_l _ _ _ _ _ E4).
  unfold lift at 1. rewrite E5. unfold bind at 1.
  rewrite (bind_ok_l _ _ _ _ _ E6).
  unfold lift at 1. rewrite E7. unfold bind at 1.
  unfold lift at 1. rewrite E8. unfold bind at 1.
  fold g0. rewrite (bind_ok_l _ _ _ _ _ E9'), (bind_ok_l _ _ _ _ _ E10),
    (bind_ok_l _ _ _ _ _ E11).
  reflexivity.
Qed.

Lemma quiet_plain_host : quiet_host plain_host.
Proof. repeat split. Qed.

Lemma Grid_constructor_returns_witness :
  exists g w',
    Grid.__init__ plain_host (RectSeq [0; 0; 1; 1]%Q) (3, 2) None "column"
      (PadSeq [1 # 50; 1 # 25]%Q) true false true true "L" empty_world = (Ok g, w').
Proof.
  apply (Grid_constructor_returns plain_host (RectSeq [0; 0; 1; 1]%Q) 3 2 None
           "column" (PadSeq [1 # 50; 1 # 25]%Q) true false true true "L"
           (1 # 50)%Q (1 # 25)%Q empty_world quiet_plain_host).
  - right. reflexivity.
  - reflexivity.
  - right. reflexivity.
  - lia.
  - lia.
  - left. reflexivity.
Defined.

(** ** The run of [ImageGrid.__init__], step by step *)

Lemma ImageGrid_init_story (host : Host) (rect : RectArg) (nrows ncols : Z)
    (ngrids : option Z) (direction : string) (axes_pad : PadArg)
    (add_all share_all aspect : bool) (label_mode : string)
    (cbar_mode : option string) (cbar_location : string)
    (cbar_pad : option SizeSpec) (cbar_size : SizeSpec) (cbar_set_cax : bool)
    (w w' : World) (g : ImageGrid.t) :
  ImageGrid.__init__ host rect (nrows, ncols) ngrids direction axes_pad add_all
    share_all aspect label_mode cbar_mode cbar_location cbar_pad cbar_size
    cbar_set_cax w = (Ok g, w') ->
  exists d arr h0 v0 w2 w3 wa wb w4 w5 w6 sh sv h v hp hc vp vc,
    (0 < nrows /\ 0 < ncols /\ 0 < Grid.ngrids (ImageGrid.base g) <= nrows * ncols
     /\ Grid.ngrids (ImageGrid.base g) = default (nrows * ncols) ngrids)
    /\ (Grid._nrows (ImageGrid.base g) = nrows
        /\ Grid._ncols (ImageGrid.base g) = ncols
        /\ Grid._direction (ImageGrid.base g) = direction
        /\ ImageGrid._colorbar_mode g = cbar_mode
        /\ ImageGrid._colorbar_location g = cbar_location)
    /\ make_divider host rect aspect w = (Ok d, w)
    /\ filled_upto (Grid_seed nrows ncols ngrids w direction d)
         share_all true true (axes_objs w) (Grid.ngrids (ImageGrid.base g)) arr w2
    /\ axes_built (ImageGrid.base g) arr w2
    /\ fixed_objs w2 = fixed_objs w ++ [h0; v0] /\ fig_axes w2 = fig_axes w
    /\ ImageGrid.cbar_axes g
       = seq (length (axes_objs w2)) (Z.to_nat (Grid.ngrids (ImageGrid.base g)))
    /\ axes_objs w3
       = axes_objs w2 ++ replicate (Z.to_nat (Grid.ngrids (ImageGrid.base g)))
                           (cbar_obj cbar_location)
    /\ fig_axes w3 = fig_axes w
    /\ ImageGrid.single_before g w3 = (Ok (sh, sv), wa)
    /\ mfor (range (Grid.ngrids (ImageGrid.base g)))
         (ImageGrid.locate g hp hc vp vc) wa = (Ok tt, wb)
    /\ ImageGrid.after_loops g h v wb
       = (Ok (div_horizontal (Grid._divider (ImageGrid.base g)),
              div_vertical (Grid._divider (ImageGrid.base g))), w4)
    /\ (if add_all then
          mfor (Grid.axes_all (ImageGrid.base g) ++ (Some <$> ImageGrid.cbar_axes g))
            (add_axes host)
        else ret tt) w4 = (Ok tt, w5)
    /\ (if cbar_set_cax then ImageGrid.bind_cax g else ret tt) w5 = (Ok tt, w6)
    /\ Grid.set_label_mode (ImageGrid.base g) label_mode w6 = (Ok tt, w').
Proof.
  intros H. apply ImageGrid_init_ok in H.
  destruct H as (n & hp0 & vp0 & cpad & d & arr0 & arr & c0 & llc & cbars
                 & w1 & w2 & w3 & w4 & w5 & w6
                 & Hrange & Hn & Hpad & _ & _ & Hdiv & Hfull & Hfill & Hc0 & Hllc & Hcb
                 & Hloc & Hadd & Hcax & Hlab).
  destruct (before_locators_built _ _ _ _ _ _ _ _ _ _ _ _ _ _ _ _ _ _
              Hrange Hn Hfull Hfill Hc0 Hllc) as (Hb & _).
  pose proof (built_rows _ _ _ Hb) as Hrows.
  pose proof (built_cols _ _ _ Hb) as Hcols.
  pose proof (built_ngrids _ _ _ Hb) as Hngr.
  cbn [Grid_before_locators Grid.with_axes Grid._nrows Grid._ncols Grid.ngrids]
    in Hrows, Hcols, Hngr.
  apply init_axes_pad_ok in Hpad. destruct Hpad as (h0 & v0 & Hbc & -> & -> & ->).
  assert (Hfilled : filled_upto (Grid_seed nrows ncols ngrids w direction d)
                      share_all true true (axes_objs w) n arr w2
                    /\ fixed_objs w2 = fixed_objs w ++ [h0; v0]
                    /\ fig_axes w2 = fig_axes w).
  { assert (Hfill' :
      Grid.fill_slots host (Grid_seed nrows ncols ngrids w direction d)
        share_all true true arr0 (seqZ 0 (Z.of_nat (Z.to_nat n)))
        (mkWorld (fixed_objs w ++ [h0; v0]) (axes_objs w) (fig_axes w)) = (Ok arr, w2))
      by (rewrite Z2Nat.id by lia; unfold Grid_seed; rewrite <- Hn; exact Hfill).
    eapply (fill_slots_exact host (Grid_seed nrows ncols ngrids w direction d)
              share_all true true (axes_objs w) Hrows Hcols _ 0) in Hfill'.
    - rewrite Z.add_0_l, Z2Nat.id in Hfill' by lia. exact Hfill'.
    - lia.
    - cbn [Grid_seed Grid._nrows Grid._ncols]. lia.
    - apply (filled_upto_start (Grid_seed nrows ncols ngrids w direction d)
               share_all true true arr0
               (mkWorld (fixed_objs w ++ [h0; v0]) (axes_objs w) (fig_axes w)));
        assumption. }
  destruct Hfilled as (Hf & Hfx & Hfg).
  apply ImageGrid_update_locators_ok in Hloc.
  destruct Hloc as (sh & sv & row0 & col0 & h & hpos & hcb & v & vpos & vcb & h' & v'
                    & wa & wb & Hsb & _ & _ & _ & _ & Hloop & Hafter & Eg).
  apply new_cbar_axes_ok in Hcb. destruct Hcb as (Ecs & Eobjs & _ & Efig3).
  rewrite range_length in Ecs, Eobjs.
  exists d, arr, h0, v0, w2, w3, wa, wb, w4, w5, w6, sh, sv, h, v, hpos, hcb, vpos, vcb.
  subst g. cbn [ImageGrid.with_base ImageGrid.base ImageGrid.cbar_axes
                ImageGrid._colorbar_mode ImageGrid._colorbar_location
                Grid.with_divider Grid._nrows Grid._ncols Grid._direction Grid.ngrids
                Grid_before_locators Grid.with_axes Grid._divider] in *.
  split; [auto |]. split; [auto |].
  split.
  { unfold make_divider, raise, ret in *.
    destruct (divider_init host rect);
      destruct rect as [s | k | | l]; try destruct (length l =? 3)%nat;
      try destruct (length l =? 4)%nat; try discriminate;
      injection Hdiv as <-; reflexivity. }
  split; [exact Hf |]. split; [apply axes_built_with_divider, Hb |].
  split; [exact Hfx |]. split; [exact Hfg |].
  split; [exact Ecs |]. split; [exact Eobjs |].
  split; [congruence |].
  split; [exact Hsb |]. split; [exact Hloop |]. split; [exact Hafter |].
  split; [exact Hadd |]. split; [exact Hcax | exact Hlab].
Qed.

(** ** Frames of the pieces of [ImageGrid._update_locators] *)

Section BlindImage.

Context {B : Type} (proj : AxesObj -> B).
Hypothesis blind : setter_blind proj.

Lemma keeps_blind_single_before (g : ImageGrid.t) :
  keeps (seen_through proj) (ImageGrid.single_before g).
Proof. unfold ImageGrid.single_before. keeps_blind blind. Qed.

Lemma keeps_blind_image_locate (g : ImageGrid.t) (hp hc vp vc : list Z) (n : Z) :
  keeps (seen_through proj) (mfor (range n) (ImageGrid.locate g hp hc vp vc)).
Proof. unfold ImageGrid.locate, ImageGrid.locate_cbar. keeps_blind blind. Qed.

Lemma keeps_blind_after_loops (g : ImageGrid.t) (h v : list Size) :
  keeps (seen_through proj) (ImageGrid.after_loops g h v).
Proof. unfold ImageGrid.after_loops. keeps_blind blind. Qed.

End BlindImage.

Lemma keeps_fig_image_pieces (g : ImageGrid.t) (hp hc vp vc : list Z) (h v : list Size)
    (n : Z) :
  keeps fig_axes (ImageGrid.single_before g)
  /\ keeps fig_axes (mfor (range n) (ImageGrid.locate g hp hc vp vc))
  /\ keeps fig_axes (ImageGrid.after_loops g h v).
Proof.
  unfold ImageGrid.single_before, ImageGrid.locate, ImageGrid.locate_cbar,
    ImageGrid.after_loops.
  repeat split; keeps_setters; repeat keeps_step; apply keeps_fig_modify.
Qed.

Lemma keeps_fig_bind_cax (g : ImageGrid.t) (b : bool) :
  keeps fig_axes (if b then ImageGrid.bind_cax g else ret tt).
Proof.
  unfold ImageGrid.bind_cax. keeps_setters. repeat keeps_step; apply keeps_fig_modify.
Qed.

(** What no setter changes is, at the end of [ImageGrid.__init__], as the
    creation of the axes left it. *)
Lemma ImageGrid_init_blind {B} (proj : AxesObj -> B) (host : Host) (g : ImageGrid.t)
    (add_all cbar_set_cax : bool) (label_mode : string) (hp hc vp vc : list Z)
    (h v : list Size) (r : list Size * list Size) (r0 : list Size * list Size)
    (w3 wa wb w4 w5 w6 w' : World) :
  setter_blind proj ->
  ImageGrid.single_before g w3 = (Ok r0, wa) ->
  mfor (range (Grid.ngrids (ImageGrid.base g)))
    (ImageGrid.locate g hp hc vp vc) wa = (Ok tt, wb) ->
  ImageGrid.after_loops g h v wb = (Ok r, w4) ->
  (if add_all then
     mfor (Grid.axes_all (ImageGrid.base g) ++ (Some <$> ImageGrid.cbar_axes g))
       (add_axes host)
   else ret tt) w4 = (Ok tt, w5) ->
  (if cbar_set_cax then ImageGrid.bind_cax g else ret tt) w5 = (Ok tt, w6) ->
  Grid.set_label_mode (ImageGrid.base g) label_mode w6 = (Ok tt, w') ->
  seen_through proj w' = seen_through proj w3.
Proof.
  intros Hb H1 H2 H3 H4 H5 H6.
  rewrite (keeps_blind_set_label_mode proj Hb _ _ _ _ _ H6).
  rewrite (keeps_blind_bind_cax proj Hb _ _ _ _ _ H5).
  rewrite (keeps_seen_add_all proj _ _ _ _ _ _ H4).
  rewrite (keeps_blind_after_loops proj Hb _ _ _ _ _ _ H3).
  rewrite (keeps_blind_image_locate proj Hb _ _ _ _ _ _ _ _ _ H2).
  apply (keeps_blind_single_before proj Hb _ _ _ _ H1).
Qed.

(** ** The colorbar axes *)

Lemma setter_blind_creation :
  setter_blind (fun a => (orientation a, sharex a, sharey a)).
Proof. intros a. repeat split. Qed.

(** X12: an ImageGrid creates [ngrids] colorbar axes after its [ngrids]
    image axes, whatever the colorbar mode: [cbar_axes] holds them in the
    order of creation, each keeps the orientation [cbar_location] and shares
    no axis, and with [add_all] the figure receives the entries of
    [axes_all] followed by the colorbar axes. *)
Theorem ImageGrid_colorbar_axes (host : Host) (rect : RectArg) (nrows ncols : Z)
    (ngrids : option Z) (direction : string) (axes_pad : PadArg)
    (add_all share_all aspect : bool) (label_mode : string)
    (cbar_mode : option string) (cbar_location : string)
    (cbar_pad : option SizeSpec) (cbar_size : SizeSpec) (cbar_set_cax : bool)
    (w w' : World) (g : ImageGrid.t) :
  ImageGrid.__init__ host rect (nrows, ncols) ngrids direction axes_pad add_all
    share_all aspect label_mode cbar_mode cbar_location cbar_pad cbar_size
    cbar_set_cax w = (Ok g, w') ->
  ImageGrid.cbar_axes g
  = seq (length (axes_objs w) + Z.to_nat (Grid.ngrids (ImageGrid.base g)))
        (Z.to_nat (Grid.ngrids (ImageGrid.base g)))
  /\ length (axes_objs w')
     = (length (axes_objs w) + 2 * Z.to_nat (Grid.ngrids (ImageGrid.base g)))%nat
  /\ (forall c, c ∈ ImageGrid.cbar_axes g ->
        exists o, axes_objs w' !! c = Some o
                  /\ orientation o = Some cbar_location
                  /\ sharex o = None /\ sharey o = None)
  /\ fig_axes w'
     = fig_axes w ++ (if add_all
                      then Grid.axes_all (ImageGrid.base g)
                           ++ (Some <$> ImageGrid.cbar_axes g)
                      else []).
Proof.
  intros H. apply ImageGrid_init_story in H.
  destruct H as (d & arr & h0 & v0 & w2 & w3 & wa & wb & w4 & w5 & w6 & sh & sv & h & v
                 & hp & hc & vp & vc & _ & _ & _ & Hf & _ & _ & _ & Ecb & Eobjs & Efig
                 & Hsb & Hloop & Hafter & Hadd & Hcax & Hlab).
  pose proof (filled_upto_length _ _ _ _ _ _ _ _ Hf) as Hlen.
  set (n := Z.to_nat (Grid.ngrids (ImageGrid.base g))) in *.
  assert (Hblind : forall {B} (proj : AxesObj -> B), setter_blind proj ->
                     seen_through proj w' = seen_through proj w3).
  { intros B proj Hb.
    exact (ImageGrid_init_blind proj host g add_all cbar_set_cax label_mode hp hc vp vc
             h v _ _ w3 wa wb w4 w5 w6 w' Hb Hsb Hloop Hafter Hadd Hcax Hlab). }
  split; [rewrite Ecb, Hlen; reflexivity |].
  split.
  { rewrite (seen_through_length (fun _ => tt) w3 w' (Hblind _ _ setter_blind_unit)).
    rewrite Eobjs, length_app, length_replicate, Hlen. lia. }
  split.
  - intros c Hc. rewrite Ecb in Hc. apply list_elem_of_In, in_seq in Hc.
    assert (Ho3 : the_object c w3 = Some (cbar_obj cbar_location)).
    { unfold the_object. rewrite Eobjs, lookup_app_r by lia.
      apply lookup_replicate. split; [reflexivity | lia]. }
    destruct (seen_through_lookup (fun a => (orientation a, sharex a, sharey a)) w3 w' c _
                (Hblind _ _ setter_blind_creation) Ho3) as (o & Ho & Eo).
    exists o. cbn beta in Eo. injection Eo as E1 E2 E3.
    destruct (cbar_obj_fields cbar_location) as (F1 & F2 & F3 & _).
    split; [exact Ho |]. repeat split; congruence.
  - destruct (keeps_fig_image_pieces g hp hc vp vc h v (Grid.ngrids (ImageGrid.base g)))
      as (F1 & F2 & F3).
    rewrite (keeps_fig_set_label_mode _ _ _ _ _ Hlab).
    rewrite (keeps_fig_bind_cax _ _ _ _ _ Hcax).
    rewrite <- Efig, <- (F1 _ _ _ Hsb), <- (F2 _ _ _ Hloop), <- (F3 _ _ _ Hafter).
    destruct add_all.
    + apply (add_axes_loop_fig host _ _ _ Hadd).
    + injection Hadd as <-. rewrite app_nil_r. reflexivity.
Qed.

Lemma ImageGrid_colorbar_axes_witness :
  exists g w',
    ImageGrid.__init__ plain_host (RectSeq [0; 0; 1; 1]%Q) (1, 2) None "row"
      (PadScalar (1 # 50)) true false true "L" (Some "each"%string)
      "right" None (SpecString "5%") true empty_world = (Ok g, w')
    /\ ImageGrid.cbar_axes g = [2; 3]%nat
    /\ fig_axes w' = [Some 0; Some 1; Some 2; Some 3]%nat.
Proof.
  eexists _, _. split; [vm_compute; reflexivity |].
  destruct (ImageGrid_colorbar_axes plain_host (RectSeq [0; 0; 1; 1]%Q) 1 2 None
              "row"%string (PadScalar (1 # 50)) true false true "L"%string
              (Some "each"%string) "right"%string None (SpecString "5%") true
              empty_world _ _ ltac:(vm_compute; reflexivity))
    as (E1 & _ & _ & E2).
  split; [exact E1 | exact E2].
Defined.

(** ** Colorbars along an edge need axes *)

(** X13: with [cbar_mode="edge"] the constructor makes the first
    [nrows] colorbar axes visible (the first [ncols] when the location is
    not "left" or "right"), but it has created only [ngrids] of them: with
    [ngrids] below that count the constructor raises. *)
Theorem ImageGrid_edge_needs_a_colorbar_per_line (host : Host) (rect : RectArg)
    (nrows ncols n : Z) (direction : string) (axes_pad : PadArg)
    (add_all share_all aspect : bool) (label_mode : string) (cbar_location : string)
    (cbar_pad : option SizeSpec) (cbar_size : SizeSpec) (cbar_set_cax : bool)
    (w : World) :
  n < (if str_in cbar_location ["right"; "left"]%string then nrows else ncols) ->
  exists e w',
    ImageGrid.__init__ host rect (nrows, ncols) (Some n) direction axes_pad add_all
      share_all aspect label_mode (Some "edge"%string) cbar_location cbar_pad
      cbar_size cbar_set_cax w = (Raise e, w').
Proof.
  intros Hn.
  destruct (ImageGrid.__init__ host rect (nrows, ncols) (Some n) direction axes_pad
              add_all share_all aspect label_mode (Some "edge"%string) cbar_location
              cbar_pad cbar_size cbar_set_cax w) as [[g | e] w'] eqn:E; [| eauto].
  exfalso. apply ImageGrid_init_story in E.
  destruct E as (d & arr & h0 & v0 & w2 & w3 & wa & wb & w4 & w5 & w6 & sh & sv & h & v
                 & hp & hc & vp & vc & (_ & _ & Hpos & Eng) & (En & Ec & _ & Em & El)
                 & _ & _ & _ & _ & _ & Ecb & _ & _ & _ & _ & Hafter & _).
  cbn in Eng.
  unfold ImageGrid.after_loops in Hafter. rewrite Em, El, En, Ec in Hafter.
  cbn [opt_str_eq] in Hafter.
  change (String.eqb "edge" "single") with false in Hafter.
  change (String.eqb "edge" "each") with false in Hafter.
  change (String.eqb "edge" "edge") with true in Hafter. cbv iota in Hafter.
  run_bind Hafter. destruct a.
  destruct (mfor_ok_each _ _ _ _ Hafter0 n) as (wx & wy & Hx);
    [apply range_elem; lia |].
  run_bind Hx. apply cbar_at_ok in Hx0. destruct Hx0 as (c & _ & Hc & _).
  apply py_index_nonneg in Hc; [| lia]. destruct Hc as [Hc _].
  apply lookup_lt_Some in Hc. rewrite Ecb, length_seq in Hc. lia.
Qed.

Lemma ImageGrid_edge_needs_a_colorbar_per_line_witness :
  exists e w',
    ImageGrid.__init__ plain_host (RectSeq [0; 0; 1; 1]%Q) (3, 1) (Some 2) "row"
      (PadScalar (1 # 50)) true false true "none" (Some "edge"%string)
      "right" None (SpecString "5%") true empty_world = (Raise e, w').
Proof.
  apply (ImageGrid_edge_needs_a_colorbar_per_line plain_host (RectSeq [0; 0; 1; 1]%Q)
           3 1 2 "row"%string (PadScalar (1 # 50)) true false true "none"%string
           "right"%string None (SpecString "5%") true empty_world).
  vm_compute. reflexivity.
Defined.

(** ** Which colorbar axes are visible *)

Lemma opt_str_eq_inv (m : option string) (s : string) :
  opt_str_eq m s = true -> m = Some s.
Proof.
  destruct m as [x |]; [| discriminate]. cbn. intros H.
  apply String.eqb_eq in H. congruence.
Qed.

(** The two places where [_update_locators] may call [show_single]. *)
Lemma single_before_inv (g : ImageGrid.t) (r : list Size * list Size) (w w' : World) :
  ImageGrid.single_before g w = (Ok r, w') ->
  (ImageGrid._colorbar_mode g = Some "single"%string
   /\ str_in (ImageGrid._colorbar_location g) ["left"; "bottom"]%string = true
   /\ exists l, ImageGrid.show_single g l w = (Ok tt, w'))
  \/ (opt_str_eq (ImageGrid._colorbar_mode g) "single"
      && str_in (ImageGrid._colorbar_location g) ["left"; "bottom"]%string = false
      /\ w' = w).
Proof.
  unfold ImageGrid.single_before.
  destruct (opt_str_eq (ImageGrid._colorbar_mode g) "single"
            && str_in (ImageGrid._colorbar_location g) ["left"; "bottom"]%string) eqn:E.
  - apply andb_true_iff in E. destruct E as [E1 E2]. apply opt_str_eq_inv in E1.
    intros H. left. split; [exact E1 |]. split; [exact E2 |].
    destruct (String.eqb (ImageGrid._colorbar_location g) "left");
      run_bind H; destruct a; run_ret H; eauto.
  - intros H. injection H as _ <-. right. auto.
Qed.

Lemma after_loops_inv (g : ImageGrid.t) (h v : list Size) (r : list Size * list Size)
    (w w' : World) :
  0 < Grid._nrows (ImageGrid.base g) -> 0 < Grid._ncols (ImageGrid.base g) ->
  ImageGrid.after_loops g h v w = (Ok r, w') ->
  let mode := ImageGrid._colorbar_mode g in
  let loc := ImageGrid._colorbar_location g in
  let n := Grid.ngrids (ImageGrid.base g) in
  let count := if str_in loc ["right"; "left"]%string
               then Grid._nrows (ImageGrid.base g) else Grid._ncols (ImageGrid.base g) in
  (mode = Some "single"%string
   /\ str_in loc ["right"; "top"]%string = true
   /\ exists l, ImageGrid.show_single g l w = (Ok tt, w'))
  \/ (mode = Some "single"%string
      /\ str_in loc ["right"; "top"]%string = false /\ w' = w)
  \/ (opt_str_eq mode "single" = false /\ mode = Some "each"%string
      /\ mfor (range n) (fun i => let* c := ImageGrid.cbar_at g i in set_visible c true)
           w = (Ok tt, w'))
  \/ (opt_str_eq mode "single" = false /\ opt_str_eq mode "each" = false
      /\ mode = Some "edge"%string
      /\ exists w1,
           mfor (range count)
             (fun i => let* c := ImageGrid.cbar_at g i in set_visible c true)
             w = (Ok tt, w1)
           /\ mfor (range2 count n)
                (fun j => let* c := ImageGrid.cbar_at g j in set_visible c false)
                w1 = (Ok tt, w'))
  \/ (opt_str_eq mode "single" = false /\ opt_str_eq mode "each" = false
      /\ opt_str_eq mode "edge" = false
      /\ mfor (range n)
           (fun i => let* c := ImageGrid.cbar_at g i in
                     set_visible c false ;;
                     let* c := ImageGrid.cbar_at g i in
                     set_position c [1; 1; 1 # 1000; 1 # 1000]%Q)
           w = (Ok tt, w')).
Proof.
  intros Hrows Hcols. unfold ImageGrid.after_loops. cbv zeta.
  destruct (opt_str_eq (ImageGrid._colorbar_mode g) "single") eqn:E1.
  { apply opt_str_eq_inv in E1. unfold str_in. cbn [existsb].
    destruct (String.eqb (ImageGrid._colorbar_location g) "right") eqn:Er.
    - intros H. run_bind H. destruct a. run_ret H. left. eauto.
    - destruct (String.eqb (ImageGrid._colorbar_location g) "top") eqn:Et.
      + intros H. run_bind H. destruct a. run_ret H. left. eauto.
      + intros H. injection H as _ <-. right. left. auto. }
  destruct (opt_str_eq (ImageGrid._colorbar_mode g) "each") eqn:E2.
  { apply opt_str_eq_inv in E2. intros H. run_bind H. destruct a. run_ret H.
    right. right. left. auto. }
  destruct (opt_str_eq (ImageGrid._colorbar_mode g) "edge") eqn:E3.
  { apply opt_str_eq_inv in E3. intros H.
    run_bind H. destruct a. run_bind H. run_bind H. destruct a0. run_ret H.
    right. right. right. left.
    split; [reflexivity |]. split; [reflexivity |]. split; [exact E3 |].
    exists w0. split; [exact H0 |].
    set (count := if str_in (ImageGrid._colorbar_location g) ["right"; "left"]%string
                  then Grid._nrows (ImageGrid.base g)
                  else Grid._ncols (ImageGrid.base g)) in *.
    assert (Hc : 0 < count) by (subst count; destruct (str_in _ _); assumption).
    apply Z.ltb_lt in Hc. rewrite Hc in H1. injection H1 as <- <-.
    replace (count - 1 + 1) with count in H2 by lia. exact H2. }
  intros H. run_bind H. destruct a. run_ret H.
  right. right. right. right. auto.
Qed.

(** A setter applied to [cbar_axes[i]]. *)
Lemma cbar_setter_ok (g : ImageGrid.t) (i : Z) (f : AxesObj -> AxesObj) (w w' : World) :
  (let* c := ImageGrid.cbar_at g i in modify_axes c f) w = (Ok tt, w') ->
  exists c a, py_index (ImageGrid.cbar_axes g) i = Ok c
              /\ axes_objs w !! c = Some a
              /\ axes_objs w' = <[c := f a]> (axes_objs w).
Proof.
  intros H. run_bind H. apply cbar_at_ok in H0. destruct H0 as (c & -> & Hc & _ & ->).
  apply modify_axes_ok in H. destruct H as (x & a' & [= <-] & Ha & Hw & _).
  exists c, a'. auto.
Qed.

(** A loop that applies [f] to the colorbar axes of the indices in [l],
    each once: what it does to the store. *)
Lemma cbar_loop_sets (g : ImageGrid.t) (body : Z -> M unit) (f : AxesObj -> AxesObj) :
  NoDup (ImageGrid.cbar_axes g) ->
  (forall i w w', body i w = (Ok tt, w') ->
     exists c a, py_index (ImageGrid.cbar_axes g) i = Ok c
                 /\ axes_objs w !! c = Some a
                 /\ axes_objs w' = <[c := f a]> (axes_objs w)) ->
  forall l, NoDup l -> (forall i, i ∈ l -> 0 <= i) ->
  forall w w', mfor l body w = (Ok tt, w') ->
    (forall i, i ∈ l ->
       exists c a, py_index (ImageGrid.cbar_axes g) i = Ok c
                   /\ the_object c w = Some a /\ the_object c w' = Some (f a))
    /\ (forall r, (forall i, i ∈ l -> py_index (ImageGrid.cbar_axes g) i <> Ok r) ->
          the_object r w' = the_object r w).
Proof.
  intros Hnd Hbody. induction l as [| y l IH]; intros Hl Hpos w w' H.
  - injection H as <-. split; [intros i Hi; inversion Hi | reflexivity].
  - cbn [mfor] in H. run_bind H. destruct a. rename w0 into w1.
    apply NoDup_cons in Hl. destruct Hl as [Hy Hl].
    destruct (Hbody _ _ _ H0) as (cy & ay & Hcy & Hay & Hw1).
    destruct (IH Hl (fun i Hi => Hpos i ltac:(right; exact Hi)) _ _ H) as [IH1 IH2].
    assert (Hother : forall i, i ∈ l -> py_index (ImageGrid.cbar_axes g) i <> Ok cy).
    { intros i Hi Hci. apply Hy.
      rewrite (py_index_inj _ y i cy Hnd); auto; apply Hpos; [left | right; exact Hi]. }
    split.
    + intros i Hi. apply elem_of_cons in Hi. destruct Hi as [-> | Hi].
      * exists cy, ay. split; [exact Hcy |]. split; [exact Hay |].
        rewrite (IH2 cy Hother). unfold the_object. rewrite Hw1.
        apply list_lookup_insert_eq. apply lookup_lt_Some in Hay. exact Hay.
      * destruct (IH1 i Hi) as (c & a & Hc & Ha & Ha').
        exists c, a. split; [exact Hc |]. split; [| exact Ha'].
        unfold the_object in *. rewrite Hw1 in Ha.
        rewrite list_lookup_insert_ne in Ha; [exact Ha |].
        intros <-. exact (Hother i Hi Hc).
    + intros r Hr. rewrite IH2 by (intros i Hi; apply Hr; right; exact Hi).
      unfold the_object. rewrite Hw1. apply list_lookup_insert_ne.
      intros <-. apply (Hr y); [left | exact Hcy].
Qed.

Lemma cbars_display_frame (g : ImageGrid.t) (w w' : World) (vis : Z -> option bool)
    (pos : option (list Q)) :
  seen_through cbar_display w' = seen_through cbar_display w ->
  cbars_display g w vis pos -> cbars_display g w' vis pos.
Proof.
  intros E H k Hk. destruct (H k Hk) as (c & o & Hc & Ho & Hv & Hp).
  destruct (seen_through_lookup cbar_display w w' c o E Ho) as (o' & Ho' & Eo).
  injection Eo as E1 E2. exists c, o'. repeat split; congruence.
Qed.

(** What a loop of that kind does to the display of the colorbar axes. *)
Lemma cbar_loop_display (g : ImageGrid.t) (body : Z -> M unit) (f : AxesObj -> AxesObj)
    (l : list Z) (vis vis' : Z -> option bool) (pos pos' : option (list Q))
    (w w' : World) :
  NoDup (ImageGrid.cbar_axes g) ->
  (forall i w w', body i w = (Ok tt, w') ->
     exists c a, py_index (ImageGrid.cbar_axes g) i = Ok c
                 /\ axes_objs w !! c = Some a
                 /\ axes_objs w' = <[c := f a]> (axes_objs w)) ->
  NoDup l -> (forall i, i ∈ l -> 0 <= i) ->
  (forall k a, k ∈ l -> visible a = vis k -> position a = pos ->
               visible (f a) = vis' k /\ position (f a) = pos') ->
  (forall k, 0 <= k < Grid.ngrids (ImageGrid.base g) -> k ∉ l ->
             vis' k = vis k /\ pos' = pos) ->
  mfor l body w = (Ok tt, w') ->
  cbars_display g w vis pos -> cbars_display g w' vis' pos'.
Proof.
  intros Hnd Hbody Hl Hpos Hin Hout H Hd k Hk.
  destruct (cbar_loop_sets g body f Hnd Hbody l Hl Hpos _ _ H) as [S1 S2].
  destruct (Hd k Hk) as (c & o & Hc & Ho & Hv & Hp).
  destruct (decide (k ∈ l)) as [Hkl | Hkl].
  - destruct (S1 k Hkl) as (c' & a & Hc' & Ha & Ha').
    rewrite Hc in Hc'. injection Hc' as <-. rewrite Ho in Ha. injection Ha as <-.
    exists c, (f o). split; [exact Hc |]. split; [exact Ha' |]. apply Hin; assumption.
  - destruct (Hout k Hk Hkl) as [-> ->].
    exists c, o. split; [exact Hc |]. split; [| auto].
    rewrite S2; [exact Ho |]. intros i Hi Hci. apply Hkl.
    assert (k = i) as ->; [| exact Hi].
    apply (py_index_inj _ k i c Hnd); [lia | apply Hpos, Hi | exact Hc | exact Hci].
Qed.

Lemma keeps_position_show_single (g : ImageGrid.t) (l : Locator) :
  keeps (seen_through position) (ImageGrid.show_single g l).
Proof.
  unfold ImageGrid.show_single. keeps_setters.
  repeat keeps_step; apply keeps_proj_modify; reflexivity.
Qed.

Lemma keeps_display_image_locate (g : ImageGrid.t) (hp hc vp vc : list Z) (n : Z) :
  keeps (seen_through cbar_display) (mfor (range n) (ImageGrid.locate g hp hc vp vc)).
Proof.
  unfold ImageGrid.locate, ImageGrid.locate_cbar. keeps_setters.
  repeat keeps_step; apply keeps_proj_modify; reflexivity.
Qed.

Lemma keeps_display_bind_cax (g : ImageGrid.t) (b : bool) :
  keeps (seen_through cbar_display) (if b then ImageGrid.bind_cax g else ret tt).
Proof.
  unfold ImageGrid.bind_cax. keeps_setters.
  repeat keeps_step; apply keeps_proj_modify; reflexivity.
Qed.

Lemma keeps_display_set_label_mode (g : Grid.t) (mode : string) :
  keeps (seen_through cbar_display) (Grid.set_label_mode g mode).
Proof.
  unfold Grid.set_label_mode. keeps_setters.
  repeat keeps_step; apply keeps_proj_modify; reflexivity.
Qed.

(** [show_single] on the display of the colorbar axes. *)
Lemma show_single_display (g : ImageGrid.t) (l : Locator) (w w' : World)
    (vis : Z -> option bool) (pos : option (list Q)) :
  NoDup (ImageGrid.cbar_axes g) ->
  length (ImageGrid.cbar_axes g) = Z.to_nat (Grid.ngrids (ImageGrid.base g)) ->
  0 < Grid.ngrids (ImageGrid.base g) ->
  ImageGrid.show_single g l w = (Ok tt, w') ->
  cbars_display g w vis pos ->
  cbars_display g w' (fun k => Some (k =? 0)) pos.
Proof.
  intros Hnd Hlen Hn H Hd k Hk.
  destruct (ImageGrid.cbar_axes g) as [| c0 cs] eqn:Ecb; [cbn in Hlen; lia |].
  rewrite <- Ecb in Hnd, Hlen.
  destruct (show_single_ok g l c0 cs w w' Ecb Hnd Hlen H) as ((o0 & Ho0 & _ & Hv0) & Hrest).
  pose proof (keeps_position_show_single g l _ _ _ H) as Hpos.
  destruct (Hd k Hk) as (c & o & Hc & Ho & _ & Hp).
  rewrite Ecb in Hc.
  destruct (seen_through_lookup position w w' c o Hpos Ho) as (o' & Ho' & Ep).
  exists c, o'. split; [exact Hc |]. split; [exact Ho' |].
  split; [| congruence].
  apply py_index_nonneg in Hc; [| lia]. destruct Hc as [Hc _].
  destruct (Z.eqb_spec k 0) as [-> | Hk0].
  - cbn in Hc. injection Hc as <-. congruence.
  - destruct (Z.to_nat k) as [| k'] eqn:Ek; [lia |]. cbn in Hc.
    destruct (Hrest c) as (o2 & Ho2 & Hv2); [apply list_elem_of_lookup; eauto |].
    congruence.
Qed.

Lemma cbar_park_ok (g : ImageGrid.t) (i : Z) (p : list Q) (w w' : World) :
  (let* c := ImageGrid.cbar_at g i in
   set_visible c false ;;
   let* c := ImageGrid.cbar_at g i in
   set_position c p) w = (Ok tt, w') ->
  exists c a, py_index (ImageGrid.cbar_axes g) i = Ok c
              /\ axes_objs w !! c = Some a
              /\ axes_objs w'
                 = <[c := with_position p (with_visible false a)]> (axes_objs w).
Proof.
  intros H. run_bind H. apply cbar_at_ok in H0. destruct H0 as (c & -> & Hc & _ & ->).
  run_bind H. destruct a. run_setter H0. destruct H0 as (x & a & [= <-] & Ha & Hw & Ho).
  run_bind H. apply cbar_at_ok in H0. destruct H0 as (c' & -> & Hc' & _ & ->).
  rewrite Hc in Hc'. injection Hc' as <-.
  run_setter H. destruct H as (x & a' & [= <-] & Ha' & Hw' & _).
  unfold the_object in Ho. rewrite Ha' in Ho. injection Ho as ->.
  exists c, a. split; [exact Hc |]. split; [exact Ha |].
  rewrite Hw', Hw. apply list_insert_insert_eq.
Qed.

Lemma cbars_display_ext (g : ImageGrid.t) (w : World) (vis vis' : Z -> option bool)
    (pos pos' : option (list Q)) :
  (forall k, 0 <= k < Grid.ngrids (ImageGrid.base g) -> vis k = vis' k) ->
  pos = pos' ->
  cbars_display g w vis pos -> cbars_display g w vis' pos'.
Proof.
  intros Ev <- H k Hk. destruct (H k Hk) as (c & o & Hc & Ho & Hv & Hp).
  exists c, o. rewrite <- (Ev k Hk). auto.
Qed.

Lemma str_in_sides (loc : string) :
  str_in loc ["left"; "bottom"; "right"; "top"]%string
  = str_in loc ["left"; "bottom"]%string || str_in loc ["right"; "top"]%string.
Proof.
  unfold str_in. cbn [existsb].
  destruct (String.eqb loc "left"), (String.eqb loc "bottom"),
    (String.eqb loc "right"), (String.eqb loc "top"); reflexivity.
Qed.

Lemma str_in_sides_apart (loc : string) :
  str_in loc ["left"; "bottom"]%string = true ->
  str_in loc ["right"; "top"]%string = false.
Proof.
  unfold str_in. cbn [existsb].
  destruct (String.eqb_spec loc "left") as [-> | _]; [reflexivity |].
  destruct (String.eqb_spec loc "bottom") as [-> | _]; [reflexivity | discriminate].
Qed.

(** X14: which colorbar axes a constructed ImageGrid shows.  With
    [cbar_mode="single"] the first one only (none is touched when
    [cbar_location] is not one of the four sides), with "each" all of them,
    with "edge" the first [nrows] (locations "left" and "right") or the
    first [ncols] (any other location); with any other mode, [None]
    included, all [ngrids] colorbar axes exist, invisible, and are moved to
    the position [[1, 1, 0.001, 0.001]]. *)
Theorem ImageGrid_colorbar_visibility (host : Host) (rect : RectArg) (nrows ncols : Z)
    (ngrids : option Z) (direction : string) (axes_pad : PadArg)
    (add_all share_all aspect : bool) (label_mode : string)
    (cbar_mode : option string) (cbar_location : string)
    (cbar_pad : option SizeSpec) (cbar_size : SizeSpec) (cbar_set_cax : bool)
    (w w' : World) (g : ImageGrid.t) :
  ImageGrid.__init__ host rect (nrows, ncols) ngrids direction axes_pad add_all
    share_all aspect label_mode cbar_mode cbar_location cbar_pad cbar_size
    cbar_set_cax w = (Ok g, w') ->
  forall k, 0 <= k < Grid.ngrids (ImageGrid.base g) ->
    exists c o,
      py_index (ImageGrid.cbar_axes g) k = Ok c
      /\ axes_objs w' !! c = Some o
      /\ visible o = cbar_shown cbar_mode cbar_location nrows ncols k
      /\ position o = cbar_parked cbar_mode.
Proof.
  intros H. apply ImageGrid_init_story in H.
  destruct H as (d & arr & h0 & v0 & w2 & w3 & wa & wb & w4 & w5 & w6 & sh & sv & h & v
                 & hp & hc & vp & vc & (Hrows & Hcols & Hpos & _) & (En & Ec & _ & Em & El)
                 & _ & _ & _ & _ & _ & Ecb & Eobjs & _
                 & Hsb & Hloop & Hafter & Hadd & Hcax & Hlab).
  change (cbars_display g w' (cbar_shown cbar_mode cbar_location nrows ncols)
            (cbar_parked cbar_mode)).
  set (n := Grid.ngrids (ImageGrid.base g)) in *.
  assert (Hnd : NoDup (ImageGrid.cbar_axes g)) by (rewrite Ecb; apply NoDup_seq).
  assert (Hlen : length (ImageGrid.cbar_axes g) = Z.to_nat n)
    by (rewrite Ecb; apply length_seq).
  assert (D3 : cbars_display g w3 (fun _ => None) None).
  { intros k Hk. exists (length (axes_objs w2) + Z.to_nat k)%nat, (cbar_obj cbar_location).
    destruct (cbar_obj_fields cbar_location) as (_ & _ & _ & _ & Fv & Fp & _).
    split; [| split; [| split; [exact Fv | exact Fp]]].
    - rewrite <- (Z2Nat.id k) at 1 by lia. apply py_index_lookup.
      rewrite Ecb. apply lookup_seq_lt. fold n. lia.
    - unfold the_object. rewrite Eobjs, lookup_app_r by lia.
      apply lookup_replicate. split; [reflexivity | fold n; lia]. }
  apply (cbars_display_frame g w4 w').
  { rewrite (keeps_display_set_label_mode _ _ _ _ _ Hlab).
    rewrite (keeps_display_bind_cax _ _ _ _ _ Hcax).
    unfold seen_through. rewrite (keeps_objs_add_all _ _ _ _ _ _ Hadd). reflexivity. }
  pose proof (keeps_display_image_locate g hp hc vp vc n _ _ _ Hloop) as Floc.
  assert (Hrows' : 0 < Grid._nrows (ImageGrid.base g)) by lia.
  assert (Hcols' : 0 < Grid._ncols (ImageGrid.base g)) by lia.
  apply (after_loops_inv g h v _ wb w4 Hrows' Hcols') in Hafter. cbv zeta in Hafter.
  apply single_before_inv in Hsb.
  rewrite Em, El, En, Ec in *. fold n in Hafter.
  unfold cbar_shown, cbar_parked.
  destruct Hsb as [(Es & Hlb & l1 & Hshow1) | (Hno & ->)].
  - (* a single colorbar on the left or at the bottom *)
    pose proof (show_single_display g l1 _ _ _ _ Hnd Hlen ltac:(lia) Hshow1 D3) as Da.
    apply (cbars_display_frame g wa wb _ _ Floc) in Da.
    rewrite Es. cbn [opt_str_eq]. rewrite String.eqb_refl, str_in_sides, Hlb. cbn [orb].
    destruct Hafter as [(_ & Hrt & _) | [(_ & _ & ->) | [(Hx & _) | [(Hx & _) | (Hx & _)]]]];
      try (rewrite Es in Hx; cbn in Hx; discriminate).
    + rewrite (str_in_sides_apart _ Hlb) in Hrt. discriminate.
    + exact Da.
  - apply (cbars_display_frame g w3 wb _ _ Floc) in D3.
    destruct Hafter as [(Es & Hrt & l2 & Hshow2) | [(Es & Hrt & ->)
                       | [(E1 & Ee & Hall) | [(E1 & E2 & Ee & w1 & Hon & Hoff)
                       | (E1 & E2 & E3 & Hall)]]]].
    + (* a single colorbar on the right or at the top *)
      rewrite Es. cbn [opt_str_eq]. rewrite String.eqb_refl, str_in_sides, Hrt, orb_true_r.
      cbn [orb].
      exact (show_single_display g l2 _ _ _ _ Hnd Hlen ltac:(lia) Hshow2 D3).
    + (* "single" with a location that is no side *)
      rewrite Es in *. cbn [opt_str_eq] in *. rewrite String.eqb_refl in *.
      cbn [andb orb] in *. rewrite str_in_sides, Hno, Hrt. exact D3.
    + (* each *)
      rewrite E1, Ee. cbn [opt_str_eq orb]. rewrite String.eqb_refl. cbn [orb].
      eapply (cbar_loop_display g _ (with_visible true) (range n)); try exact Hall;
        try exact D3; try exact Hnd.
      * intros i wi wi'. apply cbar_setter_ok.
      * apply range_NoDup.
      * intros i Hi. apply range_elem in Hi. lia.
      * intros k a _ _ Hp. split; [reflexivity | exact Hp].
      * intros k Hk Hnot. exfalso. apply Hnot, range_elem. exact Hk.
    + (* edge *)
      rewrite E1, E2, Ee. cbn [opt_str_eq orb]. rewrite String.eqb_refl.
      assert (Hcount : 0 < (if str_in cbar_location ["right"; "left"]%string
                            then nrows else ncols))
        by (destruct (str_in cbar_location ["right"; "left"]%string); lia).
      set (count := if str_in cbar_location ["right"; "left"]%string
                    then nrows else ncols) in *.
      assert (D1 : cbars_display g w1
                     (fun k => if k <? count then Some true else None) None).
      { eapply (cbar_loop_display g _ (with_visible true) (range count)); try exact Hon;
          try exact D3; try exact Hnd.
        - intros i wi wi'. apply cbar_setter_ok.
        - apply range_NoDup.
        - intros i Hi. apply range_elem in Hi. lia.
        - intros k a Hk _ Hp. apply range_elem in Hk.
          destruct (Z.ltb_spec k count); [| lia]. split; [reflexivity | exact Hp].
        - intros k Hk Hnot. split; [| reflexivity].
          destruct (Z.ltb_spec k count); [| reflexivity].
          exfalso. apply Hnot, range_elem. lia. }
      eapply (cbar_loop_display g _ (with_visible false) (range2 count n)); try exact Hoff;
        try exact D1; try exact Hnd.
      * intros i wi wi'. apply cbar_setter_ok.
      * apply NoDup_seqZ.
      * intros i Hi. unfold range2 in Hi. apply elem_of_seqZ in Hi. lia.
      * intros k a Hk _ Hp. unfold range2 in Hk. apply elem_of_seqZ in Hk.
        destruct (Z.ltb_spec k count); [lia |]. split; [reflexivity | exact Hp].
      * intros k Hk Hnot. split; [| reflexivity].
        destruct (Z.ltb_spec k count); [reflexivity |].
        exfalso. apply Hnot, elem_of_seqZ. lia.
    + (* no colorbars *)
      rewrite E1, E2, E3. cbn [orb].
      eapply (cbar_loop_display g _
                (fun a => with_position [1; 1; 1 # 1000; 1 # 1000]%Q (with_visible false a))
                (range n)); try exact Hall; try exact D3; try exact Hnd.
      * intros i wi wi'. apply cbar_park_ok.
      * apply range_NoDup.
      * intros i Hi. apply range_elem in Hi. lia.
      * intros k a _ _ _. split; reflexivity.
      * intros k Hk Hnot. exfalso. apply Hnot, range_elem. exact Hk.
Qed.

Lemma ImageGrid_colorbar_visibility_witness :
  exists g w' o,
    ImageGrid.__init__ plain_host (RectSeq [0; 0; 1; 1]%Q) (2, 2) None "row"
      (PadScalar (1 # 50)) true false true "L" (Some "edge"%string)
      "bottom" None (SpecString "5%") true empty_world = (Ok g, w')
    /\ ImageGrid.cbar_axes g = [4; 5; 6; 7]%nat
    /\ axes_objs w' !! 6%nat = Some o
    /\ visible o = Some false /\ position o = None.
Proof.
  destruct (ImageGrid_colorbar_visibility plain_host (RectSeq [0; 0; 1; 1]%Q) 2 2 None
              "row"%string (PadScalar (1 # 50)) true false true "L"%string
              (Some "edge"%string) "bottom"%string None (SpecString "5%") true
              empty_world _ _ ltac:(vm_compute; reflexivity) 2
              ltac:(vm_compute; split; discriminate || reflexivity))
    as (c & o & Hc & Ho & Hv & Hp).
  vm_compute in Hc. injection Hc as <-.
  eexists _, _, o. split; [vm_compute; reflexivity |].
  split; [reflexivity |]. split; [exact Ho |]. split; [exact Hv | exact Hp].
Defined.

(** ** The colorbar axes of an image axes *)

(** A loop each round of which replaces one object, no object twice. *)
Lemma modify_loop_each {A} (target : A -> option ref) (P : A -> AxesObj -> Prop)
    (body : A -> M unit) :
  (forall x w w', body x w = (Ok tt, w') ->
     exists r a', target x = Some r /\ (r < length (axes_objs w))%nat
                  /\ axes_objs w' = <[r := a']> (axes_objs w) /\ P x a') ->
  forall l,
    (forall i j x y r, l !! i = Some x -> l !! j = Some y ->
                       target x = Some r -> target y = Some r -> i = j) ->
    forall w w', mfor l body w = (Ok tt, w') ->
      (forall x, x ∈ l ->
         exists r o, target x = Some r /\ the_object r w' = Some o /\ P x o)
      /\ (forall r, (forall x, x ∈ l -> target x <> Some r) ->
            the_object r w' = the_object r w).
Proof.
  intros Hbody. induction l as [| y l IH]; intros Hl w w' H.
  - injection H as <-. split; [intros x Hx; inversion Hx | reflexivity].
  - cbn [mfor] in H. run_bind H. destruct a. rename w0 into w1.
    destruct (Hbody _ _ _ H0) as (ry & ay & Hty & Hry & Hw1 & HP).
    assert (Hl' : forall i j x z r, l !! i = Some x -> l !! j = Some z ->
                    target x = Some r -> target z = Some r -> i = j).
    { intros i j x z r Hi Hj Hx Hz.
      pose proof (Hl (S i) (S j) x z r Hi Hj Hx Hz). lia. }
    destruct (IH Hl' w1 w' H) as [IH1 IH2].
    assert (Hother : forall x, x ∈ l -> target x <> Some ry).
    { intros x Hx Htx. apply list_elem_of_lookup in Hx. destruct Hx as [i Hi].
      pose proof (Hl 0%nat (S i) y x ry eq_refl Hi Hty Htx). discriminate. }
    split.
    + intros x Hx. apply elem_of_cons in Hx. destruct Hx as [-> | Hx]; [| auto].
      exists ry, ay. split; [exact Hty |]. split; [| exact HP].
      rewrite (IH2 ry Hother). unfold the_object. rewrite Hw1.
      apply list_lookup_insert_eq. exact Hry.
    + intros r Hr. rewrite IH2 by (intros x Hx; apply Hr; right; exact Hx).
      unfold the_object. rewrite Hw1. apply list_lookup_insert_ne.
      intros <-. apply (Hr y); [left | exact Hty].
Qed.

Lemma set_cax_ok (ax : option ref) (c : ref) (w w' : World) :
  ImageGrid.set_cax ax c w = (Ok tt, w') ->
  exists r, ax = Some r /\ (r < length (axes_objs w))%nat
            /\ exists a', axes_objs w' = <[r := a']> (axes_objs w) /\ cax a' = Some c.
Proof.
  intros H. run_setter H. destruct H as (x & a & -> & Ha & Hw & _).
  exists x. split; [reflexivity |]. split; [apply lookup_lt_Some in Ha; exact Ha |].
  exists (with_cax c a). auto.
Qed.

Lemma keeps_cax_set_label_mode (g : Grid.t) (mode : string) :
  keeps (seen_through cax) (Grid.set_label_mode g mode).
Proof.
  unfold Grid.set_label_mode. keeps_setters.
  repeat keeps_step; apply keeps_proj_modify; reflexivity.
Qed.

(** The three loops of the [if cbar_set_cax:] block. *)
Lemma bind_cax_ok (g : ImageGrid.t) (arr : ndarray) (w0 w w' : World) :
  axes_built (ImageGrid.base g) arr w0 ->
  NoDup (ImageGrid.cbar_axes g) ->
  length (ImageGrid.cbar_axes g) = Z.to_nat (Grid.ngrids (ImageGrid.base g)) ->
  ImageGrid.bind_cax g w = (Ok tt, w') ->
  forall k,
    0 <= k < (if opt_str_eq (ImageGrid._colorbar_mode g) "single"
                 || opt_str_eq (ImageGrid._colorbar_mode g) "edge"
              then Grid._nrows (ImageGrid.base g) * Grid._ncols (ImageGrid.base g)
              else Grid.ngrids (ImageGrid.base g)) ->
    exists ax o c,
      Grid.__getitem__ (ImageGrid.base g) k = Ok (Some ax)
      /\ the_object ax w' = Some o
      /\ cax o = Some c /\ cax_of g k = Ok c.
Proof.
  intros Hb Hnd Hlen H k Hk.
  pose proof (built_no_sharing _ _ _ Hb) as Hns.
  pose proof (built_length _ _ _ Hb) as Hall.
  pose proof (built_ngrids _ _ _ Hb) as Hn.
  unfold ImageGrid.bind_cax in H. unfold cax_of, Grid.__getitem__.
  destruct (opt_str_eq (ImageGrid._colorbar_mode g) "single") eqn:E1;
    [| destruct (opt_str_eq (ImageGrid._colorbar_mode g) "edge") eqn:E2];
    cbn [orb] in Hk.
  - (* single *)
    destruct (py_index_in_range (Grid.axes_all (ImageGrid.base g)) k) as [x Hx];
      [rewrite Hall; lia |].
    assert (S1 : forall x, x ∈ Grid.axes_all (ImageGrid.base g) ->
                   exists r o, id x = Some r /\ the_object r w' = Some o
                               /\ exists c, py_index (ImageGrid.cbar_axes g) 0 = Ok c
                                            /\ cax o = Some c);
      [apply (fun H1 H2 => proj1 (modify_loop_each id _ _ H1 _ H2 w w' H)) |].
    + intros x0 w1 w1' Hb0. run_bind Hb0. run_lift Hb1.
      apply set_cax_ok in Hb0. destruct Hb0 as (r & -> & Hr & a' & Hw & Hc).
      exists r, a'. eauto 6.
    + intros i j x0 y r Hi Hj Ex Ey. unfold id in Ex, Ey. subst x0 y.
      exact (Hns _ _ _ Hi Hj).
    + destruct (py_index_elem _ _ _ Hx) as [i Hi].
      destruct (S1 x) as (r & o & Er & Ho & c & Hc & Hco);
        [apply list_elem_of_lookup; eauto |].
      unfold id in Er. subst x. exists r, o, c. auto.
  - (* edge *)
    destruct (py_index_in_range (Grid.axes_all (ImageGrid.base g)) k) as [x Hx];
      [rewrite Hall; lia |].
    assert (S1 : forall p,
                   p ∈ zip (range (Z.of_nat (length (Grid.axes_all (ImageGrid.base g)))))
                         (Grid.axes_all (ImageGrid.base g)) ->
                   exists r o, snd p = Some r /\ the_object r w' = Some o
                     /\ exists col row c,
                          Grid._get_col_row (ImageGrid.base g) (fst p) = Ok (col, row)
                          /\ py_index (ImageGrid.cbar_axes g)
                               (if str_in (ImageGrid._colorbar_location g)
                                     ["left"; "right"]%string then row else col) = Ok c
                          /\ cax o = Some c);
      [apply (fun H1 H2 => proj1 (modify_loop_each snd _ _ H1 _ H2 w w' H)) |].
    + intros [i x0] w1 w1' Hb0. run_bind Hb0. run_lift Hb1. destruct a as [col row].
      destruct (str_in (ImageGrid._colorbar_location g) ["left"; "right"]%string);
        run_bind Hb0; run_lift Hb1;
        apply set_cax_ok in Hb0; destruct Hb0 as (r & -> & Hr & a' & Hw & Hc);
        exists r, a'; cbn [fst snd]; eauto 10.
    + intros i j [i0 x0] [j0 y] r Hi Hj. cbn [snd]. intros -> ->.
      apply lookup_zip_Some in Hi, Hj. destruct Hi as [_ Hi], Hj as [_ Hj].
      exact (Hns _ _ _ Hi Hj).
    + apply py_index_nonneg in Hx; [| lia]. destruct Hx as [Hx Hlt].
      destruct (S1 (k, x)) as (r & o & Er & Ho & col & row & c & Ecr & Hc & Hco).
      { apply list_elem_of_lookup. exists (Z.to_nat k). apply lookup_zip_Some.
        split; [| exact Hx]. rewrite range_lookup by lia. f_equal. lia. }
      cbn [fst snd] in *. subst x.
      exists r, o, c. split; [| split; [exact Ho | split; [exact Hco |]]].
      * rewrite <- (Z2Nat.id k) by lia. apply py_index_lookup, Hx.
      * rewrite Ecr. exact Hc.
  - (* the other modes *)
    assert (Hkl : (Z.to_nat k < length (Grid.axes_all (ImageGrid.base g)))%nat)
      by (rewrite Hall; nia).
    destruct (lookup_lt_is_Some_2 _ _ Hkl) as [x Hx].
    destruct (lookup_lt_is_Some_2 (ImageGrid.cbar_axes g) (Z.to_nat k)) as [c Hc];
      [rewrite Hlen; lia |].
    assert (S1 : forall p,
                   p ∈ zip (Grid.axes_all (ImageGrid.base g)) (ImageGrid.cbar_axes g) ->
                   exists r o, fst p = Some r /\ the_object r w' = Some o
                               /\ cax o = Some (snd p));
      [apply (fun H1 H2 => proj1 (modify_loop_each fst _ _ H1 _ H2 w w' H)) |].
    + intros [x0 c0] w1 w1' Hb0.
      apply set_cax_ok in Hb0. destruct Hb0 as (r & -> & Hr & a' & Hw & Hc0).
      exists r, a'. auto.
    + intros i j [x0 c0] [y c1] r Hi Hj. cbn [fst]. intros -> ->.
      apply lookup_zip_Some in Hi, Hj. destruct Hi as [Hi _], Hj as [Hj _].
      exact (Hns _ _ _ Hi Hj).
    + destruct (S1 (x, c)) as (r & o & Er & Ho & Hco).
      { apply list_elem_of_lookup. exists (Z.to_nat k). apply lookup_zip_Some. auto. }
      cbn [fst snd] in *. subst x.
      exists r, o, c. split; [| split; [exact Ho | split; [exact Hco |]]];
        rewrite <- (Z2Nat.id k) by lia; apply py_index_lookup; assumption.
Qed.

(** X15: with [cbar_set_cax] every image axes gets its colorbar axes as
    [cax]: [cbar_axes[0]] when [cbar_mode="single"]; with "edge" the one of
    its row for the locations "left" and "right" and the one of its column
    for any other location, the row and column being those of
    [_get_col_row] at its index in [axes_all]; otherwise [cbar_axes[k]] for
    [axes_all[k]]. *)
Theorem ImageGrid_binds_colorbar_axes (host : Host) (rect : RectArg) (nrows ncols : Z)
    (ngrids : option Z) (direction : string) (axes_pad : PadArg)
    (add_all share_all aspect : bool) (label_mode : string)
    (cbar_mode : option string) (cbar_location : string)
    (cbar_pad : option SizeSpec) (cbar_size : SizeSpec)
    (w w' : World) (g : ImageGrid.t) :
  ImageGrid.__init__ host rect (nrows, ncols) ngrids direction axes_pad add_all
    share_all aspect label_mode cbar_mode cbar_location cbar_pad cbar_size
    true w = (Ok g, w') ->
  forall k,
    0 <= k < (if opt_str_eq cbar_mode "single" || opt_str_eq cbar_mode "edge"
              then nrows * ncols else Grid.ngrids (ImageGrid.base g)) ->
    exists ax o c,
      Grid.__getitem__ (ImageGrid.base g) k = Ok (Some ax)
      /\ axes_objs w' !! ax = Some o
      /\ cax o = Some c /\ cax_of g k = Ok c.
Proof.
  intros H k Hk. apply ImageGrid_init_story in H.
  destruct H as (d & arr & h0 & v0 & w2 & w3 & wa & wb & w4 & w5 & w6 & sh & sv & h & v
                 & hp & hc & vp & vc & _ & (En & Ec & _ & Em & El)
                 & _ & _ & Hb & _ & _ & Ecb & _ & _
                 & _ & _ & _ & _ & Hcax & Hlab).
  assert (Hnd : NoDup (ImageGrid.cbar_axes g)) by (rewrite Ecb; apply NoDup_seq).
  assert (Hlen : length (ImageGrid.cbar_axes g)
                 = Z.to_nat (Grid.ngrids (ImageGrid.base g)))
    by (rewrite Ecb; apply length_seq).
  rewrite <- Em, <- En, <- Ec in Hk.
  destruct (bind_cax_ok g arr w2 w5 w6 Hb Hnd Hlen Hcax k Hk)
    as (ax & o & c & Hax & Ho & Hco & Hc).
  destruct (seen_through_lookup cax w6 w' ax o (keeps_cax_set_label_mode _ _ _ _ _ Hlab) Ho)
    as (o' & Ho' & Eo).
  exists ax, o', c. split; [exact Hax |]. split; [exact Ho' |].
  split; [congruence | exact Hc].
Qed.

Lemma ImageGrid_binds_colorbar_axes_witness :
  exists g w' o,
    ImageGrid.__init__ plain_host (RectSeq [0; 0; 1; 1]%Q) (2, 2) None "column"
      (PadScalar (1 # 50)) true false true "L" (Some "edge"%string)
      "right" None (SpecString "5%") true empty_world = (Ok g, w')
    /\ Grid.__getitem__ (ImageGrid.base g) 1 = Ok (Some 2%nat)
    /\ axes_objs w' !! 2%nat = Some o
    /\ cax o = Some 5%nat.
Proof.
  destruct (ImageGrid_binds_colorbar_axes plain_host (RectSeq [0; 0; 1; 1]%Q) 2 2 None
              "column"%string (PadScalar (1 # 50)) true false true "L"%string
              (Some "edge"%string) "right"%string None (SpecString "5%")
              empty_world _ _ ltac:(vm_compute; reflexivity) 1
              ltac:(vm_compute; split; discriminate || reflexivity))
    as (ax & o & c & Hax & Ho & Hco & Hc).
  vm_compute in Hax. injection Hax as <-.
  vm_compute in Hc. injection Hc as <-.
  eexists _, _, o. split; [vm_compute; reflexivity |].
  split; [reflexivity |]. split; [exact Ho | exact Hco].
Defined.

(** ** Sharing in an [ImageGrid] *)

(** X16: an ImageGrid always shares: the image axes of slot [j] at
    [(col, row)] is created with [sharex] the axes of row 0 in its column
    and [sharey] the axes of column 0 in its row, both the first axes when
    [share_all], and [None] for the axes that is itself the one shared;
    nothing changes them afterwards. *)
Theorem ImageGrid_axes_sharing (host : Host) (rect : RectArg) (nrows ncols : Z)
    (ngrids : option Z) (direction : string) (axes_pad : PadArg)
    (add_all share_all aspect : bool) (label_mode : string)
    (cbar_mode : option string) (cbar_location : string)
    (cbar_pad : option SizeSpec) (cbar_size : SizeSpec) (cbar_set_cax : bool)
    (w w' : World) (g : ImageGrid.t) :
  ImageGrid.__init__ host rect (nrows, ncols) ngrids direction axes_pad add_all
    share_all aspect label_mode cbar_mode cbar_location cbar_pad cbar_size
    cbar_set_cax w = (Ok g, w') ->
  forall j col row,
    0 <= j < Grid.ngrids (ImageGrid.base g) ->
    Grid._get_col_row (ImageGrid.base g) j = Ok (col, row) ->
    exists ax o first top left,
      Grid.__getitem__ (ImageGrid.base g) (row * ncols + col) = Ok (Some ax)
      /\ axes_objs w' !! ax = Some o
      /\ Grid.__getitem__ (ImageGrid.base g) 0 = Ok (Some first)
      /\ Grid.__getitem__ (ImageGrid.base g) col = Ok (Some top)
      /\ Grid.__getitem__ (ImageGrid.base g) (row * ncols) = Ok (Some left)
      /\ sharex o = (if share_all then (if j =? 0 then None else Some first)
                     else if row =? 0 then None else Some top)
      /\ sharey o = (if share_all then (if j =? 0 then None else Some first)
                     else if col =? 0 then None else Some left).
Proof.
  intros H. apply ImageGrid_init_story in H.
  destruct H as (d & arr & h0 & v0 & w2 & w3 & wa & wb & w4 & w5 & w6 & sh & sv & h & v
                 & hp & hc & vp & vc & (Hrows & Hcols & Hpos & _) & (En & Ec & Ed & _ & _)
                 & _ & Hf & Hb & _ & _ & _ & Eobjs & _
                 & Hsb & Hloop & Hafter & Hadd & Hcax & Hlab).
  pose proof (ImageGrid_init_blind _ host g add_all cbar_set_cax label_mode hp hc vp vc
                h v _ _ w3 wa wb w4 w5 w6 w' setter_blind_sharing Hsb Hloop Hafter Hadd
                Hcax Hlab) as Hblind.
  rewrite <- Ec.
  set (seed := Grid_seed nrows ncols ngrids w direction d) in *.
  intros j col row Hj E.
  destruct (filled_sharing seed (ImageGrid.base g) share_all true true (axes_objs w) arr
              w2 w2 Hrows Hcols (proj2 Hpos) Hf En Ec Ed (built_all _ _ _ Hb) eq_refl
              j col row Hj E)
    as (ax & o2 & first & top & left & Eax & Ho2 & Efirst & Etop & Eleft & Ex & Ey).
  destruct (seen_through_lookup (fun a => (sharex a, sharey a)) w3 w' ax o2 Hblind)
    as (o & Ho & Eo).
  { unfold the_object. rewrite Eobjs, lookup_app_l; [exact Ho2 |].
    apply lookup_lt_Some in Ho2. exact Ho2. }
  injection Eo as E1 E2.
  exists ax, o, first, top, left.
  split; [exact Eax |]. split; [exact Ho |]. split; [exact Efirst |].
  split; [exact Etop |]. split; [exact Eleft |].
  rewrite E1, E2. split; assumption.
Qed.

Lemma ImageGrid_axes_sharing_witness :
  exists g w' o,
    ImageGrid.__init__ plain_host (RectSeq [0; 0; 1; 1]%Q) (2, 2) None "row"
      (PadScalar (1 # 50)) true false true "L" None
      "right" None (SpecString "5%") true empty_world = (Ok g, w')
    /\ axes_objs w' !! 3%nat = Some o
    /\ sharex o = Some 1%nat /\ sharey o = Some 2%nat.
Proof.
  destruct (ImageGrid_axes_sharing plain_host (RectSeq [0; 0; 1; 1]%Q) 2 2 None
              "row"%string (PadScalar (1 # 50)) true false true "L"%string None
              "right"%string None (SpecString "5%") true empty_world _ _
              ltac:(vm_compute; reflexivity)
              3 1 1 ltac:(vm_compute; split; discriminate || reflexivity) eq_refl)
    as (ax & o & first & top & left & Eax & Ho & _ & Etop & Eleft & Ex & Ey).
  vm_compute in Eax. injection Eax as <-.
  vm_compute in Etop. injection Etop as <-.
  vm_compute in Eleft. injection Eleft as <-.
  eexists _, _, o. split; [vm_compute; reflexivity |].
  split; [exact Ho |]. split; [exact Ex | exact Ey].
Defined.

(** ** A single colorbar on the left *)

(** The interleaving loop started on a sequence that is not empty: the
    padding precedes every cell. *)
Lemma interleave_fold_after (pad : Size) (cs : list Size) :
  forall (h0 : list Size) (pos0 : list Z),
    h0 <> [] ->
    fold_left (fun acc c => interleave_step pad c acc) cs (h0, pos0)
    = (h0 ++ flat_map (fun c => [pad; c]) cs,
       pos0 ++ ((fun k => Z.of_nat (length h0 + 1 + 2 * k)) <$> seq 0 (length cs))).
Proof.
  induction cs as [| c cs IH]; intros h0 pos0 Hne.
  - cbn. rewrite !app_nil_r. reflexivity.
  - cbn [fold_left interleave_step].
    destruct h0 as [| s h0'] eqn:Eh; [contradiction |]. rewrite <- Eh in *.
    rewrite IH by (destruct h0; discriminate).
    cbn [flat_map length seq fmap list_fmap]. rewrite <- !app_assoc. cbn [app].
    f_equal. f_equal.
    rewrite Nat.mul_0_r, Nat.add_0_r, length_app. cbn [length]. f_equal.
    rewrite <- fmap_S_seq, <- list_fmap_compose.
    apply list_fmap_ext. intros _ k _. cbn. rewrite !length_app. cbn [length].
    f_equal. lia.
Qed.

Lemma after_loops_single_left (g : ImageGrid.t) (h v : list Size)
    (r : list Size * list Size) (w w' : World) :
  ImageGrid._colorbar_mode g = Some "single"%string ->
  ImageGrid._colorbar_location g = "left"%string ->
  ImageGrid.after_loops g h v w = (Ok r, w') -> r = (h, v) /\ w' = w.
Proof.
  intros Em El. unfold ImageGrid.after_loops. rewrite Em, El. cbn.
  intros H. injection H as <- <-. auto.
Qed.

(** X17: an [ImageGrid] with [cbar_mode="single"] and
    [cbar_location="left"]: the horizontal sequence starts with
    [from_any(colorbar size, sz)] and [from_any(colorbar pad, sz)], for
    [sz = Fraction(nrows, AxesX(axes_llc))], and then holds the axes padding
    before every column, the first one included; the vertical sequence has
    no colorbar cell.  The first colorbar axes has the locator
    [nx=0, ny=0, ny1=-1], and the image axes of slot [i] at [(col, row)] the
    locator [nx = 3 + 2*col], [ny = 2*(nrows-1-row)]. *)
Theorem ImageGrid_single_colorbar_on_the_left
    (host : Host) (rect : RectArg) (nrows ncols : Z) (ngrids : option Z)
    (direction : string) (axes_pad : PadArg)
    (add_all share_all aspect : bool) (label_mode : string)
    (cbar_pad : option SizeSpec) (cbar_size : SizeSpec) (cbar_set_cax : bool)
    (w w' : World) (g : ImageGrid.t) :
  ImageGrid.__init__ host rect (nrows, ncols) ngrids direction axes_pad add_all
    share_all aspect label_mode (Some "single"%string) "left" cbar_pad cbar_size
    cbar_set_cax w = (Ok g, w') ->
  exists ax0 row0 col0 c0 o0,
    py_index (Grid.axes_all (ImageGrid.base g)) 0 = Ok ax0
    /\ py_index (Grid.axes_row (ImageGrid.base g)) 0 = Ok row0
    /\ py_index (Grid.axes_column (ImageGrid.base g)) 0 = Ok col0
    /\ div_horizontal (Grid._divider (ImageGrid.base g))
       = [SizeFromAny cbar_size
            (SizeFraction nrows (SizeAxesX (Grid.axes_llc (ImageGrid.base g)) None None));
          SizeFromAny (ImageGrid._colorbar_pad g)
            (SizeFraction nrows (SizeAxesX (Grid.axes_llc (ImageGrid.base g)) None None))]
         ++ flat_map (fun ax => [SizeFixed (Grid._horiz_pad_size (ImageGrid.base g));
                                 axes_cell_x ax0 ax]) row0
    /\ interleaved (SizeFixed (Grid._vert_pad_size (ImageGrid.base g)))
         (axes_cell_y ax0 <$> rev col0)
         (div_vertical (Grid._divider (ImageGrid.base g)))
    /\ py_index (ImageGrid.cbar_axes g) 0 = Ok c0
    /\ axes_objs w' !! c0 = Some o0
    /\ axes_locator o0 = Some (new_locator 0 0 None (Some (-1)))
    /\ forall i, 0 <= i < Grid.ngrids (ImageGrid.base g) ->
         exists col row ax o,
           Grid._get_col_row (ImageGrid.base g) i = Ok (col, row)
           /\ Grid.__getitem__ (ImageGrid.base g) i = Ok (Some ax)
           /\ axes_objs w' !! ax = Some o
           /\ axes_locator o
              = Some (new_locator (3 + 2 * col) (2 * (nrows - 1 - row)) None None).
Proof.
  intros H. apply ImageGrid_init_built in H.
  destruct H as (arr & w2 & w3 & wa & wb & w4 & w5 & w6 & h0 & v0 & row0' & col0'
                 & h & hp & hc & v & vp & vc
                 & (En & Ec & _ & _ & Em & El & Es) & Hb & Hcb & Hsb & Er & Hh & Ecol
                 & Hv & Hloop & Hafter & Hadd & Hcax & Hlab).
  assert (M1 : ImageGrid._colorbar_mode g <> Some "each"%string) by (rewrite Em; discriminate).
  assert (M2 : ImageGrid._colorbar_mode g <> Some "edge"%string) by (rewrite Em; discriminate).
  destruct (axes_built_first _ _ _ Hb) as (ax0 & row0 & col0 & E0 & Er0 & Ec0 & Hrow0 & Hcol0).
  rewrite Er0 in Er. injection Er as <-. rewrite Ec0 in Ecol. injection Ecol as <-.
  pose proof (built_rows _ _ _ Hb) as Hrows. pose proof (built_cols _ _ _ Hb) as Hcols.
  (* the block before the loops *)
  unfold ImageGrid.single_before in Hsb. rewrite Em, El in Hsb. cbn in Hsb.
  run_bind Hsb. destruct a. run_ret Hsb. injection E as -> ->.
  rename Hsb0 into Hshow.
  (* the two loops *)
  rewrite (h_loop_plain _ ax0) in Hh by assumption.
  rewrite (v_loop_plain _ ax0) in Hv by assumption.
  rewrite (fold_left_fmap_step (axes_cell_x ax0)
             (interleave_step (SizeFixed (Grid._horiz_pad_size (ImageGrid.base g))))) in Hh.
  rewrite (fold_left_fmap_step (axes_cell_y ax0)
             (interleave_step (SizeFixed (Grid._vert_pad_size (ImageGrid.base g))))) in Hv.
  rewrite interleave_fold_after in Hh by discriminate.
  destruct (interleave_fold (SizeFixed (Grid._vert_pad_size (ImageGrid.base g)))
              (axes_cell_y ax0 <$> rev col0)) as (vv & Fv & Iv).
  rewrite Fv in Hv. injection Hh as <- <- _. injection Hv as <- <- _.
  apply after_loops_single_left in Hafter; [| exact Em | exact El].
  destruct Hafter as [Ediv ->]. injection Ediv as Eh Ev.
  (* the colorbar axes *)
  destruct (cbar_axes_fresh _ _ _ _ _ _ _ Hb Hcb) as (Hnd & Hlen & (c0 & cs & Ecb) & _ & Hapart).
  destruct (show_single_ok g _ c0 cs _ _ Ecb Hnd Hlen Hshow) as ((o0 & Ho0 & Hl0 & _) & _).
  assert (Ho0b : the_object c0 wb = Some o0).
  { rewrite <- Ho0.
    refine (keeps_mfor (the_object c0) _ _ _ _ _ _ Hloop).
    intros i _. apply keeps_object_locate.
    - intros k Hk. apply (Hapart _ _ Hk). rewrite Ecb. left.
    - intros col row l. rewrite locate_cbar_plain by assumption. apply keeps_ret. }
  destruct (ImageGrid_tail_frame _ _ _ _ _ _ _ _ _ _ _ Hadd Hcax Hlab Ho0b)
    as (o0' & Ho0' & Hl0' & _).
  exists ax0, row0, col0, c0, o0'.
  split; [exact E0 |]. split; [exact Er0 |]. split; [exact Ec0 |].
  split.
  { rewrite Eh, En, Es. cbn [app]. do 2 f_equal.
    clear. induction row0 as [| ax l IH]; [reflexivity |].
    cbn [fmap list_fmap flat_map app]. rewrite <- IH. reflexivity. }
  split; [rewrite Ev; exact Iv |].
  split; [rewrite Ecb; reflexivity |]. split; [exact Ho0' |].
  split; [congruence |].
  intros i Hi.
  destruct (ImageGrid_locate_loop_axes g arr w2 _ hc _ vc Hb Hapart _ _ Hloop i Hi)
    as (col & row & x & y & ax & o & E1 & E2 & E3 & E4 & Ho & Hl).
  pose proof (built_ngrids _ _ _ Hb) as Hn.
  destruct (get_col_row_in_grid _ Hrows Hcols i col row ltac:(lia) E1) as [Hrow Hcol].
  destruct (ImageGrid_tail_frame _ _ _ _ _ _ _ _ _ _ _ Hadd Hcax Hlab Ho)
    as (o' & Ho' & Hl' & _).
  exists col, row, ax, o'. split; [exact E1 |]. split; [exact E4 |].
  split; [exact Ho' |]. rewrite Hl', Hl. do 2 f_equal.
  - cbn [app] in E2. apply py_index_nonneg in E2; [| lia]. destruct E2 as [E2 _].
    rewrite list_lookup_fmap in E2.
    destruct (seq 0 (length (axes_cell_x ax0 <$> row0)) !! Z.to_nat col) as [k |] eqn:Ek;
      [| discriminate].
    apply lookup_seq in Ek. destruct Ek as [-> _]. cbn in E2. injection E2 as <-. lia.
  - apply even_positions_index in E3; [| lia]. rewrite <- En. lia.
Qed.

Lemma ImageGrid_single_colorbar_on_the_left_witness :
  exists g w' o,
    ImageGrid.__init__ plain_host (RectSeq [0; 0; 1; 1]%Q) (1, 2) None "row"
      (PadScalar (1 # 50)) true false true "L" (Some "single"%string)
      "left" None (SpecString "5%") true empty_world = (Ok g, w')
    /\ length (div_horizontal (Grid._divider (ImageGrid.base g))) = 6%nat
    /\ axes_objs w' !! 1%nat = Some o
    /\ axes_locator o = Some (new_locator 5 0 None None).
Proof.
  destruct (ImageGrid_single_colorbar_on_the_left
              plain_host (RectSeq [0; 0; 1; 1]%Q) 1 2 None "row"%string
              (PadScalar (1 # 50)) true false true "L"%string None
              (SpecString "5%") true empty_world _ _ ltac:(vm_compute; reflexivity))
    as (ax0 & row0 & col0 & c0 & o0 & _ & _ & _ & _ & _ & _ & _ & _ & Hall).
  destruct (Hall 1 ltac:(vm_compute; split; discriminate || reflexivity))
    as (col & row & ax & o & Ecr & Eax & Ho & Hl).
  vm_compute in Ecr. injection Ecr as <- <-.
  vm_compute in Eax. injection Eax as <-.
  eexists _, _, o. split; [vm_compute; reflexivity |].
  split; [reflexivity |]. split; [exact Ho | exact Hl].
Defined.

(** ** The constructor of [ImageGrid] returns *)

Lemma modify_runs (r : ref) (f : AxesObj -> AxesObj) (L : nat) (w : World) :
  (r < L)%nat -> holds L w ->
  exists w', modify_axes (Some r) f w = (Ok tt, w') /\ holds L w'.
Proof.
  unfold holds. intros Hr Hw.
  destruct (lookup_lt_is_Some_2 (axes_objs w) r ltac:(lia)) as [a Ha].
  eexists. unfold modify_axes. rewrite Ha. split; [reflexivity |].
  cbn [axes_objs]. rewrite length_insert. exact Hw.
Qed.

Section CbarRuns.

Variables (g : ImageGrid.t) (L : nat).
Hypothesis cbars_stored : forall c, c ∈ ImageGrid.cbar_axes g -> (c < L)%nat.

Lemma cbar_setter_runs (i : Z) (f : AxesObj -> AxesObj) (w : World) :
  0 <= i < Z.of_nat (length (ImageGrid.cbar_axes g)) -> holds L w ->
  exists w', (let* c := ImageGrid.cbar_at g i in modify_axes c f) w = (Ok tt, w')
             /\ holds L w'.
Proof.
  intros Hi Hw. destruct (py_index_in_range (ImageGrid.cbar_axes g) i Hi) as [c Hc].
  destruct (py_index_elem _ _ _ Hc) as [k Hk].
  destruct (modify_runs c f L w) as (w' & E & Hw');
    [apply cbars_stored, list_elem_of_lookup; eauto | exact Hw |].
  exists w'. split; [| exact Hw'].
  unfold ImageGrid.cbar_at, bind, lift, ret. rewrite Hc. exact E.
Qed.

Lemma cbar_loop_runs (l : list Z) (f : AxesObj -> AxesObj) (w : World) :
  (forall i, i ∈ l -> 0 <= i < Z.of_nat (length (ImageGrid.cbar_axes g))) ->
  holds L w ->
  exists w', mfor l (fun i => let* c := ImageGrid.cbar_at g i in modify_axes c f) w
             = (Ok tt, w')
             /\ holds L w'.
Proof.
  intros Hl Hw. apply (mfor_runs (holds L)); [| exact Hw].
  intros i v Hi Hv. apply cbar_setter_runs; auto.
Qed.

Lemma show_single_runs (l : Locator) (w : World) :
  0 < Grid.ngrids (ImageGrid.base g) ->
  length (ImageGrid.cbar_axes g) = Z.to_nat (Grid.ngrids (ImageGrid.base g)) ->
  holds L w ->
  exists w', ImageGrid.show_single g l w = (Ok tt, w') /\ holds L w'.
Proof.
  intros Hn Hlen Hw.
  destruct (cbar_loop_runs (range (Grid.ngrids (ImageGrid.base g))) (with_visible false) w)
    as (w1 & E1 & Hw1); [| exact Hw |].
  { intros i Hi. apply range_elem in Hi. lia. }
  destruct (cbar_setter_runs 0 (with_locator l) w1 ltac:(lia) Hw1) as (w2 & E2 & Hw2).
  destruct (cbar_setter_runs 0 (with_visible true) w2 ltac:(lia) Hw2) as (w3 & E3 & Hw3).
  exists w3. split; [| exact Hw3].
  unfold ImageGrid.show_single.
  change (fun i => let* c := ImageGrid.cbar_at g i in set_visible c false)
    with (fun i => let* c := ImageGrid.cbar_at g i in modify_axes c (with_visible false)).
  rewrite (bind_ok_l _ _ _ _ _ E1).
  unfold bind in E2 |- *. unfold set_axes_locator.
  destruct (ImageGrid.cbar_at g 0 w1) as [[c |] w1'] eqn:Ec; [| discriminate].
  rewrite E2.
  unfold bind in E3. unfold set_visible.
  destruct (ImageGrid.cbar_at g 0 w2) as [[c' |] w2'] eqn:Ec'; [| discriminate].
  exact E3.
Qed.

Lemma single_before_runs (w : World) :
  0 < Grid.ngrids (ImageGrid.base g) ->
  length (ImageGrid.cbar_axes g) = Z.to_nat (Grid.ngrids (ImageGrid.base g)) ->
  holds L w ->
  exists r w', ImageGrid.single_before g w = (Ok r, w') /\ holds L w'.
Proof.
  intros Hn Hlen Hw. unfold ImageGrid.single_before.
  destruct (opt_str_eq (ImageGrid._colorbar_mode g) "single"
            && str_in (ImageGrid._colorbar_location g) ["left"; "bottom"]%string);
    [| eexists _, w; split; [reflexivity | exact Hw]].
  destruct (String.eqb (ImageGrid._colorbar_location g) "left").
  - destruct (show_single_runs (new_locator 0 0 None (Some (-1))) w Hn Hlen Hw)
      as (w' & E & Hw').
    eexists _, w'. rewrite (bind_ok_l _ _ _ _ _ E). split; [reflexivity | exact Hw'].
  - destruct (show_single_runs (new_locator 0 0 (Some (-1)) None) w Hn Hlen Hw)
      as (w' & E & Hw').
    eexists _, w'. rewrite (bind_ok_l _ _ _ _ _ E). split; [reflexivity | exact Hw'].
Qed.

Lemma after_loops_runs (h v : list Size) (w : World) :
  0 < Grid._nrows (ImageGrid.base g) -> 0 < Grid._ncols (ImageGrid.base g) ->
  Grid._nrows (ImageGrid.base g) <= Grid.ngrids (ImageGrid.base g) ->
  Grid._ncols (ImageGrid.base g) <= Grid.ngrids (ImageGrid.base g) ->
  length (ImageGrid.cbar_axes g) = Z.to_nat (Grid.ngrids (ImageGrid.base g)) ->
  holds L w ->
  exists r w', ImageGrid.after_loops g h v w = (Ok r, w') /\ holds L w'.
Proof.
  intros Hrows Hcols Hrn Hcn Hlen Hw. unfold ImageGrid.after_loops. cbv zeta.
  assert (Hn : 0 < Grid.ngrids (ImageGrid.base g)) by lia.
  destruct (opt_str_eq (ImageGrid._colorbar_mode g) "single").
  { destruct (String.eqb (ImageGrid._colorbar_location g) "right").
    - destruct (show_single_runs (new_locator (-2) 0 None (Some (-1))) w Hn Hlen Hw)
        as (w' & E & Hw').
      eexists _, w'. rewrite (bind_ok_l _ _ _ _ _ E). split; [reflexivity | exact Hw'].
    - destruct (String.eqb (ImageGrid._colorbar_location g) "top").
      + destruct (show_single_runs (new_locator 0 (-2) (Some (-1)) None) w Hn Hlen Hw)
          as (w' & E & Hw').
        eexists _, w'. rewrite (bind_ok_l _ _ _ _ _ E). split; [reflexivity | exact Hw'].
      + eexists _, w. split; [reflexivity | exact Hw]. }
  destruct (opt_str_eq (ImageGrid._colorbar_mode g) "each").
  { destruct (cbar_loop_runs (range (Grid.ngrids (ImageGrid.base g))) (with_visible true) w)
      as (w' & E & Hw'); [| exact Hw |].
    { intros i Hi. apply range_elem in Hi. lia. }
    eexists _, w'. unfold set_visible. rewrite (bind_ok_l _ _ _ _ _ E).
    split; [reflexivity | exact Hw']. }
  destruct (opt_str_eq (ImageGrid._colorbar_mode g) "edge").
  { set (count := if str_in (ImageGrid._colorbar_location g) ["right"; "left"]%string
                  then Grid._nrows (ImageGrid.base g)
                  else Grid._ncols (ImageGrid.base g)).
    assert (Hc : 0 < count <= Grid.ngrids (ImageGrid.base g))
      by (unfold count;
          destruct (str_in (ImageGrid._colorbar_location g) ["right"; "left"]%string);
          lia).
    destruct (cbar_loop_runs (range count) (with_visible true) w) as (w1 & E1 & Hw1);
      [| exact Hw |].
    { intros i Hi. apply range_elem in Hi. lia. }
    destruct (cbar_loop_runs (range2 (count - 1 + 1) (Grid.ngrids (ImageGrid.base g)))
                (with_visible false) w1) as (w' & E2 & Hw'); [| exact Hw1 |].
    { intros i Hi. unfold range2 in Hi. apply elem_of_seqZ in Hi. lia. }
    eexists _, w'. unfold set_visible. rewrite (bind_ok_l _ _ _ _ _ E1).
    destruct (Z.ltb_spec 0 count); [| lia].
    unfold ret at 1. unfold bind at 1. rewrite (bind_ok_l _ _ _ _ _ E2).
    split; [reflexivity | exact Hw']. }
  assert (Hpark : exists w',
             mfor (range (Grid.ngrids (ImageGrid.base g)))
               (fun i => let* c := ImageGrid.cbar_at g i in
                         set_visible c false ;;
                         let* c := ImageGrid.cbar_at g i in
                         set_position c [1; 1; 1 # 1000; 1 # 1000]%Q) w = (Ok tt, w')
             /\ holds L w').
  { apply (mfor_runs (holds L)); [| exact Hw].
    intros i u Hi Hu. apply range_elem in Hi.
    destruct (cbar_setter_runs i (with_visible false) u ltac:(lia) Hu) as (u1 & E1 & Hu1).
    destruct (cbar_setter_runs i (with_position [1; 1; 1 # 1000; 1 # 1000]%Q) u1
                ltac:(lia) Hu1) as (u2 & E2 & Hu2).
    exists u2. split; [| exact Hu2].
    unfold bind in E1, E2 |- *. unfold set_visible, set_position.
    destruct (ImageGrid.cbar_at g i u) as [[c |] u'] eqn:Ec; [| discriminate].
    rewrite E1.
    destruct (ImageGrid.cbar_at g i u1) as [[c' |] u1'] eqn:Ec'; [| discriminate].
    exact E2. }
  destruct Hpark as (w' & E & Hw').
  eexists _, w'. rewrite (bind_ok_l _ _ _ _ _ E). split; [reflexivity | exact Hw'].
Qed.

End CbarRuns.

(** The two loops over the first row and the first column return, and in
    [cbar_mode="edge"] they record the position of one colorbar cell. *)
Lemma h_loop_runs (g : ImageGrid.t) (ax0 : option ref) :
  py_index (Grid.axes_all (ImageGrid.base g)) 0 = Ok ax0 ->
  forall (l : list (option ref)) (col : Z) (acc : list Size * list Z * list Z),
    exists h p c, ImageGrid.h_loop g col l acc = Ok (h, p, c).
Proof.
  intros E0. induction l as [| ax l IH]; intros col [[h p] c]; [cbn; eauto |].
  cbn [ImageGrid.h_loop]. unfold ImageGrid.h_step. rewrite E0.
  destruct (ImageGrid.cbar_here g "left" col 0),
    (ImageGrid.cbar_here g "right" col (Grid._ncols (ImageGrid.base g) - 1)); apply IH.
Qed.

Lemma v_loop_runs (g : ImageGrid.t) (ax0 : option ref) :
  py_index (Grid.axes_all (ImageGrid.base g)) 0 = Ok ax0 ->
  forall (l : list (option ref)) (row : Z) (acc : list Size * list Z * list Z),
    exists v p c, ImageGrid.v_loop g row l acc = Ok (v, p, c).
Proof.
  intros E0. induction l as [| ax l IH]; intros row [[v p] c]; [cbn; eauto |].
  cbn [ImageGrid.v_loop]. unfold ImageGrid.v_step. rewrite E0.
  destruct (ImageGrid.cbar_here g "bottom" row 0),
    (ImageGrid.cbar_here g "top" row (Grid._nrows (ImageGrid.base g) - 1)); apply IH.
Qed.

Lemma h_loop_cb (g : ImageGrid.t) :
  forall (l : list (option ref)) (col : Z) (h h' : list Size) (p c p' c' : list Z),
    ImageGrid.h_loop g col l (h, p, c) = Ok (h', p', c') ->
    (length c <= length c')%nat
    /\ forall k, col <= k < col + Z.of_nat (length l) ->
         ImageGrid.cbar_here g "left" k 0
         || ImageGrid.cbar_here g "right" k (Grid._ncols (ImageGrid.base g) - 1) = true ->
         (length c < length c')%nat.
Proof.
  induction l as [| ax l IH]; intros col h h' p c p' c' H.
  - injection H as <- <- <-. split; [lia | cbn; lia].
  - cbn [ImageGrid.h_loop] in H.
    destruct (ImageGrid.h_step g col ax (h, p, c)) as [[[h1 p1] c1] |] eqn:Es;
      [| discriminate].
    destruct (IH _ _ _ _ _ _ _ H) as [IH1 IH2].
    assert (Hstep : (length c <= length c1)%nat
                    /\ (ImageGrid.cbar_here g "left" col 0
                        || ImageGrid.cbar_here g "right" col
                             (Grid._ncols (ImageGrid.base g) - 1) = true ->
                        (length c < length c1)%nat)).
    { unfold ImageGrid.h_step in Es.
      destruct (py_index (Grid.axes_all (ImageGrid.base g)) 0); [| discriminate].
      destruct (ImageGrid.cbar_here g "left" col 0),
        (ImageGrid.cbar_here g "right" col (Grid._ncols (ImageGrid.base g) - 1));
        injection Es as _ _ <-; rewrite ?length_app; cbn [length orb];
        split; try lia; discriminate. }
    destruct Hstep as [S1 S2]. split; [lia |].
    intros k Hk Hon. cbn [length] in Hk.
    destruct (Z.eq_dec k col) as [-> | Hne]; [specialize (S2 Hon); lia |].
    specialize (IH2 k ltac:(lia) Hon). lia.
Qed.

Lemma v_loop_cb (g : ImageGrid.t) :
  forall (l : list (option ref)) (row : Z) (v v' : list Size) (p c p' c' : list Z),
    ImageGrid.v_loop g row l (v, p, c) = Ok (v', p', c') ->
    (length c <= length c')%nat
    /\ forall k, row <= k < row + Z.of_nat (length l) ->
         ImageGrid.cbar_here g "bottom" k 0
         || ImageGrid.cbar_here g "top" k (Grid._nrows (ImageGrid.base g) - 1) = true ->
         (length c < length c')%nat.
Proof.
  induction l as [| ax l IH]; intros row v v' p c p' c' H.
  - injection H as <- <- <-. split; [lia | cbn; lia].
  - cbn [ImageGrid.v_loop] in H.
    destruct (ImageGrid.v_step g row ax (v, p, c)) as [[[v1 p1] c1] |] eqn:Es;
      [| discriminate].
    destruct (IH _ _ _ _ _ _ _ H) as [IH1 IH2].
    assert (Hstep : (length c <= length c1)%nat
                    /\ (ImageGrid.cbar_here g "bottom" row 0
                        || ImageGrid.cbar_here g "top" row
                             (Grid._nrows (ImageGrid.base g) - 1) = true ->
                        (length c < length c1)%nat)).
    { unfold ImageGrid.v_step in Es.
      destruct (py_index (Grid.axes_all (ImageGrid.base g)) 0); [| discriminate].
      destruct (ImageGrid.cbar_here g "bottom" row 0),
        (ImageGrid.cbar_here g "top" row (Grid._nrows (ImageGrid.base g) - 1));
        injection Es as _ _ <-; rewrite ?length_app; cbn [length orb];
        split; try lia; discriminate. }
    destruct Hstep as [S1 S2]. split; [lia |].
    intros k Hk Hon. cbn [length] in Hk.
    destruct (Z.eq_dec k row) as [-> | Hne]; [specialize (S2 Hon); lia |].
    specialize (IH2 k ltac:(lia) Hon). lia.
Qed.

Lemma bind_lift_ok {A B} (r : result A) (k : A -> M B) (w : World) (a : A) :
  r = Ok a -> bind (lift r) k w = k a w.
Proof. intros ->. reflexivity. Qed.

Section LocateRuns.

Variables (g : ImageGrid.t) (L : nat) (hp hc vp vc : list Z).
Hypothesis rows_pos : 0 < Grid._nrows (ImageGrid.base g).
Hypothesis cols_pos : 0 < Grid._ncols (ImageGrid.base g).
Hypothesis full :
  Grid.ngrids (ImageGrid.base g)
  = Grid._nrows (ImageGrid.base g) * Grid._ncols (ImageGrid.base g).
Hypothesis axes_stored :
  forall i, 0 <= i < Grid.ngrids (ImageGrid.base g) ->
    exists x, Grid.axes_all (ImageGrid.base g) !! Z.to_nat i = Some (Some x)
              /\ (x < L)%nat.
Hypothesis cbars_stored : forall c, c ∈ ImageGrid.cbar_axes g -> (c < L)%nat.
Hypothesis cbars_length :
  length (ImageGrid.cbar_axes g) = Z.to_nat (Grid.ngrids (ImageGrid.base g)).
Hypothesis hp_length : length hp = Z.to_nat (Grid._ncols (ImageGrid.base g)).
Hypothesis vp_length : length vp = Z.to_nat (Grid._nrows (ImageGrid.base g)).
Hypothesis each_h :
  ImageGrid._colorbar_mode g = Some "each"%string ->
  str_in (ImageGrid._colorbar_location g) ["right"; "left"]%string = true ->
  length hc = Z.to_nat (Grid._ncols (ImageGrid.base g)).
Hypothesis each_v :
  ImageGrid._colorbar_mode g = Some "each"%string ->
  str_in (ImageGrid._colorbar_location g) ["top"; "bottom"]%string = true ->
  length vc = Z.to_nat (Grid._nrows (ImageGrid.base g)).
Hypothesis edge_h :
  ImageGrid._colorbar_mode g = Some "edge"%string ->
  ImageGrid._colorbar_location g = "left"%string
  \/ ImageGrid._colorbar_location g = "right"%string ->
  (0 < length hc)%nat.
Hypothesis edge_v :
  ImageGrid._colorbar_mode g = Some "edge"%string ->
  ImageGrid._colorbar_location g = "bottom"%string
  \/ ImageGrid._colorbar_location g = "top"%string ->
  (0 < length vc)%nat.

Lemma locate_cbar_runs (i col row : Z) (l : Locator) (w : World) :
  0 <= i < Grid.ngrids (ImageGrid.base g) ->
  0 <= col < Grid._ncols (ImageGrid.base g) ->
  0 <= row < Grid._nrows (ImageGrid.base g) ->
  holds L w ->
  exists w', ImageGrid.locate_cbar g hp hc vp vc i col row l w = (Ok tt, w')
             /\ holds L w'.
Proof.
  intros Hi Hcol Hrow Hw. unfold ImageGrid.locate_cbar. cbv zeta.
  assert (Hnr : Grid._nrows (ImageGrid.base g) <= Grid.ngrids (ImageGrid.base g))
    by (rewrite full; nia).
  assert (Hnc : Grid._ncols (ImageGrid.base g) <= Grid.ngrids (ImageGrid.base g))
    by (rewrite full; nia).
  destruct (py_index_in_range hp col ltac:(lia)) as [xp Hxp].
  destruct (py_index_in_range vp (Grid._nrows (ImageGrid.base g) - 1 - row) ltac:(lia))
    as [yp Hyp].
  destruct (opt_str_eq (ImageGrid._colorbar_mode g) "each") eqn:E1.
  { apply opt_str_eq_inv in E1.
    assert (Eloc : exists loc,
               (if str_in (ImageGrid._colorbar_location g) ["right"; "left"]%string
                then
                  let* x := lift (py_index hc col) in
                  let* y := lift (py_index vp (Grid._nrows (ImageGrid.base g) - 1 - row)) in
                  ret (new_locator x y None None)
                else if str_in (ImageGrid._colorbar_location g) ["top"; "bottom"]%string
                then
                  let* x := lift (py_index hp col) in
                  let* y := lift (py_index vc (Grid._nrows (ImageGrid.base g) - 1 - row)) in
                  ret (new_locator x y None None)
                else ret l) w = (Ok loc, w)).
    { destruct (str_in (ImageGrid._colorbar_location g) ["right"; "left"]%string) eqn:S1;
        [| destruct (str_in (ImageGrid._colorbar_location g) ["top"; "bottom"]%string)
             eqn:S2].
      - destruct (py_index_in_range hc col) as [x Hx];
          [rewrite (each_h E1 eq_refl); lia |].
        eexists. rewrite (bind_lift_ok _ _ _ _ Hx), (bind_lift_ok _ _ _ _ Hyp).
        reflexivity.
      - destruct (py_index_in_range vc (Grid._nrows (ImageGrid.base g) - 1 - row))
          as [y Hy]; [rewrite (each_v E1 eq_refl); lia |].
        eexists. rewrite (bind_lift_ok _ _ _ _ Hxp), (bind_lift_ok _ _ _ _ Hy).
        reflexivity.
      - eexists. reflexivity. }
    destruct Eloc as [loc Eloc].
    destruct (cbar_setter_runs g L cbars_stored i (with_locator loc) w ltac:(lia) Hw)
      as (w' & E & Hw').
    exists w'. rewrite (bind_ok_l _ _ _ _ _ Eloc). split; [exact E | exact Hw']. }
  destruct (opt_str_eq (ImageGrid._colorbar_mode g) "edge") eqn:E2;
    [| exists w; split; [reflexivity | exact Hw]].
  apply opt_str_eq_inv in E2.
  destruct ((String.eqb (ImageGrid._colorbar_location g) "left" && (col =? 0))
            || (String.eqb (ImageGrid._colorbar_location g) "right"
                && (col =? Grid._ncols (ImageGrid.base g) - 1))) eqn:S1.
  { assert (Hside : ImageGrid._colorbar_location g = "left"%string
                    \/ ImageGrid._colorbar_location g = "right"%string).
    { apply orb_true_iff in S1. destruct S1 as [S1 | S1];
        apply andb_true_iff in S1; destruct S1 as [S1 _];
        apply String.eqb_eq in S1; auto. }
    destruct (py_index_in_range hc 0) as [x Hx]; [pose proof (edge_h E2 Hside); lia |].
    destruct (cbar_setter_runs g L cbars_stored row
                (with_locator (new_locator x yp None None)) w ltac:(lia) Hw)
      as (w' & E & Hw').
    exists w'. rewrite (bind_lift_ok _ _ _ _ Hx), (bind_lift_ok _ _ _ _ Hyp).
    split; [exact E | exact Hw']. }
  destruct ((String.eqb (ImageGrid._colorbar_location g) "bottom"
             && (row =? Grid._nrows (ImageGrid.base g) - 1))
            || (String.eqb (ImageGrid._colorbar_location g) "top" && (row =? 0))) eqn:S2;
    [| exists w; split; [reflexivity | exact Hw]].
  assert (Hside : ImageGrid._colorbar_location g = "bottom"%string
                  \/ ImageGrid._colorbar_location g = "top"%string).
  { apply orb_true_iff in S2. destruct S2 as [S2 | S2];
      apply andb_true_iff in S2; destruct S2 as [S2 _];
      apply String.eqb_eq in S2; auto. }
  destruct (py_index_in_range vc 0) as [y Hy]; [pose proof (edge_v E2 Hside); lia |].
  destruct (cbar_setter_runs g L cbars_stored col
              (with_locator (new_locator xp y None None)) w ltac:(lia) Hw)
    as (w' & E & Hw').
  exists w'. rewrite (bind_lift_ok _ _ _ _ Hxp), (bind_lift_ok _ _ _ _ Hy).
  split; [exact E | exact Hw'].
Qed.

Lemma ImageGrid_locate_loop_runs (w : World) :
  holds L w ->
  exists w',
    mfor (range (Grid.ngrids (ImageGrid.base g))) (ImageGrid.locate g hp hc vp vc) w
    = (Ok tt, w')
    /\ holds L w'.
Proof.
  apply (mfor_runs (holds L)).
  intros i u Hi Hu. apply range_elem in Hi.
  destruct (get_col_row_total (ImageGrid.base g) rows_pos cols_pos i) as (col & row & E).
  destruct (get_col_row_in_grid (ImageGrid.base g) rows_pos cols_pos i col row
              ltac:(lia) E) as [Hr Hc].
  destruct (axes_stored i Hi) as (x & Hx & Hlt).
  destruct (py_index_in_range hp col ltac:(lia)) as [xp Hxp].
  destruct (py_index_in_range vp (Grid._nrows (ImageGrid.base g) - 1 - row) ltac:(lia))
    as [yp Hyp].
  assert (Hax : py_index (Grid.axes_all (ImageGrid.base g)) i = Ok (Some x))
    by (rewrite <- (Z2Nat.id i) by lia; apply py_index_lookup, Hx).
  destruct (modify_runs x (with_locator (new_locator xp yp None None)) L u Hlt Hu)
    as (u1 & E1 & Hu1).
  destruct (locate_cbar_runs i col row (new_locator xp yp None None) u1 Hi Hc Hr Hu1)
    as (u2 & E2 & Hu2).
  exists u2. split; [| exact Hu2].
  unfold ImageGrid.locate. cbv zeta.
  rewrite (bind_lift_ok _ _ _ _ E). cbv beta iota.
  rewrite (bind_lift_ok _ _ _ _ Hxp), (bind_lift_ok _ _ _ _ Hyp),
    (bind_lift_ok _ _ _ _ Hax).
  unfold set_axes_locator. rewrite (bind_ok_l _ _ _ _ _ E1). exact E2.
Qed.

End LocateRuns.

Lemma new_cbar_axes_runs (host : Host) (o : string) :
  (forall s t, axes_init host (Some o) s t = None) ->
  str_in o axis_keys = true ->
  forall (l : list Z) (w : World),
    exists cs w', ImageGrid.new_cbar_axes host o l w = (Ok cs, w').
Proof.
  intros Hq Hside. induction l as [| i l IH]; intros w; [cbn; eauto |].
  cbn [ImageGrid.new_cbar_axes]. unfold new_axes at 1, bind at 1. rewrite Hq.
  cbn [axes_cla]. unfold _config_axes. rewrite Hside. fold (cbar_obj o).
  destruct (IH (mkWorld (fixed_objs w)
                  (axes_objs w ++ [cbar_obj o]) (fig_axes w)))
    as (cs & w' & E).
  eexists _, w'. rewrite (bind_ok_l _ _ _ _ _ E). reflexivity.
Qed.

Section FullImageGrid.

Variables (g : ImageGrid.t) (L : nat).
Hypothesis rows_pos : 0 < Grid._nrows (ImageGrid.base g).
Hypothesis cols_pos : 0 < Grid._ncols (ImageGrid.base g).
Hypothesis full :
  Grid.ngrids (ImageGrid.base g)
  = Grid._nrows (ImageGrid.base g) * Grid._ncols (ImageGrid.base g).
Hypothesis all_length :
  length (Grid.axes_all (ImageGrid.base g))
  = Z.to_nat (Grid._nrows (ImageGrid.base g) * Grid._ncols (ImageGrid.base g)).
Hypothesis axes_stored :
  forall i, 0 <= i < Grid.ngrids (ImageGrid.base g) ->
    exists x, Grid.axes_all (ImageGrid.base g) !! Z.to_nat i = Some (Some x)
              /\ (x < L)%nat.
Hypothesis cbars_stored : forall c, c ∈ ImageGrid.cbar_axes g -> (c < L)%nat.
Hypothesis cbars_length :
  length (ImageGrid.cbar_axes g) = Z.to_nat (Grid.ngrids (ImageGrid.base g)).

Lemma axes_all_entry (x : option ref) :
  x ∈ Grid.axes_all (ImageGrid.base g) -> exists r, x = Some r /\ (r < L)%nat.
Proof.
  intros Hx. apply list_elem_of_lookup in Hx. destruct Hx as [k Hk].
  pose proof (lookup_lt_Some _ _ _ Hk) as Hlt. rewrite all_length, <- full in Hlt.
  destruct (axes_stored (Z.of_nat k) ltac:(lia)) as (r & Hr & Hlt').
  rewrite Nat2Z.id, Hk in Hr. injection Hr as ->. eauto.
Qed.

Lemma bind_cax_runs (w : World) :
  holds L w ->
  exists w', ImageGrid.bind_cax g w = (Ok tt, w') /\ holds L w'.
Proof.
  assert (Hn : 0 < Grid.ngrids (ImageGrid.base g)) by (rewrite full; nia).
  unfold ImageGrid.bind_cax. cbv zeta.
  destruct (opt_str_eq (ImageGrid._colorbar_mode g) "single");
    [| destruct (opt_str_eq (ImageGrid._colorbar_mode g) "edge")];
    apply (mfor_runs (holds L)).
  - intros x u Hx Hu. destruct (axes_all_entry x Hx) as (r & -> & Hr).
    destruct (py_index_in_range (ImageGrid.cbar_axes g) 0 ltac:(lia)) as [c Hc].
    rewrite (bind_lift_ok _ _ _ _ Hc). apply modify_runs; assumption.
  - intros [i x] u Hx Hu.
    pose proof (elem_of_zip_l _ _ _ _ Hx) as Hi. apply range_elem in Hi.
    rewrite all_length in Hi.
    destruct (axes_all_entry x (elem_of_zip_r _ _ _ _ Hx)) as (r & -> & Hr).
    destruct (get_col_row_total (ImageGrid.base g) rows_pos cols_pos i)
      as (col & row & E).
    destruct (get_col_row_in_grid (ImageGrid.base g) rows_pos cols_pos i col row
                ltac:(lia) E) as [Hrow Hcol].
    rewrite (bind_lift_ok _ _ _ _ E). cbv beta iota.
    destruct (str_in (ImageGrid._colorbar_location g) ["left"; "right"]%string).
    + destruct (py_index_in_range (ImageGrid.cbar_axes g) row ltac:(nia)) as [c Hc].
      rewrite (bind_lift_ok _ _ _ _ Hc). apply modify_runs; assumption.
    + destruct (py_index_in_range (ImageGrid.cbar_axes g) col ltac:(nia)) as [c Hc].
      rewrite (bind_lift_ok _ _ _ _ Hc). apply modify_runs; assumption.
  - intros [x c] u Hx Hu.
    destruct (axes_all_entry x (elem_of_zip_l _ _ _ _ Hx)) as (r & -> & Hr).
    apply modify_runs; assumption.
Qed.

Lemma ImageGrid_update_locators_runs (arr : ndarray) (w0 w : World) :
  axes_built (ImageGrid.base g) arr w0 ->
  holds L w ->
  exists g' w',
    ImageGrid._update_locators g w = (Ok g', w')
    /\ holds L w'
    /\ Grid.axes_all (ImageGrid.base g') = Grid.axes_all (ImageGrid.base g)
    /\ ImageGrid.cbar_axes g' = ImageGrid.cbar_axes g
    /\ ImageGrid._colorbar_mode g' = ImageGrid._colorbar_mode g
    /\ ImageGrid._colorbar_location g' = ImageGrid._colorbar_location g
    /\ exists d, ImageGrid.base g' = Grid.with_divider d (ImageGrid.base g).
Proof.
  intros Hb Hw.
  assert (Hn : 0 < Grid.ngrids (ImageGrid.base g)) by (rewrite full; nia).
  destruct (axes_built_first _ _ _ Hb) as (ax0 & row0 & col0 & E0 & Er0 & Ec0 & Hrow0 & Hcol0).
  destruct (single_before_runs g L cbars_stored w Hn cbars_length Hw)
    as ([sh sv] & wa & Esb & Hwa).
  destruct (h_loop_runs g ax0 E0 row0 0 (sh, [], [])) as (h & hp & hc & Eh).
  destruct (v_loop_runs g ax0 E0 (rev col0) 0 (sv, [], [])) as (v & vp & vc & Ev).
  destruct (h_loop_spec g ax0 E0 _ _ _ _ _ _ _ _ Eh) as (_ & (hps & Ehp & Hhps) & Hhcb).
  destruct (v_loop_spec g ax0 E0 _ _ _ _ _ _ _ _ Ev) as (_ & (vps & Evp & Hvps) & Hvcb).
  cbn [app] in Ehp, Evp. subst hps vps.
  assert (Lrow : length row0 = Z.to_nat (Grid._ncols (ImageGrid.base g)))
    by (rewrite Hrow0, length_fmap, range_length; reflexivity).
  assert (Lcol : length (rev col0) = Z.to_nat (Grid._nrows (ImageGrid.base g)))
    by (rewrite length_rev, Hcol0, length_fmap, range_length; reflexivity).
  destruct (ImageGrid_locate_loop_runs g L hp hc vp vc rows_pos cols_pos full axes_stored
              cbars_stored cbars_length) with (w := wa) as (wb & Eloop & Hwb);
    try exact Hwa.
  { destruct Hhps as [Hl _]. rewrite Hl, length_fmap. exact Lrow. }
  { destruct Hvps as [Hl _]. rewrite Hl, length_fmap. exact Lcol. }
  { intros Em Hs. destruct (Hhcb Em Hs) as (cps & Ecps & [Hl _]). cbn [app] in Ecps.
    subst cps. rewrite Hl, length_fmap. exact Lrow. }
  { intros Em Hs. destruct (Hvcb Em Hs) as (cps & Ecps & [Hl _]). cbn [app] in Ecps.
    subst cps. rewrite Hl, length_fmap. exact Lcol. }
  { intros Em Hs. destruct (h_loop_cb g _ _ _ _ _ _ _ _ Eh) as [_ Hlt].
    cbn [length] in Hlt. unfold ImageGrid.cbar_here in Hlt. rewrite Em in Hlt.
    cbn [opt_str_eq] in Hlt.
    change (String.eqb "edge" "each") with false in Hlt.
    change (String.eqb "edge" "edge") with true in Hlt. cbn [orb andb] in Hlt.
    destruct Hs as [Hs | Hs]; rewrite Hs in Hlt.
    - apply (Hlt 0); [lia |]. rewrite Z.eqb_refl. reflexivity.
    - apply (Hlt (Grid._ncols (ImageGrid.base g) - 1)); [lia |].
      rewrite Z.eqb_refl. cbn. apply orb_true_r. }
  { intros Em Hs. destruct (v_loop_cb g _ _ _ _ _ _ _ _ Ev) as [_ Hlt].
    cbn [length] in Hlt. unfold ImageGrid.cbar_here in Hlt. rewrite Em in Hlt.
    cbn [opt_str_eq] in Hlt.
    change (String.eqb "edge" "each") with false in Hlt.
    change (String.eqb "edge" "edge") with true in Hlt. cbn [orb andb] in Hlt.
    destruct Hs as [Hs | Hs]; rewrite Hs in Hlt.
    - apply (Hlt 0); [lia |]. rewrite Z.eqb_refl. reflexivity.
    - apply (Hlt (Grid._nrows (ImageGrid.base g) - 1)); [lia |].
      rewrite Z.eqb_refl. cbn. apply orb_true_r. }
  destruct (after_loops_runs g L cbars_stored h v wb rows_pos cols_pos
              ltac:(rewrite full; nia) ltac:(rewrite full; nia) cbars_length Hwb)
    as ([h' v'] & w' & Eafter & Hw').
  eexists _, w'. split.
  { unfold ImageGrid._update_locators. cbv zeta.
    rewrite (bind_ok_l _ _ _ _ _ Esb). cbv beta iota.
    rewrite (bind_lift_ok _ _ _ _ Er0), (bind_lift_ok _ _ _ _ Eh). cbv beta iota.
    rewrite (bind_lift_ok _ _ _ _ Ec0), (bind_lift_ok _ _ _ _ Ev). cbv beta iota.
    rewrite (bind_ok_l _ _ _ _ _ Eloop), (bind_ok_l _ _ _ _ _ Eafter). reflexivity. }
  split; [exact Hw' |]. repeat split. eexists. reflexivity.
Qed.

End FullImageGrid.

(** X18: on a host whose calls do not raise, [ImageGrid.__init__]
    returns for every full configuration whose colorbar location is one of
    the four sides and whose colorbar size and padding are specs that
    [Size.from_any] takes: at least one row and one column, [ngrids] absent
    or equal to [nrows*ncols], a direction "row" or "column", a padding
    that broadcasts to two numbers, a [rect] that is not a sequence of a
    wrong length.  The label mode and the colorbar mode can be any string:
    neither is checked. *)
Theorem ImageGrid_constructor_returns (host : Host) (rect : RectArg) (nrows ncols : Z)
    (ngrids : option Z) (direction : string) (axes_pad : PadArg)
    (add_all share_all aspect : bool) (label_mode : string)
    (cbar_mode : option string) (cbar_location : string)
    (cbar_pad : option SizeSpec) (cbar_size : SizeSpec) (cbar_set_cax : bool)
    (h0 v0 : Q) (w : World) :
  quiet_host host -> rect_ok rect ->
  broadcast_to_2 axes_pad = Ok (h0, v0) ->
  direction = "row"%string \/ direction = "column"%string ->
  0 < nrows -> 0 < ncols ->
  ngrids = None \/ ngrids = Some (nrows * ncols) ->
  str_in cbar_location axis_keys = true ->
  from_any_takes cbar_size = true ->
  match cbar_pad with Some p => from_any_takes p = true | None => True end ->
  exists g w',
    ImageGrid.__init__ host rect (nrows, ncols) ngrids direction axes_pad add_all
      share_all aspect label_mode cbar_mode cbar_location cbar_pad cbar_size
      cbar_set_cax w = (Ok g, w').
Proof.
  intros (Hqd & Hqa & Hqf) Hrect Hpad Hdir Hrows Hcols Hng Hside _ _.
  set (N := nrows * ncols). assert (HN : 0 < N) by (unfold N; nia).
  (* the checks and the objects made before the axes *)
  assert (E1 : match ngrids with
               | None => ret N
               | Some k => if negb ((0 <? k) && (k <=? N)) then raise Exception
                           else ret k
               end w = (Ok N, w)).
  { destruct Hng as [-> | ->]; [reflexivity |]. fold N.
    destruct (Z.ltb_spec 0 N); [| lia]. destruct (Z.leb_spec N N); [| lia].
    reflexivity. }
  set (hp := length (fixed_objs w)).
  set (w1 := mkWorld (fixed_objs w ++ [h0; v0]) (axes_objs w) (fig_axes w)).
  assert (E2 : Grid._init_axes_pad axes_pad w = (Ok (hp, S hp), w1)).
  { unfold Grid._init_axes_pad, bind, lift, new_fixed, ret. rewrite Hpad.
    cbn [fst snd fixed_objs axes_objs fig_axes].
    rewrite length_app, <- app_assoc. cbn [length app].
    unfold hp, w1. repeat f_equal. lia. }
  assert (Ecp : exists cpad,
             match cbar_pad with
             | None =>
                 if str_in cbar_location ["left"; "right"]%string
                 then let* x := get_fixed_size hp in ret (SpecNumber x)
                 else let* x := get_fixed_size (S hp) in ret (SpecNumber x)
             | Some p => ret p
             end w1 = (Ok cpad, w1)).
  { destruct cbar_pad as [p |]; [eexists; reflexivity |].
    assert (Fh : fixed_objs w1 !! hp = Some h0)
      by (unfold w1, hp; cbn [fixed_objs]; rewrite lookup_app_r by lia;
          rewrite Nat.sub_diag; reflexivity).
    assert (Fv : fixed_objs w1 !! S hp = Some v0)
      by (unfold w1, hp; cbn [fixed_objs]; rewrite lookup_app_r by lia;
          replace (S (length (fixed_objs w)) - length (fixed_objs w))%nat
            with 1%nat by lia; reflexivity).
    destruct (str_in cbar_location ["left"; "right"]%string);
      eexists; unfold bind, get_fixed_size, ret; rewrite ?Fh, ?Fv; reflexivity. }
  destruct Ecp as [cpad Ecp].
  assert (E3 : _check_in_list ["column"; "row"]%string direction w1 = (Ok tt, w1)).
  { unfold _check_in_list. destruct Hdir as [-> | ->]; reflexivity. }
  assert (E4 : exists d, make_divider host rect aspect w1 = (Ok d, w1)).
  { unfold make_divider, ret, raise. rewrite Hqd.
    destruct rect as [s | k | | l]; eauto.
    destruct Hrect as [-> | ->]; cbn; eauto. }
  destruct E4 as [d E4].
  set (self := Grid.mk nrows ncols N hp (S hp) direction d [] [] [] None).
  assert (E5 : np_full nrows ncols
               = Ok (mkArray nrows ncols (replicate (Z.to_nat (nrows * ncols)) None))).
  { unfold np_full. destruct (Z.ltb_spec nrows 0); [lia |].
    destruct (Z.ltb_spec ncols 0); [lia |]. reflexivity. }
  set (arr0 := mkArray nrows ncols (replicate (Z.to_nat (nrows * ncols)) None)) in *.
  (* the image axes *)
  pose proof (filled_upto_start self share_all true true arr0 w1 E5 Hrows Hcols)
    as Hstart.
  destruct (fill_slots_total host self share_all true true (axes_objs w1)
              Hrows Hcols (Hqa None) (Z.to_nat N) 0 arr0 w1 ltac:(lia)
              ltac:(unfold self; cbn [Grid._nrows Grid._ncols]; fold N; lia) Hstart)
    as (arr & w2 & E6).
  destruct (fill_slots_exact host self share_all true true (axes_objs w1)
              Hrows Hcols (Z.to_nat N) 0 arr0 arr w1 w2 ltac:(lia)
              ltac:(unfold self; cbn [Grid._nrows Grid._ncols]; fold N; lia) Hstart E6)
    as (Hf & _ & _).
  rewrite Z2Nat.id in E6, Hf by lia. rewrite Z.add_0_l in Hf.
  change (seqZ 0 N) with (range N) in E6.
  pose proof Hf as (Har & Hac & Hlen & _).
  unfold self in Har, Hac, Hlen. cbn [Grid._nrows Grid._ncols] in Har, Hac, Hlen.
  destruct (py_index_in_range (T_tolist arr) 0) as [col0 E7].
  { unfold T_tolist. rewrite length_fmap, range_length. lia. }
  assert (Hcol0 : length col0 = Z.to_nat nrows).
  { apply py_index_nonneg in E7; [| lia]. destruct E7 as [E7 _].
    apply T_tolist_lookup in E7. destruct E7 as [_ ->].
    rewrite length_fmap, range_length, Har. reflexivity. }
  destruct (last col0) as [llc |] eqn:Hlast;
    [| apply last_None in Hlast; rewrite Hlast in Hcol0; cbn in Hcol0; lia].
  pose proof (py_index_of_last _ _ Hlast) as E8.
  assert (Hrange : forall k, ngrids = Some k -> 0 < k <= nrows * ncols)
    by (intros k Ek; destruct Hng as [Hn | Hn]; rewrite Hn in Ek;
        [discriminate | injection Ek as <-; lia]).
  assert (Hdef : N = default (nrows * ncols) ngrids)
    by (destruct Hng as [-> | ->]; reflexivity).
  destruct (before_locators_built host nrows ncols N ngrids hp (S hp) direction d
              share_all true true arr0 arr col0 llc w1 w2
              Hrange Hdef E5 E6 E7 E8) as (Hb & _).
  set (b0 := Grid_before_locators nrows ncols N hp (S hp) direction d arr llc) in *.
  (* the colorbar axes *)
  destruct (new_cbar_axes_runs host cbar_location (Hqa (Some cbar_location)) Hside
              (range N) w2) as (cbars & w3 & E9).
  destruct (new_cbar_axes_ok _ _ _ _ _ _ E9) as (Ecb & Eobjs & _ & _).
  rewrite range_length in Ecb, Eobjs.
  set (g0 := ImageGrid.mk b0 cbar_mode cbar_location cpad cbar_size cbars).
  set (L := length (axes_objs w3)).
  assert (HL : L = (length (axes_objs w2) + Z.to_nat N)%nat)
    by (unfold L; rewrite Eobjs, length_app, length_replicate; reflexivity).
  assert (Hstored : forall i, 0 <= i < Grid.ngrids (ImageGrid.base g0) ->
                      exists x, Grid.axes_all (ImageGrid.base g0) !! Z.to_nat i
                                = Some (Some x) /\ (x < L)%nat).
  { intros i Hi. unfold g0, b0 in *.
    cbn [ImageGrid.base Grid_before_locators Grid.with_axes Grid.axes_all Grid.ngrids]
      in *.
    unfold ravel_tolist.
    destruct (filled_upto_full self share_all true true _ arr w2 Hrows Hcols Hf
                (Z.to_nat i)) as (x & Hx & Hlt).
    - unfold self. cbn [Grid._nrows Grid._ncols]. fold N. lia.
    - exists x. split; [exact Hx | lia]. }
  assert (Hcstored : forall c, c ∈ ImageGrid.cbar_axes g0 -> (c < L)%nat).
  { intros c Hc. unfold g0 in Hc. cbn [ImageGrid.cbar_axes] in Hc. rewrite Ecb in Hc.
    apply list_elem_of_In, in_seq in Hc. lia. }
  assert (Hclen : length (ImageGrid.cbar_axes g0)
                  = Z.to_nat (Grid.ngrids (ImageGrid.base g0)))
    by (unfold g0; cbn [ImageGrid.cbar_axes]; rewrite Ecb; apply length_seq).
  (* the locators *)
  destruct (ImageGrid_update_locators_runs g0 L Hrows Hcols eq_refl
              (built_length _ _ _ Hb) Hstored Hcstored Hclen arr w2 w3 Hb eq_refl)
    as (g & w4 & E10 & Hw4 & Eall & Ecbars & Emode & Eloc & d' & Ebase).
  (* the figure, the colorbar of each axes and the labels *)
  assert (E11 : exists w5,
             (if add_all then
                mfor (Grid.axes_all (ImageGrid.base g) ++ (Some <$> ImageGrid.cbar_axes g))
                  (add_axes host)
              else ret tt) w4 = (Ok tt, w5)
             /\ holds L w5).
  { destruct add_all; [| exists w4; auto].
    apply (mfor_runs (holds L)); [| exact Hw4].
    intros x u _ Hu. unfold add_axes. rewrite Hqf. eexists. split; [reflexivity |].
    exact Hu. }
  destruct E11 as (w5 & E11 & Hw5).
  assert (Hdims : Grid._nrows (ImageGrid.base g) = nrows
                  /\ Grid._ncols (ImageGrid.base g) = ncols
                  /\ Grid.ngrids (ImageGrid.base g) = N
                  /\ Grid.axes_llc (ImageGrid.base g) = llc)
    by (rewrite Ebase; repeat split).
  destruct Hdims as (En & Ec & Eng & Ellc).
  assert (E12 : exists w6,
             (if cbar_set_cax then ImageGrid.bind_cax g else ret tt) w5 = (Ok tt, w6)
             /\ holds L w6).
  { destruct cbar_set_cax; [| exists w5; auto].
    apply (bind_cax_runs g L); try assumption.
    - lia.
    - lia.
    - rewrite En, Ec, Eng. reflexivity.
    - rewrite Eall, En, Ec. apply (built_length _ _ _ Hb).
    - intros i Hi. rewrite Eall. apply Hstored. rewrite Eng in Hi. exact Hi.
    - rewrite Ecbars, Eng. exact Hclen. }
  destruct E12 as (w6 & E12 & Hw6).
  assert (Hbg : axes_built (ImageGrid.base g) arr w2)
    by (rewrite Ebase; apply axes_built_with_divider, Hb).
  assert (Hfull : forall k x, Grid.axes_all (ImageGrid.base g) !! k = Some x -> x <> None).
  { intros k x Hk ->. rewrite Eall in Hk.
    pose proof (lookup_lt_Some _ _ _ Hk) as Hlt.
    pose proof (built_length _ _ _ Hb) as Hbl.
    unfold g0 in Hlt. cbn [ImageGrid.base] in Hlt. rewrite Hbl in Hlt.
    destruct (Hstored (Z.of_nat k)) as (x & Hx & _).
    - unfold g0, b0 in *.
      cbn [ImageGrid.base Grid_before_locators Grid.with_axes Grid.ngrids Grid._nrows
           Grid._ncols] in *. fold N in Hlt. lia.
    - rewrite Nat2Z.id in Hx. congruence. }
  assert (Hllc : Grid.axes_all (ImageGrid.base g)
                   !! Z.to_nat ((Grid._nrows (ImageGrid.base g) - 1)
                                * Grid._ncols (ImageGrid.base g))
                 = Some (Grid.axes_llc (ImageGrid.base g))).
  { rewrite Eall, En, Ec, Ellc. unfold g0, b0.
    cbn [ImageGrid.base Grid_before_locators Grid.with_axes Grid.axes_all].
    unfold ravel_tolist.
    rewrite last_lookup in Hlast.
    apply py_index_nonneg in E7; [| lia]. destruct E7 as [E7 _].
    apply T_tolist_lookup in E7. destruct E7 as [_ E7]. rewrite E7 in Hlast.
    rewrite length_fmap, range_length, Har in Hlast.
    rewrite list_lookup_fmap, (range_lookup _ (pred (Z.to_nat nrows))) in Hlast
      by lia.
    cbn in Hlast. injection Hlast as <-. unfold arr_at. rewrite Hac, Z.add_0_r.
    replace (Z.of_nat (pred (Z.to_nat nrows))) with (nrows - 1) by lia.
    destruct (lookup_lt_is_Some_2 (arr_data arr) (Z.to_nat ((nrows - 1) * ncols)))
      as [x Hx]; [nia |].
    rewrite Hx. reflexivity. }
  assert (Hle : (length (axes_objs w2) <= length (axes_objs w6))%nat)
    by (unfold holds in Hw6; lia).
  assert (E13 : exists w',
             Grid.set_label_mode (ImageGrid.base g) label_mode w6 = (Ok tt, w')).
  { destruct (String.eqb_spec label_mode "all") as [-> | Ha].
    { destruct (label_mode_all_runs _ arr w2 Hbg Hfull w6 Hle) as (w' & E & _). eauto. }
    destruct (String.eqb_spec label_mode "L") as [-> | Hl].
    { destruct (label_mode_L_runs _ arr w2 Hbg Hfull w6 Hle) as (w' & E & _). eauto. }
    destruct (String.eqb_spec label_mode "1") as [-> | H1].
    { destruct (label_mode_1_runs _ arr w2 Hbg Hfull Hllc w6 Hle) as (w' & E & _).
      eauto. }
    exists w6. apply set_label_mode_other; assumption. }
  destruct E13 as (w' & E13).
  exists g, w'. unfold ImageGrid.__init__. fold N.
  rewrite (bind_ok_l _ _ _ _ _ E1), (bind_ok_l _ _ _ _ _ E2).
  cbv beta iota.
  rewrite (bind_ok_l _ _ _ _ _ Ecp), (bind_ok_l _ _ _ _ _ E3),
    (bind_ok_l _ _ _ _ _ E4).
  cbv zeta.
  rewrite (bind_lift_ok _ _ _ _ E5).
  erewrite bind_ok_l by exact E6.
  rewrite (bind_lift_ok _ _ _ _ E7), (bind_lift_ok _ _ _ _ E8).
  erewrite bind_ok_l by exact E9.
  erewrite bind_ok_l by exact E10.
  rewrite (bind_ok_l _ _ _ _ _ E11), (bind_ok_l _ _ _ _ _ E12),
    (bind_ok_l _ _ _ _ _ E13).
  reflexivity.
Qed.

Lemma ImageGrid_constructor_returns_witness :
  exists g w',
    ImageGrid.__init__ plain_host (RectSeq [0; 0; 1; 1]%Q) (2, 3) None "column"
      (PadSeq [1 # 50; 1 # 25]%Q) true false true "1" (Some "edge"%string)
      "bottom" (Some (SpecString "2%")) (SpecString "5%") true empty_world
    = (Ok g, w').
Proof.
  apply (ImageGrid_constructor_returns plain_host (RectSeq [0; 0; 1; 1]%Q) 2 3 None
           "column" (PadSeq [1 # 50; 1 # 25]%Q) true false true "1"
           (Some "edge"%string) "bottom" (Some (SpecString "2%")) (SpecString "5%")
           true (1 # 50)%Q (1 # 25)%Q empty_world quiet_plain_host).
  - right. reflexivity.
  - reflexivity.
  - right. reflexivity.
  - lia.
  - lia.
  - left. reflexivity.
  - reflexivity.
  - reflexivity.
  - reflexivity.
Defined.

(** ** The padding given to the constructors *)

Lemma pads_after_init (g : Grid.t) (h v : Q) (fixed0 : list Q) (w' : World) :
  Grid._horiz_pad_size g = length fixed0 ->
  Grid._vert_pad_size g = S (length fixed0) ->
  fixed_objs w' = fixed0 ++ [h; v] ->
  Grid.get_axes_pad g w' = (Ok (h, v), w')
  /\ Grid._horiz_pad_size g <> Grid._vert_pad_size g.
Proof.
  intros Eh Ev Ef. split; [| lia].
  apply get_axes_pad_ok; rewrite Ef, ?Eh, ?Ev, lookup_app_r by lia.
  - rewrite Nat.sub_diag. reflexivity.
  - replace (S (length fixed0) - length fixed0)%nat with 1%nat by lia. reflexivity.
Qed.

(** X19: the constructors broadcast [axes_pad] to two numbers: a
    number or a sequence of one number gives both paddings, a sequence of
    two the horizontal and the vertical one, and [get_axes_pad] returns
    them right after the construction; the two paddings are two objects
    even when they are equal.  With a sequence of another length both
    constructors raise. *)
Theorem constructors_broadcast_axes_pad (host : Host) (rect : RectArg)
    (nrows ncols : Z) (ngrids : option Z) (direction : string) (axes_pad : PadArg)
    (add_all share_all share_x share_y aspect : bool) (label_mode : string)
    (cbar_mode : option string) (cbar_location : string)
    (cbar_pad : option SizeSpec) (cbar_size : SizeSpec) (cbar_set_cax : bool)
    (w : World) :
  (forall g w',
     Grid.__init__ host rect (nrows, ncols) ngrids direction axes_pad add_all
       share_all share_x share_y label_mode w = (Ok g, w') ->
     exists h v,
       broadcast_to_2 axes_pad = Ok (h, v)
       /\ Grid.get_axes_pad g w' = (Ok (h, v), w')
       /\ Grid._horiz_pad_size g <> Grid._vert_pad_size g)
  /\ (forall g w',
        ImageGrid.__init__ host rect (nrows, ncols) ngrids direction axes_pad add_all
          share_all aspect label_mode cbar_mode cbar_location cbar_pad cbar_size
          cbar_set_cax w = (Ok g, w') ->
        exists h v,
          broadcast_to_2 axes_pad = Ok (h, v)
          /\ Grid.get_axes_pad (ImageGrid.base g) w' = (Ok (h, v), w')
          /\ Grid._horiz_pad_size (ImageGrid.base g)
             <> Grid._vert_pad_size (ImageGrid.base g))
  /\ (forall e, broadcast_to_2 axes_pad = Raise e ->
        (exists e' w',
           Grid.__init__ host rect (nrows, ncols) ngrids direction axes_pad add_all
             share_all share_x share_y label_mode w = (Raise e', w'))
        /\ (exists e' w',
              ImageGrid.__init__ host rect (nrows, ncols) ngrids direction axes_pad
                add_all share_all aspect label_mode cbar_mode cbar_location cbar_pad
                cbar_size cbar_set_cax w = (Raise e', w'))).
Proof.
  assert (HG : forall g w',
             Grid.__init__ host rect (nrows, ncols) ngrids direction axes_pad add_all
               share_all share_x share_y label_mode w = (Ok g, w') ->
             exists h v,
               broadcast_to_2 axes_pad = Ok (h, v)
               /\ Grid.get_axes_pad g w' = (Ok (h, v), w')
               /\ Grid._horiz_pad_size g <> Grid._vert_pad_size g).
  { intros g w' H. apply Grid_init_pads in H.
    destruct H as (h & v & Hb & Eh & Ev & Ef).
    exists h, v. split; [exact Hb |]. exact (pads_after_init g h v _ w' Eh Ev Ef). }
  assert (HI : forall g w',
             ImageGrid.__init__ host rect (nrows, ncols) ngrids direction axes_pad
               add_all share_all aspect label_mode cbar_mode cbar_location cbar_pad
               cbar_size cbar_set_cax w = (Ok g, w') ->
             exists h v,
               broadcast_to_2 axes_pad = Ok (h, v)
               /\ Grid.get_axes_pad (ImageGrid.base g) w' = (Ok (h, v), w')
               /\ Grid._horiz_pad_size (ImageGrid.base g)
                  <> Grid._vert_pad_size (ImageGrid.base g)).
  { intros g w' H. apply ImageGrid_init_pads in H.
    destruct H as (h & v & Hb & Eh & Ev & Ef & _).
    exists h, v. split; [exact Hb |].
    exact (pads_after_init (ImageGrid.base g) h v _ w' Eh Ev Ef). }
  split; [exact HG |]. split; [exact HI |].
  intros e He. split.
  - destruct (Grid.__init__ host rect (nrows, ncols) ngrids direction axes_pad add_all
                share_all share_x share_y label_mode w) as [[g | e'] w'] eqn:E;
      [| eauto].
    destruct (HG g w' eq_refl) as (h & v & Hb & _). congruence.
  - destruct (ImageGrid.__init__ host rect (nrows, ncols) ngrids direction axes_pad
                add_all share_all aspect label_mode cbar_mode cbar_location cbar_pad
                cbar_size cbar_set_cax w) as [[g | e'] w'] eqn:E; [| eauto].
    destruct (HI g w' eq_refl) as (h & v & Hb & _). congruence.
Qed.

Lemma constructors_broadcast_axes_pad_witness :
  (exists g w',
     Grid.__init__ plain_host (RectSeq [0; 0; 1; 1]%Q) (1, 2) None "row"
       (PadSeq [1 # 50]%Q) true false true true "L" empty_world = (Ok g, w')
     /\ Grid.get_axes_pad g w' = (Ok (1 # 50, 1 # 50)%Q, w'))
  /\ (exists e' w',
        ImageGrid.__init__ plain_host (RectSeq [0; 0; 1; 1]%Q) (1, 2) None "row"
          (PadSeq [1 # 50; 1 # 50; 1 # 50]%Q) true false true "L" None "right" None
          (SpecString "5%") true empty_world = (Raise e', w')).
Proof.
  split.
  - eexists _, _. split; [vm_compute; reflexivity |].
    destruct (proj1 (constructors_broadcast_axes_pad plain_host (RectSeq [0; 0; 1; 1]%Q)
                       1 2 None "row"%string (PadSeq [1 # 50]%Q) true false true true
                       true "L"%string None "right"%string None (SpecString "5%") true
                       empty_world) _ _ ltac:(vm_compute; reflexivity))
      as (h & v & Hb & Hget & _).
    injection Hb as <- <-. exact Hget.
  - destruct (constructors_broadcast_axes_pad plain_host (RectSeq [0; 0; 1; 1]%Q)
                1 2 None "row"%string (PadSeq [1 # 50; 1 # 50; 1 # 50]%Q) true false
                true true true "L"%string None "right"%string None (SpecString "5%")
                true empty_world) as (_ & _ & Hbad).
    exact (proj2 (Hbad ValueError eq_refl)).
Defined.
